(** * moonfile: the WebAssembly NES core stubs under [scripts/]

    The repository ships four near-duplicate C files that export the same
    entry points ([init], [loadRom], [frame], [reset], [setButton],
    [setRunning], [getFrameBuffer], [getFrameBufferSize], [getPalette]):

    - [scripts/zero-imports.c]        (module [ZeroImports])
    - [scripts/nes-standalone.c]      (module [NesStandalone])
    - [scripts/fceux-zero-imports.c]  (module [FceuxZeroImports])
    - [scripts/fceux-simple.c]        (module [FceuxSimple])

    Each file keeps its state in C statics.  Here every file becomes a
    module with a [state] record holding those statics, and every exported
    function becomes a function on that record ([int]-returning entries
    return a pair of the result and the new state).

    Integers are [Z] with the wrap-around of their C type written out;
    byte arrays are [list Z] read with [load] and written with [store]. *)

From Stdlib Require Import ZArith List Lia Bool.
From stdpp Require Import base list.

Local Open Scope Z_scope.

(** ** Byte arrays and counted loops *)

Module Mem.

(** [p[i]] for a byte array.  The sources only index inside their own
    arrays; host memory read past the end of the list it is given as reads
    as 0. *)
Definition load (b : list Z) (i : Z) : Z := default 0 (b !! Z.to_nat i).

(** [p[i] = v] for an [unsigned char] array: the value is truncated to 8
    bits.  Outside the array the list is left alone (the sources never
    write there). *)
Definition store (b : list Z) (i v : Z) : list Z := <[Z.to_nat i := v mod 256]> b.

(** Number of elements, as a [Z]. *)
Definition len (b : list Z) : Z := Z.of_nat (length b).

(** [for (i = lo; i < hi; i += step) a = body(i, a);] with an explicit
    iteration budget. *)
Fixpoint for_loop {A : Type} (fuel : nat) (i hi step : Z)
    (body : Z -> A -> A) (a : A) : A :=
  match fuel with
  | O => a
  | S fuel' =>
      if i <? hi then for_loop fuel' (i + step) hi step body (body i a) else a
  end.

(** The loop with a budget of [hi - lo] iterations, which a loop with a
    positive step never exhausts (lemmas [for_loop_exits] and
    [for_loop_fuel]). *)
Definition for_ {A : Type} (lo hi step : Z) (body : Z -> A -> A) (a : A) : A :=
  for_loop (Z.to_nat (hi - lo)) lo hi step body a.

(** [memset(dest, val, len)]: the byte loop that [zero_mem], [zero_memory]
    and [my_memset] spell out, and libc's [memset]. *)
Definition fill (dest : list Z) (val n : Z) : list Z :=
  for_ 0 n 1 (fun i p => store p i val) dest.

(** [memcpy(dest, src, len)]: the byte loop that [copy_mem], [copy_memory]
    and [my_memcpy] spell out, and libc's [memcpy]. *)
Definition copy (dest src : list Z) (n : Z) : list Z :=
  for_ 0 n 1 (fun i d => store d i (load src i)) dest.

(** The alpha pass the four files share:
    [for (int i = 3; i < sizeof(frame_buffer); i += 4) frame_buffer[i] = 255;] *)
Definition set_alpha (fb : list Z) : list Z :=
  for_ 3 245760 4 (fun i p => store p i 255) fb.

(** Byte [k] of the pixel the generators write: [r], [g], [b], [a]. *)
Definition rgba (r g b a : Z) (k : Z) : Z :=
  if k =? 0 then r else if k =? 1 then g else if k =? 2 then b else a.

(** The buffer [init] and [reset] leave: 0, 0, 0, 255 in every pixel. *)
Definition cleared (fb : list Z) : Prop :=
  forall j, 0 <= j < 245760 -> load fb j = if j mod 4 =? 3 then 255 else 0.

(** Every pixel of a 256x240 RGBA buffer is opaque. *)
Definition alpha_ok (fb : list Z) : Prop :=
  forall p, 0 <= p < 61440 -> load fb (p * 4 + 3) = 255.

End Mem.

Import Mem.

(** ** Machine arithmetic *)

(** Bytes of an [unsigned char] array. *)
Definition bytes (b : list Z) : Prop := Forall (fun v => 0 <= v < 256) b.

(** The zero-initialised static array of [n] bytes. *)
Definition zeros (n : Z) : list Z := replicate (Z.to_nat n) 0.

(** ** Rendering Scheme P as the specification words it

    These definitions follow the specification (section 4.4), not the C
    code; the generators of [fceux-zero-imports.c] and [nes-standalone.c]
    are compared with them below. *)

Module SchemeP.

(** [c = ((x >> 3) + (y >> 3) + (frame_count >> 2)) mod 64] *)
Definition index (x y fc : Z) : Z :=
  (Z.shiftr x 3 + Z.shiftr y 3 + Z.shiftr fc 2) mod 64.

(** Controller modulation, in the order of the specification's table. *)
Definition red (controls r : Z) : Z :=
  let r := if Z.testbit controls 0 then (r + 64) mod 256 else r in
  if Z.testbit controls 1 then (r - 32) mod 256 else r.

Definition green (controls g : Z) : Z :=
  let g := if Z.testbit controls 2 then (g + 64) mod 256 else g in
  if Z.testbit controls 3 then (g - 32) mod 256 else g.

Definition blue (controls b : Z) : Z :=
  let b := if Z.testbit controls 6 then (b + 96) mod 256 else b in
  if Z.testbit controls 7 then (b + 128) mod 256 else b.

(** Mapper overlay: [if ((x + y) & 8) != 0 then v += 32 (mod 256)], for a
    cartridge on which the overlay is [on]. *)
Definition overlay (on : bool) (x y v : Z) : Z :=
  if on && negb (Z.land (x + y) 8 =? 0) then (v + 32) mod 256 else v.

(** Byte [k] of pixel [(x, y)]: base colour from palette entry [c], then
    the controller modulation, then the overlay on red and blue; alpha is
    always 255. *)
Definition pixel (pal : list Z) (controls frame_count : Z) (on : bool)
    (x y k : Z) : Z :=
  let c := index x y frame_count in
  rgba (overlay on x y (red controls (load pal (c * 4 + 0))))
       (green controls (load pal (c * 4 + 1)))
       (overlay on x y (blue controls (load pal (c * 4 + 2))))
       255 k.

End SchemeP.

(** ** The iNES header as the specification words it (section 4.3) *)

Module INes.

(** First four bytes equal [{0x4E, 0x45, 0x53, 0x1A}]. *)
Definition magic_ok (rom : list Z) : Prop :=
  load rom 0 = 0x4E /\ load rom 1 = 0x45 /\ load rom 2 = 0x53 /\ load rom 3 = 0x1A.

(** [size >= 16] and [size <= 2 097 152]. *)
Definition size_ok (size : Z) : Prop := 16 <= size <= 2097152.

(** [mapper = (flags6 >> 4) | (flags7 & 0xF0)] *)
Definition mapper_of (rom : list Z) : Z :=
  Z.lor (Z.shiftr (load rom 6) 4) (Z.land (load rom 7) 0xF0).

(** [has_chr_ram = (chr_banks == 0)], as an [int]. *)
Definition chr_ram_of (rom : list Z) : Z := if load rom 5 =? 0 then 1 else 0.

End INes.

(** ** [scripts/zero-imports.c] *)

Module ZeroImports.

Record state : Type := State {
  frame_buffer : list Z;   (* static uint8_t frame_buffer[245760] *)
  nes_palette : list Z;    (* static uint8_t nes_palette[256] *)
  rom_buffer : list Z;     (* static uint8_t rom_buffer[2097152] *)
  initialized : Z;         (* static int *)
  rom_loaded : Z;          (* static int *)
  controls : Z;            (* static uint32_t *)
  frame_count : Z;         (* static uint32_t *)
  rom_size : Z             (* static uint32_t *)
}.

(** The statics as the loader zero-initialises them: Uninitialized. *)
Definition uninitialized : state :=
  State (zeros 245760) (zeros 256) (zeros 2097152) 0 0 0 0 0.

(** [for (uint32_t i = 0; i < size; i++) p[i] = 0;] *)
Definition zero_mem (ptr : list Z) (size : Z) : list Z := fill ptr 0 size.

(** [for (uint32_t i = 0; i < size; i++) d[i] = s[i];] *)
Definition copy_mem (dst src : list Z) (size : Z) : list Z := copy dst src size.

Definition init_palette (pal : list Z) : list Z :=
  for_ 0 64 1 (fun i pal =>
    let pal := store pal (i * 4 + 0) (Z.land (i * 4) 255) in
    let pal := store pal (i * 4 + 1) (Z.land (i * 8) 255) in
    let pal := store pal (i * 4 + 2) (Z.land (i * 16) 255) in
    store pal (i * 4 + 3) 255) pal.

Definition clear_frame (fb : list Z) : list Z :=
  let fb := zero_mem fb 245760 in
  set_alpha fb.

(** The colour the two raster loops of [render_frame] compute at pixel
    [(x, y)].  The sums with [frame_count] are taken in [uint32_t]. *)
Definition pixel_color (s : state) (x y : Z) : Z * Z * Z :=
  let r := Z.land ((x + frame_count s) mod 2 ^ 32) 255 in
  let g := Z.land ((y + frame_count s) mod 2 ^ 32) 255 in
  let b := Z.land (((x + y) + frame_count s) mod 2 ^ 32) 255 in
  let r := if Z.land (controls s) 1 =? 0 then r else Z.land (r + 64) 255 in
  let r := if Z.land (controls s) 2 =? 0 then r else Z.land (r - 32) 255 in
  let g := if Z.land (controls s) 4 =? 0 then g else Z.land (g + 64) 255 in
  let g := if Z.land (controls s) 8 =? 0 then g else Z.land (g - 32) 255 in
  let b := if Z.land (controls s) 128 =? 0 then b else Z.land (b + 128) 255 in
  let b := if Z.land (controls s) 64 =? 0 then b else Z.land (b + 96) 255 in
  (r, g, b).

(** The stores of the loop body: four bytes at [(y * 256 + x) * 4]. *)
Definition put_pixel (s : state) (x y : Z) (fb : list Z) : list Z :=
  let idx := (y * 256 + x) * 4 in
  let '(r, g, b) := pixel_color s x y in
  let fb := store fb (idx + 0) r in
  let fb := store fb (idx + 1) g in
  let fb := store fb (idx + 2) b in
  store fb (idx + 3) 255.

Definition render_frame (s : state) : state :=
  let s :=
    State (frame_buffer s) (nes_palette s) (rom_buffer s) (initialized s)
      (rom_loaded s) (controls s) ((frame_count s + 1) mod 2 ^ 32) (rom_size s) in
  State
    (for_ 0 240 1 (fun y fb =>
       for_ 0 256 1 (fun x fb => put_pixel s x y fb) fb) (frame_buffer s))
    (nes_palette s) (rom_buffer s) (initialized s) (rom_loaded s)
    (controls s) (frame_count s) (rom_size s).

Definition init (s : state) : Z * state :=
  if negb (initialized s =? 0) then (1, s) else
  let fb := zero_mem (frame_buffer s) 245760 in
  let pal := zero_mem (nes_palette s) 256 in
  let rom := zero_mem (rom_buffer s) 2097152 in
  (1, State (clear_frame fb) (init_palette pal) rom 1 0 0 0 0).

(** [rom_data] is the host memory the pointer designates, [size] the [int]
    passed with it.  [size > sizeof(rom_buffer)] is evaluated only when
    [size >= 16], where the conversion of [size] to [size_t] keeps its
    value. *)
Definition loadRom (rom_data : list Z) (size : Z) (s : state) : Z * state :=
  if (initialized s =? 0) || (size <? 16) || (size >? 2097152) then (0, s) else
  if negb (load rom_data 0 =? 0x4E) || negb (load rom_data 1 =? 0x45) ||
     negb (load rom_data 2 =? 0x53) || negb (load rom_data 3 =? 0x1A)
  then (0, s) else
  (1, State (frame_buffer s) (nes_palette s)
        (copy_mem (rom_buffer s) rom_data size) (initialized s)
        1 (controls s) (frame_count s) size).

Definition frame (s : state) : state :=
  if initialized s =? 0 then s else render_frame s.

Definition reset (s : state) : state :=
  State (clear_frame (frame_buffer s)) (nes_palette s) (rom_buffer s)
    (initialized s) (rom_loaded s) 0 0 (rom_size s).

(** [mask] and [controls] are [uint32_t]. *)
Definition setButton (button pressed : Z) (s : state) : state :=
  if (button <? 0) || (button >? 7) then s else
  let mask := Z.shiftl 1 button in
  let c :=
    if pressed =? 0 then Z.land (controls s) (Z.lnot mask mod 2 ^ 32)
    else Z.lor (controls s) mask in
  State (frame_buffer s) (nes_palette s) (rom_buffer s) (initialized s)
    (rom_loaded s) c (frame_count s) (rom_size s).

(** The body of [setRunning] is empty. *)
Definition setRunning (running : Z) (s : state) : state := s.

(** The accessors read; the host sees the arrays through the pointers. *)
Definition getFrameBuffer (s : state) : list Z := frame_buffer s.
Definition getFrameBufferSize (s : state) : Z := 245760.
Definition getPalette (s : state) : list Z := nes_palette s.

(** The exported calls and the states the host can drive the module to. *)
Inductive call : Type :=
  | Init
  | LoadRom (rom_data : list Z) (size : Z)
  | Frame
  | Reset
  | SetButton (button pressed : Z)
  | SetRunning (running : Z)
  | GetFrameBuffer
  | GetFrameBufferSize
  | GetPalette.

Definition step (s : state) (c : call) : state :=
  match c with
  | Init => snd (init s)
  | LoadRom rom_data size => snd (loadRom rom_data size s)
  | Frame => frame s
  | Reset => reset s
  | SetButton button pressed => setButton button pressed s
  | SetRunning running => setRunning running s
  | GetFrameBuffer | GetFrameBufferSize | GetPalette => s
  end.

Definition run (calls : list call) (s : state) : state := fold_left step calls s.

Definition reachable (s : state) : Prop := exists calls, s = run calls uninitialized.

(** The arrays have their declared sizes and the palette holds bytes. *)
Definition wf (s : state) : Prop :=
  len (frame_buffer s) = 245760 /\ len (nes_palette s) = 256 /\
  len (rom_buffer s) = 2097152 /\ bytes (nes_palette s).

(** What a call hands back to the host: the [int] of [init], [loadRom] and
    [getFrameBufferSize]; the other entries return [void] or a constant
    address, recorded as 0. *)
Definition returns (s : state) (c : call) : Z :=
  match c with
  | Init => fst (init s)
  | LoadRom rom_data size => fst (loadRom rom_data size s)
  | GetFrameBufferSize => getFrameBufferSize s
  | _ => 0
  end.

Fixpoint returns_of (calls : list call) (s : state) : list Z :=
  match calls with
  | [] => []
  | c :: calls' => returns s c :: returns_of calls' (step s c)
  end.

(** The same call with the same arguments: the same entry point and
    scalars, and for [loadRom] host memories that hold the same [size]
    bytes at the pointer, whatever lies beyond them. *)
Definition same_call (c1 c2 : call) : Prop :=
  match c1, c2 with
  | LoadRom rom1 size1, LoadRom rom2 size2 =>
      size1 = size2 /\
      forall i, 0 <= i < size1 -> load rom1 i = load rom2 i
  | _, _ => c1 = c2
  end.

(** What every reachable state satisfies: the arrays are as declared, and
    once [initialized] is set every pixel is opaque. *)
Definition inv (s : state) : Prop :=
  wf s /\ (initialized s <> 0 -> alpha_ok (frame_buffer s)).

End ZeroImports.

(** ** [scripts/nes-standalone.c] *)

Module NesStandalone.

Record state : Type := State {
  frame_buffer : list Z;   (* static unsigned char frame_buffer[245760] *)
  nes_palette : list Z;    (* static unsigned char nes_palette[256] *)
  rom_buffer : list Z;     (* static unsigned char rom_buffer[2097152] *)
  initialized : Z;         (* static int *)
  rom_loaded : Z;          (* static int *)
  controls : Z;            (* static unsigned int *)
  frame_count : Z;         (* static unsigned int *)
  rom_size : Z;            (* static unsigned int *)
  mapper : Z               (* static unsigned char *)
}.

(** The statics as the loader zero-initialises them: Uninitialized. *)
Definition uninitialized : state :=
  State (zeros 245760) (zeros 256) (zeros 2097152) 0 0 0 0 0 0.

(** [for (unsigned int i = 0; i < size; i++) p[i] = 0;] *)
Definition zero_memory (ptr : list Z) (size : Z) : list Z := fill ptr 0 size.

(** [for (unsigned int i = 0; i < size; i++) d[i] = s[i];] *)
Definition copy_memory (dest src : list Z) (size : Z) : list Z :=
  copy dest src size.

Definition colors : list (Z * Z * Z) :=
  [ (84,84,84); (0,30,116); (8,16,144); (48,0,136);
    (68,0,100); (92,0,48); (84,4,0); (60,24,0);
    (32,42,0); (8,58,0); (0,64,0); (0,60,0);
    (0,50,60); (0,0,0); (0,0,0); (0,0,0);
    (152,150,152); (8,76,196); (48,50,236); (92,30,228);
    (136,20,176); (160,20,100); (152,34,32); (120,60,0);
    (84,90,0); (40,114,0); (8,124,0); (0,118,40);
    (0,102,120); (0,0,0); (0,0,0); (0,0,0);
    (236,238,236); (76,154,236); (120,124,236); (176,98,236);
    (228,84,236); (236,88,180); (236,106,100); (212,136,32);
    (160,170,0); (116,196,0); (76,208,32); (56,204,108);
    (56,180,204); (60,60,60); (0,0,0); (0,0,0);
    (236,238,236); (168,204,236); (188,188,236); (212,178,236);
    (236,174,236); (236,174,212); (236,180,176); (228,196,144);
    (204,210,120); (180,222,120); (168,226,144); (152,226,180);
    (160,214,228); (160,162,160); (0,0,0); (0,0,0) ].

(** [colors[i]] *)
Definition colors_at (i : Z) : Z * Z * Z := nth (Z.to_nat i) colors (0, 0, 0).

Definition init_palette (pal : list Z) : list Z :=
  for_ 0 64 1 (fun i pal =>
    let '(r, g, b) := colors_at i in
    let pal := store pal (i * 4 + 0) r in
    let pal := store pal (i * 4 + 1) g in
    let pal := store pal (i * 4 + 2) b in
    store pal (i * 4 + 3) 255) pal.

Definition clear_frame (fb : list Z) : list Z :=
  let fb := zero_memory fb 245760 in
  set_alpha fb.

(** The colour the two raster loops of [generate_frame] compute at pixel
    [(x, y)].  [x / 8] and [y / 8] are [int] divisions; their sum with
    [frame_count / 4] is taken in [unsigned int]; [color_idx] is an
    [int]. *)
Definition pixel_color (s : state) (x y : Z) : Z * Z * Z :=
  let color_idx :=
    Z.land ((Z.quot x 8 + Z.quot y 8 + frame_count s / 4) mod 2 ^ 32) 63 in
  let r := load (nes_palette s) (color_idx * 4 + 0) in
  let g := load (nes_palette s) (color_idx * 4 + 1) in
  let b := load (nes_palette s) (color_idx * 4 + 2) in
  let r := if Z.land (controls s) 1 =? 0 then r else Z.land (r + 64) 255 in
  let r := if Z.land (controls s) 2 =? 0 then r else Z.land (r - 32) 255 in
  let g := if Z.land (controls s) 4 =? 0 then g else Z.land (g + 64) 255 in
  let g := if Z.land (controls s) 8 =? 0 then g else Z.land (g - 32) 255 in
  let b := if Z.land (controls s) 128 =? 0 then b else Z.land (b + 128) 255 in
  let b := if Z.land (controls s) 64 =? 0 then b else Z.land (b + 96) 255 in
  (r, g, b).

(** The stores of the loop body: four bytes at [(y * 256 + x) * 4]. *)
Definition put_pixel (s : state) (x y : Z) (fb : list Z) : list Z :=
  let idx := (y * 256 + x) * 4 in
  let '(r, g, b) := pixel_color s x y in
  let fb := store fb (idx + 0) r in
  let fb := store fb (idx + 1) g in
  let fb := store fb (idx + 2) b in
  store fb (idx + 3) 255.

Definition generate_frame (s : state) : state :=
  let s :=
    State (frame_buffer s) (nes_palette s) (rom_buffer s) (initialized s)
      (rom_loaded s) (controls s) ((frame_count s + 1) mod 2 ^ 32)
      (rom_size s) (mapper s) in
  State
    (for_ 0 240 1 (fun y fb =>
       for_ 0 256 1 (fun x fb => put_pixel s x y fb) fb) (frame_buffer s))
    (nes_palette s) (rom_buffer s) (initialized s) (rom_loaded s)
    (controls s) (frame_count s) (rom_size s) (mapper s).

Definition init (s : state) : Z * state :=
  if negb (initialized s =? 0) then (1, s) else
  let fb := zero_memory (frame_buffer s) 245760 in
  let pal := zero_memory (nes_palette s) 256 in
  let rom := zero_memory (rom_buffer s) 2097152 in
  (1, State (clear_frame fb) (init_palette pal) rom 1 0 0 0 0 0).

(** [rom_data] is the host memory the pointer designates, [size] the [int]
    passed with it.  [size > sizeof(rom_buffer)] is evaluated only when
    [size >= 16], where the conversion of [size] to [size_t] keeps its
    value. *)
Definition loadRom (rom_data : list Z) (size : Z) (s : state) : Z * state :=
  if (initialized s =? 0) || (size <? 16) || (size >? 2097152) then (0, s) else
  if negb (load rom_data 0 =? 0x4E) || negb (load rom_data 1 =? 0x45) ||
     negb (load rom_data 2 =? 0x53) || negb (load rom_data 3 =? 0x1A)
  then (0, s) else
  let flags6 := load rom_data 6 in
  let flags7 := load rom_data 7 in
  let mp := Z.lor (Z.shiftr flags6 4) (Z.land flags7 0xF0) mod 256 in
  (1, State (frame_buffer s) (nes_palette s)
        (copy_memory (rom_buffer s) rom_data size) (initialized s)
        1 (controls s) (frame_count s) size mp).

Definition frame (s : state) : state :=
  if initialized s =? 0 then s else generate_frame s.

Definition reset (s : state) : state :=
  State (clear_frame (frame_buffer s)) (nes_palette s) (rom_buffer s)
    (initialized s) (rom_loaded s) 0 0 (rom_size s) (mapper s).

(** [mask] and [controls] are [unsigned int]. *)
Definition setButton (button pressed : Z) (s : state) : state :=
  if (button <? 0) || (button >? 7) then s else
  let mask := Z.shiftl 1 button in
  let c :=
    if pressed =? 0 then Z.land (controls s) (Z.lnot mask mod 2 ^ 32)
    else Z.lor (controls s) mask in
  State (frame_buffer s) (nes_palette s) (rom_buffer s) (initialized s)
    (rom_loaded s) c (frame_count s) (rom_size s) (mapper s).

(** The body of [setRunning] is a comment. *)
Definition setRunning (running : Z) (s : state) : state := s.

(** The accessors read; the host sees the arrays through the pointers. *)
Definition getFrameBuffer (s : state) : list Z := frame_buffer s.
Definition getFrameBufferSize (s : state) : Z := 245760.
Definition getPalette (s : state) : list Z := nes_palette s.

(** The exported calls and the states the host can drive the module to. *)
Inductive call : Type :=
  | Init
  | LoadRom (rom_data : list Z) (size : Z)
  | Frame
  | Reset
  | SetButton (button pressed : Z)
  | SetRunning (running : Z)
  | GetFrameBuffer
  | GetFrameBufferSize
  | GetPalette.

Definition step (s : state) (c : call) : state :=
  match c with
  | Init => snd (init s)
  | LoadRom rom_data size => snd (loadRom rom_data size s)
  | Frame => frame s
  | Reset => reset s
  | SetButton button pressed => setButton button pressed s
  | SetRunning running => setRunning running s
  | GetFrameBuffer | GetFrameBufferSize | GetPalette => s
  end.

Definition run (calls : list call) (s : state) : state := fold_left step calls s.

Definition reachable (s : state) : Prop := exists calls, s = run calls uninitialized.

(** The arrays have their declared sizes and the palette holds bytes. *)
Definition wf (s : state) : Prop :=
  len (frame_buffer s) = 245760 /\ len (nes_palette s) = 256 /\
  len (rom_buffer s) = 2097152 /\ bytes (nes_palette s).

(** What a call hands back to the host: the [int] of [init], [loadRom] and
    [getFrameBufferSize]; the other entries return [void] or a constant
    address, recorded as 0. *)
Definition returns (s : state) (c : call) : Z :=
  match c with
  | Init => fst (init s)
  | LoadRom rom_data size => fst (loadRom rom_data size s)
  | GetFrameBufferSize => getFrameBufferSize s
  | _ => 0
  end.

Fixpoint returns_of (calls : list call) (s : state) : list Z :=
  match calls with
  | [] => []
  | c :: calls' => returns s c :: returns_of calls' (step s c)
  end.

(** The same call with the same arguments: the same entry point and
    scalars, and for [loadRom] host memories that hold the same [size]
    bytes at the pointer, whatever lies beyond them. *)
Definition same_call (c1 c2 : call) : Prop :=
  match c1, c2 with
  | LoadRom rom1 size1, LoadRom rom2 size2 =>
      size1 = size2 /\
      forall i, 0 <= i < size1 -> load rom1 i = load rom2 i
  | _, _ => c1 = c2
  end.

(** What every reachable state satisfies: the arrays are as declared, and
    once [initialized] is set every pixel is opaque. *)
Definition inv (s : state) : Prop :=
  wf s /\ (initialized s <> 0 -> alpha_ok (frame_buffer s)).

End NesStandalone.

(** ** [scripts/fceux-zero-imports.c] *)

Module FceuxZeroImports.

Record state : Type := State {
  frame_buffer : list Z;   (* static unsigned char frame_buffer[245760] *)
  nes_palette : list Z;    (* static unsigned char nes_palette[256] *)
  rom_buffer : list Z;     (* static unsigned char rom_buffer[MAX_ROM_SIZE] *)
  initialized : Z;         (* static int *)
  rom_loaded : Z;          (* static int *)
  running : Z;             (* static int *)
  controls : Z;            (* static unsigned int *)
  frame_count : Z;         (* static unsigned int *)
  rom_size : Z;            (* static unsigned int *)
  prg_banks : Z;           (* static unsigned char *)
  chr_banks : Z;           (* static unsigned char *)
  mapper : Z;              (* static unsigned char *)
  has_chr_ram : Z          (* static int *)
}.

Definition MAX_ROM_SIZE : Z := 2097152.

(** The statics as the loader zero-initialises them: Uninitialized. *)
Definition uninitialized : state :=
  State (zeros 245760) (zeros 256) (zeros MAX_ROM_SIZE) 0 0 0 0 0 0 0 0 0 0.

(** [for (unsigned long i = 0; i < len; i++) ptr[i] = (unsigned char)val;] *)
Definition my_memset (dest : list Z) (val n : Z) : list Z := fill dest val n.

(** [for (unsigned long i = 0; i < len; i++) d[i] = s[i];] *)
Definition my_memcpy (dest src : list Z) (n : Z) : list Z := copy dest src n.

Definition palette_data : list (Z * Z * Z) :=
  [ (84, 84, 84); (0, 30, 116); (8, 16, 144); (48, 0, 136);
    (68, 0, 100); (92, 0, 48); (84, 4, 0); (60, 24, 0);
    (32, 42, 0); (8, 58, 0); (0, 64, 0); (0, 60, 0);
    (0, 50, 60); (0, 0, 0); (0, 0, 0); (0, 0, 0);
    (152, 150, 152); (8, 76, 196); (48, 50, 236); (92, 30, 228);
    (136, 20, 176); (160, 20, 100); (152, 34, 32); (120, 60, 0);
    (84, 90, 0); (40, 114, 0); (8, 124, 0); (0, 118, 40);
    (0, 102, 120); (0, 0, 0); (0, 0, 0); (0, 0, 0);
    (236, 238, 236); (76, 154, 236); (120, 124, 236); (176, 98, 236);
    (228, 84, 236); (236, 88, 180); (236, 106, 100); (212, 136, 32);
    (160, 170, 0); (116, 196, 0); (76, 208, 32); (56, 204, 108);
    (56, 180, 204); (60, 60, 60); (0, 0, 0); (0, 0, 0);
    (236, 238, 236); (168, 204, 236); (188, 188, 236); (212, 178, 236);
    (236, 174, 236); (236, 174, 212); (236, 180, 176); (228, 196, 144);
    (204, 210, 120); (180, 222, 120); (168, 226, 144); (152, 226, 180);
    (160, 214, 228); (160, 162, 160); (0, 0, 0); (0, 0, 0) ].

(** [palette_data[i]] *)
Definition palette_data_at (i : Z) : Z * Z * Z :=
  nth (Z.to_nat i) palette_data (0, 0, 0).

Definition init_nes_palette (pal : list Z) : list Z :=
  for_ 0 64 1 (fun i pal =>
    let '(r, g, b) := palette_data_at i in
    let pal := store pal (i * 4 + 0) r in
    let pal := store pal (i * 4 + 1) g in
    let pal := store pal (i * 4 + 2) b in
    store pal (i * 4 + 3) 255) pal.

Definition clear_frame_buffer (fb : list Z) : list Z :=
  let fb := my_memset fb 0 245760 in
  set_alpha fb.

(** The colour the two raster loops of [generate_nes_frame] compute at
    pixel [(x, y)].  [x / 8] and [y / 8] are [int] divisions; their sum with
    [frame_count / 4] is taken in [unsigned int]; [base_color] is an
    [unsigned char]. *)
Definition pixel_color (s : state) (x y : Z) : Z * Z * Z :=
  let base_color :=
    Z.land ((Z.quot x 8 + Z.quot y 8 + frame_count s / 4) mod 2 ^ 32) 63 mod 256 in
  let r := load (nes_palette s) (base_color * 4 + 0) in
  let g := load (nes_palette s) (base_color * 4 + 1) in
  let b := load (nes_palette s) (base_color * 4 + 2) in
  let r := if Z.land (controls s) 1 =? 0 then r else Z.land (r + 64) 255 in
  let r := if Z.land (controls s) 2 =? 0 then r else Z.land (r - 32) 255 in
  let g := if Z.land (controls s) 4 =? 0 then g else Z.land (g + 64) 255 in
  let g := if Z.land (controls s) 8 =? 0 then g else Z.land (g - 32) 255 in
  let b := if Z.land (controls s) 128 =? 0 then b else Z.land (b + 128) 255 in
  let b := if Z.land (controls s) 64 =? 0 then b else Z.land (b + 96) 255 in
  let '(r, b) :=
    if (mapper s =? 2) && negb (has_chr_ram s =? 0) then
      if Z.land (x + y) 8 =? 0 then (r, b)
      else (Z.land (r + 32) 255, Z.land (b + 32) 255)
    else (r, b) in
  (r, g, b).

(** The stores of the loop body: four bytes at [(y * 256 + x) * 4]. *)
Definition put_pixel (s : state) (x y : Z) (fb : list Z) : list Z :=
  let index := (y * 256 + x) * 4 in
  let '(r, g, b) := pixel_color s x y in
  let fb := store fb (index + 0) r in
  let fb := store fb (index + 1) g in
  let fb := store fb (index + 2) b in
  store fb (index + 3) 255.

Definition generate_nes_frame (s : state) : state :=
  let s :=
    State (frame_buffer s) (nes_palette s) (rom_buffer s) (initialized s)
      (rom_loaded s) (running s) (controls s)
      ((frame_count s + 1) mod 2 ^ 32)
      (rom_size s) (prg_banks s) (chr_banks s) (mapper s) (has_chr_ram s) in
  State
    (for_ 0 240 1 (fun y fb =>
       for_ 0 256 1 (fun x fb => put_pixel s x y fb) fb) (frame_buffer s))
    (nes_palette s) (rom_buffer s) (initialized s) (rom_loaded s) (running s)
    (controls s) (frame_count s) (rom_size s) (prg_banks s) (chr_banks s)
    (mapper s) (has_chr_ram s).

Definition init (s : state) : Z * state :=
  if negb (initialized s =? 0) then (1, s) else
  let fb := my_memset (frame_buffer s) 0 245760 in
  let pal := my_memset (nes_palette s) 0 256 in
  let rom := my_memset (rom_buffer s) 0 MAX_ROM_SIZE in
  (1, State (clear_frame_buffer fb) (init_nes_palette pal) rom
        1 0 0 0 0 0 (prg_banks s) (chr_banks s) (mapper s) (has_chr_ram s)).

(** [rom_data] is the host memory the pointer designates, [size] the [int]
    passed with it. *)
Definition loadRom (rom_data : list Z) (size : Z) (s : state) : Z * state :=
  if initialized s =? 0 then (0, s) else
  if size <? 16 then (0, s) else
  if size >? MAX_ROM_SIZE then (0, s) else
  if negb (load rom_data 0 =? 0x4E) || negb (load rom_data 1 =? 0x45) ||
     negb (load rom_data 2 =? 0x53) || negb (load rom_data 3 =? 0x1A)
  then (0, s) else
  let prg := load rom_data 4 in
  let chr := load rom_data 5 in
  let flags6 := load rom_data 6 in
  let flags7 := load rom_data 7 in
  let mp := Z.lor (Z.shiftr flags6 4) (Z.land flags7 0xF0) mod 256 in
  let ram := if chr =? 0 then 1 else 0 in
  if prg =? 0 then
    (0, State (frame_buffer s) (nes_palette s) (rom_buffer s) (initialized s)
          (rom_loaded s) (running s) (controls s) (frame_count s) (rom_size s)
          prg chr mp ram)
  else
    (1, State (frame_buffer s) (nes_palette s)
          (my_memcpy (rom_buffer s) rom_data size) (initialized s)
          1 (running s) (controls s) (frame_count s) size
          prg chr mp ram).

Definition frame (s : state) : state :=
  if (initialized s =? 0) || (rom_loaded s =? 0) then s
  else generate_nes_frame s.

Definition reset (s : state) : state :=
  State (clear_frame_buffer (frame_buffer s)) (nes_palette s) (rom_buffer s)
    (initialized s) (rom_loaded s) 0 0 0 (rom_size s)
    (prg_banks s) (chr_banks s) (mapper s) (has_chr_ram s).

(** [mask] and [controls] are [unsigned int]. *)
Definition setButton (button pressed : Z) (s : state) : state :=
  if (button <? 0) || (button >? 7) then s else
  let mask := Z.shiftl 1 button in
  let c :=
    if pressed =? 0 then Z.land (controls s) (Z.lnot mask mod 2 ^ 32)
    else Z.lor (controls s) mask in
  State (frame_buffer s) (nes_palette s) (rom_buffer s) (initialized s)
    (rom_loaded s) (running s) c (frame_count s) (rom_size s)
    (prg_banks s) (chr_banks s) (mapper s) (has_chr_ram s).

Definition setRunning (run_state : Z) (s : state) : state :=
  State (frame_buffer s) (nes_palette s) (rom_buffer s) (initialized s)
    (rom_loaded s) (if run_state =? 0 then 0 else 1) (controls s)
    (frame_count s) (rom_size s)
    (prg_banks s) (chr_banks s) (mapper s) (has_chr_ram s).

(** The accessors read; the host sees the arrays through the pointers. *)
Definition getFrameBuffer (s : state) : list Z := frame_buffer s.
Definition getFrameBufferSize (s : state) : Z := 245760.
Definition getPalette (s : state) : list Z := nes_palette s.

(** The exported calls and the states the host can drive the module to. *)
Inductive call : Type :=
  | Init
  | LoadRom (rom_data : list Z) (size : Z)
  | Frame
  | Reset
  | SetButton (button pressed : Z)
  | SetRunning (run_state : Z)
  | GetFrameBuffer
  | GetFrameBufferSize
  | GetPalette.

Definition step (s : state) (c : call) : state :=
  match c with
  | Init => snd (init s)
  | LoadRom rom_data size => snd (loadRom rom_data size s)
  | Frame => frame s
  | Reset => reset s
  | SetButton button pressed => setButton button pressed s
  | SetRunning run_state => setRunning run_state s
  | GetFrameBuffer | GetFrameBufferSize | GetPalette => s
  end.

Definition run (calls : list call) (s : state) : state := fold_left step calls s.

Definition reachable (s : state) : Prop := exists calls, s = run calls uninitialized.

(** The arrays have their declared sizes and the palette holds bytes. *)
Definition wf (s : state) : Prop :=
  len (frame_buffer s) = 245760 /\ len (nes_palette s) = 256 /\
  len (rom_buffer s) = MAX_ROM_SIZE /\ bytes (nes_palette s).

(** What a call hands back to the host: the [int] of [init], [loadRom] and
    [getFrameBufferSize]; the other entries return [void] or a constant
    address, recorded as 0. *)
Definition returns (s : state) (c : call) : Z :=
  match c with
  | Init => fst (init s)
  | LoadRom rom_data size => fst (loadRom rom_data size s)
  | GetFrameBufferSize => getFrameBufferSize s
  | _ => 0
  end.

Fixpoint returns_of (calls : list call) (s : state) : list Z :=
  match calls with
  | [] => []
  | c :: calls' => returns s c :: returns_of calls' (step s c)
  end.

(** The same call with the same arguments: the same entry point and
    scalars, and for [loadRom] host memories that hold the same [size]
    bytes at the pointer, whatever lies beyond them. *)
Definition same_call (c1 c2 : call) : Prop :=
  match c1, c2 with
  | LoadRom rom1 size1, LoadRom rom2 size2 =>
      size1 = size2 /\
      forall i, 0 <= i < size1 -> load rom1 i = load rom2 i
  | _, _ => c1 = c2
  end.

(** What every reachable state satisfies: the arrays are as declared, and
    once [initialized] is set every pixel is opaque. *)
Definition inv (s : state) : Prop :=
  wf s /\ (initialized s <> 0 -> alpha_ok (frame_buffer s)).

End FceuxZeroImports.

(** ** [scripts/fceux-simple.c]

    The [printf] diagnostics of this file go to the host's standard output
    and touch none of the statics; they are left out. *)

Module FceuxSimple.

Record state : Type := State {
  rom_data : list Z;       (* static uint8_t rom_data[2 * 1024 * 1024] *)
  rom_size : Z;            (* static uint32_t *)
  frame_buffer : list Z;   (* static uint8_t frame_buffer[256 * 240 * 4] *)
  chr_ram : list Z;        (* static uint8_t chr_ram[8192] *)
  prg_ram : list Z;        (* static uint8_t prg_ram[8192] *)
  palette : list Z;        (* static uint32_t palette[64] *)
  controls : Z;            (* static uint8_t *)
  initialized : Z;         (* static int *)
  rom_loaded : Z;          (* static int *)
  running : Z;             (* static int *)
  frame_count : Z;         (* static uint32_t *)
  prg_banks : Z;           (* static uint8_t *)
  chr_banks : Z;           (* static uint8_t *)
  mapper : Z;              (* static uint8_t *)
  has_chr_ram : Z;         (* static int *)
  has_trainer : Z;         (* static int *)
  has_battery : Z          (* static int *)
}.

(** The statics as the loader zero-initialises them: Uninitialized. *)
Definition uninitialized : state :=
  State (zeros 2097152) 0 (zeros 245760) (zeros 8192) (zeros 8192)
    (replicate 64%nat 0) 0 0 0 0 0 0 0 0 0 0 0.

(** libc's [memset] and [memcpy]. *)
Definition memset (dest : list Z) (val n : Z) : list Z := fill dest val n.

Definition memcpy (dest src : list Z) (n : Z) : list Z := copy dest src n.

(** [palette[i] = v] for the [uint32_t] array. *)
Definition store32 (p : list Z) (i v : Z) : list Z :=
  <[Z.to_nat i := v mod 2 ^ 32]> p.

(** Pixel [(x, y)] of the NROM pattern ([mapper == 0]). *)
Definition put_pixel_nrom (fc : Z) (x y : Z) (fb : list Z) : list Z :=
  let index := (y * 256 + x) * 4 in
  let fb := store fb (index + 0) (Z.land ((x + fc) mod 2 ^ 32) 0xFF) in
  let fb := store fb (index + 1) 0x20 in
  let fb := store fb (index + 2) (Z.land ((y + fc) mod 2 ^ 32) 0xFF) in
  store fb (index + 3) 255.

(** Pixel [(x, y)] of the UNROM pattern ([mapper == 2]); the three
    [+= 64] read back the byte just written. *)
Definition put_pixel_unrom (s : state) (x y : Z) (fb : list Z) : list Z :=
  let index := (y * 256 + x) * 4 in
  let base_color :=
    if has_chr_ram s =? 0 then 0x40
    else load (chr_ram s) ((x + y * 16) mod 8192) in
  let fb := store fb (index + 0) 0x40 in
  let fb := store fb (index + 1)
              (Z.land ((base_color + frame_count s) mod 2 ^ 32) 0xFF) in
  let fb := store fb (index + 2)
              (Z.land ((x + y + frame_count s) mod 2 ^ 32) 0xFF) in
  let fb := store fb (index + 3) 255 in
  let fb :=
    if Z.land (controls s) 0x01 =? 0 then fb
    else store fb (index + 0) (load fb (index + 0) + 64) in
  let fb :=
    if Z.land (controls s) 0x02 =? 0 then fb
    else store fb (index + 1) (load fb (index + 1) + 64) in
  if Z.land (controls s) 0x80 =? 0 then fb
  else store fb (index + 2) (load fb (index + 2) + 64).

(** Pixel [(x, y)] of the generic pattern (other mappers). *)
Definition put_pixel_other (fc : Z) (x y : Z) (fb : list Z) : list Z :=
  let index := (y * 256 + x) * 4 in
  let fb := store fb (index + 0) (Z.land ((x * 2 + fc) mod 2 ^ 32) 0xFF) in
  let fb := store fb (index + 1) (Z.land ((y * 2 + fc) mod 2 ^ 32) 0xFF) in
  let fb := store fb (index + 2) 0x60 in
  store fb (index + 3) 255.

(** The part of [frame] below its guard. *)
Definition render (s : state) : state :=
  let s :=
    State (rom_data s) (rom_size s) (frame_buffer s) (chr_ram s) (prg_ram s)
      (palette s) (controls s) (initialized s) (rom_loaded s) (running s)
      ((frame_count s + 1) mod 2 ^ 32)
      (prg_banks s) (chr_banks s) (mapper s) (has_chr_ram s) (has_trainer s)
      (has_battery s) in
  let fb :=
    if mapper s =? 0 then
      for_ 0 240 1 (fun y fb =>
        for_ 0 256 1 (fun x fb => put_pixel_nrom (frame_count s) x y fb) fb)
        (frame_buffer s)
    else if mapper s =? 2 then
      for_ 0 240 1 (fun y fb =>
        for_ 0 256 1 (fun x fb => put_pixel_unrom s x y fb) fb)
        (frame_buffer s)
    else
      for_ 0 240 1 (fun y fb =>
        for_ 0 256 1 (fun x fb => put_pixel_other (frame_count s) x y fb) fb)
        (frame_buffer s) in
  State (rom_data s) (rom_size s) fb (chr_ram s) (prg_ram s)
    (palette s) (controls s) (initialized s) (rom_loaded s) (running s)
    (frame_count s)
    (prg_banks s) (chr_banks s) (mapper s) (has_chr_ram s) (has_trainer s)
    (has_battery s).

Definition init (s : state) : Z * state :=
  if negb (initialized s =? 0) then (1, s) else
  let rom := memset (rom_data s) 0 2097152 in
  let fb := memset (frame_buffer s) 0 245760 in
  let chr := memset (chr_ram s) 0 8192 in
  let prg := memset (prg_ram s) 0 8192 in
  let fb := set_alpha fb in
  let pal :=
    for_ 0 64 1 (fun i pal =>
      let r := Z.land (i * 4) 0xFF in
      let g := Z.land (i * 8) 0xFF in
      let b := Z.land (i * 16) 0xFF in
      store32 pal i
        (Z.lor (Z.lor (Z.lor (Z.shiftl 0xFF 24) (Z.shiftl b 16)) (Z.shiftl g 8)) r))
      (palette s) in
  (1, State rom (rom_size s) fb chr prg pal 0 1 0 0 0
        (prg_banks s) (chr_banks s) (mapper s) (has_chr_ram s) (has_trainer s)
        (has_battery s)).

(** [rom] is the host memory the pointer designates; [size] is a
    [uint32_t], so the argument is taken modulo [2 ^ 32]. *)
Definition loadRom (rom : list Z) (size : Z) (s : state) : Z * state :=
  let size := size mod 2 ^ 32 in
  if initialized s =? 0 then (0, s) else
  if size <? 16 then (0, s) else
  if size >? 2097152 then (0, s) else
  if negb (load rom 0 =? 0x4E) || negb (load rom 1 =? 0x45) ||
     negb (load rom 2 =? 0x53) || negb (load rom 3 =? 0x1A)
  then (0, s) else
  let prg := load rom 4 in
  let chr := load rom 5 in
  let flags6 := load rom 6 in
  let flags7 := load rom 7 in
  let mp := Z.lor (Z.shiftr flags6 4) (Z.land flags7 0xF0) mod 256 in
  let trainer := if Z.land flags6 0x04 =? 0 then 0 else 1 in
  let battery := if Z.land flags6 0x02 =? 0 then 0 else 1 in
  let ram := if chr =? 0 then 1 else 0 in
  let s1 :=
    State (rom_data s) (rom_size s) (frame_buffer s) (chr_ram s) (prg_ram s)
      (palette s) (controls s) (initialized s) (rom_loaded s) (running s)
      (frame_count s) prg chr mp ram trainer battery in
  if prg =? 0 then (0, s1) else
  let expected_size := 16 in
  let expected_size :=
    if trainer =? 0 then expected_size else (expected_size + 512) mod 2 ^ 32 in
  let expected_size := (expected_size + prg * 16384) mod 2 ^ 32 in
  let expected_size := (expected_size + chr * 8192) mod 2 ^ 32 in
  if size <? expected_size then (0, s1) else
  let chr_mem :=
    if ram =? 0 then chr_ram s
    else for_ 0 8192 1 (fun i c => store c i (Z.land i 0xFF)) (chr_ram s) in
  (1, State (memcpy (rom_data s) rom size) size (frame_buffer s) chr_mem
        (prg_ram s) (palette s) (controls s) (initialized s) 1 (running s)
        (frame_count s) prg chr mp ram trainer battery).

Definition frame (s : state) : state :=
  if (initialized s =? 0) || (rom_loaded s =? 0) || (running s =? 0) then s
  else render s.

Definition reset (s : state) : state :=
  let fb := memset (frame_buffer s) 0 245760 in
  let fb := set_alpha fb in
  let chr :=
    if has_chr_ram s =? 0 then chr_ram s else memset (chr_ram s) 0 8192 in
  State (rom_data s) (rom_size s) fb chr (prg_ram s) (palette s) 0
    (initialized s) (rom_loaded s) (running s) 0
    (prg_banks s) (chr_banks s) (mapper s) (has_chr_ram s) (has_trainer s)
    (has_battery s).

(** [mask] and [controls] are [uint8_t]; [~mask] is an [int]. *)
Definition setButton (button pressed : Z) (s : state) : state :=
  if (button <? 0) || (button >? 7) then s else
  let mask := Z.shiftl 1 button mod 256 in
  let c :=
    if pressed =? 0 then Z.land (controls s) (Z.lnot mask) mod 256
    else Z.lor (controls s) mask mod 256 in
  State (rom_data s) (rom_size s) (frame_buffer s) (chr_ram s) (prg_ram s)
    (palette s) c (initialized s) (rom_loaded s) (running s) (frame_count s)
    (prg_banks s) (chr_banks s) (mapper s) (has_chr_ram s) (has_trainer s)
    (has_battery s).

Definition setRunning (is_running : Z) (s : state) : state :=
  State (rom_data s) (rom_size s) (frame_buffer s) (chr_ram s) (prg_ram s)
    (palette s) (controls s) (initialized s) (rom_loaded s) is_running
    (frame_count s)
    (prg_banks s) (chr_banks s) (mapper s) (has_chr_ram s) (has_trainer s)
    (has_battery s).

(** The accessors read; the host sees the arrays through the pointers. *)
Definition getFrameBuffer (s : state) : list Z := frame_buffer s.
Definition getFrameBufferSize (s : state) : Z := 245760.
Definition getPalette (s : state) : list Z := palette s.

(** The exported calls and the states the host can drive the module to. *)
Inductive call : Type :=
  | Init
  | LoadRom (rom : list Z) (size : Z)
  | Frame
  | Reset
  | SetButton (button pressed : Z)
  | SetRunning (is_running : Z)
  | GetFrameBuffer
  | GetFrameBufferSize
  | GetPalette.

Definition step (s : state) (c : call) : state :=
  match c with
  | Init => snd (init s)
  | LoadRom rom size => snd (loadRom rom size s)
  | Frame => frame s
  | Reset => reset s
  | SetButton button pressed => setButton button pressed s
  | SetRunning is_running => setRunning is_running s
  | GetFrameBuffer | GetFrameBufferSize | GetPalette => s
  end.

Definition run (calls : list call) (s : state) : state := fold_left step calls s.

Definition reachable (s : state) : Prop := exists calls, s = run calls uninitialized.

(** The frame buffer has its declared size. *)
Definition wf (s : state) : Prop := len (frame_buffer s) = 245760.

(** What a call hands back to the host: the [int] of [init], [loadRom] and
    [getFrameBufferSize]; the other entries return [void] or a constant
    address, recorded as 0. *)
Definition returns (s : state) (c : call) : Z :=
  match c with
  | Init => fst (init s)
  | LoadRom rom size => fst (loadRom rom size s)
  | GetFrameBufferSize => getFrameBufferSize s
  | _ => 0
  end.

Fixpoint returns_of (calls : list call) (s : state) : list Z :=
  match calls with
  | [] => []
  | c :: calls' => returns s c :: returns_of calls' (step s c)
  end.

(** The same call with the same arguments: the same entry point and
    scalars, and for [loadRom] host memories that hold the same [size] (a [uint32_t])
    bytes at the pointer, whatever lies beyond them. *)
Definition same_call (c1 c2 : call) : Prop :=
  match c1, c2 with
  | LoadRom rom1 size1, LoadRom rom2 size2 =>
      size1 = size2 /\
      forall i, 0 <= i < size1 mod 2 ^ 32 -> load rom1 i = load rom2 i
  | _, _ => c1 = c2
  end.

(** What every reachable state satisfies: the arrays are as declared, and
    once [initialized] is set every pixel is opaque. *)
Definition inv (s : state) : Prop :=
  wf s /\ (initialized s <> 0 -> alpha_ok (frame_buffer s)).

End FceuxSimple.

(** ** ROM images used in the examples below *)

Module Roms.

(** The 16-byte header of scenario S2: one PRG bank, one CHR bank,
    mapper 0. *)
Definition nrom_header : list Z :=
  [0x4E; 0x45; 0x53; 0x1A; 1; 1; 0; 0; 0; 0; 0; 0; 0; 0; 0; 0].

(** A header with valid magic that declares zero PRG banks (and zero CHR
    banks, mapper 2). *)
Definition no_prg_header : list Z :=
  [0x4E; 0x45; 0x53; 0x1A; 0; 0; 0x20; 0; 0; 0; 0; 0; 0; 0; 0; 0].

(** An UNROM header: one PRG bank, zero CHR banks (CHR RAM), mapper 2. *)
Definition unrom_header : list Z :=
  [0x4E; 0x45; 0x53; 0x1A; 1; 0; 0x20; 0; 0; 0; 0; 0; 0; 0; 0; 0].

(** A complete image for the strict size check of [fceux-simple.c]: one
    PRG bank of zeros after a header with zero CHR banks, 16400 bytes. *)
Definition nrom_image : list Z :=
  [0x4E; 0x45; 0x53; 0x1A; 1; 0; 0; 0; 0; 0; 0; 0; 0; 0; 0; 0] ++ zeros 16384.

(** Scenario S2's header as it lies in another host memory: the same 16
    bytes, followed by bytes that are not part of the ROM. *)
Definition nrom_header_in_memory : list Z := nrom_header ++ [0xAA; 0xBB].

(** A complete UNROM image: the UNROM header and one PRG bank of zeros,
    16400 bytes. *)
Definition unrom_image : list Z := unrom_header ++ zeros 16384.

End Roms.

(** ** What the reachable states keep

    Beyond [inv]: the registers stay within 8 and 32 bits, a loaded ROM
    starts with the iNES magic and has an accepted size, the palette keeps
    the table [init] wrote, and the CHR-RAM flag agrees with the CHR bank
    count of the last header parsed. *)

Module Steady.

Definition zero_imports (s : ZeroImports.state) : Prop :=
  ZeroImports.inv s /\
  (0 <= ZeroImports.controls s < 256 /\
   0 <= ZeroImports.frame_count s < 2 ^ 32) /\
  (ZeroImports.rom_loaded s <> 0 ->
   INes.magic_ok (ZeroImports.rom_buffer s) /\
   INes.size_ok (ZeroImports.rom_size s)) /\
  (ZeroImports.initialized s <> 0 ->
   forall i k, 0 <= i < 64 -> 0 <= k < 4 ->
     load (ZeroImports.nes_palette s) (i * 4 + k) =
       rgba ((i * 4) mod 256) ((i * 8) mod 256) ((i * 16) mod 256) 255 k).

Definition nes_standalone (s : NesStandalone.state) : Prop :=
  NesStandalone.inv s /\
  (0 <= NesStandalone.controls s < 256 /\
   0 <= NesStandalone.frame_count s < 2 ^ 32) /\
  (NesStandalone.rom_loaded s <> 0 ->
   INes.magic_ok (NesStandalone.rom_buffer s) /\
   INes.size_ok (NesStandalone.rom_size s)) /\
  (NesStandalone.initialized s <> 0 ->
   forall i k, 0 <= i < 64 -> 0 <= k < 4 ->
     load (NesStandalone.nes_palette s) (i * 4 + k) =
       (let '(r, g, b) := NesStandalone.colors_at i in rgba r g b 255 k)).

Definition fceux_zero_imports (s : FceuxZeroImports.state) : Prop :=
  FceuxZeroImports.inv s /\
  (0 <= FceuxZeroImports.controls s < 256 /\
   0 <= FceuxZeroImports.frame_count s < 2 ^ 32) /\
  (FceuxZeroImports.rom_loaded s <> 0 ->
   INes.magic_ok (FceuxZeroImports.rom_buffer s) /\
   INes.size_ok (FceuxZeroImports.rom_size s)) /\
  (FceuxZeroImports.initialized s <> 0 ->
   forall i k, 0 <= i < 64 -> 0 <= k < 4 ->
     load (FceuxZeroImports.nes_palette s) (i * 4 + k) =
       (let '(r, g, b) := FceuxZeroImports.palette_data_at i in
        rgba r g b 255 k)) /\
  (FceuxZeroImports.rom_loaded s <> 0 ->
   FceuxZeroImports.has_chr_ram s =
     if FceuxZeroImports.chr_banks s =? 0 then 1 else 0).

(** [palette[i]] of [fceux-simple.c]: alpha, blue, green, red from the top
    byte down. *)
Definition abgr (i : Z) : Z :=
  255 * 2 ^ 24 + ((i * 16) mod 256) * 2 ^ 16 + ((i * 8) mod 256) * 2 ^ 8 +
  (i * 4) mod 256.

Definition fceux_simple (s : FceuxSimple.state) : Prop :=
  FceuxSimple.inv s /\
  (len (FceuxSimple.rom_data s) = 2097152 /\
   len (FceuxSimple.chr_ram s) = 8192 /\
   len (FceuxSimple.palette s) = 64) /\
  (0 <= FceuxSimple.controls s < 256 /\
   0 <= FceuxSimple.frame_count s < 2 ^ 32) /\
  (FceuxSimple.rom_loaded s <> 0 ->
   INes.magic_ok (FceuxSimple.rom_data s) /\
   INes.size_ok (FceuxSimple.rom_size s)) /\
  (FceuxSimple.initialized s <> 0 ->
   forall i, 0 <= i < 64 -> load (FceuxSimple.palette s) i = abgr i) /\
  (FceuxSimple.rom_loaded s <> 0 ->
   FceuxSimple.has_chr_ram s = if FceuxSimple.chr_banks s =? 0 then 1 else 0).

(** The footprint [loadRom] of [fceux-simple.c] expects, computed in
    [uint32_t] as the source does: header, trainer if flagged, PRG banks,
    CHR banks. *)
Definition expected_size (rom : list Z) : Z :=
  let expected_size := 16 in
  let expected_size :=
    if Z.land (load rom 6) 0x04 =? 0 then expected_size
    else (expected_size + 512) mod 2 ^ 32 in
  let expected_size := (expected_size + load rom 4 * 16384) mod 2 ^ 32 in
  (expected_size + load rom 5 * 8192) mod 2 ^ 32.

(** Before the first [init] the header metadata still has its load-time
    zeros: [loadRom] turns every call down until the module is
    initialised.  [prg_ram] of [fceux-simple.c] is written by [init]
    alone and keeps its size. *)
Definition fzi_before_init (s : FceuxZeroImports.state) : Prop :=
  FceuxZeroImports.initialized s = 0 ->
  FceuxZeroImports.prg_banks s = 0 /\ FceuxZeroImports.chr_banks s = 0 /\
  FceuxZeroImports.mapper s = 0 /\ FceuxZeroImports.has_chr_ram s = 0.

Definition fs_before_init (s : FceuxSimple.state) : Prop :=
  len (FceuxSimple.prg_ram s) = 8192 /\
  (FceuxSimple.initialized s = 0 ->
   FceuxSimple.rom_size s = 0 /\ FceuxSimple.prg_banks s = 0 /\
   FceuxSimple.chr_banks s = 0 /\ FceuxSimple.mapper s = 0 /\
   FceuxSimple.has_chr_ram s = 0 /\ FceuxSimple.has_trainer s = 0 /\
   FceuxSimple.has_battery s = 0).

End Steady.
(** * Facts

    ** Byte arrays and counted loops *)

Lemma len_store b i v : len (store b i v) = len b.
Proof. unfold len, store. now rewrite length_insert. Qed.

Lemma load_store_eq b i v :
  0 <= i < len b -> load (store b i v) i = v mod 256.
Proof.
  unfold load, store, len. intros Hi.
  rewrite list_lookup_insert_eq by lia. reflexivity.
Qed.

Lemma load_store_ne b i j v :
  0 <= i -> 0 <= j -> i <> j -> load (store b i v) j = load b j.
Proof.
  unfold load, store. intros Hi Hj Hne.
  rewrite list_lookup_insert_ne by lia. reflexivity.
Qed.

Lemma load_store b i j v :
  0 <= i < len b -> 0 <= j ->
  load (store b i v) j = if j =? i then v mod 256 else load b j.
Proof.
  intros Hi Hj. destruct (Z.eqb_spec j i) as [->|Hne].
  - now apply load_store_eq.
  - apply load_store_ne; lia.
Qed.

(** *** Loop rules *)

(** With a positive step and a budget that covers the distance to [hi],
    the loop leaves through its test, and an invariant carried by the body
    holds at the exit index. *)
Lemma for_loop_exits {A : Type} (P : Z -> A -> Prop) hi step body :
  0 < step ->
  (forall i a, i < hi -> P i a -> P (i + step) (body i a)) ->
  forall fuel i (a : A),
    hi - i <= Z.of_nat fuel -> P i a ->
    exists i', hi <= i' /\ P i' (for_loop fuel i hi step body a).
Proof.
  intros Hstep Hbody fuel. induction fuel as [|fuel IH]; intros i a Hfuel HP.
  - exists i. split; [lia | exact HP].
  - cbn [for_loop]. destruct (Z.ltb_spec i hi) as [Hlt|Hge].
    + apply IH; [lia | now apply Hbody].
    + exists i. split; [lia | exact HP].
Qed.

(** Past that budget more fuel changes nothing: the result is the loop's,
    not the budget's. *)
Lemma for_loop_fuel {A : Type} hi step body :
  0 < step ->
  forall fuel extra i (a : A),
    hi - i <= Z.of_nat fuel ->
    for_loop (fuel + extra) i hi step body a = for_loop fuel i hi step body a.
Proof.
  intros Hstep fuel. induction fuel as [|fuel IH]; intros extra i a Hfuel.
  - destruct extra as [|extra]; [reflexivity|]. cbn [Nat.add for_loop].
    destruct (Z.ltb_spec i hi); [lia | reflexivity].
  - cbn [Nat.add for_loop]. destruct (Z.ltb_spec i hi); [|reflexivity].
    apply IH. lia.
Qed.

Lemma for_exits {A : Type} (P : Z -> A -> Prop) lo hi step body (a : A) :
  0 < step ->
  (forall i a, i < hi -> P i a -> P (i + step) (body i a)) ->
  P lo a ->
  exists i', hi <= i' /\ P i' (for_ lo hi step body a).
Proof.
  intros Hstep Hbody HP. unfold for_.
  apply for_loop_exits; auto. lia.
Qed.

(** The usual rule for [for (i = lo; i < hi; i++)]. *)
Lemma for_rule {A : Type} (P : Z -> A -> Prop) lo hi body (a : A) :
  lo <= hi ->
  (forall i a, lo <= i < hi -> P i a -> P (i + 1) (body i a)) ->
  P lo a ->
  P hi (for_ lo hi 1 body a).
Proof.
  intros Hle Hbody HP.
  destruct (for_exits (fun i a => lo <= i <= hi /\ P i a) lo hi 1 body a)
    as (i' & Hi' & (Hr & HP')); try lia.
  - intros i b Hi (Hr & Hb). split; [lia|]. apply Hbody; [lia | exact Hb].
  - split; [lia | exact HP].
  - assert (i' = hi) as <- by lia. exact HP'.
Qed.

(** A loop whose test fails at once does nothing (a negative [size]
    never reaches the copy loops, and this is what they would do). *)
Lemma for_empty {A : Type} lo hi step body (a : A) :
  hi <= lo -> for_ lo hi step body a = a.
Proof.
  intros Hle. unfold for_. replace (Z.to_nat (hi - lo)) with O by lia.
  reflexivity.
Qed.

(** A property of the accumulator that every iteration keeps. *)
Lemma for_preserves {A : Type} (Q : A -> Prop) lo hi step body (a : A) :
  0 < step ->
  (forall i a, Q a -> Q (body i a)) ->
  Q a ->
  Q (for_ lo hi step body a).
Proof.
  intros Hstep Hbody HQ.
  destruct (for_exits (fun _ a => Q a) lo hi step body a) as (i' & _ & H); auto.
Qed.

(** Two bodies that agree on the indices the loop visits give the same
    loop. *)
Lemma for_loop_ext {A : Type} lo hi step (body1 body2 : Z -> A -> A) :
  0 <= step ->
  (forall i a, lo <= i < hi -> body1 i a = body2 i a) ->
  forall fuel i a, lo <= i ->
    for_loop fuel i hi step body1 a = for_loop fuel i hi step body2 a.
Proof.
  intros Hstep Hext fuel. induction fuel as [|fuel IH]; intros i a Hi.
  - reflexivity.
  - cbn [for_loop]. destruct (Z.ltb_spec i hi) as [Hlt|Hge]; [|reflexivity].
    rewrite Hext by lia. apply IH. lia.
Qed.

Lemma for_ext {A : Type} lo hi step (body1 body2 : Z -> A -> A) (a : A) :
  0 <= step ->
  (forall i a, lo <= i < hi -> body1 i a = body2 i a) ->
  for_ lo hi step body1 a = for_ lo hi step body2 a.
Proof.
  intros Hstep Hext. unfold for_. apply (for_loop_ext lo); auto. lia.
Qed.

(** *** [memset], [memcpy] and the alpha pass *)

Lemma len_fill b v n : len (fill b v n) = len b.
Proof.
  unfold fill. apply (for_preserves (fun p => len p = len b)); [lia | | reflexivity].
  intros i p Hp. now rewrite len_store.
Qed.

Lemma load_fill b v n j :
  0 <= n <= len b -> 0 <= j ->
  load (fill b v n) j = if j <? n then v mod 256 else load b j.
Proof.
  intros Hn Hj. unfold fill.
  pose (P := fun (i : Z) (p : list Z) =>
    len p = len b /\
    forall j, 0 <= j -> load p j = if j <? i then v mod 256 else load b j).
  assert (H : P n (for_ 0 n 1 (fun i p => store p i v) b)).
  { apply for_rule; [lia | |].
    - intros i p Hi (Hlen & Hld). split; [now rewrite len_store|].
      intros k Hk. rewrite load_store by lia. rewrite Hld by lia.
      destruct (Z.eqb_spec k i), (Z.ltb_spec k i), (Z.ltb_spec k (i + 1));
        try lia; reflexivity.
    - split; [reflexivity|]. intros k Hk.
      destruct (Z.ltb_spec k 0); [lia | reflexivity]. }
  destruct H as (_ & H). now apply H.
Qed.

Lemma len_copy d src n : len (copy d src n) = len d.
Proof.
  unfold copy. apply (for_preserves (fun p => len p = len d)); [lia | | reflexivity].
  intros i p Hp. now rewrite len_store.
Qed.

(** [memcpy] reads [src[0 .. n-1]] and nothing else. *)
Lemma copy_reads_prefix d src1 src2 n :
  (forall i, 0 <= i < n -> load src1 i = load src2 i) ->
  copy d src1 n = copy d src2 n.
Proof.
  intros Hsrc. unfold copy. apply for_ext; [lia|].
  intros i p Hi. now rewrite Hsrc.
Qed.

Lemma len_set_alpha fb : len (set_alpha fb) = len fb.
Proof.
  unfold set_alpha. apply (for_preserves (fun p => len p = len fb)); [lia | | reflexivity].
  intros i p Hp. now rewrite len_store.
Qed.

Lemma load_set_alpha fb j :
  len fb = 245760 -> 0 <= j < 245760 ->
  load (set_alpha fb) j = if j mod 4 =? 3 then 255 else load fb j.
Proof.
  intros Hlen Hj. unfold set_alpha.
  pose (P := fun (i : Z) (p : list Z) =>
    (3 <= i /\ i mod 4 = 3) /\ len p = 245760 /\
    forall j, 0 <= j ->
      load p j = if (j mod 4 =? 3) && (j <? i) then 255 else load fb j).
  destruct (for_exits P 3 245760 4 (fun i p => store p i 255) fb)
    as (i' & Hi' & (_ & _ & Hld)); try lia.
  - intros i p Hi ((Hi3 & Hmod) & Hl & Hld). repeat split.
    + lia.
    + replace (i + 4) with (i + 1 * 4) by lia. rewrite Z.mod_add by lia. exact Hmod.
    + now rewrite len_store.
    + intros k Hk.
      rewrite load_store by lia. rewrite Hld by lia.
      destruct (Z.eqb_spec k i) as [->|Hne].
      * rewrite Hmod. destruct (Z.ltb_spec i (i + 4)); [reflexivity | lia].
      * destruct (Z.eqb_spec (k mod 4) 3) as [Hk3|]; [|reflexivity].
        cbn [andb].
        destruct (Z.ltb_spec k i), (Z.ltb_spec k (i + 4)); try reflexivity;
          Z.div_mod_to_equations; lia.
  - repeat split; [lia | assumption |]. intros k Hk.
    destruct (Z.eqb_spec (k mod 4) 3) as [Hk3|]; [|reflexivity].
    cbn [andb]. destruct (Z.ltb_spec k 3); [|reflexivity].
    Z.div_mod_to_equations; lia.
  - rewrite Hld by lia.
    destruct (Z.ltb_spec j i'); [|lia]. now rewrite andb_true_r.
Qed.

(** After [memset(frame_buffer, 0, ..)] and the alpha pass the buffer is
    transparent black made opaque: 0, 0, 0, 255 for every pixel. *)
Lemma cleared_set_alpha_fill fb :
  len fb = 245760 -> cleared (set_alpha (fill fb 0 245760)).
Proof.
  intros Hlen j Hj. rewrite load_set_alpha by (rewrite ?len_fill; lia).
  rewrite load_fill by lia.
  destruct (Z.ltb_spec j 245760); [reflexivity | lia].
Qed.

Lemma alpha_ok_cleared fb : cleared fb -> alpha_ok fb.
Proof.
  intros H p Hp. rewrite H by lia.
  replace ((p * 4 + 3) mod 4) with 3; [reflexivity|].
  rewrite Z.add_comm, Z.mod_add by lia. reflexivity.
Qed.

Lemma alpha_ok_set_alpha fb : len fb = 245760 -> alpha_ok (set_alpha fb).
Proof.
  intros Hlen p Hp. rewrite load_set_alpha by lia.
  replace ((p * 4 + 3) mod 4) with 3; [reflexivity|].
  rewrite Z.add_comm, Z.mod_add by lia. reflexivity.
Qed.

(** *** The raster loops

    Every frame generator is
    [for (y = 0; y < 240; y++) for (x = 0; x < 256; x++) { ... }]
    whose body touches the four bytes at [(y * 256 + x) * 4] only.  If the
    body leaves [E x y k] in byte [k] of its pixel, the two loops leave
    [E x y k] in byte [k] of every pixel.  [K] selects the channels the
    rule is used for. *)
Lemma raster_rule (K : Z -> Prop) (body : Z -> Z -> list Z -> list Z)
    (E : Z -> Z -> Z -> Z) fb :
  (forall x y p, 0 <= x < 256 -> 0 <= y < 240 -> len p = 245760 ->
     len (body x y p) = 245760 /\
     forall j, 0 <= j -> K (j mod 4) ->
       load (body x y p) j =
         if ((y * 256 + x) * 4 <=? j) && (j <? (y * 256 + x) * 4 + 4)
         then E x y (j - (y * 256 + x) * 4) else load p j) ->
  len fb = 245760 ->
  let fb' := for_ 0 240 1 (fun y p => for_ 0 256 1 (fun x p => body x y p) p) fb in
  len fb' = 245760 /\
  forall x y k, 0 <= x < 256 -> 0 <= y < 240 -> 0 <= k < 4 -> K k ->
    load fb' ((y * 256 + x) * 4 + k) = E x y k.
Proof.
  intros Hbody Hlen fb'. subst fb'.
  assert (HK : forall x y k, 0 <= k < 4 -> K k -> K (((y * 256 + x) * 4 + k) mod 4)).
  { intros x y k Hk HKk. rewrite Z.add_comm, Z.mod_add by lia.
    now rewrite Z.mod_small by lia. }
  pose (Rows := fun (y : Z) (p : list Z) =>
    forall x' y' k, 0 <= x' < 256 -> 0 <= y' < y -> 0 <= k < 4 -> K k ->
      load p ((y' * 256 + x') * 4 + k) = E x' y' k).
  pose (Row := fun (y x : Z) (p : list Z) =>
    forall x' k, 0 <= x' < x -> 0 <= k < 4 -> K k ->
      load p ((y * 256 + x') * 4 + k) = E x' y k).
  assert (H : (fun y p => len p = 245760 /\ Rows y p) 240
    (for_ 0 240 1 (fun y p => for_ 0 256 1 (fun x p => body x y p) p) fb)).
  { apply for_rule; [lia| |].
    - intros y p Hy (Hl & HR).
      assert (Hin : (fun x p => len p = 245760 /\ Rows y p /\ Row y x p) 256
        (for_ 0 256 1 (fun x p => body x y p) p)).
      { apply for_rule; [lia| |].
        - intros x q Hx (Hlq & HRq & Hrq).
          destruct (Hbody x y q) as (Hlb & Hldb); try lia.
          split; [exact Hlb|]. split.
          + intros x' y' k Hx' Hy' Hk HKk. rewrite Hldb by (auto; lia).
            destruct (Z.leb_spec ((y * 256 + x) * 4) ((y' * 256 + x') * 4 + k));
              [lia|]. cbn [andb]. now apply HRq.
          + intros x' k Hx' Hk HKk. rewrite Hldb by (auto; lia).
            destruct (Z.eq_dec x' x) as [->|Hne].
            * destruct (Z.leb_spec ((y * 256 + x) * 4) ((y * 256 + x) * 4 + k));
                [|lia].
              destruct (Z.ltb_spec ((y * 256 + x) * 4 + k) ((y * 256 + x) * 4 + 4));
                [|lia].
              cbn [andb]. f_equal. lia.
            * destruct (Z.leb_spec ((y * 256 + x) * 4) ((y * 256 + x') * 4 + k));
                [lia|]. cbn [andb]. apply Hrq; auto; lia.
        - split; [exact Hl|]. split; [exact HR|]. intros x' k Hx'. lia. }
      destruct Hin as (Hl' & HR' & Hr'). split; [exact Hl'|].
      intros x' y' k Hx' Hy' Hk HKk.
      destruct (Z.eq_dec y' y) as [->|Hne].
      + now apply Hr'.
      + apply HR'; auto; lia.
    - split; [exact Hlen|]. intros x' y' k Hx' Hy'. lia. }
  destruct H as (Hl & HR). split; [exact Hl|].
  intros x y k Hx Hy Hk HKk. now apply HR.
Qed.

(** The four stores that end every loop body. *)
Lemma store_rgba p idx r g b a :
  0 <= idx -> idx + 4 <= len p ->
  let p' :=
    store (store (store (store p (idx + 0) r) (idx + 1) g) (idx + 2) b)
      (idx + 3) a in
  len p' = len p /\
  forall j, 0 <= j ->
    load p' j =
      if (idx <=? j) && (j <? idx + 4) then rgba r g b a (j - idx) mod 256
      else load p j.
Proof.
  intros Hidx Hend p'. subst p'. split; [now rewrite !len_store|].
  intros j Hj. rewrite !load_store by (rewrite ?len_store; lia).
  unfold rgba.
  destruct (Z.eqb_spec j (idx + 3)), (Z.eqb_spec j (idx + 2)),
    (Z.eqb_spec j (idx + 1)), (Z.eqb_spec j (idx + 0)),
    (Z.leb_spec idx j), (Z.ltb_spec j (idx + 4)),
    (Z.eqb_spec (j - idx) 0), (Z.eqb_spec (j - idx) 1),
    (Z.eqb_spec (j - idx) 2); cbn [andb]; try lia; reflexivity.
Qed.

(** A palette loop
    [for (i = 0; i < 64; i++) { pal[i*4+0] = r; .. pal[i*4+3] = 255; }]
    leaves entry [i] of the table [color] in bytes [i*4 .. i*4+3]. *)
Lemma palette_rule (color : Z -> Z * Z * Z) pal :
  len pal = 256 ->
  let pal' :=
    for_ 0 64 1 (fun i p =>
      let '(r, g, b) := color i in
      store (store (store (store p (i * 4 + 0) r) (i * 4 + 1) g) (i * 4 + 2) b)
        (i * 4 + 3) 255) pal in
  forall i k, 0 <= i < 64 -> 0 <= k < 4 ->
    load pal' (i * 4 + k) = (let '(r, g, b) := color i in rgba r g b 255 k) mod 256.
Proof.
  intros Hlen pal'. subst pal'.
  pose (P := fun (n : Z) (p : list Z) =>
    len p = 256 /\
    forall i k, 0 <= i < n -> 0 <= k < 4 ->
      load p (i * 4 + k) = (let '(r, g, b) := color i in rgba r g b 255 k) mod 256).
  assert (H : P 64 (for_ 0 64 1 (fun i p =>
      let '(r, g, b) := color i in
      store (store (store (store p (i * 4 + 0) r) (i * 4 + 1) g) (i * 4 + 2) b)
        (i * 4 + 3) 255) pal)).
  { apply for_rule; [lia | |].
    - intros n p Hn (Hl & Hld).
      destruct (color n) as ((r & g) & b) eqn:En.
      destruct (store_rgba p (n * 4) r g b 255) as (Hl' & Hld'); try lia.
      split; [lia|]. intros i k Hi Hk. rewrite Hld' by lia.
      destruct (Z.eq_dec i n) as [->|Hne].
      + rewrite En.
        destruct (Z.leb_spec (n * 4) (n * 4 + k)), (Z.ltb_spec (n * 4 + k) (n * 4 + 4));
          try lia. cbn [andb]. do 2 f_equal. lia.
      + destruct (Z.leb_spec (n * 4) (i * 4 + k)), (Z.ltb_spec (i * 4 + k) (n * 4 + 4));
          cbn [andb]; try lia; apply Hld; lia.
    - split; [exact Hlen|]. intros i k Hi. lia. }
  destruct H as (_ & H). exact H.
Qed.

(** The raster loops over such a body: the colour [color x y] in every
    pixel, with an opaque alpha. *)
Lemma raster_rgba (color : Z -> Z -> Z * Z * Z) fb :
  len fb = 245760 ->
  let body := fun x y p =>
    let '(r, g, b) := color x y in
    store (store (store (store p ((y * 256 + x) * 4 + 0) r)
      ((y * 256 + x) * 4 + 1) g) ((y * 256 + x) * 4 + 2) b)
      ((y * 256 + x) * 4 + 3) 255 in
  let fb' := for_ 0 240 1 (fun y p => for_ 0 256 1 (fun x p => body x y p) p) fb in
  len fb' = 245760 /\
  forall x y k, 0 <= x < 256 -> 0 <= y < 240 -> 0 <= k < 4 ->
    load fb' ((y * 256 + x) * 4 + k) =
      (let '(r, g, b) := color x y in rgba r g b 255 k) mod 256.
Proof.
  intros Hlen body fb'.
  destruct (raster_rule (fun _ => True) body
    (fun x y k => (let '(r, g, b) := color x y in rgba r g b 255 k) mod 256) fb)
    as (Hl & Hpix); [ | exact Hlen | ].
  - intros x y p Hx Hy Hp. subst body. cbv beta.
    destruct (color x y) as ((r & g) & b).
    destruct (store_rgba p ((y * 256 + x) * 4) r g b 255) as (Hl & Hld);
      try lia.
    split; [lia|]. intros j Hj _. now apply Hld.
  - split; [exact Hl|]. intros x y k Hx Hy Hk. now apply Hpix.
Qed.

Lemma alpha_ok_pixels fb :
  (forall x y, 0 <= x < 256 -> 0 <= y < 240 ->
     load fb ((y * 256 + x) * 4 + 3) = 255) ->
  alpha_ok fb.
Proof.
  intros H p Hp.
  replace p with ((p / 256) * 256 + p mod 256)
    by (pose proof (Z.div_mod p 256); lia).
  apply H.
  - apply Z.mod_pos_bound. lia.
  - split; [apply Z.div_pos; lia | apply Z.div_lt_upper_bound; lia].
Qed.

(** ** Machine arithmetic *)

Lemma len_zeros n : 0 <= n -> len (zeros n) = n.
Proof. intros Hn. unfold len, zeros. rewrite length_replicate. lia. Qed.

Lemma bytes_zeros n : bytes (zeros n).
Proof. unfold bytes, zeros. apply Forall_replicate. lia. Qed.

Lemma load_zeros n i : load (zeros n) i = 0.
Proof.
  unfold load, zeros.
  destruct (replicate (Z.to_nat n) 0 !! Z.to_nat i) as [v|] eqn:E; [|reflexivity].
  apply lookup_replicate in E as [-> _]. reflexivity.
Qed.

Lemma bytes_store b i v : bytes b -> bytes (store b i v).
Proof.
  unfold bytes, store. intros Hb.
  destruct (decide (Z.to_nat i < length b)%nat) as [Hlt|Hge].
  - apply Forall_insert; [exact Hb|]. apply Z.mod_pos_bound. lia.
  - rewrite list_insert_ge by lia. exact Hb.
Qed.

Lemma bytes_load b i : bytes b -> 0 <= load b i < 256.
Proof.
  unfold bytes, load. intros Hb.
  destruct (b !! Z.to_nat i) as [v|] eqn:E; cbn [default]; [|lia].
  exact (proj1 (Forall_lookup _ b) Hb _ _ E).
Qed.

Lemma bytes_fill b v n : bytes b -> bytes (fill b v n).
Proof.
  intros Hb. unfold fill. apply (for_preserves bytes); [lia | | exact Hb].
  intros i p Hp. now apply bytes_store.
Qed.

Lemma bytes_copy d src n : bytes d -> bytes (copy d src n).
Proof.
  intros Hb. unfold copy. apply (for_preserves bytes); [lia | | exact Hb].
  intros i p Hp. now apply bytes_store.
Qed.

(** [v & 0xFF] is [v mod 256], for negative [v] too ([(r - 32) & 255]). *)
Lemma land_255 v : Z.land v 255 = v mod 256.
Proof. change 255 with (Z.ones 8). now rewrite Z.land_ones by lia. Qed.

Lemma land_63 v : Z.land v 63 = v mod 64.
Proof. change 63 with (Z.ones 6). now rewrite Z.land_ones by lia. Qed.

(** [c & (1 << k)] isolates bit [k]. *)
Lemma land_pow2 c k :
  0 <= k -> Z.land c (2 ^ k) = if Z.testbit c k then 2 ^ k else 0.
Proof.
  intros Hk. apply Z.bits_inj'. intros n Hn.
  rewrite Z.land_spec, Z.pow2_bits_eqb by lia.
  destruct (Z.eqb_spec k n) as [->|Hne].
  - rewrite andb_true_r. destruct (Z.testbit c n); [|now rewrite Z.bits_0].
    rewrite Z.pow2_bits_eqb by lia. now rewrite Z.eqb_refl.
  - rewrite andb_false_r. destruct (Z.testbit c k); [|now rewrite Z.bits_0].
    rewrite Z.pow2_bits_eqb by lia. symmetry. now apply Z.eqb_neq.
Qed.

Lemma land_pow2_eqb c k :
  0 <= k -> (Z.land c (2 ^ k) =? 0) = negb (Z.testbit c k).
Proof.
  intros Hk. rewrite land_pow2 by lia.
  destruct (Z.testbit c k); cbn [negb]; [|reflexivity].
  apply Z.eqb_neq. pose proof (Z.pow_pos_nonneg 2 k). lia.
Qed.

(** ** More on [memcpy], ranges and whole arrays *)

(** [memcpy] leaves [src[j]] in [dest[j]] for [j < n] and keeps the
    rest. *)
Lemma load_copy d src n j :
  0 <= n <= len d -> 0 <= j ->
  load (copy d src n) j = if j <? n then load src j mod 256 else load d j.
Proof.
  intros Hn Hj. unfold copy.
  pose (P := fun (i : Z) (p : list Z) =>
    len p = len d /\
    forall j, 0 <= j -> load p j = if j <? i then load src j mod 256 else load d j).
  assert (H : P n (for_ 0 n 1 (fun i p => store p i (load src i)) d)).
  { apply for_rule; [lia | |].
    - intros i p Hi (Hlen & Hld). split; [now rewrite len_store|].
      intros k Hk. rewrite load_store by lia. rewrite Hld by lia.
      destruct (Z.ltb_spec k i), (Z.ltb_spec k (i + 1)), (Z.eqb_spec k i);
        try lia; try reflexivity. subst k. reflexivity.
    - split; [reflexivity|]. intros k Hk.
      destruct (Z.ltb_spec k 0); [lia | reflexivity]. }
  destruct H as (_ & H). now apply H.
Qed.

(** Two arrays of one size with the same element everywhere are the same
    array. *)
Lemma load_ext (a b : list Z) :
  len a = len b ->
  (forall j, 0 <= j < len a -> load a j = load b j) ->
  a = b.
Proof.
  unfold len, load. intros Hlen H. apply list_eq. intros i.
  destruct (decide (i < length a)%nat) as [Hi|Hi].
  - specialize (H (Z.of_nat i) ltac:(lia)). rewrite Nat2Z.id in H.
    destruct (lookup_lt_is_Some_2 a i Hi) as (x & Hx).
    destruct (lookup_lt_is_Some_2 b i ltac:(lia)) as (y & Hy).
    rewrite Hx, Hy in *. cbn in H. now subst.
  - rewrite !lookup_ge_None_2 by lia. reflexivity.
Qed.

(** A number fits in [n] bits exactly when all its higher bits are 0. *)
Lemma fits_bits n c :
  0 <= n -> (0 <= c < 2 ^ n <-> forall i, n <= i -> Z.testbit c i = false).
Proof.
  intros Hn. split.
  - intros Hc i Hi. rewrite <- (Z.mod_small c (2 ^ n)) by lia.
    rewrite Z.testbit_mod_pow2 by lia.
    destruct (Z.ltb_spec i n); [lia | reflexivity].
  - intros H. assert (c = c mod 2 ^ n) as ->.
    { apply Z.bits_inj'. intros i Hi. rewrite Z.testbit_mod_pow2 by lia.
      destruct (Z.ltb_spec i n); cbn [andb]; [reflexivity | now apply H]. }
    apply Z.mod_pos_bound. apply Z.pow_pos_nonneg; lia.
Qed.

(** ** Proof steps shared by the four files *)

(** The loops and the zeroed arrays are reasoned about through the lemmas
    above, never by running them. *)
#[global] Opaque for_ zeros fill copy set_alpha.

(** Case analysis on every guard of the goal. *)
Ltac break_ifs :=
  repeat match goal with
  | |- context [if ?c then _ else _] => destruct c
  end.

(** Splits an invariant into its array sizes, palette bytes and alpha
    part. *)
Ltac split_inv := split; [split; [|split; [|split]]|].

(** ** Facts about [scripts/zero-imports.c] *)

Lemma zi_wf_uninitialized : ZeroImports.wf ZeroImports.uninitialized.
Proof.
  unfold ZeroImports.wf, ZeroImports.uninitialized.
  cbn [ZeroImports.frame_buffer ZeroImports.nes_palette ZeroImports.rom_buffer].
  rewrite !len_zeros by lia.
  split; [|split; [|split]]; try reflexivity. apply bytes_zeros.
Qed.

Lemma zi_len_init_palette pal : len (ZeroImports.init_palette pal) = len pal.
Proof.
  unfold ZeroImports.init_palette.
  apply (for_preserves (fun p => len p = len pal)); [lia | | reflexivity].
  intros i p Hp.
  rewrite !len_store. exact Hp.
Qed.

Lemma zi_bytes_init_palette pal : bytes pal -> bytes (ZeroImports.init_palette pal).
Proof.
  intros Hb. unfold ZeroImports.init_palette.
  apply (for_preserves bytes); [lia | | exact Hb].
  intros i p Hp.
  repeat apply bytes_store. exact Hp.
Qed.

(** *** What each entry point returns *)

Lemma zi_init_again s : ZeroImports.initialized s <> 0 -> ZeroImports.init s = (1, s).
Proof.
  intros H. unfold ZeroImports.init.
  destruct (Z.eqb_spec (ZeroImports.initialized s) 0); [lia | reflexivity].
Qed.

Lemma zi_init_initialized s : ZeroImports.initialized (snd (ZeroImports.init s)) <> 0.
Proof.
  unfold ZeroImports.init.
  destruct (Z.eqb_spec (ZeroImports.initialized s) 0);
    cbn [negb snd ZeroImports.initialized]; [lia | assumption].
Qed.

Lemma zi_init_fresh s :
  ZeroImports.initialized s = 0 -> ZeroImports.wf s ->
  exists fb pal rom,
    ZeroImports.init s = (1, ZeroImports.State fb pal rom 1 0 0 0 0) /\
    len fb = 245760 /\ cleared fb /\ len pal = 256 /\ bytes pal /\
    len rom = 2097152 /\
    forall i k, 0 <= i < 64 -> 0 <= k < 4 ->
      load pal (i * 4 + k) =
        (let '(r, g, b) := (fun i => (Z.land (i * 4) 255, Z.land (i * 8) 255, Z.land (i * 16) 255)) i in rgba r g b 255 k) mod 256.
Proof.
  intros H (Hfb & Hpal & Hrom & Hb). unfold ZeroImports.init.
  rewrite H. cbn [Z.eqb negb].
  unfold ZeroImports.clear_frame, ZeroImports.zero_mem.
  do 3 eexists. split; [reflexivity|].
  rewrite len_set_alpha, zi_len_init_palette, !len_fill.
  split; [exact Hfb|]. split.
  { apply cleared_set_alpha_fill. rewrite len_fill. exact Hfb. }
  split; [exact Hpal|]. split; [apply zi_bytes_init_palette, bytes_fill, Hb|].
  split; [exact Hrom|].
  apply (palette_rule ((fun i => (Z.land (i * 4) 255, Z.land (i * 8) 255, Z.land (i * 16) 255)))). rewrite len_fill. exact Hpal.
Qed.

Lemma zi_reset_eq s :
  len (ZeroImports.frame_buffer s) = 245760 ->
  exists fb,
    ZeroImports.reset s =
      ZeroImports.State fb (ZeroImports.nes_palette s) (ZeroImports.rom_buffer s) (ZeroImports.initialized s) (ZeroImports.rom_loaded s) 0 0
        (ZeroImports.rom_size s) /\
    len fb = 245760 /\ cleared fb.
Proof.
  intros Hfb. unfold ZeroImports.reset, ZeroImports.clear_frame, ZeroImports.zero_mem.
  eexists. split; [reflexivity|].
  rewrite len_set_alpha, len_fill. split; [exact Hfb|].
  apply cleared_set_alpha_fill, Hfb.
Qed.

(** What [render_frame] leaves behind: the counter advanced by one, and in every
    pixel the colour that [pixel_color] computes from the fields of the
    state it returns. *)
Lemma zi_render_frame_eq s :
  len (ZeroImports.frame_buffer s) = 245760 ->
  exists fb,
    let s' :=
      ZeroImports.State fb (ZeroImports.nes_palette s) (ZeroImports.rom_buffer s) (ZeroImports.initialized s) (ZeroImports.rom_loaded s)
        (ZeroImports.controls s)
        ((ZeroImports.frame_count s + 1) mod 2 ^ 32)
        (ZeroImports.rom_size s) in
    ZeroImports.render_frame s = s' /\
    len fb = 245760 /\
    forall x y k, 0 <= x < 256 -> 0 <= y < 240 -> 0 <= k < 4 ->
      load fb ((y * 256 + x) * 4 + k) =
        (let '(r, g, b) := ZeroImports.pixel_color s' x y in rgba r g b 255 k) mod 256.
Proof.
  intros Hlen. unfold ZeroImports.render_frame. cbv zeta.
  cbn [ZeroImports.frame_buffer ZeroImports.nes_palette
       ZeroImports.rom_buffer ZeroImports.initialized ZeroImports.rom_loaded
       ZeroImports.controls ZeroImports.frame_count ZeroImports.rom_size].
  eexists. split; [reflexivity|].
  match goal with
  | |- context [ZeroImports.put_pixel ?s1] =>
      pose proof (raster_rgba (ZeroImports.pixel_color s1) (ZeroImports.frame_buffer s) Hlen) as H
  end.
  cbv zeta in H. destruct H as (Hl & Hpix).
  unfold ZeroImports.put_pixel. split; [exact Hl|].
  intros x y k Hx Hy Hk. rewrite (Hpix x y k Hx Hy Hk).
  unfold ZeroImports.pixel_color.
  cbn [ZeroImports.frame_buffer ZeroImports.nes_palette
       ZeroImports.rom_buffer ZeroImports.initialized ZeroImports.rom_loaded
       ZeroImports.controls ZeroImports.frame_count ZeroImports.rom_size].
  reflexivity.
Qed.

Lemma zi_frame_skip s : ZeroImports.initialized s = 0 -> ZeroImports.frame s = s.
Proof.
  intros H. unfold ZeroImports.frame.
  destruct (Z.eqb_spec (ZeroImports.initialized s) 0);
    try reflexivity; lia.
Qed.

Lemma zi_frame_render s : ZeroImports.initialized s <> 0 -> ZeroImports.frame s = ZeroImports.render_frame s.
Proof.
  intros H. unfold ZeroImports.frame.
  destruct (Z.eqb_spec (ZeroImports.initialized s) 0);
    try reflexivity; lia.
Qed.

(** [loadRom] writes the ROM buffer and the ROM metadata, nothing else. *)
Lemma zi_loadRom_frame rom_data size s :
  let s' := snd (ZeroImports.loadRom rom_data size s) in
  ZeroImports.frame_buffer s' = ZeroImports.frame_buffer s /\
  ZeroImports.nes_palette s' = ZeroImports.nes_palette s /\
  ZeroImports.controls s' = ZeroImports.controls s /\
  ZeroImports.frame_count s' = ZeroImports.frame_count s /\
  ZeroImports.initialized s' = ZeroImports.initialized s /\
  len (ZeroImports.rom_buffer s') = len (ZeroImports.rom_buffer s).
Proof.
  unfold ZeroImports.loadRom, ZeroImports.copy_mem. cbv zeta.
  break_ifs;
    cbn [snd ZeroImports.frame_buffer ZeroImports.nes_palette
       ZeroImports.rom_buffer ZeroImports.initialized ZeroImports.rom_loaded
       ZeroImports.controls ZeroImports.frame_count ZeroImports.rom_size];
    rewrite ?len_copy; repeat split.
Qed.

(** *** The invariant of the reachable states *)

Lemma zi_inv_init s : ZeroImports.inv s -> ZeroImports.inv (snd (ZeroImports.init s)).
Proof.
  intros (Hwf & Ha).
  destruct (Z.eq_dec (ZeroImports.initialized s) 0) as [E|E].
  - destruct (zi_init_fresh s E Hwf)
      as (fb & pal & rom & -> & Hfb & Hc & Hpal & Hb & Hrom & _).
    cbn [snd]. split_inv; try assumption.
    intros _. apply alpha_ok_cleared, Hc.
  - rewrite (zi_init_again s E). cbn [snd]. split; assumption.
Qed.

Lemma zi_inv_loadRom rom_data size s :
  ZeroImports.inv s -> ZeroImports.inv (snd (ZeroImports.loadRom rom_data size s)).
Proof.
  intros ((Hfb & Hpal & Hrom & Hb) & Ha).
  destruct (zi_loadRom_frame rom_data size s)
    as (Efb & Epal & _ & _ & Ei & Erom).
  unfold ZeroImports.inv, ZeroImports.wf.
  rewrite Efb, Epal, Ei, Erom. split_inv; assumption.
Qed.

Lemma zi_inv_frame s : ZeroImports.inv s -> ZeroImports.inv (ZeroImports.frame s).
Proof.
  intros ((Hfb & Hpal & Hrom & Hb) & Ha).
  destruct (Z.eq_dec (ZeroImports.initialized s) 0) as [Ei|Ei];
    [rewrite zi_frame_skip by assumption; split_inv; assumption|].
  rewrite zi_frame_render by assumption.
  destruct (zi_render_frame_eq s Hfb) as (fb & Heq & Hl & Hpix).
  cbv zeta in Heq, Hpix. rewrite Heq. split_inv; try assumption.
  intros _. apply alpha_ok_pixels. intros x y Hx Hy. rewrite Hpix by lia.
  destruct (ZeroImports.pixel_color _ x y) as ((r & g) & b). reflexivity.
Qed.

Lemma zi_inv_reset s : ZeroImports.inv s -> ZeroImports.inv (ZeroImports.reset s).
Proof.
  intros ((Hfb & Hpal & Hrom & Hb) & Ha).
  destruct (zi_reset_eq s Hfb) as (fb & -> & Hl & Hc).
  split_inv; try assumption. intros _. apply alpha_ok_cleared, Hc.
Qed.

Lemma zi_inv_setButton button pressed s :
  ZeroImports.inv s -> ZeroImports.inv (ZeroImports.setButton button pressed s).
Proof.
  intros ((Hfb & Hpal & Hrom & Hb) & Ha). unfold ZeroImports.setButton.
  destruct (_ || _); split_inv; assumption.
Qed.

Lemma zi_inv_setRunning r s : ZeroImports.inv s -> ZeroImports.inv (ZeroImports.setRunning r s).
Proof.
  intros ((Hfb & Hpal & Hrom & Hb) & Ha). split_inv; assumption.
Qed.

Lemma zi_inv_step s c : ZeroImports.inv s -> ZeroImports.inv (ZeroImports.step s c).
Proof.
  intros H. destruct c; cbn [ZeroImports.step].
  - apply zi_inv_init, H.
  - apply zi_inv_loadRom, H.
  - apply zi_inv_frame, H.
  - apply zi_inv_reset, H.
  - apply zi_inv_setButton, H.
  - apply zi_inv_setRunning, H.
  - exact H.
  - exact H.
  - exact H.
Qed.

Lemma zi_inv_run calls : forall s, ZeroImports.inv s -> ZeroImports.inv (ZeroImports.run calls s).
Proof.
  induction calls as [|c calls IH]; intros s H; [exact H|].
  apply IH, zi_inv_step, H.
Qed.

Lemma zi_reachable_inv s : ZeroImports.reachable s -> ZeroImports.inv s.
Proof.
  intros (calls & ->). apply zi_inv_run. split; [apply zi_wf_uninitialized|].
  intros H. contradiction H. reflexivity.
Qed.

(** ** Facts about [scripts/nes-standalone.c] *)

Lemma ns_wf_uninitialized : NesStandalone.wf NesStandalone.uninitialized.
Proof.
  unfold NesStandalone.wf, NesStandalone.uninitialized.
  cbn [NesStandalone.frame_buffer NesStandalone.nes_palette NesStandalone.rom_buffer].
  rewrite !len_zeros by lia.
  split; [|split; [|split]]; try reflexivity. apply bytes_zeros.
Qed.

Lemma ns_len_init_palette pal : len (NesStandalone.init_palette pal) = len pal.
Proof.
  unfold NesStandalone.init_palette.
  apply (for_preserves (fun p => len p = len pal)); [lia | | reflexivity].
  intros i p Hp. destruct (NesStandalone.colors_at i) as ((r & g) & b).
  rewrite !len_store. exact Hp.
Qed.

Lemma ns_bytes_init_palette pal : bytes pal -> bytes (NesStandalone.init_palette pal).
Proof.
  intros Hb. unfold NesStandalone.init_palette.
  apply (for_preserves bytes); [lia | | exact Hb].
  intros i p Hp. destruct (NesStandalone.colors_at i) as ((r & g) & b).
  repeat apply bytes_store. exact Hp.
Qed.

(** *** What each entry point returns *)

Lemma ns_init_again s : NesStandalone.initialized s <> 0 -> NesStandalone.init s = (1, s).
Proof.
  intros H. unfold NesStandalone.init.
  destruct (Z.eqb_spec (NesStandalone.initialized s) 0); [lia | reflexivity].
Qed.

Lemma ns_init_initialized s : NesStandalone.initialized (snd (NesStandalone.init s)) <> 0.
Proof.
  unfold NesStandalone.init.
  destruct (Z.eqb_spec (NesStandalone.initialized s) 0);
    cbn [negb snd NesStandalone.initialized]; [lia | assumption].
Qed.

Lemma ns_init_fresh s :
  NesStandalone.initialized s = 0 -> NesStandalone.wf s ->
  exists fb pal rom,
    NesStandalone.init s = (1, NesStandalone.State fb pal rom 1 0 0 0 0 0) /\
    len fb = 245760 /\ cleared fb /\ len pal = 256 /\ bytes pal /\
    len rom = 2097152 /\
    forall i k, 0 <= i < 64 -> 0 <= k < 4 ->
      load pal (i * 4 + k) =
        (let '(r, g, b) := NesStandalone.colors_at i in rgba r g b 255 k) mod 256.
Proof.
  intros H (Hfb & Hpal & Hrom & Hb). unfold NesStandalone.init.
  rewrite H. cbn [Z.eqb negb].
  unfold NesStandalone.clear_frame, NesStandalone.zero_memory.
  do 3 eexists. split; [reflexivity|].
  rewrite len_set_alpha, ns_len_init_palette, !len_fill.
  split; [exact Hfb|]. split.
  { apply cleared_set_alpha_fill. rewrite len_fill. exact Hfb. }
  split; [exact Hpal|]. split; [apply ns_bytes_init_palette, bytes_fill, Hb|].
  split; [exact Hrom|].
  apply (palette_rule (NesStandalone.colors_at)). rewrite len_fill. exact Hpal.
Qed.

Lemma ns_reset_eq s :
  len (NesStandalone.frame_buffer s) = 245760 ->
  exists fb,
    NesStandalone.reset s =
      NesStandalone.State fb (NesStandalone.nes_palette s) (NesStandalone.rom_buffer s) (NesStandalone.initialized s) (NesStandalone.rom_loaded s) 0 0
        (NesStandalone.rom_size s) (NesStandalone.mapper s) /\
    len fb = 245760 /\ cleared fb.
Proof.
  intros Hfb. unfold NesStandalone.reset, NesStandalone.clear_frame, NesStandalone.zero_memory.
  eexists. split; [reflexivity|].
  rewrite len_set_alpha, len_fill. split; [exact Hfb|].
  apply cleared_set_alpha_fill, Hfb.
Qed.

(** What [generate_frame] leaves behind: the counter advanced by one, and in every
    pixel the colour that [pixel_color] computes from the fields of the
    state it returns. *)
Lemma ns_generate_frame_eq s :
  len (NesStandalone.frame_buffer s) = 245760 ->
  exists fb,
    let s' :=
      NesStandalone.State fb (NesStandalone.nes_palette s) (NesStandalone.rom_buffer s) (NesStandalone.initialized s) (NesStandalone.rom_loaded s)
        (NesStandalone.controls s)
        ((NesStandalone.frame_count s + 1) mod 2 ^ 32)
        (NesStandalone.rom_size s) (NesStandalone.mapper s) in
    NesStandalone.generate_frame s = s' /\
    len fb = 245760 /\
    forall x y k, 0 <= x < 256 -> 0 <= y < 240 -> 0 <= k < 4 ->
      load fb ((y * 256 + x) * 4 + k) =
        (let '(r, g, b) := NesStandalone.pixel_color s' x y in rgba r g b 255 k) mod 256.
Proof.
  intros Hlen. unfold NesStandalone.generate_frame. cbv zeta.
  cbn [NesStandalone.frame_buffer NesStandalone.nes_palette
       NesStandalone.rom_buffer NesStandalone.initialized
       NesStandalone.rom_loaded NesStandalone.controls
       NesStandalone.frame_count NesStandalone.rom_size NesStandalone.mapper].
  eexists. split; [reflexivity|].
  match goal with
  | |- context [NesStandalone.put_pixel ?s1] =>
      pose proof (raster_rgba (NesStandalone.pixel_color s1) (NesStandalone.frame_buffer s) Hlen) as H
  end.
  cbv zeta in H. destruct H as (Hl & Hpix).
  unfold NesStandalone.put_pixel. split; [exact Hl|].
  intros x y k Hx Hy Hk. rewrite (Hpix x y k Hx Hy Hk).
  unfold NesStandalone.pixel_color.
  cbn [NesStandalone.frame_buffer NesStandalone.nes_palette
       NesStandalone.rom_buffer NesStandalone.initialized
       NesStandalone.rom_loaded NesStandalone.controls
       NesStandalone.frame_count NesStandalone.rom_size NesStandalone.mapper].
  reflexivity.
Qed.

Lemma ns_frame_skip s : NesStandalone.initialized s = 0 -> NesStandalone.frame s = s.
Proof.
  intros H. unfold NesStandalone.frame.
  destruct (Z.eqb_spec (NesStandalone.initialized s) 0);
    try reflexivity; lia.
Qed.

Lemma ns_frame_render s : NesStandalone.initialized s <> 0 -> NesStandalone.frame s = NesStandalone.generate_frame s.
Proof.
  intros H. unfold NesStandalone.frame.
  destruct (Z.eqb_spec (NesStandalone.initialized s) 0);
    try reflexivity; lia.
Qed.

(** [loadRom] writes the ROM buffer and the ROM metadata, nothing else. *)
Lemma ns_loadRom_frame rom_data size s :
  let s' := snd (NesStandalone.loadRom rom_data size s) in
  NesStandalone.frame_buffer s' = NesStandalone.frame_buffer s /\
  NesStandalone.nes_palette s' = NesStandalone.nes_palette s /\
  NesStandalone.controls s' = NesStandalone.controls s /\
  NesStandalone.frame_count s' = NesStandalone.frame_count s /\
  NesStandalone.initialized s' = NesStandalone.initialized s /\
  len (NesStandalone.rom_buffer s') = len (NesStandalone.rom_buffer s).
Proof.
  unfold NesStandalone.loadRom, NesStandalone.copy_memory. cbv zeta.
  break_ifs;
    cbn [snd NesStandalone.frame_buffer NesStandalone.nes_palette
       NesStandalone.rom_buffer NesStandalone.initialized
       NesStandalone.rom_loaded NesStandalone.controls
       NesStandalone.frame_count NesStandalone.rom_size NesStandalone.mapper];
    rewrite ?len_copy; repeat split.
Qed.

(** *** The invariant of the reachable states *)

Lemma ns_inv_init s : NesStandalone.inv s -> NesStandalone.inv (snd (NesStandalone.init s)).
Proof.
  intros (Hwf & Ha).
  destruct (Z.eq_dec (NesStandalone.initialized s) 0) as [E|E].
  - destruct (ns_init_fresh s E Hwf)
      as (fb & pal & rom & -> & Hfb & Hc & Hpal & Hb & Hrom & _).
    cbn [snd]. split_inv; try assumption.
    intros _. apply alpha_ok_cleared, Hc.
  - rewrite (ns_init_again s E). cbn [snd]. split; assumption.
Qed.

Lemma ns_inv_loadRom rom_data size s :
  NesStandalone.inv s -> NesStandalone.inv (snd (NesStandalone.loadRom rom_data size s)).
Proof.
  intros ((Hfb & Hpal & Hrom & Hb) & Ha).
  destruct (ns_loadRom_frame rom_data size s)
    as (Efb & Epal & _ & _ & Ei & Erom).
  unfold NesStandalone.inv, NesStandalone.wf.
  rewrite Efb, Epal, Ei, Erom. split_inv; assumption.
Qed.

Lemma ns_inv_frame s : NesStandalone.inv s -> NesStandalone.inv (NesStandalone.frame s).
Proof.
  intros ((Hfb & Hpal & Hrom & Hb) & Ha).
  destruct (Z.eq_dec (NesStandalone.initialized s) 0) as [Ei|Ei];
    [rewrite ns_frame_skip by assumption; split_inv; assumption|].
  rewrite ns_frame_render by assumption.
  destruct (ns_generate_frame_eq s Hfb) as (fb & Heq & Hl & Hpix).
  cbv zeta in Heq, Hpix. rewrite Heq. split_inv; try assumption.
  intros _. apply alpha_ok_pixels. intros x y Hx Hy. rewrite Hpix by lia.
  destruct (NesStandalone.pixel_color _ x y) as ((r & g) & b). reflexivity.
Qed.

Lemma ns_inv_reset s : NesStandalone.inv s -> NesStandalone.inv (NesStandalone.reset s).
Proof.
  intros ((Hfb & Hpal & Hrom & Hb) & Ha).
  destruct (ns_reset_eq s Hfb) as (fb & -> & Hl & Hc).
  split_inv; try assumption. intros _. apply alpha_ok_cleared, Hc.
Qed.

Lemma ns_inv_setButton button pressed s :
  NesStandalone.inv s -> NesStandalone.inv (NesStandalone.setButton button pressed s).
Proof.
  intros ((Hfb & Hpal & Hrom & Hb) & Ha). unfold NesStandalone.setButton.
  destruct (_ || _); split_inv; assumption.
Qed.

Lemma ns_inv_setRunning r s : NesStandalone.inv s -> NesStandalone.inv (NesStandalone.setRunning r s).
Proof.
  intros ((Hfb & Hpal & Hrom & Hb) & Ha). split_inv; assumption.
Qed.

Lemma ns_inv_step s c : NesStandalone.inv s -> NesStandalone.inv (NesStandalone.step s c).
Proof.
  intros H. destruct c; cbn [NesStandalone.step].
  - apply ns_inv_init, H.
  - apply ns_inv_loadRom, H.
  - apply ns_inv_frame, H.
  - apply ns_inv_reset, H.
  - apply ns_inv_setButton, H.
  - apply ns_inv_setRunning, H.
  - exact H.
  - exact H.
  - exact H.
Qed.

Lemma ns_inv_run calls : forall s, NesStandalone.inv s -> NesStandalone.inv (NesStandalone.run calls s).
Proof.
  induction calls as [|c calls IH]; intros s H; [exact H|].
  apply IH, ns_inv_step, H.
Qed.

Lemma ns_reachable_inv s : NesStandalone.reachable s -> NesStandalone.inv s.
Proof.
  intros (calls & ->). apply ns_inv_run. split; [apply ns_wf_uninitialized|].
  intros H. contradiction H. reflexivity.
Qed.

(** ** Facts about [scripts/fceux-zero-imports.c] *)

Lemma fzi_wf_uninitialized : FceuxZeroImports.wf FceuxZeroImports.uninitialized.
Proof.
  unfold FceuxZeroImports.wf, FceuxZeroImports.uninitialized,
    FceuxZeroImports.MAX_ROM_SIZE.
  cbn [FceuxZeroImports.frame_buffer FceuxZeroImports.nes_palette FceuxZeroImports.rom_buffer].
  rewrite !len_zeros by lia.
  split; [|split; [|split]]; try reflexivity. apply bytes_zeros.
Qed.

Lemma fzi_len_init_nes_palette pal : len (FceuxZeroImports.init_nes_palette pal) = len pal.
Proof.
  unfold FceuxZeroImports.init_nes_palette.
  apply (for_preserves (fun p => len p = len pal)); [lia | | reflexivity].
  intros i p Hp. destruct (FceuxZeroImports.palette_data_at i) as ((r & g) & b).
  rewrite !len_store. exact Hp.
Qed.

Lemma fzi_bytes_init_nes_palette pal : bytes pal -> bytes (FceuxZeroImports.init_nes_palette pal).
Proof.
  intros Hb. unfold FceuxZeroImports.init_nes_palette.
  apply (for_preserves bytes); [lia | | exact Hb].
  intros i p Hp. destruct (FceuxZeroImports.palette_data_at i) as ((r & g) & b).
  repeat apply bytes_store. exact Hp.
Qed.

(** *** What each entry point returns *)

Lemma fzi_init_again s : FceuxZeroImports.initialized s <> 0 -> FceuxZeroImports.init s = (1, s).
Proof.
  intros H. unfold FceuxZeroImports.init.
  destruct (Z.eqb_spec (FceuxZeroImports.initialized s) 0); [lia | reflexivity].
Qed.

Lemma fzi_init_initialized s : FceuxZeroImports.initialized (snd (FceuxZeroImports.init s)) <> 0.
Proof.
  unfold FceuxZeroImports.init.
  destruct (Z.eqb_spec (FceuxZeroImports.initialized s) 0);
    cbn [negb snd FceuxZeroImports.initialized]; [lia | assumption].
Qed.

Lemma fzi_init_fresh s :
  FceuxZeroImports.initialized s = 0 -> FceuxZeroImports.wf s ->
  exists fb pal rom,
    FceuxZeroImports.init s = (1, FceuxZeroImports.State fb pal rom 1 0 0 0 0 0 (FceuxZeroImports.prg_banks s)
            (FceuxZeroImports.chr_banks s) (FceuxZeroImports.mapper s)
            (FceuxZeroImports.has_chr_ram s)) /\
    len fb = 245760 /\ cleared fb /\ len pal = 256 /\ bytes pal /\
    len rom = FceuxZeroImports.MAX_ROM_SIZE /\
    forall i k, 0 <= i < 64 -> 0 <= k < 4 ->
      load pal (i * 4 + k) =
        (let '(r, g, b) := FceuxZeroImports.palette_data_at i in rgba r g b 255 k) mod 256.
Proof.
  intros H (Hfb & Hpal & Hrom & Hb). unfold FceuxZeroImports.init.
  rewrite H. cbn [Z.eqb negb].
  unfold FceuxZeroImports.clear_frame_buffer, FceuxZeroImports.my_memset.
  do 3 eexists. split; [reflexivity|].
  rewrite len_set_alpha, fzi_len_init_nes_palette, !len_fill.
  split; [exact Hfb|]. split.
  { apply cleared_set_alpha_fill. rewrite len_fill. exact Hfb. }
  split; [exact Hpal|]. split; [apply fzi_bytes_init_nes_palette, bytes_fill, Hb|].
  split; [exact Hrom|].
  apply (palette_rule (FceuxZeroImports.palette_data_at)). rewrite len_fill. exact Hpal.
Qed.

Lemma fzi_reset_eq s :
  len (FceuxZeroImports.frame_buffer s) = 245760 ->
  exists fb,
    FceuxZeroImports.reset s =
      FceuxZeroImports.State fb (FceuxZeroImports.nes_palette s) (FceuxZeroImports.rom_buffer s) (FceuxZeroImports.initialized s) (FceuxZeroImports.rom_loaded s) 0
        0 0 (FceuxZeroImports.rom_size s) (FceuxZeroImports.prg_banks s)
        (FceuxZeroImports.chr_banks s) (FceuxZeroImports.mapper s)
        (FceuxZeroImports.has_chr_ram s) /\
    len fb = 245760 /\ cleared fb.
Proof.
  intros Hfb. unfold FceuxZeroImports.reset, FceuxZeroImports.clear_frame_buffer, FceuxZeroImports.my_memset.
  eexists. split; [reflexivity|].
  rewrite len_set_alpha, len_fill. split; [exact Hfb|].
  apply cleared_set_alpha_fill, Hfb.
Qed.

(** What [generate_nes_frame] leaves behind: the counter advanced by one, and in every
    pixel the colour that [pixel_color] computes from the fields of the
    state it returns. *)
Lemma fzi_generate_nes_frame_eq s :
  len (FceuxZeroImports.frame_buffer s) = 245760 ->
  exists fb,
    let s' :=
      FceuxZeroImports.State fb (FceuxZeroImports.nes_palette s) (FceuxZeroImports.rom_buffer s) (FceuxZeroImports.initialized s) (FceuxZeroImports.rom_loaded s)
        (FceuxZeroImports.running s) (FceuxZeroImports.controls s)
        ((FceuxZeroImports.frame_count s + 1) mod 2 ^ 32)
        (FceuxZeroImports.rom_size s) (FceuxZeroImports.prg_banks s)
        (FceuxZeroImports.chr_banks s) (FceuxZeroImports.mapper s)
        (FceuxZeroImports.has_chr_ram s) in
    FceuxZeroImports.generate_nes_frame s = s' /\
    len fb = 245760 /\
    forall x y k, 0 <= x < 256 -> 0 <= y < 240 -> 0 <= k < 4 ->
      load fb ((y * 256 + x) * 4 + k) =
        (let '(r, g, b) := FceuxZeroImports.pixel_color s' x y in rgba r g b 255 k) mod 256.
Proof.
  intros Hlen. unfold FceuxZeroImports.generate_nes_frame. cbv zeta.
  cbn [FceuxZeroImports.frame_buffer FceuxZeroImports.nes_palette
       FceuxZeroImports.rom_buffer FceuxZeroImports.initialized
       FceuxZeroImports.rom_loaded FceuxZeroImports.running
       FceuxZeroImports.controls FceuxZeroImports.frame_count
       FceuxZeroImports.rom_size FceuxZeroImports.prg_banks
       FceuxZeroImports.chr_banks FceuxZeroImports.mapper
       FceuxZeroImports.has_chr_ram].
  eexists. split; [reflexivity|].
  match goal with
  | |- context [FceuxZeroImports.put_pixel ?s1] =>
      pose proof (raster_rgba (FceuxZeroImports.pixel_color s1) (FceuxZeroImports.frame_buffer s) Hlen) as H
  end.
  cbv zeta in H. destruct H as (Hl & Hpix).
  unfold FceuxZeroImports.put_pixel. split; [exact Hl|].
  intros x y k Hx Hy Hk. rewrite (Hpix x y k Hx Hy Hk).
  unfold FceuxZeroImports.pixel_color.
  cbn [FceuxZeroImports.frame_buffer FceuxZeroImports.nes_palette
       FceuxZeroImports.rom_buffer FceuxZeroImports.initialized
       FceuxZeroImports.rom_loaded FceuxZeroImports.running
       FceuxZeroImports.controls FceuxZeroImports.frame_count
       FceuxZeroImports.rom_size FceuxZeroImports.prg_banks
       FceuxZeroImports.chr_banks FceuxZeroImports.mapper
       FceuxZeroImports.has_chr_ram].
  reflexivity.
Qed.

Lemma fzi_frame_skip s : FceuxZeroImports.initialized s = 0 \/ FceuxZeroImports.rom_loaded s = 0 -> FceuxZeroImports.frame s = s.
Proof.
  intros H. unfold FceuxZeroImports.frame.
  destruct (Z.eqb_spec (FceuxZeroImports.initialized s) 0),
    (Z.eqb_spec (FceuxZeroImports.rom_loaded s) 0); cbn [orb];
    try reflexivity; lia.
Qed.

Lemma fzi_frame_render s : FceuxZeroImports.initialized s <> 0 /\ FceuxZeroImports.rom_loaded s <> 0 -> FceuxZeroImports.frame s = FceuxZeroImports.generate_nes_frame s.
Proof.
  intros H. unfold FceuxZeroImports.frame.
  destruct (Z.eqb_spec (FceuxZeroImports.initialized s) 0),
    (Z.eqb_spec (FceuxZeroImports.rom_loaded s) 0); cbn [orb];
    try reflexivity; lia.
Qed.

(** [loadRom] writes the ROM buffer and the ROM metadata, nothing else. *)
Lemma fzi_loadRom_frame rom_data size s :
  let s' := snd (FceuxZeroImports.loadRom rom_data size s) in
  FceuxZeroImports.frame_buffer s' = FceuxZeroImports.frame_buffer s /\
  FceuxZeroImports.nes_palette s' = FceuxZeroImports.nes_palette s /\
  FceuxZeroImports.controls s' = FceuxZeroImports.controls s /\
  FceuxZeroImports.frame_count s' = FceuxZeroImports.frame_count s /\
  FceuxZeroImports.initialized s' = FceuxZeroImports.initialized s /\
  len (FceuxZeroImports.rom_buffer s') = len (FceuxZeroImports.rom_buffer s).
Proof.
  unfold FceuxZeroImports.loadRom, FceuxZeroImports.my_memcpy. cbv zeta.
  break_ifs;
    cbn [snd FceuxZeroImports.frame_buffer FceuxZeroImports.nes_palette
       FceuxZeroImports.rom_buffer FceuxZeroImports.initialized
       FceuxZeroImports.rom_loaded FceuxZeroImports.running
       FceuxZeroImports.controls FceuxZeroImports.frame_count
       FceuxZeroImports.rom_size FceuxZeroImports.prg_banks
       FceuxZeroImports.chr_banks FceuxZeroImports.mapper
       FceuxZeroImports.has_chr_ram];
    rewrite ?len_copy; repeat split.
Qed.

(** *** The invariant of the reachable states *)

Lemma fzi_inv_init s : FceuxZeroImports.inv s -> FceuxZeroImports.inv (snd (FceuxZeroImports.init s)).
Proof.
  intros (Hwf & Ha).
  destruct (Z.eq_dec (FceuxZeroImports.initialized s) 0) as [E|E].
  - destruct (fzi_init_fresh s E Hwf)
      as (fb & pal & rom & -> & Hfb & Hc & Hpal & Hb & Hrom & _).
    cbn [snd]. split_inv; try assumption.
    intros _. apply alpha_ok_cleared, Hc.
  - rewrite (fzi_init_again s E). cbn [snd]. split; assumption.
Qed.

Lemma fzi_inv_loadRom rom_data size s :
  FceuxZeroImports.inv s -> FceuxZeroImports.inv (snd (FceuxZeroImports.loadRom rom_data size s)).
Proof.
  intros ((Hfb & Hpal & Hrom & Hb) & Ha).
  destruct (fzi_loadRom_frame rom_data size s)
    as (Efb & Epal & _ & _ & Ei & Erom).
  unfold FceuxZeroImports.inv, FceuxZeroImports.wf.
  rewrite Efb, Epal, Ei, Erom. split_inv; assumption.
Qed.

Lemma fzi_inv_frame s : FceuxZeroImports.inv s -> FceuxZeroImports.inv (FceuxZeroImports.frame s).
Proof.
  intros ((Hfb & Hpal & Hrom & Hb) & Ha).
  destruct (Z.eq_dec (FceuxZeroImports.initialized s) 0) as [Ei|Ei];
    [rewrite fzi_frame_skip by auto; split_inv; assumption|].
  destruct (Z.eq_dec (FceuxZeroImports.rom_loaded s) 0) as [Er|Er];
    [rewrite fzi_frame_skip by auto; split_inv; assumption|].
  rewrite fzi_frame_render by (split; assumption).
  destruct (fzi_generate_nes_frame_eq s Hfb) as (fb & Heq & Hl & Hpix).
  cbv zeta in Heq, Hpix. rewrite Heq. split_inv; try assumption.
  intros _. apply alpha_ok_pixels. intros x y Hx Hy. rewrite Hpix by lia.
  destruct (FceuxZeroImports.pixel_color _ x y) as ((r & g) & b). reflexivity.
Qed.

Lemma fzi_inv_reset s : FceuxZeroImports.inv s -> FceuxZeroImports.inv (FceuxZeroImports.reset s).
Proof.
  intros ((Hfb & Hpal & Hrom & Hb) & Ha).
  destruct (fzi_reset_eq s Hfb) as (fb & -> & Hl & Hc).
  split_inv; try assumption. intros _. apply alpha_ok_cleared, Hc.
Qed.

Lemma fzi_inv_setButton button pressed s :
  FceuxZeroImports.inv s -> FceuxZeroImports.inv (FceuxZeroImports.setButton button pressed s).
Proof.
  intros ((Hfb & Hpal & Hrom & Hb) & Ha). unfold FceuxZeroImports.setButton.
  destruct (_ || _); split_inv; assumption.
Qed.

Lemma fzi_inv_setRunning r s : FceuxZeroImports.inv s -> FceuxZeroImports.inv (FceuxZeroImports.setRunning r s).
Proof.
  intros ((Hfb & Hpal & Hrom & Hb) & Ha). split_inv; assumption.
Qed.

Lemma fzi_inv_step s c : FceuxZeroImports.inv s -> FceuxZeroImports.inv (FceuxZeroImports.step s c).
Proof.
  intros H. destruct c; cbn [FceuxZeroImports.step].
  - apply fzi_inv_init, H.
  - apply fzi_inv_loadRom, H.
  - apply fzi_inv_frame, H.
  - apply fzi_inv_reset, H.
  - apply fzi_inv_setButton, H.
  - apply fzi_inv_setRunning, H.
  - exact H.
  - exact H.
  - exact H.
Qed.

Lemma fzi_inv_run calls : forall s, FceuxZeroImports.inv s -> FceuxZeroImports.inv (FceuxZeroImports.run calls s).
Proof.
  induction calls as [|c calls IH]; intros s H; [exact H|].
  apply IH, fzi_inv_step, H.
Qed.

Lemma fzi_reachable_inv s : FceuxZeroImports.reachable s -> FceuxZeroImports.inv s.
Proof.
  intros (calls & ->). apply fzi_inv_run. split; [apply fzi_wf_uninitialized|].
  intros H. contradiction H. reflexivity.
Qed.

(** ** Facts about [scripts/fceux-simple.c] *)

Lemma fs_wf_uninitialized : FceuxSimple.wf FceuxSimple.uninitialized.
Proof.
  unfold FceuxSimple.wf, FceuxSimple.uninitialized.
  cbn [FceuxSimple.frame_buffer]. now rewrite len_zeros by lia.
Qed.

(** The three pixel bodies leave 255 in the alpha byte of their pixel and
    keep every other alpha byte. *)
Lemma pixel_offset_mod x y k : 0 <= k < 4 -> ((y * 256 + x) * 4 + k) mod 4 = k.
Proof.
  intros Hk. rewrite Z.add_comm, Z.mod_add by lia. now apply Z.mod_small.
Qed.

Lemma alpha_of_rgba p x y r g b j :
  len p = 245760 -> 0 <= x < 256 -> 0 <= y < 240 -> 0 <= j -> j mod 4 = 3 ->
  load (store (store (store (store p ((y * 256 + x) * 4 + 0) r)
          ((y * 256 + x) * 4 + 1) g) ((y * 256 + x) * 4 + 2) b)
          ((y * 256 + x) * 4 + 3) 255) j =
    if ((y * 256 + x) * 4 <=? j) && (j <? (y * 256 + x) * 4 + 4) then 255
    else load p j.
Proof.
  intros Hp Hx Hy Hj Hmod.
  destruct (store_rgba p ((y * 256 + x) * 4) r g b 255) as (_ & Hld); try lia.
  rewrite Hld by lia.
  destruct (Z.leb_spec ((y * 256 + x) * 4) j),
    (Z.ltb_spec j ((y * 256 + x) * 4 + 4)); cbn [andb]; try reflexivity.
  assert (j - (y * 256 + x) * 4 = 3) as -> by (Z.div_mod_to_equations; lia).
  reflexivity.
Qed.

Lemma load_store_alpha p x y k v j :
  0 <= x -> 0 <= y -> 0 <= k < 3 -> 0 <= j -> j mod 4 = 3 ->
  load (store p ((y * 256 + x) * 4 + k) v) j = load p j.
Proof.
  intros Hx Hy Hk Hj Hmod. apply load_store_ne; try lia.
  intros E. subst j. rewrite pixel_offset_mod in Hmod by lia. lia.
Qed.

Lemma fs_put_pixel_nrom fc x y p :
  0 <= x < 256 -> 0 <= y < 240 -> len p = 245760 ->
  len (FceuxSimple.put_pixel_nrom fc x y p) = 245760 /\
  forall j, 0 <= j -> j mod 4 = 3 ->
    load (FceuxSimple.put_pixel_nrom fc x y p) j =
      if ((y * 256 + x) * 4 <=? j) && (j <? (y * 256 + x) * 4 + 4) then 255
      else load p j.
Proof.
  intros Hx Hy Hp. unfold FceuxSimple.put_pixel_nrom. cbv zeta.
  split; [rewrite !len_store; exact Hp|].
  intros j Hj Hmod. now apply alpha_of_rgba.
Qed.

Lemma fs_put_pixel_other fc x y p :
  0 <= x < 256 -> 0 <= y < 240 -> len p = 245760 ->
  len (FceuxSimple.put_pixel_other fc x y p) = 245760 /\
  forall j, 0 <= j -> j mod 4 = 3 ->
    load (FceuxSimple.put_pixel_other fc x y p) j =
      if ((y * 256 + x) * 4 <=? j) && (j <? (y * 256 + x) * 4 + 4) then 255
      else load p j.
Proof.
  intros Hx Hy Hp. unfold FceuxSimple.put_pixel_other. cbv zeta.
  split; [rewrite !len_store; exact Hp|].
  intros j Hj Hmod. now apply alpha_of_rgba.
Qed.

Lemma fs_put_pixel_unrom s x y p :
  0 <= x < 256 -> 0 <= y < 240 -> len p = 245760 ->
  len (FceuxSimple.put_pixel_unrom s x y p) = 245760 /\
  forall j, 0 <= j -> j mod 4 = 3 ->
    load (FceuxSimple.put_pixel_unrom s x y p) j =
      if ((y * 256 + x) * 4 <=? j) && (j <? (y * 256 + x) * 4 + 4) then 255
      else load p j.
Proof.
  intros Hx Hy Hp. unfold FceuxSimple.put_pixel_unrom. cbv zeta.
  split.
  - break_ifs; rewrite !len_store; exact Hp.
  - intros j Hj Hmod.
    destruct (Z.land (FceuxSimple.controls s) 1 =? 0),
      (Z.land (FceuxSimple.controls s) 2 =? 0),
      (Z.land (FceuxSimple.controls s) 128 =? 0);
      rewrite ?load_store_alpha by lia; now apply alpha_of_rgba.
Qed.

Lemma fs_raster_alpha (body : Z -> Z -> list Z -> list Z) fb :
  (forall x y p, 0 <= x < 256 -> 0 <= y < 240 -> len p = 245760 ->
     len (body x y p) = 245760 /\
     forall j, 0 <= j -> j mod 4 = 3 ->
       load (body x y p) j =
         if ((y * 256 + x) * 4 <=? j) && (j <? (y * 256 + x) * 4 + 4) then 255
         else load p j) ->
  len fb = 245760 ->
  let fb' := for_ 0 240 1 (fun y p => for_ 0 256 1 (fun x p => body x y p) p) fb in
  len fb' = 245760 /\ alpha_ok fb'.
Proof.
  intros Hbody Hlen fb'.
  destruct (raster_rule (fun k => k = 3) body (fun _ _ _ => 255) fb Hbody Hlen)
    as (Hl & Hpix).
  split; [exact Hl|]. apply alpha_ok_pixels.
  intros x y Hx Hy. apply Hpix; lia.
Qed.

(** *** What each entry point returns *)

Lemma fs_init_again s : FceuxSimple.initialized s <> 0 -> FceuxSimple.init s = (1, s).
Proof.
  intros H. unfold FceuxSimple.init.
  destruct (Z.eqb_spec (FceuxSimple.initialized s) 0); [lia | reflexivity].
Qed.

Lemma fs_init_initialized s : FceuxSimple.initialized (snd (FceuxSimple.init s)) <> 0.
Proof.
  unfold FceuxSimple.init.
  destruct (Z.eqb_spec (FceuxSimple.initialized s) 0);
    cbn [negb snd FceuxSimple.initialized]; [lia | assumption].
Qed.

Lemma fs_init_fresh s :
  FceuxSimple.initialized s = 0 -> FceuxSimple.wf s ->
  exists rom fb chr prg pal,
    FceuxSimple.init s =
      (1, FceuxSimple.State rom (FceuxSimple.rom_size s) fb chr prg pal
            0 1 0 0 0
            (FceuxSimple.prg_banks s) (FceuxSimple.chr_banks s)
            (FceuxSimple.mapper s) (FceuxSimple.has_chr_ram s)
            (FceuxSimple.has_trainer s) (FceuxSimple.has_battery s)) /\
    len fb = 245760 /\ cleared fb.
Proof.
  intros H Hfb. unfold FceuxSimple.wf in Hfb. unfold FceuxSimple.init.
  rewrite H. cbn [Z.eqb negb]. unfold FceuxSimple.memset. cbv zeta.
  do 5 eexists. split; [reflexivity|].
  rewrite len_set_alpha, len_fill. split; [exact Hfb|].
  apply cleared_set_alpha_fill, Hfb.
Qed.

Lemma fs_reset_eq s :
  len (FceuxSimple.frame_buffer s) = 245760 ->
  exists fb chr,
    FceuxSimple.reset s =
      FceuxSimple.State (FceuxSimple.rom_data s) (FceuxSimple.rom_size s) fb
        chr (FceuxSimple.prg_ram s) (FceuxSimple.palette s) 0
        (FceuxSimple.initialized s) (FceuxSimple.rom_loaded s)
        (FceuxSimple.running s) 0
        (FceuxSimple.prg_banks s) (FceuxSimple.chr_banks s)
        (FceuxSimple.mapper s) (FceuxSimple.has_chr_ram s)
        (FceuxSimple.has_trainer s) (FceuxSimple.has_battery s) /\
    len fb = 245760 /\ cleared fb.
Proof.
  intros Hfb. unfold FceuxSimple.reset, FceuxSimple.memset. cbv zeta.
  do 2 eexists. split; [reflexivity|].
  rewrite len_set_alpha, len_fill. split; [exact Hfb|].
  apply cleared_set_alpha_fill, Hfb.
Qed.

(** What [frame] leaves behind when it renders: the counter advanced by
    one and an opaque buffer; nothing else moves. *)
Lemma fs_render_eq s :
  len (FceuxSimple.frame_buffer s) = 245760 ->
  exists fb,
    FceuxSimple.render s =
      FceuxSimple.State (FceuxSimple.rom_data s) (FceuxSimple.rom_size s) fb
        (FceuxSimple.chr_ram s) (FceuxSimple.prg_ram s) (FceuxSimple.palette s)
        (FceuxSimple.controls s) (FceuxSimple.initialized s)
        (FceuxSimple.rom_loaded s) (FceuxSimple.running s)
        ((FceuxSimple.frame_count s + 1) mod 2 ^ 32)
        (FceuxSimple.prg_banks s) (FceuxSimple.chr_banks s)
        (FceuxSimple.mapper s) (FceuxSimple.has_chr_ram s)
        (FceuxSimple.has_trainer s) (FceuxSimple.has_battery s) /\
    len fb = 245760 /\ alpha_ok fb.
Proof.
  intros Hlen. unfold FceuxSimple.render. cbv zeta.
  cbn [FceuxSimple.rom_data FceuxSimple.rom_size FceuxSimple.frame_buffer
       FceuxSimple.chr_ram FceuxSimple.prg_ram FceuxSimple.palette
       FceuxSimple.controls FceuxSimple.initialized FceuxSimple.rom_loaded
       FceuxSimple.running FceuxSimple.frame_count FceuxSimple.prg_banks
       FceuxSimple.chr_banks FceuxSimple.mapper FceuxSimple.has_chr_ram
       FceuxSimple.has_trainer FceuxSimple.has_battery].
  eexists. split; [reflexivity|].
  destruct (FceuxSimple.mapper s =? 0); [|destruct (FceuxSimple.mapper s =? 2)].
  - apply (fs_raster_alpha (FceuxSimple.put_pixel_nrom _)); [|exact Hlen].
    intros x y p. apply fs_put_pixel_nrom.
  - apply (fs_raster_alpha (FceuxSimple.put_pixel_unrom _)); [|exact Hlen].
    intros x y p. apply fs_put_pixel_unrom.
  - apply (fs_raster_alpha (FceuxSimple.put_pixel_other _)); [|exact Hlen].
    intros x y p. apply fs_put_pixel_other.
Qed.

Lemma fs_frame_skip s :
  FceuxSimple.initialized s = 0 \/ FceuxSimple.rom_loaded s = 0 \/
  FceuxSimple.running s = 0 ->
  FceuxSimple.frame s = s.
Proof.
  intros H. unfold FceuxSimple.frame.
  destruct (Z.eqb_spec (FceuxSimple.initialized s) 0),
    (Z.eqb_spec (FceuxSimple.rom_loaded s) 0),
    (Z.eqb_spec (FceuxSimple.running s) 0); cbn [orb];
    try reflexivity; lia.
Qed.

Lemma fs_frame_render s :
  FceuxSimple.initialized s <> 0 /\ FceuxSimple.rom_loaded s <> 0 /\
  FceuxSimple.running s <> 0 ->
  FceuxSimple.frame s = FceuxSimple.render s.
Proof.
  intros H. unfold FceuxSimple.frame.
  destruct (Z.eqb_spec (FceuxSimple.initialized s) 0),
    (Z.eqb_spec (FceuxSimple.rom_loaded s) 0),
    (Z.eqb_spec (FceuxSimple.running s) 0); cbn [orb];
    try reflexivity; lia.
Qed.

(** [loadRom] writes the ROM buffer, the ROM metadata and CHR RAM, nothing
    else. *)
Lemma fs_loadRom_frame rom size s :
  let s' := snd (FceuxSimple.loadRom rom size s) in
  FceuxSimple.frame_buffer s' = FceuxSimple.frame_buffer s /\
  FceuxSimple.palette s' = FceuxSimple.palette s /\
  FceuxSimple.controls s' = FceuxSimple.controls s /\
  FceuxSimple.frame_count s' = FceuxSimple.frame_count s /\
  FceuxSimple.initialized s' = FceuxSimple.initialized s.
Proof.
  unfold FceuxSimple.loadRom. cbv zeta.
  repeat match goal with
  | |- context [snd (if ?c then _ else _)] => destruct c
  end;
    cbn [snd FceuxSimple.frame_buffer FceuxSimple.palette FceuxSimple.controls
         FceuxSimple.frame_count FceuxSimple.initialized];
    repeat split.
Qed.

(** *** The invariant of the reachable states *)

Lemma fs_inv_init s : FceuxSimple.inv s -> FceuxSimple.inv (snd (FceuxSimple.init s)).
Proof.
  intros (Hwf & Ha).
  destruct (Z.eq_dec (FceuxSimple.initialized s) 0) as [E|E].
  - destruct (fs_init_fresh s E Hwf)
      as (rom & fb & chr & prg & pal & -> & Hfb & Hc).
    cbn [snd]. split; [exact Hfb|]. intros _. apply alpha_ok_cleared, Hc.
  - rewrite (fs_init_again s E). cbn [snd]. split; assumption.
Qed.

Lemma fs_inv_loadRom rom size s :
  FceuxSimple.inv s -> FceuxSimple.inv (snd (FceuxSimple.loadRom rom size s)).
Proof.
  intros (Hfb & Ha).
  destruct (fs_loadRom_frame rom size s) as (Efb & _ & _ & _ & Ei).
  unfold FceuxSimple.inv, FceuxSimple.wf. rewrite Efb, Ei.
  split; assumption.
Qed.

Lemma fs_inv_frame s : FceuxSimple.inv s -> FceuxSimple.inv (FceuxSimple.frame s).
Proof.
  intros (Hfb & Ha).
  destruct (Z.eq_dec (FceuxSimple.initialized s) 0) as [Ei|Ei];
    [rewrite fs_frame_skip by auto; split; assumption|].
  destruct (Z.eq_dec (FceuxSimple.rom_loaded s) 0) as [Er|Er];
    [rewrite fs_frame_skip by auto; split; assumption|].
  destruct (Z.eq_dec (FceuxSimple.running s) 0) as [Eg|Eg];
    [rewrite fs_frame_skip by auto; split; assumption|].
  rewrite fs_frame_render by auto.
  destruct (fs_render_eq s Hfb) as (fb & -> & Hl & Hal).
  split; [exact Hl|]. intros _. exact Hal.
Qed.

Lemma fs_inv_reset s : FceuxSimple.inv s -> FceuxSimple.inv (FceuxSimple.reset s).
Proof.
  intros (Hfb & Ha).
  destruct (fs_reset_eq s Hfb) as (fb & chr & -> & Hl & Hc).
  split; [exact Hl|]. intros _. apply alpha_ok_cleared, Hc.
Qed.

Lemma fs_inv_setButton button pressed s :
  FceuxSimple.inv s -> FceuxSimple.inv (FceuxSimple.setButton button pressed s).
Proof.
  intros (Hfb & Ha). unfold FceuxSimple.setButton.
  destruct (_ || _); split; assumption.
Qed.

Lemma fs_inv_setRunning r s :
  FceuxSimple.inv s -> FceuxSimple.inv (FceuxSimple.setRunning r s).
Proof. intros (Hfb & Ha). split; assumption. Qed.

Lemma fs_inv_step s c : FceuxSimple.inv s -> FceuxSimple.inv (FceuxSimple.step s c).
Proof.
  intros H. destruct c; cbn [FceuxSimple.step].
  - apply fs_inv_init, H.
  - apply fs_inv_loadRom, H.
  - apply fs_inv_frame, H.
  - apply fs_inv_reset, H.
  - apply fs_inv_setButton, H.
  - apply fs_inv_setRunning, H.
  - exact H.
  - exact H.
  - exact H.
Qed.

Lemma fs_inv_run calls : forall s,
  FceuxSimple.inv s -> FceuxSimple.inv (FceuxSimple.run calls s).
Proof.
  induction calls as [|c calls IH]; intros s H; [exact H|].
  apply IH, fs_inv_step, H.
Qed.

Lemma fs_reachable_inv s : FceuxSimple.reachable s -> FceuxSimple.inv s.
Proof.
  intros (calls & ->). apply fs_inv_run. split; [apply fs_wf_uninitialized|].
  intros H. contradiction H. reflexivity.
Qed.

(** ** [loadRom], path by path *)

(** Decides the size and magic guards of [loadRom] from the hypotheses. *)
Ltac pass_guards Hsize Hmagic :=
  unfold INes.size_ok in Hsize;
  destruct Hmagic as (Hm0 & Hm1 & Hm2 & Hm3);
  rewrite ?Hm0, ?Hm1, ?Hm2, ?Hm3;
  cbn [Z.eqb Pos.eqb negb orb];
  repeat match goal with
  | |- context [?a <? 16] => destruct (Z.ltb_spec a 16); [lia|]
  | |- context [?a >? ?b] =>
      rewrite (Z.gtb_ltb a b); destruct (Z.ltb_spec b a); [unfold b in *; lia|]
  | |- context [?a >? 2097152] =>
      rewrite (Z.gtb_ltb a 2097152); destruct (Z.ltb_spec 2097152 a); [lia|]
  end;
  cbn [orb].

Lemma zi_loadRom_uninit rom_data size s :
  ZeroImports.initialized s = 0 -> ZeroImports.loadRom rom_data size s = (0, s).
Proof. intros H. unfold ZeroImports.loadRom. rewrite H. reflexivity. Qed.

Lemma zi_loadRom_accept rom_data size s :
  ZeroImports.initialized s <> 0 -> INes.size_ok size -> INes.magic_ok rom_data ->
  ZeroImports.loadRom rom_data size s =
    (1, ZeroImports.State (ZeroImports.frame_buffer s) (ZeroImports.nes_palette s)
          (copy (ZeroImports.rom_buffer s) rom_data size)
          (ZeroImports.initialized s) 1 (ZeroImports.controls s)
          (ZeroImports.frame_count s) size).
Proof.
  intros Hi Hsize Hmagic. unfold ZeroImports.loadRom, ZeroImports.copy_mem.
  destruct (Z.eqb_spec (ZeroImports.initialized s) 0); [lia|].
  pass_guards Hsize Hmagic. reflexivity.
Qed.

Lemma ns_loadRom_uninit rom_data size s :
  NesStandalone.initialized s = 0 -> NesStandalone.loadRom rom_data size s = (0, s).
Proof. intros H. unfold NesStandalone.loadRom. rewrite H. reflexivity. Qed.

Lemma ns_loadRom_accept rom_data size s :
  NesStandalone.initialized s <> 0 -> INes.size_ok size -> INes.magic_ok rom_data ->
  NesStandalone.loadRom rom_data size s =
    (1, NesStandalone.State (NesStandalone.frame_buffer s)
          (NesStandalone.nes_palette s)
          (copy (NesStandalone.rom_buffer s) rom_data size)
          (NesStandalone.initialized s) 1 (NesStandalone.controls s)
          (NesStandalone.frame_count s) size (INes.mapper_of rom_data mod 256)).
Proof.
  intros Hi Hsize Hmagic. unfold NesStandalone.loadRom, NesStandalone.copy_memory.
  destruct (Z.eqb_spec (NesStandalone.initialized s) 0); [lia|].
  pass_guards Hsize Hmagic. reflexivity.
Qed.

Lemma fzi_loadRom_uninit rom_data size s :
  FceuxZeroImports.initialized s = 0 ->
  FceuxZeroImports.loadRom rom_data size s = (0, s).
Proof. intros H. unfold FceuxZeroImports.loadRom. rewrite H. reflexivity. Qed.

(** The zero-PRG path: the call fails after the metadata statics have
    been assigned from the header. *)
Lemma fzi_loadRom_reject_prg0 rom_data size s :
  FceuxZeroImports.initialized s <> 0 -> INes.size_ok size ->
  INes.magic_ok rom_data -> load rom_data 4 = 0 ->
  FceuxZeroImports.loadRom rom_data size s =
    (0, FceuxZeroImports.State (FceuxZeroImports.frame_buffer s)
          (FceuxZeroImports.nes_palette s) (FceuxZeroImports.rom_buffer s)
          (FceuxZeroImports.initialized s) (FceuxZeroImports.rom_loaded s)
          (FceuxZeroImports.running s) (FceuxZeroImports.controls s)
          (FceuxZeroImports.frame_count s) (FceuxZeroImports.rom_size s)
          0 (load rom_data 5) (INes.mapper_of rom_data mod 256)
          (INes.chr_ram_of rom_data)).
Proof.
  intros Hi Hsize Hmagic Hprg. unfold FceuxZeroImports.loadRom.
  destruct (Z.eqb_spec (FceuxZeroImports.initialized s) 0); [lia|].
  pass_guards Hsize Hmagic. cbv zeta. rewrite Hprg. reflexivity.
Qed.

Lemma fzi_loadRom_accept rom_data size s :
  FceuxZeroImports.initialized s <> 0 -> INes.size_ok size ->
  INes.magic_ok rom_data -> load rom_data 4 <> 0 ->
  FceuxZeroImports.loadRom rom_data size s =
    (1, FceuxZeroImports.State (FceuxZeroImports.frame_buffer s)
          (FceuxZeroImports.nes_palette s)
          (copy (FceuxZeroImports.rom_buffer s) rom_data size)
          (FceuxZeroImports.initialized s) 1
          (FceuxZeroImports.running s) (FceuxZeroImports.controls s)
          (FceuxZeroImports.frame_count s) size
          (load rom_data 4) (load rom_data 5) (INes.mapper_of rom_data mod 256)
          (INes.chr_ram_of rom_data)).
Proof.
  intros Hi Hsize Hmagic Hprg.
  unfold FceuxZeroImports.loadRom, FceuxZeroImports.my_memcpy.
  destruct (Z.eqb_spec (FceuxZeroImports.initialized s) 0); [lia|].
  pass_guards Hsize Hmagic. cbv zeta.
  destruct (Z.eqb_spec (load rom_data 4) 0); [lia|]. reflexivity.
Qed.

Lemma fs_loadRom_uninit rom size s :
  FceuxSimple.initialized s = 0 -> FceuxSimple.loadRom rom size s = (0, s).
Proof. intros H. unfold FceuxSimple.loadRom. rewrite H. reflexivity. Qed.

Lemma fs_loadRom_reject_prg0 rom size s :
  FceuxSimple.initialized s <> 0 -> INes.size_ok size ->
  INes.magic_ok rom -> load rom 4 = 0 ->
  FceuxSimple.loadRom rom size s =
    (0, FceuxSimple.State (FceuxSimple.rom_data s) (FceuxSimple.rom_size s)
          (FceuxSimple.frame_buffer s) (FceuxSimple.chr_ram s)
          (FceuxSimple.prg_ram s) (FceuxSimple.palette s)
          (FceuxSimple.controls s) (FceuxSimple.initialized s)
          (FceuxSimple.rom_loaded s) (FceuxSimple.running s)
          (FceuxSimple.frame_count s)
          0 (load rom 5) (INes.mapper_of rom mod 256) (INes.chr_ram_of rom)
          (if Z.land (load rom 6) 4 =? 0 then 0 else 1)
          (if Z.land (load rom 6) 2 =? 0 then 0 else 1)).
Proof.
  intros Hi Hsize Hmagic Hprg. unfold FceuxSimple.loadRom. cbv zeta.
  rewrite (Z.mod_small size) by (unfold INes.size_ok in Hsize; lia).
  destruct (Z.eqb_spec (FceuxSimple.initialized s) 0); [lia|].
  pass_guards Hsize Hmagic. rewrite Hprg. reflexivity.
Qed.

(** The expected footprint of the strict size check. *)
Lemma fs_loadRom_accept rom size s :
  FceuxSimple.initialized s <> 0 -> INes.size_ok size ->
  INes.magic_ok rom -> load rom 4 = 1 -> load rom 5 = 0 -> load rom 6 = 0 ->
  16400 <= size ->
  exists rom' chr,
    FceuxSimple.loadRom rom size s =
      (1, FceuxSimple.State rom' size
            (FceuxSimple.frame_buffer s) chr
            (FceuxSimple.prg_ram s) (FceuxSimple.palette s)
            (FceuxSimple.controls s) (FceuxSimple.initialized s)
            1 (FceuxSimple.running s) (FceuxSimple.frame_count s)
            1 0 (INes.mapper_of rom mod 256) 1 0 0).
Proof.
  intros Hi Hsize Hmagic Hprg Hchr Hf6 Hexp. unfold FceuxSimple.loadRom. cbv zeta.
  rewrite (Z.mod_small size) by (unfold INes.size_ok in Hsize; lia).
  destruct (Z.eqb_spec (FceuxSimple.initialized s) 0); [lia|].
  pass_guards Hsize Hmagic. rewrite Hprg, Hchr, Hf6.
  change (Z.land 0 4) with 0. change (Z.land 0 2) with 0. cbn [Z.eqb Pos.eqb].
  change ((((16 + 1 * 16384) mod 2 ^ 32 + 0 * 8192) mod 2 ^ 32)) with 16400.
  destruct (Z.ltb_spec size 16400); [lia|].
  do 2 eexists. unfold INes.mapper_of. rewrite Hf6. reflexivity.
Qed.

(** ** The example images *)

Lemma load_app_l (a b : list Z) i : 0 <= i < len a -> load (a ++ b) i = load a i.
Proof.
  unfold load, len. intros Hi. now rewrite lookup_app_l by lia.
Qed.

Lemma size_ok_16 : INes.size_ok 16.
Proof. unfold INes.size_ok. lia. Qed.

Lemma size_ok_16400 : INes.size_ok 16400.
Proof. unfold INes.size_ok. lia. Qed.

Lemma magic_nrom_header : INes.magic_ok Roms.nrom_header.
Proof. repeat split. Qed.

Lemma magic_no_prg_header : INes.magic_ok Roms.no_prg_header.
Proof. repeat split. Qed.

Lemma magic_unrom_header : INes.magic_ok Roms.unrom_header.
Proof. repeat split. Qed.

Lemma load_nrom_image i :
  0 <= i < 16 ->
  load Roms.nrom_image i =
    load [0x4E; 0x45; 0x53; 0x1A; 1; 0; 0; 0; 0; 0; 0; 0; 0; 0; 0; 0] i.
Proof. intros Hi. unfold Roms.nrom_image. apply load_app_l. exact Hi. Qed.

Lemma magic_nrom_image : INes.magic_ok Roms.nrom_image.
Proof.
  unfold INes.magic_ok. rewrite !load_nrom_image by lia. repeat split.
Qed.

(** ** The states the examples pass through *)

Lemma ns_after_init :
  exists fb pal rom,
    snd (NesStandalone.init NesStandalone.uninitialized) =
      NesStandalone.State fb pal rom 1 0 0 0 0 0 /\
    len fb = 245760 /\ len pal = 256 /\ bytes pal /\ len rom = 2097152 /\
    forall i k, 0 <= i < 64 -> 0 <= k < 4 ->
      load pal (i * 4 + k) =
        (let '(r, g, b) := NesStandalone.colors_at i in rgba r g b 255 k) mod 256.
Proof.
  destruct (ns_init_fresh NesStandalone.uninitialized eq_refl ns_wf_uninitialized)
    as (fb & pal & rom & Heq & Hfb & _ & Hpal & Hb & Hrom & Hcol).
  exists fb, pal, rom. rewrite Heq. auto 10.
Qed.

Lemma fzi_after_init :
  exists fb pal rom,
    snd (FceuxZeroImports.init FceuxZeroImports.uninitialized) =
      FceuxZeroImports.State fb pal rom 1 0 0 0 0 0 0 0 0 0 /\
    len fb = 245760 /\ len pal = 256 /\ bytes pal /\
    len rom = FceuxZeroImports.MAX_ROM_SIZE.
Proof.
  destruct (fzi_init_fresh FceuxZeroImports.uninitialized eq_refl
              fzi_wf_uninitialized)
    as (fb & pal & rom & Heq & Hfb & _ & Hpal & Hb & Hrom & _).
  exists fb, pal, rom. rewrite Heq. auto 10.
Qed.

Lemma fs_after_init :
  exists rom fb chr prg pal,
    snd (FceuxSimple.init FceuxSimple.uninitialized) =
      FceuxSimple.State rom 0 fb chr prg pal 0 1 0 0 0 0 0 0 0 0 0 /\
    len fb = 245760.
Proof.
  destruct (fs_init_fresh FceuxSimple.uninitialized eq_refl fs_wf_uninitialized)
    as (rom & fb & chr & prg & pal & Heq & Hfb & _).
  exists rom, fb, chr, prg, pal. rewrite Heq. auto.
Qed.

Lemma fzi_loaded_nrom :
  exists fb pal rom,
    snd (FceuxZeroImports.loadRom Roms.nrom_header 16
           (snd (FceuxZeroImports.init FceuxZeroImports.uninitialized))) =
      FceuxZeroImports.State fb pal rom 1 1 0 0 0 16 1 1 0 0 /\
    len fb = 245760 /\ len pal = 256 /\ bytes pal /\
    len rom = FceuxZeroImports.MAX_ROM_SIZE.
Proof.
  destruct fzi_after_init as (fb & pal & rom & -> & Hfb & Hpal & Hb & Hrom).
  rewrite fzi_loadRom_accept;
    [ | cbn [FceuxZeroImports.initialized]; lia | exact size_ok_16
      | exact magic_nrom_header | discriminate ].
  cbn [snd FceuxZeroImports.frame_buffer FceuxZeroImports.nes_palette
       FceuxZeroImports.rom_buffer FceuxZeroImports.initialized
       FceuxZeroImports.running FceuxZeroImports.controls
       FceuxZeroImports.frame_count].
  exists fb, pal, (copy rom Roms.nrom_header 16).
  split; [reflexivity|]. rewrite len_copy. auto.
Qed.

Lemma ns_loaded_unrom :
  exists fb pal rom,
    snd (NesStandalone.loadRom Roms.unrom_header 16
           (snd (NesStandalone.init NesStandalone.uninitialized))) =
      NesStandalone.State fb pal rom 1 1 0 0 16 2 /\
    len fb = 245760 /\ len pal = 256 /\ bytes pal /\ len rom = 2097152 /\
    forall i k, 0 <= i < 64 -> 0 <= k < 4 ->
      load pal (i * 4 + k) =
        (let '(r, g, b) := NesStandalone.colors_at i in rgba r g b 255 k) mod 256.
Proof.
  destruct ns_after_init as (fb & pal & rom & -> & Hfb & Hpal & Hb & Hrom & Hcol).
  rewrite ns_loadRom_accept;
    [ | cbn [NesStandalone.initialized]; lia | exact size_ok_16
      | exact magic_unrom_header ].
  cbn [snd NesStandalone.frame_buffer NesStandalone.nes_palette
       NesStandalone.rom_buffer NesStandalone.initialized
       NesStandalone.controls NesStandalone.frame_count].
  exists fb, pal, (copy rom Roms.unrom_header 16).
  split; [reflexivity|]. rewrite len_copy. auto 10.
Qed.

Lemma fzi_reachable_loaded_nrom :
  FceuxZeroImports.reachable
    (snd (FceuxZeroImports.loadRom Roms.nrom_header 16
            (snd (FceuxZeroImports.init FceuxZeroImports.uninitialized)))).
Proof.
  exists [FceuxZeroImports.Init; FceuxZeroImports.LoadRom Roms.nrom_header 16].
  reflexivity.
Qed.

Lemma ns_reachable_after_init :
  NesStandalone.reachable (snd (NesStandalone.init NesStandalone.uninitialized)).
Proof. exists [NesStandalone.Init]. reflexivity. Qed.

Lemma zi_reachable_after_init :
  ZeroImports.reachable (snd (ZeroImports.init ZeroImports.uninitialized)).
Proof. exists [ZeroImports.Init]. reflexivity. Qed.

Lemma fs_reachable_after_init :
  FceuxSimple.reachable (snd (FceuxSimple.init FceuxSimple.uninitialized)).
Proof. exists [FceuxSimple.Init]. reflexivity. Qed.

(** * The claims *)

(** ** The guard of [frame] *)

Lemma zi_frame_count_render s :
  ZeroImports.frame_count (ZeroImports.render_frame s) =
    (ZeroImports.frame_count s + 1) mod 2 ^ 32.
Proof. reflexivity. Qed.

Lemma ns_frame_count_generate s :
  NesStandalone.frame_count (NesStandalone.generate_frame s) =
    (NesStandalone.frame_count s + 1) mod 2 ^ 32.
Proof. reflexivity. Qed.

Lemma fzi_frame_count_generate s :
  FceuxZeroImports.frame_count (FceuxZeroImports.generate_nes_frame s) =
    (FceuxZeroImports.frame_count s + 1) mod 2 ^ 32.
Proof. reflexivity. Qed.

Lemma fs_frame_count_render s :
  FceuxSimple.frame_count (FceuxSimple.render s) =
    (FceuxSimple.frame_count s + 1) mod 2 ^ 32.
Proof. reflexivity. Qed.

(** A counter that has just been incremented modulo [2 ^ 32] differs from
    its old value. *)
Lemma succ_mod_neq c : (c + 1) mod 2 ^ 32 <> c.
Proof.
  change (2 ^ 32) with 4294967296. intros H. Z.div_mod_to_equations. lia.
Qed.

(** C1 fails as stated.  [nes-standalone.c]: after [init] alone no ROM is
    loaded, yet [frame] renders (the counter goes from 0 to 1).
    [fceux-simple.c]: after [init] and a successful [loadRom] both flags are
    set, yet [frame] is a no-op because [running] is 0. *)
Lemma C1_counterexample :
  (let s := snd (NesStandalone.init NesStandalone.uninitialized) in
   NesStandalone.reachable s /\
   NesStandalone.rom_loaded s = 0 /\
   NesStandalone.frame_count s = 0 /\
   NesStandalone.frame_count (NesStandalone.frame s) = 1) /\
  (let s :=
     snd (FceuxSimple.loadRom Roms.nrom_image 16400
            (snd (FceuxSimple.init FceuxSimple.uninitialized))) in
   FceuxSimple.reachable s /\
   FceuxSimple.initialized s = 1 /\
   FceuxSimple.rom_loaded s = 1 /\
   FceuxSimple.frame s = s).
Proof.
  split; cbv zeta.
  - split; [exists [NesStandalone.Init]; reflexivity|].
    destruct ns_after_init as (fb & pal & rom & -> & Hfb & _).
    cbn [NesStandalone.rom_loaded NesStandalone.frame_count].
    split; [reflexivity|]. split; [reflexivity|].
    rewrite ns_frame_render by (cbn [NesStandalone.initialized]; lia).
    rewrite ns_frame_count_generate. reflexivity.
  - split;
      [exists [FceuxSimple.Init; FceuxSimple.LoadRom Roms.nrom_image 16400];
       reflexivity|].
    destruct fs_after_init as (rom & fb & chr & prg & pal & -> & Hfb).
    destruct (fs_loadRom_accept Roms.nrom_image 16400
                (FceuxSimple.State rom 0 fb chr prg pal 0 1 0 0 0 0 0 0 0 0 0))
      as (rom' & chr' & ->).
    + cbn [FceuxSimple.initialized]. lia.
    + exact size_ok_16400.
    + exact magic_nrom_image.
    + rewrite load_nrom_image by lia. reflexivity.
    + rewrite load_nrom_image by lia. reflexivity.
    + rewrite load_nrom_image by lia. reflexivity.
    + lia.
    + cbn [snd FceuxSimple.initialized FceuxSimple.rom_loaded].
      split; [reflexivity|]. split; [reflexivity|]. apply fs_frame_skip.
      cbn [FceuxSimple.running]. auto.
Qed.

(** C1, as the code has it.  Each file renders exactly when its own guard passes:
    [fceux-zero-imports.c] when [initialized && rom_loaded], whatever
    [running] holds; [nes-standalone.c] and [zero-imports.c] when
    [initialized], with or without a ROM; [fceux-simple.c] when
    [initialized && rom_loaded && running].  A call that renders runs the
    frame generator and advances [frame_count] by one modulo [2 ^ 32]; a call
    whose guard fails returns the state as it was, frame buffer included. *)
Theorem C1_frame_guard (z : ZeroImports.state) (n : NesStandalone.state)
    (f : FceuxZeroImports.state) (e : FceuxSimple.state) :
  ((FceuxZeroImports.initialized f <> 0 /\ FceuxZeroImports.rom_loaded f <> 0 ->
    FceuxZeroImports.frame f = FceuxZeroImports.generate_nes_frame f /\
    FceuxZeroImports.frame_count (FceuxZeroImports.frame f) =
      (FceuxZeroImports.frame_count f + 1) mod 2 ^ 32 /\
    FceuxZeroImports.frame_count (FceuxZeroImports.frame f) <>
      FceuxZeroImports.frame_count f) /\
   (FceuxZeroImports.initialized f = 0 \/ FceuxZeroImports.rom_loaded f = 0 ->
    FceuxZeroImports.frame f = f)) /\
  ((NesStandalone.initialized n <> 0 ->
    NesStandalone.frame n = NesStandalone.generate_frame n /\
    NesStandalone.frame_count (NesStandalone.frame n) =
      (NesStandalone.frame_count n + 1) mod 2 ^ 32 /\
    NesStandalone.frame_count (NesStandalone.frame n) <>
      NesStandalone.frame_count n) /\
   (NesStandalone.initialized n = 0 -> NesStandalone.frame n = n)) /\
  ((ZeroImports.initialized z <> 0 ->
    ZeroImports.frame z = ZeroImports.render_frame z /\
    ZeroImports.frame_count (ZeroImports.frame z) =
      (ZeroImports.frame_count z + 1) mod 2 ^ 32 /\
    ZeroImports.frame_count (ZeroImports.frame z) <> ZeroImports.frame_count z) /\
   (ZeroImports.initialized z = 0 -> ZeroImports.frame z = z)) /\
  ((FceuxSimple.initialized e <> 0 /\ FceuxSimple.rom_loaded e <> 0 /\
    FceuxSimple.running e <> 0 ->
    FceuxSimple.frame e = FceuxSimple.render e /\
    FceuxSimple.frame_count (FceuxSimple.frame e) =
      (FceuxSimple.frame_count e + 1) mod 2 ^ 32 /\
    FceuxSimple.frame_count (FceuxSimple.frame e) <> FceuxSimple.frame_count e) /\
   (FceuxSimple.initialized e = 0 \/ FceuxSimple.rom_loaded e = 0 \/
    FceuxSimple.running e = 0 ->
    FceuxSimple.frame e = e)).
Proof.
  repeat match goal with |- _ /\ _ => split end.
  - intros H. rewrite (fzi_frame_render f H), fzi_frame_count_generate.
    split; [reflexivity|]. split; [reflexivity|]. apply succ_mod_neq.
  - apply fzi_frame_skip.
  - intros H. rewrite (ns_frame_render n H), ns_frame_count_generate.
    split; [reflexivity|]. split; [reflexivity|]. apply succ_mod_neq.
  - apply ns_frame_skip.
  - intros H. rewrite (zi_frame_render z H), zi_frame_count_render.
    split; [reflexivity|]. split; [reflexivity|]. apply succ_mod_neq.
  - apply zi_frame_skip.
  - intros H. rewrite (fs_frame_render e H), fs_frame_count_render.
    split; [reflexivity|]. split; [reflexivity|]. apply succ_mod_neq.
  - apply fs_frame_skip.
Qed.

(** The guards at work: nothing renders in the Uninitialized states, and
    [fceux-zero-imports.c] renders once scenario S2's image is loaded, with
    [running] still 0. *)
Lemma C1_frame_guard_witness :
  FceuxZeroImports.frame FceuxZeroImports.uninitialized =
    FceuxZeroImports.uninitialized /\
  NesStandalone.frame NesStandalone.uninitialized = NesStandalone.uninitialized /\
  ZeroImports.frame ZeroImports.uninitialized = ZeroImports.uninitialized /\
  FceuxSimple.frame FceuxSimple.uninitialized = FceuxSimple.uninitialized /\
  (let f :=
     snd (FceuxZeroImports.loadRom Roms.nrom_header 16
            (snd (FceuxZeroImports.init FceuxZeroImports.uninitialized))) in
   FceuxZeroImports.running f = 0 /\
   FceuxZeroImports.frame_count (FceuxZeroImports.frame f) = 1).
Proof.
  destruct (C1_frame_guard ZeroImports.uninitialized NesStandalone.uninitialized
              FceuxZeroImports.uninitialized FceuxSimple.uninitialized)
    as ((_ & Hf) & (_ & Hn) & (_ & Hz) & (_ & He)).
  split; [apply Hf; left; reflexivity|].
  split; [apply Hn; reflexivity|].
  split; [apply Hz; reflexivity|].
  split; [apply He; left; reflexivity|].
  cbv zeta.
  destruct (C1_frame_guard ZeroImports.uninitialized NesStandalone.uninitialized
              (snd (FceuxZeroImports.loadRom Roms.nrom_header 16
                      (snd (FceuxZeroImports.init FceuxZeroImports.uninitialized))))
              FceuxSimple.uninitialized)
    as ((Hr & _) & _).
  destruct fzi_loaded_nrom as (fb & pal & rom & Heq & _).
  rewrite Heq in *.
  destruct Hr as (_ & Hr & _).
  - cbn [FceuxZeroImports.initialized FceuxZeroImports.rom_loaded]. lia.
  - split; [reflexivity|]. rewrite Hr. reflexivity.
Defined.

(** ** Failure paths of [loadRom] *)

(** C2, the code at an input where it fails.  [fceux-zero-imports.c]: with the
    mapper-0 image of scenario S2 loaded, a second [loadRom] of a header
    that declares zero PRG banks returns 0, keeps [rom_loaded], [rom_size]
    and the ROM buffer, and yet leaves [prg_banks], [chr_banks], [mapper]
    and [has_chr_ram] overwritten from the rejected header.
    [fceux-simple.c]: the same header after [init] returns 0 and leaves
    [mapper] and [has_chr_ram] changed. *)
Theorem C2_failed_load_overwrites_metadata :
  (let s :=
     snd (FceuxZeroImports.loadRom Roms.nrom_header 16
            (snd (FceuxZeroImports.init FceuxZeroImports.uninitialized))) in
   let r := FceuxZeroImports.loadRom Roms.no_prg_header 16 s in
   fst r = 0 /\
   FceuxZeroImports.rom_loaded (snd r) = FceuxZeroImports.rom_loaded s /\
   FceuxZeroImports.rom_size (snd r) = FceuxZeroImports.rom_size s /\
   FceuxZeroImports.rom_buffer (snd r) = FceuxZeroImports.rom_buffer s /\
   (FceuxZeroImports.prg_banks s = 1 /\ FceuxZeroImports.prg_banks (snd r) = 0) /\
   (FceuxZeroImports.chr_banks s = 1 /\ FceuxZeroImports.chr_banks (snd r) = 0) /\
   (FceuxZeroImports.mapper s = 0 /\ FceuxZeroImports.mapper (snd r) = 2) /\
   (FceuxZeroImports.has_chr_ram s = 0 /\
    FceuxZeroImports.has_chr_ram (snd r) = 1)) /\
  (let s := snd (FceuxSimple.init FceuxSimple.uninitialized) in
   let r := FceuxSimple.loadRom Roms.no_prg_header 16 s in
   fst r = 0 /\
   FceuxSimple.rom_loaded (snd r) = FceuxSimple.rom_loaded s /\
   (FceuxSimple.mapper s = 0 /\ FceuxSimple.mapper (snd r) = 2) /\
   (FceuxSimple.has_chr_ram s = 0 /\ FceuxSimple.has_chr_ram (snd r) = 1)).
Proof.
  split; cbv zeta.
  - destruct fzi_loaded_nrom as (fb & pal & rom & -> & _).
    rewrite fzi_loadRom_reject_prg0;
      [ | cbn [FceuxZeroImports.initialized]; lia | exact size_ok_16
        | exact magic_no_prg_header | reflexivity ].
    cbn [fst snd FceuxZeroImports.rom_loaded FceuxZeroImports.rom_size
         FceuxZeroImports.rom_buffer FceuxZeroImports.prg_banks
         FceuxZeroImports.chr_banks FceuxZeroImports.mapper
         FceuxZeroImports.has_chr_ram].
    repeat match goal with |- _ /\ _ => split end; reflexivity.
  - destruct fs_after_init as (rom & fb & chr & prg & pal & -> & _).
    rewrite fs_loadRom_reject_prg0;
      [ | cbn [FceuxSimple.initialized]; lia | exact size_ok_16
        | exact magic_no_prg_header | reflexivity ].
    cbn [fst snd FceuxSimple.rom_loaded FceuxSimple.mapper
         FceuxSimple.has_chr_ram].
    repeat match goal with |- _ /\ _ => split end; reflexivity.
Qed.

(** C3 fails as stated.  [nes-standalone.c] never reads byte 4: after
    [init], the header with valid magic, size 16 and zero PRG banks is
    accepted and [rom_loaded] is set. *)
Lemma C3_counterexample :
  let r :=
    NesStandalone.loadRom Roms.no_prg_header 16
      (snd (NesStandalone.init NesStandalone.uninitialized)) in
  INes.magic_ok Roms.no_prg_header /\ INes.size_ok 16 /\
  load Roms.no_prg_header 4 = 0 /\
  fst r = 1 /\ NesStandalone.rom_loaded (snd r) = 1.
Proof.
  cbv zeta. destruct ns_after_init as (fb & pal & rom & -> & _).
  rewrite ns_loadRom_accept;
    [ | cbn [NesStandalone.initialized]; lia | exact size_ok_16
      | exact magic_no_prg_header ].
  cbn [fst snd NesStandalone.rom_loaded].
  split; [exact magic_no_prg_header|]. split; [exact size_ok_16|].
  repeat split.
Qed.

(** C3, as the code has it.  In [fceux-zero-imports.c] and [fceux-simple.c] an input
    with valid magic, a size in [16, 2097152] and zero in byte 4 makes
    [loadRom] return 0 and leaves [rom_loaded] as it was.
    [nes-standalone.c] and [zero-imports.c] do not read byte 4: once
    initialised they accept that input, return 1 and set [rom_loaded]. *)
Theorem C3_zero_prg_banks (rom : list Z) (size : Z)
    (z : ZeroImports.state) (n : NesStandalone.state)
    (f : FceuxZeroImports.state) (e : FceuxSimple.state) :
  INes.magic_ok rom -> INes.size_ok size -> load rom 4 = 0 ->
  (fst (FceuxZeroImports.loadRom rom size f) = 0 /\
   FceuxZeroImports.rom_loaded (snd (FceuxZeroImports.loadRom rom size f)) =
     FceuxZeroImports.rom_loaded f) /\
  (fst (FceuxSimple.loadRom rom size e) = 0 /\
   FceuxSimple.rom_loaded (snd (FceuxSimple.loadRom rom size e)) =
     FceuxSimple.rom_loaded e) /\
  (NesStandalone.initialized n <> 0 ->
   fst (NesStandalone.loadRom rom size n) = 1 /\
   NesStandalone.rom_loaded (snd (NesStandalone.loadRom rom size n)) = 1) /\
  (ZeroImports.initialized z <> 0 ->
   fst (ZeroImports.loadRom rom size z) = 1 /\
   ZeroImports.rom_loaded (snd (ZeroImports.loadRom rom size z)) = 1).
Proof.
  intros Hmagic Hsize Hprg.
  repeat match goal with |- _ /\ _ => split end.
  - destruct (Z.eq_dec (FceuxZeroImports.initialized f) 0) as [E|E].
    + now rewrite fzi_loadRom_uninit.
    + now rewrite fzi_loadRom_reject_prg0.
  - destruct (Z.eq_dec (FceuxZeroImports.initialized f) 0) as [E|E].
    + now rewrite fzi_loadRom_uninit.
    + now rewrite fzi_loadRom_reject_prg0.
  - destruct (Z.eq_dec (FceuxSimple.initialized e) 0) as [E|E].
    + now rewrite fs_loadRom_uninit.
    + now rewrite fs_loadRom_reject_prg0.
  - destruct (Z.eq_dec (FceuxSimple.initialized e) 0) as [E|E].
    + now rewrite fs_loadRom_uninit.
    + now rewrite fs_loadRom_reject_prg0.
  - intros Hi. now rewrite ns_loadRom_accept.
  - intros Hi. now rewrite zi_loadRom_accept.
Qed.

(** The zero-PRG header offered to the four files after their [init]. *)
Lemma C3_zero_prg_banks_witness :
  fst (FceuxZeroImports.loadRom Roms.no_prg_header 16
         (snd (FceuxZeroImports.init FceuxZeroImports.uninitialized))) = 0 /\
  fst (FceuxSimple.loadRom Roms.no_prg_header 16
         (snd (FceuxSimple.init FceuxSimple.uninitialized))) = 0 /\
  fst (NesStandalone.loadRom Roms.no_prg_header 16
         (snd (NesStandalone.init NesStandalone.uninitialized))) = 1 /\
  fst (ZeroImports.loadRom Roms.no_prg_header 16
         (snd (ZeroImports.init ZeroImports.uninitialized))) = 1.
Proof.
  destruct (C3_zero_prg_banks Roms.no_prg_header 16
              (snd (ZeroImports.init ZeroImports.uninitialized))
              (snd (NesStandalone.init NesStandalone.uninitialized))
              (snd (FceuxZeroImports.init FceuxZeroImports.uninitialized))
              (snd (FceuxSimple.init FceuxSimple.uninitialized)))
    as ((Hf & _) & (He & _) & Hn & Hz).
  - exact magic_no_prg_header.
  - exact size_ok_16.
  - reflexivity.
  - split; [exact Hf|]. split; [exact He|].
    split; [apply Hn, ns_init_initialized | apply Hz, zi_init_initialized].
Defined.

(** ** Scheme P, pixel by pixel *)

Lemma land_bit c k m :
  0 <= k -> m = 2 ^ k -> (Z.land c m =? 0) = negb (Z.testbit c k).
Proof. intros Hk ->. now apply land_pow2_eqb. Qed.

(** The palette index of the code is the index of the specification. *)
Lemma scheme_index_eq x y fc :
  0 <= x -> 0 <= y ->
  Z.land ((Z.quot x 8 + Z.quot y 8 + fc / 4) mod 2 ^ 32) 63 =
    SchemeP.index x y fc.
Proof.
  intros Hx Hy. unfold SchemeP.index.
  rewrite !Z.quot_div_nonneg, !Z.shiftr_div_pow2, land_63 by lia.
  change (2 ^ 3) with 8. change (2 ^ 2) with 4.
  change (2 ^ 32) with 4294967296.
  generalize (x / 8 + y / 8 + fc / 4). intros a.
  Z.div_mod_to_equations. lia.
Qed.

Lemma scheme_index_range x y fc : 0 <= SchemeP.index x y fc < 64.
Proof. unfold SchemeP.index. apply Z.mod_pos_bound. lia. Qed.

(** The controller modulation of the code is that of the table. *)
Lemma scheme_red_eq c r :
  (if Z.land c 2 =? 0
   then if Z.land c 1 =? 0 then r else Z.land (r + 64) 255
   else Z.land ((if Z.land c 1 =? 0 then r else Z.land (r + 64) 255) - 32) 255) =
    SchemeP.red c r.
Proof.
  unfold SchemeP.red.
  rewrite (land_bit c 0 1), (land_bit c 1 2) by (try lia; reflexivity).
  destruct (Z.testbit c 0), (Z.testbit c 1); cbn [negb];
    rewrite ?land_255; reflexivity.
Qed.

Lemma scheme_green_eq c g :
  (if Z.land c 8 =? 0
   then if Z.land c 4 =? 0 then g else Z.land (g + 64) 255
   else Z.land ((if Z.land c 4 =? 0 then g else Z.land (g + 64) 255) - 32) 255) =
    SchemeP.green c g.
Proof.
  unfold SchemeP.green.
  rewrite (land_bit c 2 4), (land_bit c 3 8) by (try lia; reflexivity).
  destruct (Z.testbit c 2), (Z.testbit c 3); cbn [negb];
    rewrite ?land_255; reflexivity.
Qed.

(** The code adds 128 for A before 96 for B, the table lists B before A;
    modulo 256 the order does not matter. *)
Lemma scheme_blue_eq c b :
  (if Z.land c 64 =? 0
   then if Z.land c 128 =? 0 then b else Z.land (b + 128) 255
   else Z.land ((if Z.land c 128 =? 0 then b else Z.land (b + 128) 255) + 96) 255) =
    SchemeP.blue c b.
Proof.
  unfold SchemeP.blue.
  rewrite (land_bit c 7 128), (land_bit c 6 64) by (try lia; reflexivity).
  destruct (Z.testbit c 6), (Z.testbit c 7); cbn [negb];
    rewrite ?land_255; try reflexivity.
  rewrite !Z.add_mod_idemp_l by lia. f_equal. lia.
Qed.

Lemma scheme_red_range c r : 0 <= r < 256 -> 0 <= SchemeP.red c r < 256.
Proof.
  intros Hr. unfold SchemeP.red.
  destruct (Z.testbit c 0), (Z.testbit c 1); cbv zeta;
    try apply Z.mod_pos_bound; lia.
Qed.

Lemma scheme_green_range c g : 0 <= g < 256 -> 0 <= SchemeP.green c g < 256.
Proof.
  intros Hr. unfold SchemeP.green.
  destruct (Z.testbit c 2), (Z.testbit c 3); cbv zeta;
    try apply Z.mod_pos_bound; lia.
Qed.

Lemma scheme_blue_range c b : 0 <= b < 256 -> 0 <= SchemeP.blue c b < 256.
Proof.
  intros Hr. unfold SchemeP.blue.
  destruct (Z.testbit c 6), (Z.testbit c 7); cbv zeta;
    try apply Z.mod_pos_bound; lia.
Qed.

Lemma scheme_overlay_range on x y v :
  0 <= v < 256 -> 0 <= SchemeP.overlay on x y v < 256.
Proof.
  intros Hv. unfold SchemeP.overlay.
  destruct (on && _); [apply Z.mod_pos_bound|]; lia.
Qed.

Lemma scheme_pixel_range pal c fc on x y k :
  bytes pal -> 0 <= SchemeP.pixel pal c fc on x y k < 256.
Proof.
  intros Hb. unfold SchemeP.pixel, rgba. cbv zeta.
  repeat match goal with
  | |- context [if ?a =? ?b then _ else _] => destruct (a =? b)
  end;
    auto using scheme_overlay_range, scheme_red_range, scheme_green_range,
      scheme_blue_range, bytes_load.
  lia.
Qed.

(** [pixel_color] of [fceux-zero-imports.c] computes the Scheme P colour,
    overlay included. *)
Lemma fzi_pixel_color_scheme s x y k :
  0 <= x -> 0 <= y ->
  (let '(r, g, b) := FceuxZeroImports.pixel_color s x y in rgba r g b 255 k) =
    SchemeP.pixel (FceuxZeroImports.nes_palette s) (FceuxZeroImports.controls s)
      (FceuxZeroImports.frame_count s)
      ((FceuxZeroImports.mapper s =? 2) &&
       negb (FceuxZeroImports.has_chr_ram s =? 0)) x y k.
Proof.
  intros Hx Hy. unfold FceuxZeroImports.pixel_color, SchemeP.pixel. cbv zeta.
  rewrite scheme_index_eq by lia.
  rewrite (Z.mod_small (SchemeP.index _ _ _) 256)
    by (pose proof (scheme_index_range x y (FceuxZeroImports.frame_count s)); lia).
  rewrite scheme_red_eq, scheme_green_eq, scheme_blue_eq.
  unfold SchemeP.overlay.
  destruct ((FceuxZeroImports.mapper s =? 2) &&
            negb (FceuxZeroImports.has_chr_ram s =? 0)); cbn [andb];
    [destruct (Z.land (x + y) 8 =? 0); cbn [negb]|];
    rewrite ?land_255; reflexivity.
Qed.

(** [pixel_color] of [nes-standalone.c] computes the Scheme P colour
    without the overlay. *)
Lemma ns_pixel_color_scheme s x y k :
  0 <= x -> 0 <= y ->
  (let '(r, g, b) := NesStandalone.pixel_color s x y in rgba r g b 255 k) =
    SchemeP.pixel (NesStandalone.nes_palette s) (NesStandalone.controls s)
      (NesStandalone.frame_count s) false x y k.
Proof.
  intros Hx Hy. unfold NesStandalone.pixel_color, SchemeP.pixel. cbv zeta.
  rewrite scheme_index_eq by lia.
  rewrite scheme_red_eq, scheme_green_eq, scheme_blue_eq.
  reflexivity.
Qed.

(** C4 fails as stated.  [nes-standalone.c] with an UNROM image loaded
    (mapper 2, zero CHR banks, so CHR RAM): at pixel (8, 0) of the first
    frame, where [(x + y) & 8] is not 0, the claim asks for palette entry
    1 = (0, 30, 116) with 32 added to red and blue, 32 and 148; the code
    leaves 0 and 116, the palette entry itself. *)
Lemma C4_counterexample :
  let s :=
    NesStandalone.frame
      (snd (NesStandalone.loadRom Roms.unrom_header 16
              (snd (NesStandalone.init NesStandalone.uninitialized)))) in
  NesStandalone.mapper s = 2 /\
  load Roms.unrom_header 5 = 0 /\
  Z.land (8 + 0) 8 <> 0 /\
  SchemeP.pixel (NesStandalone.nes_palette s) (NesStandalone.controls s)
    (NesStandalone.frame_count s) true 8 0 0 = 32 /\
  SchemeP.pixel (NesStandalone.nes_palette s) (NesStandalone.controls s)
    (NesStandalone.frame_count s) true 8 0 2 = 148 /\
  load (NesStandalone.frame_buffer s) ((0 * 256 + 8) * 4 + 0) = 0 /\
  load (NesStandalone.frame_buffer s) ((0 * 256 + 8) * 4 + 2) = 116.
Proof.
  cbv zeta.
  destruct ns_loaded_unrom as (fb & pal & rom & -> & Hfb & _ & _ & _ & Hcol).
  rewrite ns_frame_render by (cbn [NesStandalone.initialized]; lia).
  destruct (ns_generate_frame_eq (NesStandalone.State fb pal rom 1 1 0 0 16 2) Hfb)
    as (fb' & Heq & _ & Hpix).
  cbv zeta in Heq, Hpix. rewrite Heq.
  cbn [NesStandalone.frame_buffer NesStandalone.nes_palette
       NesStandalone.rom_buffer NesStandalone.initialized
       NesStandalone.rom_loaded NesStandalone.controls
       NesStandalone.frame_count NesStandalone.rom_size NesStandalone.mapper]
    in *.
  assert (Hc : SchemeP.index 8 0 ((0 + 1) mod 2 ^ 32) = 1) by reflexivity.
  assert (Hr : load pal (1 * 4 + 0) = 0) by (rewrite Hcol by lia; reflexivity).
  assert (Hg : load pal (1 * 4 + 1) = 30) by (rewrite Hcol by lia; reflexivity).
  assert (Hbl : load pal (1 * 4 + 2) = 116) by (rewrite Hcol by lia; reflexivity).
  split; [reflexivity|]. split; [reflexivity|]. split; [discriminate|].
  split; [|split; [|split]].
  - unfold SchemeP.pixel. cbv zeta. rewrite Hc, Hr, Hg, Hbl. reflexivity.
  - unfold SchemeP.pixel. cbv zeta. rewrite Hc, Hr, Hg, Hbl. reflexivity.
  - rewrite Hpix by lia. rewrite ns_pixel_color_scheme by lia.
    cbn [NesStandalone.nes_palette NesStandalone.controls
         NesStandalone.frame_count].
    unfold SchemeP.pixel. cbv zeta. rewrite Hc, Hr, Hg, Hbl. reflexivity.
  - rewrite Hpix by lia. rewrite ns_pixel_color_scheme by lia.
    cbn [NesStandalone.nes_palette NesStandalone.controls
         NesStandalone.frame_count].
    unfold SchemeP.pixel. cbv zeta. rewrite Hc, Hr, Hg, Hbl. reflexivity.
Qed.

(** C4, as the code has it.  After a [frame] call that renders, every byte [k] of
    every pixel [(x, y)] is the Scheme P value computed from the palette,
    the controls and the (already incremented) [frame_count] of the state:
    palette entry [((x >> 3) + (y >> 3) + (frame_count >> 2)) mod 64], the
    controller modulation of the table modulo 256, alpha 255.  In
    [fceux-zero-imports.c] the extra 32 on red and blue is added exactly
    when [mapper == 2], [has_chr_ram] is set and [((x + y) & 8) != 0];
    [nes-standalone.c] has no [has_chr_ram] and adds no overlay for any
    mapper. *)
Theorem C4_scheme_P (f : FceuxZeroImports.state) (n : NesStandalone.state)
    (x y k : Z) :
  FceuxZeroImports.wf f ->
  FceuxZeroImports.initialized f <> 0 -> FceuxZeroImports.rom_loaded f <> 0 ->
  NesStandalone.wf n -> NesStandalone.initialized n <> 0 ->
  0 <= x < 256 -> 0 <= y < 240 -> 0 <= k < 4 ->
  (let f' := FceuxZeroImports.frame f in
   FceuxZeroImports.frame_count f' = (FceuxZeroImports.frame_count f + 1) mod 2 ^ 32 /\
   FceuxZeroImports.nes_palette f' = FceuxZeroImports.nes_palette f /\
   FceuxZeroImports.controls f' = FceuxZeroImports.controls f /\
   FceuxZeroImports.mapper f' = FceuxZeroImports.mapper f /\
   FceuxZeroImports.has_chr_ram f' = FceuxZeroImports.has_chr_ram f /\
   load (FceuxZeroImports.frame_buffer f') ((y * 256 + x) * 4 + k) =
     SchemeP.pixel (FceuxZeroImports.nes_palette f')
       (FceuxZeroImports.controls f') (FceuxZeroImports.frame_count f')
       ((FceuxZeroImports.mapper f' =? 2) &&
        negb (FceuxZeroImports.has_chr_ram f' =? 0)) x y k) /\
  (let n' := NesStandalone.frame n in
   NesStandalone.frame_count n' = (NesStandalone.frame_count n + 1) mod 2 ^ 32 /\
   NesStandalone.nes_palette n' = NesStandalone.nes_palette n /\
   NesStandalone.controls n' = NesStandalone.controls n /\
   load (NesStandalone.frame_buffer n') ((y * 256 + x) * 4 + k) =
     SchemeP.pixel (NesStandalone.nes_palette n') (NesStandalone.controls n')
       (NesStandalone.frame_count n') false x y k).
Proof.
  intros (Hfb & _ & _ & Hb) Hfi Hfr (Hnfb & _ & _ & Hnb) Hni Hx Hy Hk.
  split; cbv zeta.
  - rewrite fzi_frame_render by (split; assumption).
    destruct (fzi_generate_nes_frame_eq f Hfb) as (fb & Heq & _ & Hpix).
    cbv zeta in Heq, Hpix. rewrite Heq.
    cbn [FceuxZeroImports.frame_buffer FceuxZeroImports.nes_palette
         FceuxZeroImports.controls FceuxZeroImports.frame_count
         FceuxZeroImports.mapper FceuxZeroImports.has_chr_ram].
    repeat (split; [reflexivity|]).
    rewrite Hpix by lia. rewrite fzi_pixel_color_scheme by lia.
    cbn [FceuxZeroImports.nes_palette FceuxZeroImports.controls
         FceuxZeroImports.frame_count FceuxZeroImports.mapper
         FceuxZeroImports.has_chr_ram].
    apply Z.mod_small, scheme_pixel_range, Hb.
  - rewrite ns_frame_render by assumption.
    destruct (ns_generate_frame_eq n Hnfb) as (fb & Heq & _ & Hpix).
    cbv zeta in Heq, Hpix. rewrite Heq.
    cbn [NesStandalone.frame_buffer NesStandalone.nes_palette
         NesStandalone.controls NesStandalone.frame_count].
    repeat (split; [reflexivity|]).
    rewrite Hpix by lia. rewrite ns_pixel_color_scheme by lia.
    cbn [NesStandalone.nes_palette NesStandalone.controls
         NesStandalone.frame_count].
    apply Z.mod_small, scheme_pixel_range, Hnb.
Qed.

(** Pixel (8, 0) of the first frame after scenario S2's image is loaded
    ([fceux-zero-imports.c]) and of the first frame after [init]
    ([nes-standalone.c]). *)
Lemma C4_scheme_P_witness :
  let f :=
    snd (FceuxZeroImports.loadRom Roms.nrom_header 16
           (snd (FceuxZeroImports.init FceuxZeroImports.uninitialized))) in
  let n := snd (NesStandalone.init NesStandalone.uninitialized) in
  load (FceuxZeroImports.frame_buffer (FceuxZeroImports.frame f))
    ((0 * 256 + 8) * 4 + 0) =
    SchemeP.pixel (FceuxZeroImports.nes_palette (FceuxZeroImports.frame f))
      (FceuxZeroImports.controls (FceuxZeroImports.frame f))
      (FceuxZeroImports.frame_count (FceuxZeroImports.frame f))
      ((FceuxZeroImports.mapper (FceuxZeroImports.frame f) =? 2) &&
       negb (FceuxZeroImports.has_chr_ram (FceuxZeroImports.frame f) =? 0))
      8 0 0 /\
  load (NesStandalone.frame_buffer (NesStandalone.frame n))
    ((0 * 256 + 8) * 4 + 0) =
    SchemeP.pixel (NesStandalone.nes_palette (NesStandalone.frame n))
      (NesStandalone.controls (NesStandalone.frame n))
      (NesStandalone.frame_count (NesStandalone.frame n)) false 8 0 0.
Proof.
  cbv zeta.
  destruct (C4_scheme_P
              (snd (FceuxZeroImports.loadRom Roms.nrom_header 16
                      (snd (FceuxZeroImports.init FceuxZeroImports.uninitialized))))
              (snd (NesStandalone.init NesStandalone.uninitialized)) 8 0 0)
    as ((_ & _ & _ & _ & _ & Hf) & (_ & _ & _ & Hn)).
  - apply fzi_reachable_inv, fzi_reachable_loaded_nrom.
  - destruct fzi_loaded_nrom as (fb & pal & rom & -> & _).
    cbn [FceuxZeroImports.initialized]. lia.
  - destruct fzi_loaded_nrom as (fb & pal & rom & -> & _).
    cbn [FceuxZeroImports.rom_loaded]. lia.
  - apply ns_reachable_inv, ns_reachable_after_init.
  - destruct ns_after_init as (fb & pal & rom & -> & _).
    cbn [NesStandalone.initialized]. lia.
  - lia.
  - lia.
  - lia.
  - split; [exact Hf | exact Hn].
Defined.

(** ** Opaque pixels *)

Lemma zi_alpha s :
  ZeroImports.inv s ->
  alpha_ok (ZeroImports.frame_buffer (snd (ZeroImports.init s))) /\
  alpha_ok (ZeroImports.frame_buffer (ZeroImports.reset s)) /\
  (ZeroImports.initialized s <> 0 ->
   alpha_ok (ZeroImports.frame_buffer (ZeroImports.frame s))).
Proof.
  intros H. split; [|split].
  - apply (zi_inv_init s H), zi_init_initialized.
  - destruct H as ((Hfb & _) & _).
    destruct (zi_reset_eq s Hfb) as (fb & -> & _ & Hc).
    apply alpha_ok_cleared, Hc.
  - intros Hi. apply (zi_inv_frame s H).
    rewrite zi_frame_render by assumption. exact Hi.
Qed.

Lemma ns_alpha s :
  NesStandalone.inv s ->
  alpha_ok (NesStandalone.frame_buffer (snd (NesStandalone.init s))) /\
  alpha_ok (NesStandalone.frame_buffer (NesStandalone.reset s)) /\
  (NesStandalone.initialized s <> 0 ->
   alpha_ok (NesStandalone.frame_buffer (NesStandalone.frame s))).
Proof.
  intros H. split; [|split].
  - apply (ns_inv_init s H), ns_init_initialized.
  - destruct H as ((Hfb & _) & _).
    destruct (ns_reset_eq s Hfb) as (fb & -> & _ & Hc).
    apply alpha_ok_cleared, Hc.
  - intros Hi. apply (ns_inv_frame s H).
    rewrite ns_frame_render by assumption. exact Hi.
Qed.

Lemma fzi_alpha s :
  FceuxZeroImports.inv s ->
  alpha_ok (FceuxZeroImports.frame_buffer (snd (FceuxZeroImports.init s))) /\
  alpha_ok (FceuxZeroImports.frame_buffer (FceuxZeroImports.reset s)) /\
  (FceuxZeroImports.initialized s <> 0 /\ FceuxZeroImports.rom_loaded s <> 0 ->
   alpha_ok (FceuxZeroImports.frame_buffer (FceuxZeroImports.frame s))).
Proof.
  intros H. split; [|split].
  - apply (fzi_inv_init s H), fzi_init_initialized.
  - destruct H as ((Hfb & _) & _).
    destruct (fzi_reset_eq s Hfb) as (fb & -> & _ & Hc).
    apply alpha_ok_cleared, Hc.
  - intros Hi. apply (fzi_inv_frame s H).
    rewrite fzi_frame_render by assumption. tauto.
Qed.

Lemma fs_alpha s :
  FceuxSimple.inv s ->
  alpha_ok (FceuxSimple.frame_buffer (snd (FceuxSimple.init s))) /\
  alpha_ok (FceuxSimple.frame_buffer (FceuxSimple.reset s)) /\
  (FceuxSimple.initialized s <> 0 /\ FceuxSimple.rom_loaded s <> 0 /\
   FceuxSimple.running s <> 0 ->
   alpha_ok (FceuxSimple.frame_buffer (FceuxSimple.frame s))).
Proof.
  intros H. split; [|split].
  - apply (fs_inv_init s H), fs_init_initialized.
  - destruct H as (Hfb & _).
    destruct (fs_reset_eq s Hfb) as (fb & chr & -> & _ & Hc).
    apply alpha_ok_cleared, Hc.
  - intros Hi. destruct H as (Hfb & _).
    rewrite fs_frame_render by assumption.
    destruct (fs_render_eq s Hfb) as (fb & -> & _ & Hal). exact Hal.
Qed.

(** C5.  In every reachable state of each of the four files, the alpha byte
    [frame_buffer[p * 4 + 3]] of every pixel [p] in [0, 61440) is 255
    right after [init] returns, right after [reset] returns, and right
    after every [frame] call that renders. *)
Theorem C5_alpha_opaque (z : ZeroImports.state) (n : NesStandalone.state)
    (f : FceuxZeroImports.state) (e : FceuxSimple.state) :
  ZeroImports.reachable z -> NesStandalone.reachable n ->
  FceuxZeroImports.reachable f -> FceuxSimple.reachable e ->
  (alpha_ok (ZeroImports.frame_buffer (snd (ZeroImports.init z))) /\
   alpha_ok (ZeroImports.frame_buffer (ZeroImports.reset z)) /\
   (ZeroImports.initialized z <> 0 ->
    alpha_ok (ZeroImports.frame_buffer (ZeroImports.frame z)))) /\
  (alpha_ok (NesStandalone.frame_buffer (snd (NesStandalone.init n))) /\
   alpha_ok (NesStandalone.frame_buffer (NesStandalone.reset n)) /\
   (NesStandalone.initialized n <> 0 ->
    alpha_ok (NesStandalone.frame_buffer (NesStandalone.frame n)))) /\
  (alpha_ok (FceuxZeroImports.frame_buffer (snd (FceuxZeroImports.init f))) /\
   alpha_ok (FceuxZeroImports.frame_buffer (FceuxZeroImports.reset f)) /\
   (FceuxZeroImports.initialized f <> 0 /\ FceuxZeroImports.rom_loaded f <> 0 ->
    alpha_ok (FceuxZeroImports.frame_buffer (FceuxZeroImports.frame f)))) /\
  (alpha_ok (FceuxSimple.frame_buffer (snd (FceuxSimple.init e))) /\
   alpha_ok (FceuxSimple.frame_buffer (FceuxSimple.reset e)) /\
   (FceuxSimple.initialized e <> 0 /\ FceuxSimple.rom_loaded e <> 0 /\
    FceuxSimple.running e <> 0 ->
    alpha_ok (FceuxSimple.frame_buffer (FceuxSimple.frame e)))).
Proof.
  intros Hz Hn Hf He.
  split; [apply zi_alpha, zi_reachable_inv, Hz|].
  split; [apply ns_alpha, ns_reachable_inv, Hn|].
  split; [apply fzi_alpha, fzi_reachable_inv, Hf|].
  apply fs_alpha, fs_reachable_inv, He.
Qed.

(** After [init], a second [init], a [reset] and (where the guard lets it
    render) a [frame] all leave opaque buffers. *)
Lemma C5_alpha_opaque_witness :
  alpha_ok (ZeroImports.frame_buffer
    (ZeroImports.frame (snd (ZeroImports.init ZeroImports.uninitialized)))) /\
  alpha_ok (NesStandalone.frame_buffer
    (NesStandalone.frame (snd (NesStandalone.init NesStandalone.uninitialized)))) /\
  alpha_ok (FceuxZeroImports.frame_buffer
    (FceuxZeroImports.frame
       (snd (FceuxZeroImports.loadRom Roms.nrom_header 16
               (snd (FceuxZeroImports.init FceuxZeroImports.uninitialized)))))) /\
  alpha_ok (FceuxSimple.frame_buffer
    (FceuxSimple.reset (snd (FceuxSimple.init FceuxSimple.uninitialized)))).
Proof.
  destruct (C5_alpha_opaque
              (snd (ZeroImports.init ZeroImports.uninitialized))
              (snd (NesStandalone.init NesStandalone.uninitialized))
              (snd (FceuxZeroImports.loadRom Roms.nrom_header 16
                      (snd (FceuxZeroImports.init FceuxZeroImports.uninitialized))))
              (snd (FceuxSimple.init FceuxSimple.uninitialized))
              zi_reachable_after_init ns_reachable_after_init
              fzi_reachable_loaded_nrom fs_reachable_after_init)
    as ((_ & _ & Hz) & (_ & _ & Hn) & (_ & _ & Hf) & (_ & He & _)).
  split; [apply Hz, zi_init_initialized|].
  split; [apply Hn, ns_init_initialized|].
  split; [|exact He].
  apply Hf. destruct fzi_loaded_nrom as (fb & pal & rom & -> & _).
  cbn [FceuxZeroImports.initialized FceuxZeroImports.rom_loaded]. lia.
Defined.

(** ** [init] twice *)

(** C6.  In each of the four files a call to [init] in a state where
    [initialized] is set returns 1 and leaves the state exactly as it was;
    so [init; init] from Uninitialized returns 1 twice and ends in the
    state a single [init] reaches. *)
Theorem C6_init_idempotent (z : ZeroImports.state) (n : NesStandalone.state)
    (f : FceuxZeroImports.state) (e : FceuxSimple.state) :
  ZeroImports.initialized z <> 0 -> NesStandalone.initialized n <> 0 ->
  FceuxZeroImports.initialized f <> 0 -> FceuxSimple.initialized e <> 0 ->
  (ZeroImports.init z = (1, z) /\ NesStandalone.init n = (1, n) /\
   FceuxZeroImports.init f = (1, f) /\ FceuxSimple.init e = (1, e)) /\
  (ZeroImports.init (snd (ZeroImports.init ZeroImports.uninitialized)) =
     (1, snd (ZeroImports.init ZeroImports.uninitialized)) /\
   NesStandalone.init (snd (NesStandalone.init NesStandalone.uninitialized)) =
     (1, snd (NesStandalone.init NesStandalone.uninitialized)) /\
   FceuxZeroImports.init
     (snd (FceuxZeroImports.init FceuxZeroImports.uninitialized)) =
     (1, snd (FceuxZeroImports.init FceuxZeroImports.uninitialized)) /\
   FceuxSimple.init (snd (FceuxSimple.init FceuxSimple.uninitialized)) =
     (1, snd (FceuxSimple.init FceuxSimple.uninitialized))) /\
  (fst (ZeroImports.init ZeroImports.uninitialized) = 1 /\
   fst (NesStandalone.init NesStandalone.uninitialized) = 1 /\
   fst (FceuxZeroImports.init FceuxZeroImports.uninitialized) = 1 /\
   fst (FceuxSimple.init FceuxSimple.uninitialized) = 1).
Proof.
  intros Hz Hn Hf He. split; [|split].
  - auto using zi_init_again, ns_init_again, fzi_init_again, fs_init_again.
  - split; [apply zi_init_again, zi_init_initialized|].
    split; [apply ns_init_again, ns_init_initialized|].
    split; [apply fzi_init_again, fzi_init_initialized|].
    apply fs_init_again, fs_init_initialized.
  - repeat split.
Qed.

(** The states a first [init] reaches have [initialized] set. *)
Lemma C6_init_idempotent_witness :
  fst (ZeroImports.init (snd (ZeroImports.init ZeroImports.uninitialized))) = 1 /\
  fst (NesStandalone.init
         (snd (NesStandalone.init NesStandalone.uninitialized))) = 1 /\
  fst (FceuxZeroImports.init
         (snd (FceuxZeroImports.init FceuxZeroImports.uninitialized))) = 1 /\
  fst (FceuxSimple.init (snd (FceuxSimple.init FceuxSimple.uninitialized))) = 1.
Proof.
  destruct (C6_init_idempotent
              (snd (ZeroImports.init ZeroImports.uninitialized))
              (snd (NesStandalone.init NesStandalone.uninitialized))
              (snd (FceuxZeroImports.init FceuxZeroImports.uninitialized))
              (snd (FceuxSimple.init FceuxSimple.uninitialized))
              (zi_init_initialized _) (ns_init_initialized _)
              (fzi_init_initialized _) (fs_init_initialized _))
    as ((Hz & Hn & Hf & He) & _).
  rewrite Hz, Hn, Hf, He. repeat split.
Defined.

(** ** Determinism *)

(** [loadRom] reads the host memory only through the [size] bytes it is
    given. *)
Lemma zi_loadRom_ext rom1 rom2 size s :
  (forall i, 0 <= i < size -> load rom1 i = load rom2 i) ->
  ZeroImports.loadRom rom1 size s = ZeroImports.loadRom rom2 size s.
Proof.
  intros H. unfold ZeroImports.loadRom, ZeroImports.copy_mem.
  destruct (ZeroImports.initialized s =? 0); [reflexivity|].
  destruct (Z.ltb_spec size 16); [reflexivity|].
  rewrite (H 0), (H 1), (H 2), (H 3) by lia.
  rewrite (copy_reads_prefix _ rom1 rom2 size H). reflexivity.
Qed.

Lemma ns_loadRom_ext rom1 rom2 size s :
  (forall i, 0 <= i < size -> load rom1 i = load rom2 i) ->
  NesStandalone.loadRom rom1 size s = NesStandalone.loadRom rom2 size s.
Proof.
  intros H. unfold NesStandalone.loadRom, NesStandalone.copy_memory.
  destruct (NesStandalone.initialized s =? 0); [reflexivity|].
  destruct (Z.ltb_spec size 16); [reflexivity|].
  rewrite (H 0), (H 1), (H 2), (H 3), (H 6), (H 7) by lia.
  rewrite (copy_reads_prefix _ rom1 rom2 size H). reflexivity.
Qed.

Lemma fzi_loadRom_ext rom1 rom2 size s :
  (forall i, 0 <= i < size -> load rom1 i = load rom2 i) ->
  FceuxZeroImports.loadRom rom1 size s = FceuxZeroImports.loadRom rom2 size s.
Proof.
  intros H. unfold FceuxZeroImports.loadRom, FceuxZeroImports.my_memcpy.
  destruct (FceuxZeroImports.initialized s =? 0); [reflexivity|].
  destruct (Z.ltb_spec size 16); [reflexivity|].
  rewrite (H 0), (H 1), (H 2), (H 3), (H 4), (H 5), (H 6), (H 7) by lia.
  rewrite (copy_reads_prefix _ rom1 rom2 size H). reflexivity.
Qed.

Lemma fs_loadRom_ext rom1 rom2 size s :
  (forall i, 0 <= i < size mod 2 ^ 32 -> load rom1 i = load rom2 i) ->
  FceuxSimple.loadRom rom1 size s = FceuxSimple.loadRom rom2 size s.
Proof.
  intros H. unfold FceuxSimple.loadRom, FceuxSimple.memcpy. cbv zeta.
  destruct (FceuxSimple.initialized s =? 0); [reflexivity|].
  destruct (Z.ltb_spec (size mod 2 ^ 32) 16); [reflexivity|].
  rewrite (H 0), (H 1), (H 2), (H 3), (H 4), (H 5), (H 6), (H 7) by lia.
  rewrite (copy_reads_prefix _ rom1 rom2 (size mod 2 ^ 32) H). reflexivity.
Qed.

Lemma zi_same_call s c1 c2 :
  ZeroImports.same_call c1 c2 ->
  ZeroImports.step s c1 = ZeroImports.step s c2 /\
  ZeroImports.returns s c1 = ZeroImports.returns s c2.
Proof.
  destruct c1, c2; cbn [ZeroImports.same_call]; intros H;
    try discriminate H; try (injection H as -> ->); try (injection H as ->);
    try (split; reflexivity).
  destruct H as (-> & H).
  cbn [ZeroImports.step ZeroImports.returns].
  now rewrite (zi_loadRom_ext rom_data rom_data0 size0 s H).
Qed.

Lemma ns_same_call s c1 c2 :
  NesStandalone.same_call c1 c2 ->
  NesStandalone.step s c1 = NesStandalone.step s c2 /\
  NesStandalone.returns s c1 = NesStandalone.returns s c2.
Proof.
  destruct c1, c2; cbn [NesStandalone.same_call]; intros H;
    try discriminate H; try (injection H as -> ->); try (injection H as ->);
    try (split; reflexivity).
  destruct H as (-> & H).
  cbn [NesStandalone.step NesStandalone.returns].
  now rewrite (ns_loadRom_ext rom_data rom_data0 size0 s H).
Qed.

Lemma fzi_same_call s c1 c2 :
  FceuxZeroImports.same_call c1 c2 ->
  FceuxZeroImports.step s c1 = FceuxZeroImports.step s c2 /\
  FceuxZeroImports.returns s c1 = FceuxZeroImports.returns s c2.
Proof.
  destruct c1, c2; cbn [FceuxZeroImports.same_call]; intros H;
    try discriminate H; try (injection H as -> ->); try (injection H as ->);
    try (split; reflexivity).
  destruct H as (-> & H).
  cbn [FceuxZeroImports.step FceuxZeroImports.returns].
  now rewrite (fzi_loadRom_ext rom_data rom_data0 size0 s H).
Qed.

Lemma fs_same_call s c1 c2 :
  FceuxSimple.same_call c1 c2 ->
  FceuxSimple.step s c1 = FceuxSimple.step s c2 /\
  FceuxSimple.returns s c1 = FceuxSimple.returns s c2.
Proof.
  destruct c1, c2; cbn [FceuxSimple.same_call]; intros H;
    try discriminate H; try (injection H as -> ->); try (injection H as ->);
    try (split; reflexivity).
  destruct H as (-> & H).
  cbn [FceuxSimple.step FceuxSimple.returns].
  now rewrite (fs_loadRom_ext rom rom0 size0 s H).
Qed.

Lemma zi_same_run t1 t2 : Forall2 ZeroImports.same_call t1 t2 -> forall s,
  ZeroImports.run t1 s = ZeroImports.run t2 s /\
  ZeroImports.returns_of t1 s = ZeroImports.returns_of t2 s.
Proof.
  induction 1 as [|c1 c2 t1 t2 Hc _ IH]; intros s; [split; reflexivity|].
  destruct (zi_same_call s c1 c2 Hc) as (Hs & Hr).
  cbn [ZeroImports.run ZeroImports.returns_of fold_left].
  rewrite Hs, Hr. destruct (IH (ZeroImports.step s c2)) as (IH1 & IH2).
  unfold ZeroImports.run in IH1. now rewrite IH1, IH2.
Qed.

Lemma ns_same_run t1 t2 : Forall2 NesStandalone.same_call t1 t2 -> forall s,
  NesStandalone.run t1 s = NesStandalone.run t2 s /\
  NesStandalone.returns_of t1 s = NesStandalone.returns_of t2 s.
Proof.
  induction 1 as [|c1 c2 t1 t2 Hc _ IH]; intros s; [split; reflexivity|].
  destruct (ns_same_call s c1 c2 Hc) as (Hs & Hr).
  cbn [NesStandalone.run NesStandalone.returns_of fold_left].
  rewrite Hs, Hr. destruct (IH (NesStandalone.step s c2)) as (IH1 & IH2).
  unfold NesStandalone.run in IH1. now rewrite IH1, IH2.
Qed.

Lemma fzi_same_run t1 t2 : Forall2 FceuxZeroImports.same_call t1 t2 -> forall s,
  FceuxZeroImports.run t1 s = FceuxZeroImports.run t2 s /\
  FceuxZeroImports.returns_of t1 s = FceuxZeroImports.returns_of t2 s.
Proof.
  induction 1 as [|c1 c2 t1 t2 Hc _ IH]; intros s; [split; reflexivity|].
  destruct (fzi_same_call s c1 c2 Hc) as (Hs & Hr).
  cbn [FceuxZeroImports.run FceuxZeroImports.returns_of fold_left].
  rewrite Hs, Hr. destruct (IH (FceuxZeroImports.step s c2)) as (IH1 & IH2).
  unfold FceuxZeroImports.run in IH1. now rewrite IH1, IH2.
Qed.

Lemma fs_same_run t1 t2 : Forall2 FceuxSimple.same_call t1 t2 -> forall s,
  FceuxSimple.run t1 s = FceuxSimple.run t2 s /\
  FceuxSimple.returns_of t1 s = FceuxSimple.returns_of t2 s.
Proof.
  induction 1 as [|c1 c2 t1 t2 Hc _ IH]; intros s; [split; reflexivity|].
  destruct (fs_same_call s c1 c2 Hc) as (Hs & Hr).
  cbn [FceuxSimple.run FceuxSimple.returns_of fold_left].
  rewrite Hs, Hr. destruct (IH (FceuxSimple.step s c2)) as (IH1 & IH2).
  unfold FceuxSimple.run in IH1. now rewrite IH1, IH2.
Qed.

(** C7.  In each of the four files, two runs from Uninitialized that make
    the same calls with the same arguments (for [loadRom]: the same [size]
    and the same [size] bytes at the pointer) end in the same state, frame
    buffer and every scalar included, and hand the same values back to the
    host on the way. *)
Theorem C7_deterministic
    (tz1 tz2 : list ZeroImports.call) (tn1 tn2 : list NesStandalone.call)
    (tf1 tf2 : list FceuxZeroImports.call) (te1 te2 : list FceuxSimple.call) :
  Forall2 ZeroImports.same_call tz1 tz2 ->
  Forall2 NesStandalone.same_call tn1 tn2 ->
  Forall2 FceuxZeroImports.same_call tf1 tf2 ->
  Forall2 FceuxSimple.same_call te1 te2 ->
  (ZeroImports.run tz1 ZeroImports.uninitialized =
     ZeroImports.run tz2 ZeroImports.uninitialized /\
   ZeroImports.returns_of tz1 ZeroImports.uninitialized =
     ZeroImports.returns_of tz2 ZeroImports.uninitialized) /\
  (NesStandalone.run tn1 NesStandalone.uninitialized =
     NesStandalone.run tn2 NesStandalone.uninitialized /\
   NesStandalone.returns_of tn1 NesStandalone.uninitialized =
     NesStandalone.returns_of tn2 NesStandalone.uninitialized) /\
  (FceuxZeroImports.run tf1 FceuxZeroImports.uninitialized =
     FceuxZeroImports.run tf2 FceuxZeroImports.uninitialized /\
   FceuxZeroImports.returns_of tf1 FceuxZeroImports.uninitialized =
     FceuxZeroImports.returns_of tf2 FceuxZeroImports.uninitialized) /\
  (FceuxSimple.run te1 FceuxSimple.uninitialized =
     FceuxSimple.run te2 FceuxSimple.uninitialized /\
   FceuxSimple.returns_of te1 FceuxSimple.uninitialized =
     FceuxSimple.returns_of te2 FceuxSimple.uninitialized).
Proof.
  intros Hz Hn Hf He.
  split; [apply zi_same_run, Hz|]. split; [apply ns_same_run, Hn|].
  split; [apply fzi_same_run, Hf|]. apply fs_same_run, He.
Qed.

Lemma same_nrom_header i :
  0 <= i < 16 -> load Roms.nrom_header i = load Roms.nrom_header_in_memory i.
Proof.
  intros Hi. unfold Roms.nrom_header_in_memory. symmetry.
  apply load_app_l. exact Hi.
Qed.

(** Two hosts load scenario S2's header from memories that differ beyond
    its 16 bytes, press Right and render a frame. *)
Lemma C7_deterministic_witness :
  ZeroImports.run
    [ZeroImports.Init; ZeroImports.LoadRom Roms.nrom_header 16;
     ZeroImports.SetButton 0 1; ZeroImports.Frame] ZeroImports.uninitialized =
  ZeroImports.run
    [ZeroImports.Init; ZeroImports.LoadRom Roms.nrom_header_in_memory 16;
     ZeroImports.SetButton 0 1; ZeroImports.Frame] ZeroImports.uninitialized /\
  NesStandalone.run
    [NesStandalone.Init; NesStandalone.LoadRom Roms.nrom_header 16;
     NesStandalone.SetButton 0 1; NesStandalone.Frame]
    NesStandalone.uninitialized =
  NesStandalone.run
    [NesStandalone.Init; NesStandalone.LoadRom Roms.nrom_header_in_memory 16;
     NesStandalone.SetButton 0 1; NesStandalone.Frame]
    NesStandalone.uninitialized /\
  FceuxZeroImports.run
    [FceuxZeroImports.Init; FceuxZeroImports.LoadRom Roms.nrom_header 16;
     FceuxZeroImports.SetButton 0 1; FceuxZeroImports.Frame]
    FceuxZeroImports.uninitialized =
  FceuxZeroImports.run
    [FceuxZeroImports.Init;
     FceuxZeroImports.LoadRom Roms.nrom_header_in_memory 16;
     FceuxZeroImports.SetButton 0 1; FceuxZeroImports.Frame]
    FceuxZeroImports.uninitialized /\
  FceuxSimple.run
    [FceuxSimple.Init; FceuxSimple.LoadRom Roms.nrom_header 16;
     FceuxSimple.SetRunning 1; FceuxSimple.Frame] FceuxSimple.uninitialized =
  FceuxSimple.run
    [FceuxSimple.Init; FceuxSimple.LoadRom Roms.nrom_header_in_memory 16;
     FceuxSimple.SetRunning 1; FceuxSimple.Frame] FceuxSimple.uninitialized.
Proof.
  destruct (C7_deterministic
    [ZeroImports.Init; ZeroImports.LoadRom Roms.nrom_header 16;
     ZeroImports.SetButton 0 1; ZeroImports.Frame]
    [ZeroImports.Init; ZeroImports.LoadRom Roms.nrom_header_in_memory 16;
     ZeroImports.SetButton 0 1; ZeroImports.Frame]
    [NesStandalone.Init; NesStandalone.LoadRom Roms.nrom_header 16;
     NesStandalone.SetButton 0 1; NesStandalone.Frame]
    [NesStandalone.Init; NesStandalone.LoadRom Roms.nrom_header_in_memory 16;
     NesStandalone.SetButton 0 1; NesStandalone.Frame]
    [FceuxZeroImports.Init; FceuxZeroImports.LoadRom Roms.nrom_header 16;
     FceuxZeroImports.SetButton 0 1; FceuxZeroImports.Frame]
    [FceuxZeroImports.Init;
     FceuxZeroImports.LoadRom Roms.nrom_header_in_memory 16;
     FceuxZeroImports.SetButton 0 1; FceuxZeroImports.Frame]
    [FceuxSimple.Init; FceuxSimple.LoadRom Roms.nrom_header 16;
     FceuxSimple.SetRunning 1; FceuxSimple.Frame]
    [FceuxSimple.Init; FceuxSimple.LoadRom Roms.nrom_header_in_memory 16;
     FceuxSimple.SetRunning 1; FceuxSimple.Frame])
    as ((Hz & _) & (Hn & _) & (Hf & _) & (He & _)).
  - constructor; [reflexivity|].
    constructor; [split; [reflexivity | exact same_nrom_header]|].
    constructor; [reflexivity|].
    constructor; [reflexivity|]. constructor.
  - constructor; [reflexivity|].
    constructor; [split; [reflexivity | exact same_nrom_header]|].
    constructor; [reflexivity|].
    constructor; [reflexivity|]. constructor.
  - constructor; [reflexivity|].
    constructor; [split; [reflexivity | exact same_nrom_header]|].
    constructor; [reflexivity|].
    constructor; [reflexivity|]. constructor.
  - constructor; [reflexivity|].
    constructor; [split; [reflexivity | exact same_nrom_header]|].
    constructor; [reflexivity|].
    constructor; [reflexivity|]. constructor.
  - split; [exact Hz|]. split; [exact Hn|]. split; [exact Hf | exact He].
Defined.

(** ** The frame counter *)

(** C8.  In each of the four files [frame_count] goes up by exactly one
    modulo [2 ^ 32] in a [frame] call whose guard passes and stays in a
    call whose guard fails; [init] sets it to 0 when it initialises (and
    leaves it when already initialised), [reset] sets it to 0; [loadRom],
    [setButton], [setRunning] and the accessors leave it as it was. *)
Theorem C8_frame_count (rom : list Z) (size button pressed running : Z)
    (z : ZeroImports.state) (n : NesStandalone.state)
    (f : FceuxZeroImports.state) (e : FceuxSimple.state) :
  (ZeroImports.frame_count (ZeroImports.frame z) =
     (if ZeroImports.initialized z =? 0 then ZeroImports.frame_count z
      else (ZeroImports.frame_count z + 1) mod 2 ^ 32) /\
   0 <= (ZeroImports.frame_count z + 1) mod 2 ^ 32 < 2 ^ 32 /\
   ZeroImports.frame_count (snd (ZeroImports.init z)) =
     (if ZeroImports.initialized z =? 0 then 0 else ZeroImports.frame_count z) /\
   ZeroImports.frame_count (ZeroImports.reset z) = 0 /\
   ZeroImports.frame_count (snd (ZeroImports.loadRom rom size z)) =
     ZeroImports.frame_count z /\
   ZeroImports.frame_count (ZeroImports.setButton button pressed z) =
     ZeroImports.frame_count z /\
   ZeroImports.frame_count (ZeroImports.setRunning running z) =
     ZeroImports.frame_count z /\
   ZeroImports.step z ZeroImports.GetFrameBuffer = z /\
   ZeroImports.step z ZeroImports.GetFrameBufferSize = z /\
   ZeroImports.step z ZeroImports.GetPalette = z) /\
  (NesStandalone.frame_count (NesStandalone.frame n) =
     (if NesStandalone.initialized n =? 0 then NesStandalone.frame_count n
      else (NesStandalone.frame_count n + 1) mod 2 ^ 32) /\
   0 <= (NesStandalone.frame_count n + 1) mod 2 ^ 32 < 2 ^ 32 /\
   NesStandalone.frame_count (snd (NesStandalone.init n)) =
     (if NesStandalone.initialized n =? 0 then 0
      else NesStandalone.frame_count n) /\
   NesStandalone.frame_count (NesStandalone.reset n) = 0 /\
   NesStandalone.frame_count (snd (NesStandalone.loadRom rom size n)) =
     NesStandalone.frame_count n /\
   NesStandalone.frame_count (NesStandalone.setButton button pressed n) =
     NesStandalone.frame_count n /\
   NesStandalone.frame_count (NesStandalone.setRunning running n) =
     NesStandalone.frame_count n /\
   NesStandalone.step n NesStandalone.GetFrameBuffer = n /\
   NesStandalone.step n NesStandalone.GetFrameBufferSize = n /\
   NesStandalone.step n NesStandalone.GetPalette = n) /\
  (FceuxZeroImports.frame_count (FceuxZeroImports.frame f) =
     (if (FceuxZeroImports.initialized f =? 0) ||
         (FceuxZeroImports.rom_loaded f =? 0)
      then FceuxZeroImports.frame_count f
      else (FceuxZeroImports.frame_count f + 1) mod 2 ^ 32) /\
   0 <= (FceuxZeroImports.frame_count f + 1) mod 2 ^ 32 < 2 ^ 32 /\
   FceuxZeroImports.frame_count (snd (FceuxZeroImports.init f)) =
     (if FceuxZeroImports.initialized f =? 0 then 0
      else FceuxZeroImports.frame_count f) /\
   FceuxZeroImports.frame_count (FceuxZeroImports.reset f) = 0 /\
   FceuxZeroImports.frame_count (snd (FceuxZeroImports.loadRom rom size f)) =
     FceuxZeroImports.frame_count f /\
   FceuxZeroImports.frame_count (FceuxZeroImports.setButton button pressed f) =
     FceuxZeroImports.frame_count f /\
   FceuxZeroImports.frame_count (FceuxZeroImports.setRunning running f) =
     FceuxZeroImports.frame_count f /\
   FceuxZeroImports.step f FceuxZeroImports.GetFrameBuffer = f /\
   FceuxZeroImports.step f FceuxZeroImports.GetFrameBufferSize = f /\
   FceuxZeroImports.step f FceuxZeroImports.GetPalette = f) /\
  (FceuxSimple.frame_count (FceuxSimple.frame e) =
     (if (FceuxSimple.initialized e =? 0) || (FceuxSimple.rom_loaded e =? 0) ||
         (FceuxSimple.running e =? 0)
      then FceuxSimple.frame_count e
      else (FceuxSimple.frame_count e + 1) mod 2 ^ 32) /\
   0 <= (FceuxSimple.frame_count e + 1) mod 2 ^ 32 < 2 ^ 32 /\
   FceuxSimple.frame_count (snd (FceuxSimple.init e)) =
     (if FceuxSimple.initialized e =? 0 then 0 else FceuxSimple.frame_count e) /\
   FceuxSimple.frame_count (FceuxSimple.reset e) = 0 /\
   FceuxSimple.frame_count (snd (FceuxSimple.loadRom rom size e)) =
     FceuxSimple.frame_count e /\
   FceuxSimple.frame_count (FceuxSimple.setButton button pressed e) =
     FceuxSimple.frame_count e /\
   FceuxSimple.frame_count (FceuxSimple.setRunning running e) =
     FceuxSimple.frame_count e /\
   FceuxSimple.step e FceuxSimple.GetFrameBuffer = e /\
   FceuxSimple.step e FceuxSimple.GetFrameBufferSize = e /\
   FceuxSimple.step e FceuxSimple.GetPalette = e).
Proof.
  assert (Hrange : forall c, 0 <= (c + 1) mod 2 ^ 32 < 2 ^ 32)
    by (intros c; apply Z.mod_pos_bound; lia).
  split; [|split; [|split]].
  - split; [unfold ZeroImports.frame; destruct (_ =? 0); reflexivity|].
    split; [apply Hrange|].
    split; [unfold ZeroImports.init; destruct (_ =? 0); reflexivity|].
    split; [reflexivity|].
    split; [apply (zi_loadRom_frame rom size z)|].
    split; [unfold ZeroImports.setButton; destruct (_ || _); reflexivity|].
    repeat split.
  - split; [unfold NesStandalone.frame; destruct (_ =? 0); reflexivity|].
    split; [apply Hrange|].
    split; [unfold NesStandalone.init; destruct (_ =? 0); reflexivity|].
    split; [reflexivity|].
    split; [apply (ns_loadRom_frame rom size n)|].
    split; [unfold NesStandalone.setButton; destruct (_ || _); reflexivity|].
    repeat split.
  - split; [unfold FceuxZeroImports.frame; destruct (_ || _); reflexivity|].
    split; [apply Hrange|].
    split; [unfold FceuxZeroImports.init; destruct (_ =? 0); reflexivity|].
    split; [reflexivity|].
    split; [apply (fzi_loadRom_frame rom size f)|].
    split; [unfold FceuxZeroImports.setButton; destruct (_ || _); reflexivity|].
    repeat split.
  - split; [unfold FceuxSimple.frame; destruct (_ || _); reflexivity|].
    split; [apply Hrange|].
    split; [unfold FceuxSimple.init; destruct (_ =? 0); reflexivity|].
    split; [reflexivity|].
    split; [apply (fs_loadRom_frame rom size e)|].
    split; [unfold FceuxSimple.setButton; destruct (_ || _); reflexivity|].
    repeat split.
Qed.

(** ** [loadRom] and the picture *)

(** C10.  In each of the four files [loadRom], whether it returns 1 or 0,
    leaves the frame buffer, the palette table, [controls] and
    [frame_count] exactly as they were. *)
Theorem C10_loadRom_frame (rom : list Z) (size : Z)
    (z : ZeroImports.state) (n : NesStandalone.state)
    (f : FceuxZeroImports.state) (e : FceuxSimple.state) :
  (ZeroImports.frame_buffer (snd (ZeroImports.loadRom rom size z)) =
     ZeroImports.frame_buffer z /\
   ZeroImports.nes_palette (snd (ZeroImports.loadRom rom size z)) =
     ZeroImports.nes_palette z /\
   ZeroImports.controls (snd (ZeroImports.loadRom rom size z)) =
     ZeroImports.controls z /\
   ZeroImports.frame_count (snd (ZeroImports.loadRom rom size z)) =
     ZeroImports.frame_count z) /\
  (NesStandalone.frame_buffer (snd (NesStandalone.loadRom rom size n)) =
     NesStandalone.frame_buffer n /\
   NesStandalone.nes_palette (snd (NesStandalone.loadRom rom size n)) =
     NesStandalone.nes_palette n /\
   NesStandalone.controls (snd (NesStandalone.loadRom rom size n)) =
     NesStandalone.controls n /\
   NesStandalone.frame_count (snd (NesStandalone.loadRom rom size n)) =
     NesStandalone.frame_count n) /\
  (FceuxZeroImports.frame_buffer (snd (FceuxZeroImports.loadRom rom size f)) =
     FceuxZeroImports.frame_buffer f /\
   FceuxZeroImports.nes_palette (snd (FceuxZeroImports.loadRom rom size f)) =
     FceuxZeroImports.nes_palette f /\
   FceuxZeroImports.controls (snd (FceuxZeroImports.loadRom rom size f)) =
     FceuxZeroImports.controls f /\
   FceuxZeroImports.frame_count (snd (FceuxZeroImports.loadRom rom size f)) =
     FceuxZeroImports.frame_count f) /\
  (FceuxSimple.frame_buffer (snd (FceuxSimple.loadRom rom size e)) =
     FceuxSimple.frame_buffer e /\
   FceuxSimple.palette (snd (FceuxSimple.loadRom rom size e)) =
     FceuxSimple.palette e /\
   FceuxSimple.controls (snd (FceuxSimple.loadRom rom size e)) =
     FceuxSimple.controls e /\
   FceuxSimple.frame_count (snd (FceuxSimple.loadRom rom size e)) =
     FceuxSimple.frame_count e).
Proof.
  destruct (zi_loadRom_frame rom size z) as (Z1 & Z2 & Z3 & Z4 & _).
  destruct (ns_loadRom_frame rom size n) as (N1 & N2 & N3 & N4 & _).
  destruct (fzi_loadRom_frame rom size f) as (F1 & F2 & F3 & F4 & _).
  destruct (fs_loadRom_frame rom size e) as (E1 & E2 & E3 & E4 & _).
  repeat match goal with |- _ /\ _ => split end; assumption.
Qed.

(** ** Controller bits *)

(** [controls |= 1 << b] sets bit [b] and keeps the others. *)
Lemma press_bits c b k :
  0 <= b -> 0 <= k ->
  Z.testbit (Z.lor c (Z.shiftl 1 b)) k = if k =? b then true else Z.testbit c k.
Proof.
  intros Hb Hk. rewrite Z.lor_spec, Z.shiftl_1_l, Z.pow2_bits_eqb by lia.
  rewrite (Z.eqb_sym b k). destruct (k =? b).
  - apply orb_true_r.
  - apply orb_false_r.
Qed.

(** [controls &= ~(1 << b)] in [unsigned int] clears bit [b] and keeps the
    others. *)
Lemma release_bits c b k :
  0 <= b -> 0 <= k < 32 ->
  Z.testbit (Z.land c (Z.lnot (Z.shiftl 1 b) mod 2 ^ 32)) k =
    if k =? b then false else Z.testbit c k.
Proof.
  intros Hb Hk.
  rewrite Z.land_spec, Z.mod_pow2_bits_low, Z.lnot_spec by lia.
  rewrite Z.shiftl_1_l, Z.pow2_bits_eqb by lia.
  rewrite (Z.eqb_sym b k). destruct (k =? b); cbn [negb].
  - apply andb_false_r.
  - apply andb_true_r.
Qed.

(** The same two updates in [uint8_t], as [fceux-simple.c] has them. *)
Lemma mask8 b : 0 <= b <= 7 -> Z.shiftl 1 b mod 256 = Z.shiftl 1 b.
Proof.
  intros Hb. rewrite Z.shiftl_1_l. apply Z.mod_small.
  split; [apply Z.pow_nonneg; lia|].
  change 256 with (2 ^ 8). apply Z.pow_lt_mono_r; lia.
Qed.

Lemma press_bits8 c b k :
  0 <= b <= 7 -> 0 <= k < 8 ->
  Z.testbit (Z.lor c (Z.shiftl 1 b mod 256) mod 256) k =
    if k =? b then true else Z.testbit c k.
Proof.
  intros Hb Hk. rewrite mask8 by lia. change 256 with (2 ^ 8).
  rewrite Z.mod_pow2_bits_low by lia. apply press_bits; lia.
Qed.

Lemma release_bits8 c b k :
  0 <= b <= 7 -> 0 <= k < 8 ->
  Z.testbit (Z.land c (Z.lnot (Z.shiftl 1 b mod 256)) mod 256) k =
    if k =? b then false else Z.testbit c k.
Proof.
  intros Hb Hk. rewrite mask8 by lia. change 256 with (2 ^ 8).
  rewrite Z.mod_pow2_bits_low, Z.land_spec, Z.lnot_spec by lia.
  rewrite Z.shiftl_1_l, Z.pow2_bits_eqb by lia.
  rewrite (Z.eqb_sym b k). destruct (k =? b); cbn [negb].
  - apply andb_false_r.
  - apply andb_true_r.
Qed.

Lemma out_of_range button :
  button < 0 \/ 7 < button -> (button <? 0) || (button >? 7) = true.
Proof.
  intros H. rewrite Z.gtb_ltb.
  destruct (Z.ltb_spec button 0), (Z.ltb_spec 7 button); cbn [orb];
    try reflexivity; lia.
Qed.

Lemma in_range button :
  0 <= button <= 7 -> (button <? 0) || (button >? 7) = false.
Proof.
  intros H. rewrite Z.gtb_ltb.
  destruct (Z.ltb_spec button 0), (Z.ltb_spec 7 button); cbn [orb];
    try reflexivity; lia.
Qed.

(** C9.  In each of the four files [setButton(b, pressed)] with [b]
    outside [0, 7] returns the state as it was.  With [b] in [0, 7] it
    changes [controls] only: bit [b] becomes 1 when [pressed] is nonzero
    and 0 when [pressed] is zero, and every other bit of the register (32
    bits, 8 in [fceux-simple.c]) keeps its value. *)
Theorem C9_setButton (b pressed k : Z)
    (z : ZeroImports.state) (n : NesStandalone.state)
    (f : FceuxZeroImports.state) (e : FceuxSimple.state) :
  (b < 0 \/ 7 < b ->
   ZeroImports.setButton b pressed z = z /\
   NesStandalone.setButton b pressed n = n /\
   FceuxZeroImports.setButton b pressed f = f /\
   FceuxSimple.setButton b pressed e = e) /\
  (0 <= b <= 7 ->
   (ZeroImports.setButton b pressed z =
      ZeroImports.State (ZeroImports.frame_buffer z) (ZeroImports.nes_palette z)
        (ZeroImports.rom_buffer z) (ZeroImports.initialized z)
        (ZeroImports.rom_loaded z)
        (ZeroImports.controls (ZeroImports.setButton b pressed z))
        (ZeroImports.frame_count z) (ZeroImports.rom_size z) /\
    (0 <= k < 32 ->
     Z.testbit (ZeroImports.controls (ZeroImports.setButton b pressed z)) k =
       if k =? b then negb (pressed =? 0)
       else Z.testbit (ZeroImports.controls z) k)) /\
   (NesStandalone.setButton b pressed n =
      NesStandalone.State (NesStandalone.frame_buffer n)
        (NesStandalone.nes_palette n) (NesStandalone.rom_buffer n)
        (NesStandalone.initialized n) (NesStandalone.rom_loaded n)
        (NesStandalone.controls (NesStandalone.setButton b pressed n))
        (NesStandalone.frame_count n) (NesStandalone.rom_size n)
        (NesStandalone.mapper n) /\
    (0 <= k < 32 ->
     Z.testbit (NesStandalone.controls (NesStandalone.setButton b pressed n)) k =
       if k =? b then negb (pressed =? 0)
       else Z.testbit (NesStandalone.controls n) k)) /\
   (FceuxZeroImports.setButton b pressed f =
      FceuxZeroImports.State (FceuxZeroImports.frame_buffer f)
        (FceuxZeroImports.nes_palette f) (FceuxZeroImports.rom_buffer f)
        (FceuxZeroImports.initialized f) (FceuxZeroImports.rom_loaded f)
        (FceuxZeroImports.running f)
        (FceuxZeroImports.controls (FceuxZeroImports.setButton b pressed f))
        (FceuxZeroImports.frame_count f) (FceuxZeroImports.rom_size f)
        (FceuxZeroImports.prg_banks f) (FceuxZeroImports.chr_banks f)
        (FceuxZeroImports.mapper f) (FceuxZeroImports.has_chr_ram f) /\
    (0 <= k < 32 ->
     Z.testbit
       (FceuxZeroImports.controls (FceuxZeroImports.setButton b pressed f)) k =
       if k =? b then negb (pressed =? 0)
       else Z.testbit (FceuxZeroImports.controls f) k)) /\
   (FceuxSimple.setButton b pressed e =
      FceuxSimple.State (FceuxSimple.rom_data e) (FceuxSimple.rom_size e)
        (FceuxSimple.frame_buffer e) (FceuxSimple.chr_ram e)
        (FceuxSimple.prg_ram e) (FceuxSimple.palette e)
        (FceuxSimple.controls (FceuxSimple.setButton b pressed e))
        (FceuxSimple.initialized e) (FceuxSimple.rom_loaded e)
        (FceuxSimple.running e) (FceuxSimple.frame_count e)
        (FceuxSimple.prg_banks e) (FceuxSimple.chr_banks e)
        (FceuxSimple.mapper e) (FceuxSimple.has_chr_ram e)
        (FceuxSimple.has_trainer e) (FceuxSimple.has_battery e) /\
    (0 <= k < 8 ->
     Z.testbit (FceuxSimple.controls (FceuxSimple.setButton b pressed e)) k =
       if k =? b then negb (pressed =? 0)
       else Z.testbit (FceuxSimple.controls e) k))).
Proof.
  split.
  - intros Hb.
    unfold ZeroImports.setButton, NesStandalone.setButton,
      FceuxZeroImports.setButton, FceuxSimple.setButton.
    rewrite (out_of_range b Hb). repeat split.
  - intros Hb.
    unfold ZeroImports.setButton, NesStandalone.setButton,
      FceuxZeroImports.setButton, FceuxSimple.setButton.
    rewrite (in_range b Hb). cbv zeta.
    cbn [ZeroImports.controls NesStandalone.controls FceuxZeroImports.controls
         FceuxSimple.controls].
    repeat match goal with |- _ /\ _ => split end; try reflexivity;
      intros Hk; destruct (pressed =? 0); cbn [negb];
      first [ apply release_bits; lia | apply press_bits; lia
            | apply release_bits8; lia | apply press_bits8; lia ].
Qed.

(** Button 9 is ignored (scenario S6); pressing Right (button 0) on clear
    controls sets bit 0. *)
Lemma C9_setButton_witness :
  ZeroImports.setButton 9 1 ZeroImports.uninitialized = ZeroImports.uninitialized /\
  Z.testbit
    (FceuxZeroImports.controls
       (FceuxZeroImports.setButton 0 1 FceuxZeroImports.uninitialized)) 0 = true /\
  Z.testbit
    (FceuxSimple.controls
       (FceuxSimple.setButton 0 0 FceuxSimple.uninitialized)) 0 = false.
Proof.
  destruct (C9_setButton 9 1 0 ZeroImports.uninitialized
              NesStandalone.uninitialized FceuxZeroImports.uninitialized
              FceuxSimple.uninitialized) as (Hout & _).
  destruct Hout as (Hz & _); [right; lia|].
  destruct (C9_setButton 0 1 0 ZeroImports.uninitialized
              NesStandalone.uninitialized FceuxZeroImports.uninitialized
              FceuxSimple.uninitialized) as (_ & Hin).
  destruct Hin as (_ & _ & (_ & Hf) & _); [lia|].
  destruct (C9_setButton 0 0 0 ZeroImports.uninitialized
              NesStandalone.uninitialized FceuxZeroImports.uninitialized
              FceuxSimple.uninitialized) as (_ & Hin0).
  destruct Hin0 as (_ & _ & _ & (_ & He)); [lia|].
  split; [exact Hz|]. split; [apply Hf; lia | apply He; lia].
Defined.
(** * More of the code

    ** Steps shared by the four files *)

Lemma rgba_mod r g b a k :
  rgba r g b a k mod 256 = rgba (r mod 256) (g mod 256) (b mod 256) (a mod 256) k.
Proof. unfold rgba. break_ifs; reflexivity. Qed.

(** Every entry of the two colour tables is a byte. *)
Lemma ns_colors_bytes i k :
  (let '(r, g, b) := NesStandalone.colors_at i in rgba r g b 255 k) mod 256 =
  (let '(r, g, b) := NesStandalone.colors_at i in rgba r g b 255 k).
Proof.
  assert (H : Forall (fun c => let '(r, g, b) := c in
                        0 <= r < 256 /\ 0 <= g < 256 /\ 0 <= b < 256)
                NesStandalone.colors)
    by (unfold NesStandalone.colors;
        repeat (apply Forall_cons_2; [cbv beta iota; lia|]); apply Forall_nil_2).
  unfold NesStandalone.colors_at.
  destruct (nth_in_or_default (Z.to_nat i) NesStandalone.colors (0, 0, 0))
    as [Hin | ->].
  - apply list_elem_of_In in Hin. rewrite Forall_forall in H.
    specialize (H _ Hin).
    destruct (nth _ _ _) as ((r & g) & b). apply Z.mod_small.
    unfold rgba. break_ifs; lia.
  - apply Z.mod_small. unfold rgba. break_ifs; lia.
Qed.

Lemma fzi_palette_data_bytes i k :
  (let '(r, g, b) := FceuxZeroImports.palette_data_at i in rgba r g b 255 k) mod 256 =
  (let '(r, g, b) := FceuxZeroImports.palette_data_at i in rgba r g b 255 k).
Proof.
  assert (H : Forall (fun c => let '(r, g, b) := c in
                        0 <= r < 256 /\ 0 <= g < 256 /\ 0 <= b < 256)
                FceuxZeroImports.palette_data)
    by (unfold FceuxZeroImports.palette_data;
        repeat (apply Forall_cons_2; [cbv beta iota; lia|]); apply Forall_nil_2).
  unfold FceuxZeroImports.palette_data_at.
  destruct (nth_in_or_default (Z.to_nat i) FceuxZeroImports.palette_data (0, 0, 0))
    as [Hin | ->].
  - apply list_elem_of_In in Hin. rewrite Forall_forall in H.
    specialize (H _ Hin).
    destruct (nth _ _ _) as ((r & g) & b). apply Z.mod_small.
    unfold rgba. break_ifs; lia.
  - apply Z.mod_small. unfold rgba. break_ifs; lia.
Qed.

(** [controls |= mask] and [controls &= ~mask] keep an 8-bit register
    within 8 bits. *)
Lemma press_range c b :
  0 <= c < 256 -> 0 <= b <= 7 -> 0 <= Z.lor c (Z.shiftl 1 b) < 256.
Proof.
  intros Hc Hb. change 256 with (2 ^ 8) in *.
  apply fits_bits; [lia|]. intros i Hi. rewrite press_bits by lia.
  destruct (Z.eqb_spec i b); [lia|].
  now apply (proj1 (fits_bits 8 c ltac:(lia)) Hc).
Qed.

Lemma release_range c b :
  0 <= c < 256 -> 0 <= b <= 7 ->
  0 <= Z.land c (Z.lnot (Z.shiftl 1 b) mod 2 ^ 32) < 256.
Proof.
  intros Hc Hb. change 256 with (2 ^ 8) in *.
  apply fits_bits; [lia|]. intros i Hi. rewrite Z.land_spec.
  rewrite (proj1 (fits_bits 8 c ltac:(lia)) Hc i Hi). reflexivity.
Qed.

(** ** More about [scripts/zero-imports.c] *)

(** [loadRom] turns the call down, and changes nothing, when the module is
    not initialised, the size is out of range or the magic is wrong. *)
Lemma zi_loadRom_reject rom size s :
  ZeroImports.initialized s = 0 \/ size < 16 \/ 2097152 < size \/ ~ INes.magic_ok rom ->
  ZeroImports.loadRom rom size s = (0, s).
Proof.
  intros H. unfold ZeroImports.loadRom. rewrite Z.gtb_ltb.
  destruct (Z.eqb_spec (ZeroImports.initialized s) 0); [reflexivity|].
  destruct (Z.ltb_spec size 16); [reflexivity|].
  destruct (Z.ltb_spec 2097152 size); [reflexivity|]. cbn [orb].
  destruct (Z.eqb_spec (load rom 0) 78); [|reflexivity].
  destruct (Z.eqb_spec (load rom 1) 69); [|reflexivity].
  destruct (Z.eqb_spec (load rom 2) 83); [|reflexivity].
  destruct (Z.eqb_spec (load rom 3) 26); [|reflexivity].
  exfalso. destruct H as [H|[H|[H|H]]]; try lia.
  apply H. repeat split; assumption.
Qed.

Lemma zi_loadRom_cases rom size s :
  ZeroImports.loadRom rom size s = (0, s) \/
  (ZeroImports.initialized s <> 0 /\ INes.size_ok size /\ INes.magic_ok rom /\
   ZeroImports.loadRom rom size s =
     (1, ZeroImports.State (ZeroImports.frame_buffer s) (ZeroImports.nes_palette s)
           (copy (ZeroImports.rom_buffer s) rom size) (ZeroImports.initialized s) 1 (ZeroImports.controls s)
           (ZeroImports.frame_count s) size)).
Proof.
  destruct (Z.eq_dec (ZeroImports.initialized s) 0) as [Hi|Hi];
    [left; apply zi_loadRom_reject; auto|].
  destruct (Z_lt_dec size 16) as [Hlo|Hlo];
    [left; apply zi_loadRom_reject; auto|].
  destruct (Z_lt_dec 2097152 size) as [Hhi|Hhi];
    [left; apply zi_loadRom_reject; auto|].
  destruct (Z.eq_dec (load rom 0) 78) as [H0|H0];
    [|left; apply zi_loadRom_reject; do 3 right; intros (? & _); auto].
  destruct (Z.eq_dec (load rom 1) 69) as [H1|H1];
    [|left; apply zi_loadRom_reject; do 3 right; intros (? & ? & _); auto].
  destruct (Z.eq_dec (load rom 2) 83) as [H2|H2];
    [|left; apply zi_loadRom_reject; do 3 right; intros (? & ? & ? & _); auto].
  destruct (Z.eq_dec (load rom 3) 26) as [H3|H3];
    [|left; apply zi_loadRom_reject; do 3 right; intros (? & ? & ? & ?); auto].
  assert (Hsize : INes.size_ok size) by (unfold INes.size_ok; lia).
  assert (Hmagic : INes.magic_ok rom) by (repeat split; assumption).
  right. repeat (split; [assumption|]).
  now apply zi_loadRom_accept.
Qed.

(** The magic of an accepted image is in the ROM buffer after the copy. *)
Lemma zi_magic_copied rom size buf :
  len buf = 2097152 -> INes.size_ok size -> INes.magic_ok rom ->
  INes.magic_ok (copy buf rom size).
Proof.
  unfold INes.size_ok, INes.magic_ok. intros Hlen Hsize (H0 & H1 & H2 & H3).
  rewrite !load_copy by lia. rewrite H0, H1, H2, H3.
  destruct (Z.ltb_spec 0 size), (Z.ltb_spec 1 size), (Z.ltb_spec 2 size),
    (Z.ltb_spec 3 size); try lia. repeat split.
Qed.

Lemma zi_steady_uninitialized : Steady.zero_imports ZeroImports.uninitialized.
Proof.
  split; [split; [apply zi_wf_uninitialized | intros H; contradiction H; reflexivity]|].
  split; [cbn [ZeroImports.uninitialized ZeroImports.controls ZeroImports.frame_count]; lia|].
  repeat match goal with |- _ /\ _ => split end;
    intros Hc; contradiction Hc; reflexivity.
Qed.

Lemma zi_steady_init s : Steady.zero_imports s -> Steady.zero_imports (snd (ZeroImports.init s)).
Proof.
  intros H. pose proof H as (Hinv & Hregs & Hrom & Hpal).
  destruct (Z.eq_dec (ZeroImports.initialized s) 0) as [E|E];
    [|rewrite (zi_init_again s E); exact H].
  pose proof (zi_inv_init s Hinv) as Hinv'.
  destruct (zi_init_fresh s E (proj1 Hinv))
    as (fb & pal & rom & Heq & _ & _ & _ & _ & _ & Hcol).
  rewrite Heq in *. cbn [snd] in *.
  split; [exact Hinv'|].
  split; [cbn [ZeroImports.controls ZeroImports.frame_count]; lia|].
  split; [intros Hl; contradiction Hl; reflexivity|].
  intros _ i k Hi Hk. cbn [ZeroImports.nes_palette]. rewrite (Hcol i k Hi Hk).
  rewrite rgba_mod, !land_255, !Z.mod_mod by lia. reflexivity.
Qed.

Lemma zi_steady_loadRom rom size s :
  Steady.zero_imports s -> Steady.zero_imports (snd (ZeroImports.loadRom rom size s)).
Proof.
  intros H. pose proof H as (Hinv & Hregs & Hrom & Hpal).
  pose proof (zi_inv_loadRom rom size s Hinv) as Hinv'.
  destruct Hinv as ((_ & _ & Hlen & _) & _).
  destruct (zi_loadRom_cases rom size s)
    as [Heq | (Hi & Hsize & Hmagic & Heq)].
  - rewrite Heq. exact H.
  - rewrite Heq in *. cbn [snd] in *.
    split; [exact Hinv'|]. split; [exact Hregs|].
    split; [intros _; cbn [ZeroImports.rom_buffer ZeroImports.rom_size]; split;
            [apply zi_magic_copied; assumption | exact Hsize]|].
    exact Hpal.
Qed.

Lemma zi_steady_frame s : Steady.zero_imports s -> Steady.zero_imports (ZeroImports.frame s).
Proof.
  intros H. pose proof H as (Hinv & Hregs & Hrom & Hpal).
  pose proof (zi_inv_frame s Hinv) as Hinv'.
  destruct (Z.eq_dec (ZeroImports.initialized s) 0) as [Ei|Ei];
    [rewrite zi_frame_skip by auto; exact H|].
  rewrite zi_frame_render in * by assumption.
  destruct Hinv as ((Hfb & _) & _).
  destruct (zi_render_frame_eq s Hfb) as (fb & Heq & _).
  cbv zeta in Heq. rewrite Heq in *.
  split; [exact Hinv'|].
  split; [cbn [ZeroImports.controls ZeroImports.frame_count]; split; [lia|];
          apply Z.mod_pos_bound; lia|].
  split; [exact Hrom | exact Hpal].
Qed.

Lemma zi_steady_reset s : Steady.zero_imports s -> Steady.zero_imports (ZeroImports.reset s).
Proof.
  intros H. pose proof H as (Hinv & Hregs & Hrom & Hpal).
  pose proof (zi_inv_reset s Hinv) as Hinv'.
  destruct Hinv as ((Hfb & _) & _).
  destruct (zi_reset_eq s Hfb) as (fb & Heq & _).
  rewrite Heq in *.
  split; [exact Hinv'|].
  split; [cbn [ZeroImports.controls ZeroImports.frame_count]; lia|].
  split; [exact Hrom | exact Hpal].
Qed.

Lemma zi_steady_setButton button pressed s :
  Steady.zero_imports s -> Steady.zero_imports (ZeroImports.setButton button pressed s).
Proof.
  intros H. pose proof H as (Hinv & (Hc & Hfc) & Hrom & Hpal).
  pose proof (zi_inv_setButton button pressed s Hinv) as Hinv'.
  unfold ZeroImports.setButton in *. rewrite Z.gtb_ltb in *.
  destruct (Z.ltb_spec button 0); [exact H|].
  destruct (Z.ltb_spec 7 button); [exact H|]. cbn [orb] in *. cbv zeta in *.
  split; [exact Hinv'|].
  split; [cbn [ZeroImports.controls ZeroImports.frame_count]; split; [|exact Hfc];
          destruct (pressed =? 0); [apply release_range | apply press_range];
          assumption || lia|].
  split; [exact Hrom | exact Hpal].
Qed.

Lemma zi_steady_step s c : Steady.zero_imports s -> Steady.zero_imports (ZeroImports.step s c).
Proof.
  intros H. destruct c; cbn [ZeroImports.step].
  - apply zi_steady_init, H.
  - apply zi_steady_loadRom, H.
  - apply zi_steady_frame, H.
  - apply zi_steady_reset, H.
  - apply zi_steady_setButton, H.
  - exact H.
  - exact H.
  - exact H.
  - exact H.
Qed.

Lemma zi_steady_run calls : forall s,
  Steady.zero_imports s -> Steady.zero_imports (ZeroImports.run calls s).
Proof.
  induction calls as [|c calls IH]; intros s H; [exact H|].
  apply IH, zi_steady_step, H.
Qed.

Lemma zi_reachable_steady s : ZeroImports.reachable s -> Steady.zero_imports s.
Proof. intros (calls & ->). apply zi_steady_run, zi_steady_uninitialized. Qed.

(** ** More about [scripts/nes-standalone.c] *)

(** [loadRom] turns the call down, and changes nothing, when the module is
    not initialised, the size is out of range or the magic is wrong. *)
Lemma ns_loadRom_reject rom size s :
  NesStandalone.initialized s = 0 \/ size < 16 \/ 2097152 < size \/ ~ INes.magic_ok rom ->
  NesStandalone.loadRom rom size s = (0, s).
Proof.
  intros H. unfold NesStandalone.loadRom. rewrite Z.gtb_ltb.
  destruct (Z.eqb_spec (NesStandalone.initialized s) 0); [reflexivity|].
  destruct (Z.ltb_spec size 16); [reflexivity|].
  destruct (Z.ltb_spec 2097152 size); [reflexivity|]. cbn [orb].
  destruct (Z.eqb_spec (load rom 0) 78); [|reflexivity].
  destruct (Z.eqb_spec (load rom 1) 69); [|reflexivity].
  destruct (Z.eqb_spec (load rom 2) 83); [|reflexivity].
  destruct (Z.eqb_spec (load rom 3) 26); [|reflexivity].
  exfalso. destruct H as [H|[H|[H|H]]]; try lia.
  apply H. repeat split; assumption.
Qed.

Lemma ns_loadRom_cases rom size s :
  NesStandalone.loadRom rom size s = (0, s) \/
  (NesStandalone.initialized s <> 0 /\ INes.size_ok size /\ INes.magic_ok rom /\
   NesStandalone.loadRom rom size s =
     (1, NesStandalone.State (NesStandalone.frame_buffer s) (NesStandalone.nes_palette s)
           (copy (NesStandalone.rom_buffer s) rom size) (NesStandalone.initialized s) 1 (NesStandalone.controls s)
           (NesStandalone.frame_count s) size
           (INes.mapper_of rom mod 256))).
Proof.
  destruct (Z.eq_dec (NesStandalone.initialized s) 0) as [Hi|Hi];
    [left; apply ns_loadRom_reject; auto|].
  destruct (Z_lt_dec size 16) as [Hlo|Hlo];
    [left; apply ns_loadRom_reject; auto|].
  destruct (Z_lt_dec 2097152 size) as [Hhi|Hhi];
    [left; apply ns_loadRom_reject; auto|].
  destruct (Z.eq_dec (load rom 0) 78) as [H0|H0];
    [|left; apply ns_loadRom_reject; do 3 right; intros (? & _); auto].
  destruct (Z.eq_dec (load rom 1) 69) as [H1|H1];
    [|left; apply ns_loadRom_reject; do 3 right; intros (? & ? & _); auto].
  destruct (Z.eq_dec (load rom 2) 83) as [H2|H2];
    [|left; apply ns_loadRom_reject; do 3 right; intros (? & ? & ? & _); auto].
  destruct (Z.eq_dec (load rom 3) 26) as [H3|H3];
    [|left; apply ns_loadRom_reject; do 3 right; intros (? & ? & ? & ?); auto].
  assert (Hsize : INes.size_ok size) by (unfold INes.size_ok; lia).
  assert (Hmagic : INes.magic_ok rom) by (repeat split; assumption).
  right. repeat (split; [assumption|]).
  now apply ns_loadRom_accept.
Qed.

(** The magic of an accepted image is in the ROM buffer after the copy. *)
Lemma ns_magic_copied rom size buf :
  len buf = 2097152 -> INes.size_ok size -> INes.magic_ok rom ->
  INes.magic_ok (copy buf rom size).
Proof.
  unfold INes.size_ok, INes.magic_ok. intros Hlen Hsize (H0 & H1 & H2 & H3).
  rewrite !load_copy by lia. rewrite H0, H1, H2, H3.
  destruct (Z.ltb_spec 0 size), (Z.ltb_spec 1 size), (Z.ltb_spec 2 size),
    (Z.ltb_spec 3 size); try lia. repeat split.
Qed.

Lemma ns_steady_uninitialized : Steady.nes_standalone NesStandalone.uninitialized.
Proof.
  split; [split; [apply ns_wf_uninitialized | intros H; contradiction H; reflexivity]|].
  split; [cbn [NesStandalone.uninitialized NesStandalone.controls NesStandalone.frame_count]; lia|].
  repeat match goal with |- _ /\ _ => split end;
    intros Hc; contradiction Hc; reflexivity.
Qed.

Lemma ns_steady_init s : Steady.nes_standalone s -> Steady.nes_standalone (snd (NesStandalone.init s)).
Proof.
  intros H. pose proof H as (Hinv & Hregs & Hrom & Hpal).
  destruct (Z.eq_dec (NesStandalone.initialized s) 0) as [E|E];
    [|rewrite (ns_init_again s E); exact H].
  pose proof (ns_inv_init s Hinv) as Hinv'.
  destruct (ns_init_fresh s E (proj1 Hinv))
    as (fb & pal & rom & Heq & _ & _ & _ & _ & _ & Hcol).
  rewrite Heq in *. cbn [snd] in *.
  split; [exact Hinv'|].
  split; [cbn [NesStandalone.controls NesStandalone.frame_count]; lia|].
  split; [intros Hl; contradiction Hl; reflexivity|].
  intros _ i k Hi Hk. cbn [NesStandalone.nes_palette]. rewrite (Hcol i k Hi Hk).
  apply ns_colors_bytes.
Qed.

Lemma ns_steady_loadRom rom size s :
  Steady.nes_standalone s -> Steady.nes_standalone (snd (NesStandalone.loadRom rom size s)).
Proof.
  intros H. pose proof H as (Hinv & Hregs & Hrom & Hpal).
  pose proof (ns_inv_loadRom rom size s Hinv) as Hinv'.
  destruct Hinv as ((_ & _ & Hlen & _) & _).
  destruct (ns_loadRom_cases rom size s)
    as [Heq | (Hi & Hsize & Hmagic & Heq)].
  - rewrite Heq. exact H.
  - rewrite Heq in *. cbn [snd] in *.
    split; [exact Hinv'|]. split; [exact Hregs|].
    split; [intros _; cbn [NesStandalone.rom_buffer NesStandalone.rom_size]; split;
            [apply ns_magic_copied; assumption | exact Hsize]|].
    exact Hpal.
Qed.

Lemma ns_steady_frame s : Steady.nes_standalone s -> Steady.nes_standalone (NesStandalone.frame s).
Proof.
  intros H. pose proof H as (Hinv & Hregs & Hrom & Hpal).
  pose proof (ns_inv_frame s Hinv) as Hinv'.
  destruct (Z.eq_dec (NesStandalone.initialized s) 0) as [Ei|Ei];
    [rewrite ns_frame_skip by auto; exact H|].
  rewrite ns_frame_render in * by assumption.
  destruct Hinv as ((Hfb & _) & _).
  destruct (ns_generate_frame_eq s Hfb) as (fb & Heq & _).
  cbv zeta in Heq. rewrite Heq in *.
  split; [exact Hinv'|].
  split; [cbn [NesStandalone.controls NesStandalone.frame_count]; split; [lia|];
          apply Z.mod_pos_bound; lia|].
  split; [exact Hrom | exact Hpal].
Qed.

Lemma ns_steady_reset s : Steady.nes_standalone s -> Steady.nes_standalone (NesStandalone.reset s).
Proof.
  intros H. pose proof H as (Hinv & Hregs & Hrom & Hpal).
  pose proof (ns_inv_reset s Hinv) as Hinv'.
  destruct Hinv as ((Hfb & _) & _).
  destruct (ns_reset_eq s Hfb) as (fb & Heq & _).
  rewrite Heq in *.
  split; [exact Hinv'|].
  split; [cbn [NesStandalone.controls NesStandalone.frame_count]; lia|].
  split; [exact Hrom | exact Hpal].
Qed.

Lemma ns_steady_setButton button pressed s :
  Steady.nes_standalone s -> Steady.nes_standalone (NesStandalone.setButton button pressed s).
Proof.
  intros H. pose proof H as (Hinv & (Hc & Hfc) & Hrom & Hpal).
  pose proof (ns_inv_setButton button pressed s Hinv) as Hinv'.
  unfold NesStandalone.setButton in *. rewrite Z.gtb_ltb in *.
  destruct (Z.ltb_spec button 0); [exact H|].
  destruct (Z.ltb_spec 7 button); [exact H|]. cbn [orb] in *. cbv zeta in *.
  split; [exact Hinv'|].
  split; [cbn [NesStandalone.controls NesStandalone.frame_count]; split; [|exact Hfc];
          destruct (pressed =? 0); [apply release_range | apply press_range];
          assumption || lia|].
  split; [exact Hrom | exact Hpal].
Qed.

Lemma ns_steady_step s c : Steady.nes_standalone s -> Steady.nes_standalone (NesStandalone.step s c).
Proof.
  intros H. destruct c; cbn [NesStandalone.step].
  - apply ns_steady_init, H.
  - apply ns_steady_loadRom, H.
  - apply ns_steady_frame, H.
  - apply ns_steady_reset, H.
  - apply ns_steady_setButton, H.
  - exact H.
  - exact H.
  - exact H.
  - exact H.
Qed.

Lemma ns_steady_run calls : forall s,
  Steady.nes_standalone s -> Steady.nes_standalone (NesStandalone.run calls s).
Proof.
  induction calls as [|c calls IH]; intros s H; [exact H|].
  apply IH, ns_steady_step, H.
Qed.

Lemma ns_reachable_steady s : NesStandalone.reachable s -> Steady.nes_standalone s.
Proof. intros (calls & ->). apply ns_steady_run, ns_steady_uninitialized. Qed.

(** ** More about [scripts/fceux-zero-imports.c] *)

(** [loadRom] turns the call down, and changes nothing, when the module is
    not initialised, the size is out of range or the magic is wrong. *)
Lemma fzi_loadRom_reject rom size s :
  FceuxZeroImports.initialized s = 0 \/ size < 16 \/ 2097152 < size \/ ~ INes.magic_ok rom ->
  FceuxZeroImports.loadRom rom size s = (0, s).
Proof.
  intros H. unfold FceuxZeroImports.loadRom, FceuxZeroImports.MAX_ROM_SIZE. rewrite Z.gtb_ltb.
  destruct (Z.eqb_spec (FceuxZeroImports.initialized s) 0); [reflexivity|].
  destruct (Z.ltb_spec size 16); [reflexivity|].
  destruct (Z.ltb_spec 2097152 size); [reflexivity|]. cbn [orb].
  destruct (Z.eqb_spec (load rom 0) 78); [|reflexivity].
  destruct (Z.eqb_spec (load rom 1) 69); [|reflexivity].
  destruct (Z.eqb_spec (load rom 2) 83); [|reflexivity].
  destruct (Z.eqb_spec (load rom 3) 26); [|reflexivity].
  exfalso. destruct H as [H|[H|[H|H]]]; try lia.
  apply H. repeat split; assumption.
Qed.

Lemma fzi_loadRom_cases rom size s :
  FceuxZeroImports.loadRom rom size s = (0, s) \/
  (FceuxZeroImports.initialized s <> 0 /\ INes.size_ok size /\ INes.magic_ok rom /\
   load rom 4 = 0 /\
   FceuxZeroImports.loadRom rom size s =
     (0, FceuxZeroImports.State (FceuxZeroImports.frame_buffer s) (FceuxZeroImports.nes_palette s)
           (FceuxZeroImports.rom_buffer s) (FceuxZeroImports.initialized s)
           (FceuxZeroImports.rom_loaded s) (FceuxZeroImports.running s)
           (FceuxZeroImports.controls s)
           (FceuxZeroImports.frame_count s)
           (FceuxZeroImports.rom_size s) 0 (load rom 5)
           (INes.mapper_of rom mod 256) (INes.chr_ram_of rom))) \/
  (FceuxZeroImports.initialized s <> 0 /\ INes.size_ok size /\ INes.magic_ok rom /\
   load rom 4 <> 0 /\
   FceuxZeroImports.loadRom rom size s =
     (1, FceuxZeroImports.State (FceuxZeroImports.frame_buffer s) (FceuxZeroImports.nes_palette s)
           (copy (FceuxZeroImports.rom_buffer s) rom size) (FceuxZeroImports.initialized s) 1
           (FceuxZeroImports.running s) (FceuxZeroImports.controls s)
           (FceuxZeroImports.frame_count s) size (load rom 4)
           (load rom 5) (INes.mapper_of rom mod 256)
           (INes.chr_ram_of rom))).
Proof.
  destruct (Z.eq_dec (FceuxZeroImports.initialized s) 0) as [Hi|Hi];
    [left; apply fzi_loadRom_reject; auto|].
  destruct (Z_lt_dec size 16) as [Hlo|Hlo];
    [left; apply fzi_loadRom_reject; auto|].
  destruct (Z_lt_dec 2097152 size) as [Hhi|Hhi];
    [left; apply fzi_loadRom_reject; auto|].
  destruct (Z.eq_dec (load rom 0) 78) as [H0|H0];
    [|left; apply fzi_loadRom_reject; do 3 right; intros (? & _); auto].
  destruct (Z.eq_dec (load rom 1) 69) as [H1|H1];
    [|left; apply fzi_loadRom_reject; do 3 right; intros (? & ? & _); auto].
  destruct (Z.eq_dec (load rom 2) 83) as [H2|H2];
    [|left; apply fzi_loadRom_reject; do 3 right; intros (? & ? & ? & _); auto].
  destruct (Z.eq_dec (load rom 3) 26) as [H3|H3];
    [|left; apply fzi_loadRom_reject; do 3 right; intros (? & ? & ? & ?); auto].
  assert (Hsize : INes.size_ok size) by (unfold INes.size_ok; lia).
  assert (Hmagic : INes.magic_ok rom) by (repeat split; assumption).
  destruct (Z.eq_dec (load rom 4) 0) as [H4|H4].
  - right; left. repeat (split; [assumption|]).
    now apply fzi_loadRom_reject_prg0.
  - right; right. repeat (split; [assumption|]).
    now apply fzi_loadRom_accept.
Qed.

(** The magic of an accepted image is in the ROM buffer after the copy. *)
Lemma fzi_magic_copied rom size buf :
  len buf = 2097152 -> INes.size_ok size -> INes.magic_ok rom ->
  INes.magic_ok (copy buf rom size).
Proof.
  unfold INes.size_ok, INes.magic_ok. intros Hlen Hsize (H0 & H1 & H2 & H3).
  rewrite !load_copy by lia. rewrite H0, H1, H2, H3.
  destruct (Z.ltb_spec 0 size), (Z.ltb_spec 1 size), (Z.ltb_spec 2 size),
    (Z.ltb_spec 3 size); try lia. repeat split.
Qed.

Lemma fzi_steady_uninitialized : Steady.fceux_zero_imports FceuxZeroImports.uninitialized.
Proof.
  split; [split; [apply fzi_wf_uninitialized | intros H; contradiction H; reflexivity]|].
  split; [cbn [FceuxZeroImports.uninitialized FceuxZeroImports.controls FceuxZeroImports.frame_count]; lia|].
  repeat match goal with |- _ /\ _ => split end;
    intros Hc; contradiction Hc; reflexivity.
Qed.

Lemma fzi_steady_init s : Steady.fceux_zero_imports s -> Steady.fceux_zero_imports (snd (FceuxZeroImports.init s)).
Proof.
  intros H. pose proof H as (Hinv & Hregs & Hrom & Hpal & Hchr).
  destruct (Z.eq_dec (FceuxZeroImports.initialized s) 0) as [E|E];
    [|rewrite (fzi_init_again s E); exact H].
  pose proof (fzi_inv_init s Hinv) as Hinv'.
  destruct (fzi_init_fresh s E (proj1 Hinv))
    as (fb & pal & rom & Heq & _ & _ & _ & _ & _ & Hcol).
  rewrite Heq in *. cbn [snd] in *.
  split; [exact Hinv'|].
  split; [cbn [FceuxZeroImports.controls FceuxZeroImports.frame_count]; lia|].
  split; [intros Hl; contradiction Hl; reflexivity|].
  split; [|intros Hl; contradiction Hl; reflexivity].
  intros _ i k Hi Hk. cbn [FceuxZeroImports.nes_palette]. rewrite (Hcol i k Hi Hk).
  apply fzi_palette_data_bytes.
Qed.

Lemma fzi_steady_loadRom rom size s :
  Steady.fceux_zero_imports s -> Steady.fceux_zero_imports (snd (FceuxZeroImports.loadRom rom size s)).
Proof.
  intros H. pose proof H as (Hinv & Hregs & Hrom & Hpal & Hchr).
  pose proof (fzi_inv_loadRom rom size s Hinv) as Hinv'.
  destruct Hinv as ((_ & _ & Hlen & _) & _).
  destruct (fzi_loadRom_cases rom size s)
    as [Heq | [(Hi & Hsize & Hmagic & H4 & Heq) | (Hi & Hsize & Hmagic & H4 & Heq)]].
  - rewrite Heq. exact H.
  - rewrite Heq in *. cbn [snd] in *.
    split; [exact Hinv'|]. split; [exact Hregs|].
    split; [exact Hrom|]. split; [exact Hpal|].
    intros _. cbn [FceuxZeroImports.has_chr_ram FceuxZeroImports.chr_banks].
    reflexivity.
  - rewrite Heq in *. cbn [snd] in *.
    split; [exact Hinv'|]. split; [exact Hregs|].
    split; [intros _; cbn [FceuxZeroImports.rom_buffer FceuxZeroImports.rom_size]; split;
            [apply fzi_magic_copied; assumption | exact Hsize]|].
    split; [exact Hpal|].
    intros _. cbn [FceuxZeroImports.has_chr_ram FceuxZeroImports.chr_banks].
    reflexivity.
Qed.

Lemma fzi_steady_frame s : Steady.fceux_zero_imports s -> Steady.fceux_zero_imports (FceuxZeroImports.frame s).
Proof.
  intros H. pose proof H as (Hinv & Hregs & Hrom & Hpal & Hchr).
  pose proof (fzi_inv_frame s Hinv) as Hinv'.
  destruct (Z.eq_dec (FceuxZeroImports.initialized s) 0) as [Ei|Ei];
    [rewrite fzi_frame_skip by auto; exact H|].
  destruct (Z.eq_dec (FceuxZeroImports.rom_loaded s) 0) as [Er|Er];
    [rewrite fzi_frame_skip by auto; exact H|].
  rewrite fzi_frame_render in * by (split; assumption).
  destruct Hinv as ((Hfb & _) & _).
  destruct (fzi_generate_nes_frame_eq s Hfb) as (fb & Heq & _).
  cbv zeta in Heq. rewrite Heq in *.
  split; [exact Hinv'|].
  split; [cbn [FceuxZeroImports.controls FceuxZeroImports.frame_count]; split; [lia|];
          apply Z.mod_pos_bound; lia|].
  split; [exact Hrom|]. split; [exact Hpal | exact Hchr].
Qed.

Lemma fzi_steady_reset s : Steady.fceux_zero_imports s -> Steady.fceux_zero_imports (FceuxZeroImports.reset s).
Proof.
  intros H. pose proof H as (Hinv & Hregs & Hrom & Hpal & Hchr).
  pose proof (fzi_inv_reset s Hinv) as Hinv'.
  destruct Hinv as ((Hfb & _) & _).
  destruct (fzi_reset_eq s Hfb) as (fb & Heq & _).
  rewrite Heq in *.
  split; [exact Hinv'|].
  split; [cbn [FceuxZeroImports.controls FceuxZeroImports.frame_count]; lia|].
  split; [exact Hrom|]. split; [exact Hpal | exact Hchr].
Qed.

Lemma fzi_steady_setButton button pressed s :
  Steady.fceux_zero_imports s -> Steady.fceux_zero_imports (FceuxZeroImports.setButton button pressed s).
Proof.
  intros H. pose proof H as (Hinv & (Hc & Hfc) & Hrom & Hpal & Hchr).
  pose proof (fzi_inv_setButton button pressed s Hinv) as Hinv'.
  unfold FceuxZeroImports.setButton in *. rewrite Z.gtb_ltb in *.
  destruct (Z.ltb_spec button 0); [exact H|].
  destruct (Z.ltb_spec 7 button); [exact H|]. cbn [orb] in *. cbv zeta in *.
  split; [exact Hinv'|].
  split; [cbn [FceuxZeroImports.controls FceuxZeroImports.frame_count]; split; [|exact Hfc];
          destruct (pressed =? 0); [apply release_range | apply press_range];
          assumption || lia|].
  split; [exact Hrom|]. split; [exact Hpal | exact Hchr].
Qed.

Lemma fzi_steady_step s c : Steady.fceux_zero_imports s -> Steady.fceux_zero_imports (FceuxZeroImports.step s c).
Proof.
  intros H. destruct c; cbn [FceuxZeroImports.step].
  - apply fzi_steady_init, H.
  - apply fzi_steady_loadRom, H.
  - apply fzi_steady_frame, H.
  - apply fzi_steady_reset, H.
  - apply fzi_steady_setButton, H.
  - destruct H as (Hinv & Hregs & Hrom & Hpal & Hchr).
    split; [apply fzi_inv_setRunning, Hinv|]. split; [exact Hregs|].
    split; [exact Hrom|]. split; [exact Hpal | exact Hchr].
  - exact H.
  - exact H.
  - exact H.
Qed.

Lemma fzi_steady_run calls : forall s,
  Steady.fceux_zero_imports s -> Steady.fceux_zero_imports (FceuxZeroImports.run calls s).
Proof.
  induction calls as [|c calls IH]; intros s H; [exact H|].
  apply IH, fzi_steady_step, H.
Qed.

Lemma fzi_reachable_steady s : FceuxZeroImports.reachable s -> Steady.fceux_zero_imports s.
Proof. intros (calls & ->). apply fzi_steady_run, fzi_steady_uninitialized. Qed.

(** ** More about [scripts/fceux-simple.c] *)

(** A property of the 64 palette indices, checked on each of them. *)
Lemma check_64 (f : Z -> bool) :
  forallb f (map Z.of_nat (seq 0 64)) = true ->
  forall i, 0 <= i < 64 -> f i = true.
Proof.
  intros H i Hi. rewrite forallb_forall in H. apply H.
  rewrite <- (Z2Nat.id i) by lia. apply in_map, in_seq. lia.
Qed.

(** The word [init] packs for palette entry [i]. *)
Lemma fs_packed i :
  0 <= i < 64 ->
  Z.lor (Z.lor (Z.lor (Z.shiftl 0xFF 24) (Z.shiftl (Z.land (i * 16) 0xFF) 16))
           (Z.shiftl (Z.land (i * 8) 0xFF) 8)) (Z.land (i * 4) 0xFF) mod 2 ^ 32 =
    Steady.abgr i.
Proof.
  intros Hi. apply Z.eqb_eq.
  apply (check_64 (fun i =>
    Z.lor (Z.lor (Z.lor (Z.shiftl 0xFF 24) (Z.shiftl (Z.land (i * 16) 0xFF) 16))
             (Z.shiftl (Z.land (i * 8) 0xFF) 8)) (Z.land (i * 4) 0xFF) mod 2 ^ 32
    =? Steady.abgr i)); [vm_compute; reflexivity | exact Hi].
Qed.

Lemma len_store32 p i v : len (FceuxSimple.store32 p i v) = len p.
Proof. unfold len, FceuxSimple.store32. now rewrite length_insert. Qed.

Lemma load_store32 p i j v :
  0 <= i < len p -> 0 <= j ->
  load (FceuxSimple.store32 p i v) j = if j =? i then v mod 2 ^ 32 else load p j.
Proof.
  unfold load, len, FceuxSimple.store32. intros Hi Hj.
  destruct (Z.eqb_spec j i) as [->|Hne].
  - rewrite list_lookup_insert_eq by lia. reflexivity.
  - rewrite list_lookup_insert_ne by lia. reflexivity.
Qed.

(** The palette loop of [init]. *)
Lemma fs_palette_loop pal :
  len pal = 64 ->
  let pal' :=
    for_ 0 64 1 (fun i pal =>
      let r := Z.land (i * 4) 0xFF in
      let g := Z.land (i * 8) 0xFF in
      let b := Z.land (i * 16) 0xFF in
      FceuxSimple.store32 pal i
        (Z.lor (Z.lor (Z.lor (Z.shiftl 0xFF 24) (Z.shiftl b 16)) (Z.shiftl g 8)) r))
      pal in
  len pal' = 64 /\ forall i, 0 <= i < 64 -> load pal' i = Steady.abgr i.
Proof.
  intros Hlen pal'. subst pal'.
  apply (for_rule (fun n p =>
    len p = 64 /\ forall i, 0 <= i < n -> load p i = Steady.abgr i)); [lia | |].
  - intros n p Hn (Hl & Hld). cbv zeta. split; [now rewrite len_store32|].
    intros i Hi. rewrite load_store32 by lia.
    destruct (Z.eqb_spec i n) as [->|Hne].
    + now apply fs_packed.
    + apply Hld. lia.
  - split; [exact Hlen|]. intros i Hi. lia.
Qed.

(** The CHR RAM seed of [loadRom]: [chr_ram[i] = i & 0xFF]. *)
Lemma fs_chr_seed chr :
  len chr = 8192 ->
  let chr' := for_ 0 8192 1 (fun i c => store c i (Z.land i 0xFF)) chr in
  len chr' = 8192 /\ forall i, 0 <= i < 8192 -> load chr' i = i mod 256.
Proof.
  intros Hlen chr'. subst chr'.
  apply (for_rule (fun n p =>
    len p = 8192 /\ forall i, 0 <= i < n -> load p i = i mod 256)); [lia | |].
  - intros n p Hn (Hl & Hld). split; [now rewrite len_store|].
    intros i Hi. rewrite load_store by lia.
    destruct (Z.eqb_spec i n) as [->|Hne].
    + rewrite land_255. apply Z.mod_mod. lia.
    + apply Hld. lia.
  - split; [exact Hlen|]. intros i Hi. lia.
Qed.

(** [init] on a module that is not initialised yet. *)
Lemma fs_init_fresh_arrays s :
  FceuxSimple.initialized s = 0 ->
  len (FceuxSimple.frame_buffer s) = 245760 ->
  len (FceuxSimple.rom_data s) = 2097152 ->
  len (FceuxSimple.chr_ram s) = 8192 ->
  len (FceuxSimple.palette s) = 64 ->
  exists rom fb chr prg pal,
    FceuxSimple.init s =
      (1, FceuxSimple.State rom (FceuxSimple.rom_size s) fb chr prg pal
            0 1 0 0 0
            (FceuxSimple.prg_banks s) (FceuxSimple.chr_banks s)
            (FceuxSimple.mapper s) (FceuxSimple.has_chr_ram s)
            (FceuxSimple.has_trainer s) (FceuxSimple.has_battery s)) /\
    len fb = 245760 /\ cleared fb /\
    (len rom = 2097152 /\ forall j, 0 <= j < 2097152 -> load rom j = 0) /\
    (len chr = 8192 /\ forall j, 0 <= j < 8192 -> load chr j = 0) /\
    (len pal = 64 /\ forall i, 0 <= i < 64 -> load pal i = Steady.abgr i).
Proof.
  intros H Hfb Hrom Hchr Hpal. unfold FceuxSimple.init.
  rewrite H. cbn [Z.eqb negb]. unfold FceuxSimple.memset. cbv zeta.
  do 5 eexists. split; [reflexivity|].
  rewrite len_set_alpha, !len_fill. split; [exact Hfb|].
  split; [apply cleared_set_alpha_fill, Hfb|].
  split; [split; [exact Hrom|]|].
  { intros j Hj. rewrite load_fill by lia.
    destruct (Z.ltb_spec j 2097152); [reflexivity | lia]. }
  split; [split; [exact Hchr|]|].
  { intros j Hj. rewrite load_fill by lia.
    destruct (Z.ltb_spec j 8192); [reflexivity | lia]. }
  apply fs_palette_loop, Hpal.
Qed.

(** [loadRom] turns the call down, and changes nothing, when the module is
    not initialised, the size is out of range or the magic is wrong. *)
Lemma fs_loadRom_reject rom size s :
  FceuxSimple.initialized s = 0 \/ size mod 2 ^ 32 < 16 \/
  2097152 < size mod 2 ^ 32 \/ ~ INes.magic_ok rom ->
  FceuxSimple.loadRom rom size s = (0, s).
Proof.
  intros H. unfold FceuxSimple.loadRom. cbv zeta. rewrite Z.gtb_ltb.
  destruct (Z.eqb_spec (FceuxSimple.initialized s) 0); [reflexivity|].
  destruct (Z.ltb_spec (size mod 2 ^ 32) 16); [reflexivity|].
  destruct (Z.ltb_spec 2097152 (size mod 2 ^ 32)); [reflexivity|].
  destruct (Z.eqb_spec (load rom 0) 78); [|reflexivity].
  destruct (Z.eqb_spec (load rom 1) 69); [|reflexivity].
  destruct (Z.eqb_spec (load rom 2) 83); [|reflexivity].
  destruct (Z.eqb_spec (load rom 3) 26); [|reflexivity].
  exfalso. destruct H as [H|[H|[H|H]]]; try lia.
  apply H. repeat split; assumption.
Qed.

(** Past the magic, [loadRom] has parsed the header into the statics; it
    then fails on zero PRG banks or a short image, and otherwise copies
    the image and seeds CHR RAM when there are no CHR banks. *)
Lemma fs_loadRom_parsed rom size s :
  FceuxSimple.initialized s <> 0 -> INes.size_ok (size mod 2 ^ 32) ->
  INes.magic_ok rom ->
  FceuxSimple.loadRom rom size s =
    if (load rom 4 =? 0) || (size mod 2 ^ 32 <? Steady.expected_size rom) then
      (0, FceuxSimple.State (FceuxSimple.rom_data s) (FceuxSimple.rom_size s)
            (FceuxSimple.frame_buffer s) (FceuxSimple.chr_ram s)
            (FceuxSimple.prg_ram s) (FceuxSimple.palette s)
            (FceuxSimple.controls s) (FceuxSimple.initialized s)
            (FceuxSimple.rom_loaded s) (FceuxSimple.running s)
            (FceuxSimple.frame_count s)
            (load rom 4) (load rom 5) (INes.mapper_of rom mod 256)
            (INes.chr_ram_of rom)
            (if Z.land (load rom 6) 4 =? 0 then 0 else 1)
            (if Z.land (load rom 6) 2 =? 0 then 0 else 1))
    else
      (1, FceuxSimple.State (copy (FceuxSimple.rom_data s) rom (size mod 2 ^ 32))
            (size mod 2 ^ 32) (FceuxSimple.frame_buffer s)
            (if load rom 5 =? 0
             then for_ 0 8192 1 (fun i c => store c i (Z.land i 0xFF))
                    (FceuxSimple.chr_ram s)
             else FceuxSimple.chr_ram s)
            (FceuxSimple.prg_ram s) (FceuxSimple.palette s)
            (FceuxSimple.controls s) (FceuxSimple.initialized s) 1
            (FceuxSimple.running s) (FceuxSimple.frame_count s)
            (load rom 4) (load rom 5) (INes.mapper_of rom mod 256)
            (INes.chr_ram_of rom)
            (if Z.land (load rom 6) 4 =? 0 then 0 else 1)
            (if Z.land (load rom 6) 2 =? 0 then 0 else 1)).
Proof.
  intros Hi Hsize Hmagic.
  unfold FceuxSimple.loadRom, FceuxSimple.memcpy, Steady.expected_size,
    INes.mapper_of, INes.chr_ram_of. cbv zeta.
  destruct (Z.eqb_spec (FceuxSimple.initialized s) 0); [lia|].
  pass_guards Hsize Hmagic.
  destruct (load rom 4 =? 0); cbn [orb]; [reflexivity|].
  destruct (Z.land (load rom 6) 4 =? 0); cbn [Z.eqb];
    (destruct (_ <? _); [reflexivity|]);
    destruct (load rom 5 =? 0); reflexivity.
Qed.

Lemma fs_reset_arrays s :
  len (FceuxSimple.frame_buffer s) = 245760 ->
  len (FceuxSimple.chr_ram s) = 8192 ->
  exists fb chr,
    FceuxSimple.reset s =
      FceuxSimple.State (FceuxSimple.rom_data s) (FceuxSimple.rom_size s) fb
        chr (FceuxSimple.prg_ram s) (FceuxSimple.palette s) 0
        (FceuxSimple.initialized s) (FceuxSimple.rom_loaded s)
        (FceuxSimple.running s) 0
        (FceuxSimple.prg_banks s) (FceuxSimple.chr_banks s)
        (FceuxSimple.mapper s) (FceuxSimple.has_chr_ram s)
        (FceuxSimple.has_trainer s) (FceuxSimple.has_battery s) /\
    len fb = 245760 /\ cleared fb /\ len chr = 8192 /\
    (FceuxSimple.has_chr_ram s <> 0 ->
     forall j, 0 <= j < 8192 -> load chr j = 0) /\
    (FceuxSimple.has_chr_ram s = 0 -> chr = FceuxSimple.chr_ram s).
Proof.
  intros Hfb Hchr. unfold FceuxSimple.reset, FceuxSimple.memset. cbv zeta.
  do 2 eexists. split; [reflexivity|].
  rewrite len_set_alpha, len_fill. split; [exact Hfb|].
  split; [apply cleared_set_alpha_fill, Hfb|].
  destruct (Z.eqb_spec (FceuxSimple.has_chr_ram s) 0) as [E|E].
  - split; [exact Hchr|]. split; [intros H; contradiction | reflexivity].
  - rewrite len_fill. split; [exact Hchr|]. split; [|intros H; contradiction].
    intros _ j Hj. rewrite load_fill by lia.
    destruct (Z.ltb_spec j 8192); [reflexivity | lia].
Qed.

Lemma fs_steady_uninitialized : Steady.fceux_simple FceuxSimple.uninitialized.
Proof.
  split; [split; [apply fs_wf_uninitialized | intros H; contradiction H; reflexivity]|].
  split.
  { cbn [FceuxSimple.uninitialized FceuxSimple.rom_data FceuxSimple.chr_ram
         FceuxSimple.palette].
    rewrite !len_zeros by lia. repeat split. }
  split; [cbn [FceuxSimple.uninitialized FceuxSimple.controls
               FceuxSimple.frame_count]; lia|].
  repeat match goal with |- _ /\ _ => split end;
    intros Hc; contradiction Hc; reflexivity.
Qed.

Lemma fs_steady_init s :
  Steady.fceux_simple s -> Steady.fceux_simple (snd (FceuxSimple.init s)).
Proof.
  intros H. pose proof H as (Hinv & (Hlr & Hlc & Hlp) & Hregs & Hrom & Hpal & Hchr).
  destruct (Z.eq_dec (FceuxSimple.initialized s) 0) as [E|E];
    [|rewrite (fs_init_again s E); exact H].
  pose proof (fs_inv_init s Hinv) as Hinv'.
  destruct (fs_init_fresh_arrays s E (proj1 Hinv) Hlr Hlc Hlp)
    as (rom & fb & chr & prg & pal & Heq & _ & _ & (Hr & _) & (Hc & _) & (Hp & Hpl)).
  rewrite Heq in *. cbn [snd] in *.
  split; [exact Hinv'|].
  split; [repeat split; assumption|].
  split; [cbn [FceuxSimple.controls FceuxSimple.frame_count]; lia|].
  split; [intros Hl; contradiction Hl; reflexivity|].
  split; [intros _; exact Hpl|].
  intros Hl; contradiction Hl; reflexivity.
Qed.

Lemma fs_steady_loadRom rom size s :
  Steady.fceux_simple s ->
  Steady.fceux_simple (snd (FceuxSimple.loadRom rom size s)).
Proof.
  intros H. pose proof H as (Hinv & (Hlr & Hlc & Hlp) & Hregs & Hrom & Hpal & Hchr).
  pose proof (fs_inv_loadRom rom size s Hinv) as Hinv'.
  destruct (Z.eq_dec (FceuxSimple.initialized s) 0) as [Hi|Hi];
    [rewrite fs_loadRom_reject by auto; exact H|].
  destruct (Z_lt_dec (size mod 2 ^ 32) 16) as [Hlo|Hlo];
    [rewrite fs_loadRom_reject by auto; exact H|].
  destruct (Z_lt_dec 2097152 (size mod 2 ^ 32)) as [Hhi|Hhi];
    [rewrite fs_loadRom_reject by auto; exact H|].
  destruct (Z.eq_dec (load rom 0) 78) as [H0|H0];
    [|rewrite fs_loadRom_reject
        by (do 3 right; intros (? & _); auto); exact H].
  destruct (Z.eq_dec (load rom 1) 69) as [H1|H1];
    [|rewrite fs_loadRom_reject
        by (do 3 right; intros (? & ? & _); auto); exact H].
  destruct (Z.eq_dec (load rom 2) 83) as [H2|H2];
    [|rewrite fs_loadRom_reject
        by (do 3 right; intros (? & ? & ? & _); auto); exact H].
  destruct (Z.eq_dec (load rom 3) 26) as [H3|H3];
    [|rewrite fs_loadRom_reject
        by (do 3 right; intros (? & ? & ? & ?); auto); exact H].
  assert (Hsize : INes.size_ok (size mod 2 ^ 32)) by (unfold INes.size_ok; lia).
  assert (Hmagic : INes.magic_ok rom) by (repeat split; assumption).
  rewrite (fs_loadRom_parsed rom size s Hi Hsize Hmagic) in *.
  destruct (_ || _); cbn [snd] in *.
  - split; [exact Hinv'|]. split; [repeat split; assumption|].
    split; [exact Hregs|]. split; [exact Hrom|]. split; [exact Hpal|].
    intros _. reflexivity.
  - split; [exact Hinv'|].
    split.
    { cbn [FceuxSimple.rom_data FceuxSimple.chr_ram FceuxSimple.palette].
      rewrite len_copy. split; [exact Hlr|]. split; [|exact Hlp].
      destruct (load rom 5 =? 0);
        [exact (proj1 (fs_chr_seed _ Hlc)) | exact Hlc]. }
    split; [exact Hregs|].
    split.
    { intros _. cbn [FceuxSimple.rom_data FceuxSimple.rom_size].
      split; [|exact Hsize]. now apply zi_magic_copied. }
    split; [exact Hpal|]. intros _. reflexivity.
Qed.

Lemma fs_steady_frame s :
  Steady.fceux_simple s -> Steady.fceux_simple (FceuxSimple.frame s).
Proof.
  intros H. pose proof H as (Hinv & Hlens & Hregs & Hrom & Hpal & Hchr).
  pose proof (fs_inv_frame s Hinv) as Hinv'.
  destruct (Z.eq_dec (FceuxSimple.initialized s) 0) as [Ei|Ei];
    [rewrite fs_frame_skip by auto; exact H|].
  destruct (Z.eq_dec (FceuxSimple.rom_loaded s) 0) as [Er|Er];
    [rewrite fs_frame_skip by auto; exact H|].
  destruct (Z.eq_dec (FceuxSimple.running s) 0) as [Eg|Eg];
    [rewrite fs_frame_skip by auto; exact H|].
  rewrite fs_frame_render in * by auto.
  destruct (fs_render_eq s (proj1 Hinv)) as (fb & Heq & _).
  rewrite Heq in *.
  split; [exact Hinv'|]. split; [exact Hlens|].
  split; [cbn [FceuxSimple.controls FceuxSimple.frame_count]; split; [lia|];
          apply Z.mod_pos_bound; lia|].
  split; [exact Hrom|]. split; [exact Hpal | exact Hchr].
Qed.

Lemma fs_steady_reset s :
  Steady.fceux_simple s -> Steady.fceux_simple (FceuxSimple.reset s).
Proof.
  intros H. pose proof H as (Hinv & (Hlr & Hlc & Hlp) & Hregs & Hrom & Hpal & Hchr).
  pose proof (fs_inv_reset s Hinv) as Hinv'.
  destruct (fs_reset_arrays s (proj1 Hinv) Hlc) as (fb & chr & Heq & _ & _ & Hc & _).
  rewrite Heq in *.
  split; [exact Hinv'|]. split; [repeat split; assumption|].
  split; [cbn [FceuxSimple.controls FceuxSimple.frame_count]; lia|].
  split; [exact Hrom|]. split; [exact Hpal | exact Hchr].
Qed.

Lemma fs_steady_setButton button pressed s :
  Steady.fceux_simple s ->
  Steady.fceux_simple (FceuxSimple.setButton button pressed s).
Proof.
  intros H. pose proof H as (Hinv & Hlens & (Hc & Hfc) & Hrom & Hpal & Hchr).
  pose proof (fs_inv_setButton button pressed s Hinv) as Hinv'.
  unfold FceuxSimple.setButton in *.
  destruct (_ || _); [exact H|]. cbv zeta in *.
  split; [exact Hinv'|]. split; [exact Hlens|].
  split; [cbn [FceuxSimple.controls FceuxSimple.frame_count]; split; [|exact Hfc];
          destruct (pressed =? 0); apply Z.mod_pos_bound; lia|].
  split; [exact Hrom|]. split; [exact Hpal | exact Hchr].
Qed.

Lemma fs_steady_setRunning r s :
  Steady.fceux_simple s -> Steady.fceux_simple (FceuxSimple.setRunning r s).
Proof.
  intros (Hinv & Hlens & Hregs & Hrom & Hpal & Hchr).
  split; [apply fs_inv_setRunning, Hinv|]. split; [exact Hlens|].
  split; [exact Hregs|]. split; [exact Hrom|]. split; [exact Hpal | exact Hchr].
Qed.

Lemma fs_steady_step s c :
  Steady.fceux_simple s -> Steady.fceux_simple (FceuxSimple.step s c).
Proof.
  intros H. destruct c; cbn [FceuxSimple.step].
  - apply fs_steady_init, H.
  - apply fs_steady_loadRom, H.
  - apply fs_steady_frame, H.
  - apply fs_steady_reset, H.
  - apply fs_steady_setButton, H.
  - apply fs_steady_setRunning, H.
  - exact H.
  - exact H.
  - exact H.
Qed.

Lemma fs_steady_run calls : forall s,
  Steady.fceux_simple s -> Steady.fceux_simple (FceuxSimple.run calls s).
Proof.
  induction calls as [|c calls IH]; intros s H; [exact H|].
  apply IH, fs_steady_step, H.
Qed.

Lemma fs_reachable_steady s : FceuxSimple.reachable s -> Steady.fceux_simple s.
Proof. intros (calls & ->). apply fs_steady_run, fs_steady_uninitialized. Qed.

(** * Further properties of the four files

    ** [loadRom]: the calls it turns down *)

(** X1.  In each of the four files [loadRom] returns 0 and leaves the
    whole state as it was when the module is not initialised, when [size]
    is below 16 (negative sizes included) or above 2097152, or when the
    first four bytes are not [4E 45 53 1A].  ([fceux-simple.c] takes
    [size] as a [uint32_t].) *)
Theorem X1_loadRom_rejects (rom : list Z) (size : Z)
    (z : ZeroImports.state) (n : NesStandalone.state)
    (f : FceuxZeroImports.state) (e : FceuxSimple.state) :
  (ZeroImports.initialized z = 0 \/ size < 16 \/ 2097152 < size \/
   ~ INes.magic_ok rom ->
   ZeroImports.loadRom rom size z = (0, z)) /\
  (NesStandalone.initialized n = 0 \/ size < 16 \/ 2097152 < size \/
   ~ INes.magic_ok rom ->
   NesStandalone.loadRom rom size n = (0, n)) /\
  (FceuxZeroImports.initialized f = 0 \/ size < 16 \/ 2097152 < size \/
   ~ INes.magic_ok rom ->
   FceuxZeroImports.loadRom rom size f = (0, f)) /\
  (FceuxSimple.initialized e = 0 \/ size mod 2 ^ 32 < 16 \/
   2097152 < size mod 2 ^ 32 \/ ~ INes.magic_ok rom ->
   FceuxSimple.loadRom rom size e = (0, e)).
Proof.
  split; [apply zi_loadRom_reject|]. split; [apply ns_loadRom_reject|].
  split; [apply fzi_loadRom_reject | apply fs_loadRom_reject].
Qed.

(** After [init]: an image of 15 bytes, one of 2097153 bytes, scenario
    S2's header with byte 0 corrupted (scenario S3), and a size of -1. *)
Lemma X1_loadRom_rejects_witness :
  fst (ZeroImports.loadRom Roms.nrom_header 15
         (snd (ZeroImports.init ZeroImports.uninitialized))) = 0 /\
  fst (NesStandalone.loadRom Roms.nrom_header 2097153
         (snd (NesStandalone.init NesStandalone.uninitialized))) = 0 /\
  fst (FceuxZeroImports.loadRom (0 :: tail Roms.nrom_header) 16
         (snd (FceuxZeroImports.init FceuxZeroImports.uninitialized))) = 0 /\
  fst (FceuxSimple.loadRom Roms.nrom_header (-1)
         (snd (FceuxSimple.init FceuxSimple.uninitialized))) = 0.
Proof.
  destruct (X1_loadRom_rejects Roms.nrom_header 15
              (snd (ZeroImports.init ZeroImports.uninitialized))
              NesStandalone.uninitialized FceuxZeroImports.uninitialized
              FceuxSimple.uninitialized) as (Hz & _).
  destruct (X1_loadRom_rejects Roms.nrom_header 2097153 ZeroImports.uninitialized
              (snd (NesStandalone.init NesStandalone.uninitialized))
              FceuxZeroImports.uninitialized FceuxSimple.uninitialized)
    as (_ & Hn & _).
  destruct (X1_loadRom_rejects (0 :: tail Roms.nrom_header) 16
              ZeroImports.uninitialized NesStandalone.uninitialized
              (snd (FceuxZeroImports.init FceuxZeroImports.uninitialized))
              FceuxSimple.uninitialized) as (_ & _ & Hf & _).
  destruct (X1_loadRom_rejects Roms.nrom_header (-1)
              ZeroImports.uninitialized NesStandalone.uninitialized
              FceuxZeroImports.uninitialized
              (snd (FceuxSimple.init FceuxSimple.uninitialized)))
    as (_ & _ & _ & He).
  rewrite Hz, Hn, Hf, He.
  - repeat split.
  - right; right; left. reflexivity.
  - do 3 right. intros (H & _). discriminate H.
  - right; right; left. lia.
  - right; left. lia.
Defined.

(** ** [loadRom]: the image it accepts *)

(** X2.  When [loadRom] accepts an image (module initialised, size in
    [16, 2097152], valid magic, and in the two FCEUX files at least one
    PRG bank; [fceux-simple.c] also wants the size to cover the expected
    footprint), it returns 1, sets [rom_loaded], records [size] in
    [rom_size], and the ROM buffer holds the [size] bytes of the image
    followed by what it held before. *)
Theorem X2_loadRom_copies (rom : list Z) (size j : Z)
    (z : ZeroImports.state) (n : NesStandalone.state)
    (f : FceuxZeroImports.state) (e : FceuxSimple.state) :
  bytes rom -> INes.size_ok size -> INes.magic_ok rom ->
  0 <= j < 2097152 ->
  ZeroImports.initialized z <> 0 -> len (ZeroImports.rom_buffer z) = 2097152 ->
  NesStandalone.initialized n <> 0 -> len (NesStandalone.rom_buffer n) = 2097152 ->
  FceuxZeroImports.initialized f <> 0 ->
  len (FceuxZeroImports.rom_buffer f) = 2097152 ->
  FceuxSimple.initialized e <> 0 -> len (FceuxSimple.rom_data e) = 2097152 ->
  (let r := ZeroImports.loadRom rom size z in
   fst r = 1 /\ ZeroImports.rom_loaded (snd r) = 1 /\
   ZeroImports.rom_size (snd r) = size /\
   load (ZeroImports.rom_buffer (snd r)) j =
     if j <? size then load rom j else load (ZeroImports.rom_buffer z) j) /\
  (let r := NesStandalone.loadRom rom size n in
   fst r = 1 /\ NesStandalone.rom_loaded (snd r) = 1 /\
   NesStandalone.rom_size (snd r) = size /\
   load (NesStandalone.rom_buffer (snd r)) j =
     if j <? size then load rom j else load (NesStandalone.rom_buffer n) j) /\
  (load rom 4 <> 0 ->
   let r := FceuxZeroImports.loadRom rom size f in
   fst r = 1 /\ FceuxZeroImports.rom_loaded (snd r) = 1 /\
   FceuxZeroImports.rom_size (snd r) = size /\
   load (FceuxZeroImports.rom_buffer (snd r)) j =
     if j <? size then load rom j else load (FceuxZeroImports.rom_buffer f) j) /\
  (load rom 4 <> 0 -> Steady.expected_size rom <= size ->
   let r := FceuxSimple.loadRom rom size e in
   fst r = 1 /\ FceuxSimple.rom_loaded (snd r) = 1 /\
   FceuxSimple.rom_size (snd r) = size /\
   load (FceuxSimple.rom_data (snd r)) j =
     if j <? size then load rom j else load (FceuxSimple.rom_data e) j).
Proof.
  intros Hb Hsize Hmagic Hj Hz Hlz Hn Hln Hf Hlf He Hle.
  assert (Hsz : 0 <= size <= 2097152) by (unfold INes.size_ok in Hsize; lia).
  assert (Hbyte : load rom j mod 256 = load rom j)
    by (apply Z.mod_small, bytes_load, Hb).
  split; [|split; [|split]]; cbv zeta.
  - rewrite zi_loadRom_accept by assumption.
    cbn [fst snd ZeroImports.rom_loaded ZeroImports.rom_size
         ZeroImports.rom_buffer].
    repeat (split; [reflexivity|]). rewrite load_copy by lia.
    now rewrite Hbyte.
  - rewrite ns_loadRom_accept by assumption.
    cbn [fst snd NesStandalone.rom_loaded NesStandalone.rom_size
         NesStandalone.rom_buffer].
    repeat (split; [reflexivity|]). rewrite load_copy by lia.
    now rewrite Hbyte.
  - intros Hprg. rewrite fzi_loadRom_accept by assumption.
    cbn [fst snd FceuxZeroImports.rom_loaded FceuxZeroImports.rom_size
         FceuxZeroImports.rom_buffer].
    repeat (split; [reflexivity|]). rewrite load_copy by lia.
    now rewrite Hbyte.
  - intros Hprg Hexp.
    assert (Hm : size mod 2 ^ 32 = size) by (apply Z.mod_small; lia).
    rewrite fs_loadRom_parsed by (rewrite ?Hm; assumption). rewrite Hm.
    destruct (Z.eqb_spec (load rom 4) 0); [contradiction|].
    destruct (Z.ltb_spec size (Steady.expected_size rom)); [lia|].
    cbn [orb fst snd FceuxSimple.rom_loaded FceuxSimple.rom_size
         FceuxSimple.rom_data].
    repeat (split; [reflexivity|]). rewrite load_copy by lia.
    now rewrite Hbyte.
Qed.

Lemma bytes_nrom_image : bytes Roms.nrom_image.
Proof.
  unfold bytes, Roms.nrom_image. apply Forall_app. split.
  - repeat (apply Forall_cons_2; [lia|]). apply Forall_nil_2.
  - apply bytes_zeros.
Qed.

Lemma expected_nrom_image : Steady.expected_size Roms.nrom_image = 16400.
Proof.
  unfold Steady.expected_size. rewrite !load_nrom_image by lia. reflexivity.
Qed.

Lemma zi_reachable_len_rom s :
  ZeroImports.reachable s -> len (ZeroImports.rom_buffer s) = 2097152.
Proof.
  intros H. destruct (zi_reachable_inv s H) as ((_ & _ & Hl & _) & _). exact Hl.
Qed.

Lemma ns_reachable_len_rom s :
  NesStandalone.reachable s -> len (NesStandalone.rom_buffer s) = 2097152.
Proof.
  intros H. destruct (ns_reachable_inv s H) as ((_ & _ & Hl & _) & _). exact Hl.
Qed.

Lemma fzi_reachable_len_rom s :
  FceuxZeroImports.reachable s -> len (FceuxZeroImports.rom_buffer s) = 2097152.
Proof.
  intros H. destruct (fzi_reachable_inv s H) as ((_ & _ & Hl & _) & _). exact Hl.
Qed.

Lemma fs_reachable_len_rom s :
  FceuxSimple.reachable s -> len (FceuxSimple.rom_data s) = 2097152.
Proof.
  intros H. destruct (fs_reachable_steady s H) as (_ & (Hl & _) & _). exact Hl.
Qed.

Lemma fzi_reachable_after_init :
  FceuxZeroImports.reachable
    (snd (FceuxZeroImports.init FceuxZeroImports.uninitialized)).
Proof. exists [FceuxZeroImports.Init]. reflexivity. Qed.

(** The 16400-byte image loaded after [init]: byte 4 of the ROM buffer is
    the PRG bank count of the image. *)
Lemma X2_loadRom_copies_witness :
  load (ZeroImports.rom_buffer
          (snd (ZeroImports.loadRom Roms.nrom_image 16400
                  (snd (ZeroImports.init ZeroImports.uninitialized))))) 4 = 1 /\
  load (NesStandalone.rom_buffer
          (snd (NesStandalone.loadRom Roms.nrom_image 16400
                  (snd (NesStandalone.init NesStandalone.uninitialized))))) 4 = 1 /\
  load (FceuxZeroImports.rom_buffer
          (snd (FceuxZeroImports.loadRom Roms.nrom_image 16400
                  (snd (FceuxZeroImports.init FceuxZeroImports.uninitialized)))))
    4 = 1 /\
  load (FceuxSimple.rom_data
          (snd (FceuxSimple.loadRom Roms.nrom_image 16400
                  (snd (FceuxSimple.init FceuxSimple.uninitialized))))) 4 = 1.
Proof.
  assert (H4 : load Roms.nrom_image 4 = 1)
    by (rewrite load_nrom_image by lia; reflexivity).
  destruct (X2_loadRom_copies Roms.nrom_image 16400 4
              (snd (ZeroImports.init ZeroImports.uninitialized))
              (snd (NesStandalone.init NesStandalone.uninitialized))
              (snd (FceuxZeroImports.init FceuxZeroImports.uninitialized))
              (snd (FceuxSimple.init FceuxSimple.uninitialized)))
    as ((_ & _ & _ & Hz) & (_ & _ & _ & Hn) & Hf & He).
  - exact bytes_nrom_image.
  - exact size_ok_16400.
  - exact magic_nrom_image.
  - lia.
  - apply zi_init_initialized.
  - apply zi_reachable_len_rom, zi_reachable_after_init.
  - apply ns_init_initialized.
  - apply ns_reachable_len_rom, ns_reachable_after_init.
  - apply fzi_init_initialized.
  - apply fzi_reachable_len_rom, fzi_reachable_after_init.
  - apply fs_init_initialized.
  - apply fs_reachable_len_rom, fs_reachable_after_init.
  - destruct Hf as (_ & _ & _ & Hf); [rewrite H4; discriminate|].
    destruct He as (_ & _ & _ & He);
      [rewrite H4; discriminate | rewrite expected_nrom_image; lia|].
    rewrite Hz, Hn, Hf, He, H4. repeat split.
Defined.

(** ** What a loaded ROM guarantees *)

(** X3.  In every reachable state of each file in which [rom_loaded] is
    set, the ROM buffer starts with the iNES magic [4E 45 53 1A] and
    [rom_size] lies in [16, 2097152]. *)
Theorem X3_loaded_rom (z : ZeroImports.state) (n : NesStandalone.state)
    (f : FceuxZeroImports.state) (e : FceuxSimple.state) :
  ZeroImports.reachable z -> NesStandalone.reachable n ->
  FceuxZeroImports.reachable f -> FceuxSimple.reachable e ->
  (ZeroImports.rom_loaded z <> 0 ->
   INes.magic_ok (ZeroImports.rom_buffer z) /\
   16 <= ZeroImports.rom_size z <= 2097152) /\
  (NesStandalone.rom_loaded n <> 0 ->
   INes.magic_ok (NesStandalone.rom_buffer n) /\
   16 <= NesStandalone.rom_size n <= 2097152) /\
  (FceuxZeroImports.rom_loaded f <> 0 ->
   INes.magic_ok (FceuxZeroImports.rom_buffer f) /\
   16 <= FceuxZeroImports.rom_size f <= 2097152) /\
  (FceuxSimple.rom_loaded e <> 0 ->
   INes.magic_ok (FceuxSimple.rom_data e) /\
   16 <= FceuxSimple.rom_size e <= 2097152).
Proof.
  intros Hz Hn Hf He.
  destruct (zi_reachable_steady z Hz) as (_ & _ & Rz & _).
  destruct (ns_reachable_steady n Hn) as (_ & _ & Rn & _).
  destruct (fzi_reachable_steady f Hf) as (_ & _ & Rf & _).
  destruct (fs_reachable_steady e He) as (_ & _ & _ & Re & _).
  repeat match goal with |- _ /\ _ => split end; assumption.
Qed.

Lemma zi_reachable_loaded_nrom :
  ZeroImports.reachable
    (snd (ZeroImports.loadRom Roms.nrom_header 16
            (snd (ZeroImports.init ZeroImports.uninitialized)))).
Proof.
  exists [ZeroImports.Init; ZeroImports.LoadRom Roms.nrom_header 16].
  reflexivity.
Qed.

Lemma zi_loaded_nrom :
  exists fb pal rom,
    snd (ZeroImports.loadRom Roms.nrom_header 16
           (snd (ZeroImports.init ZeroImports.uninitialized))) =
      ZeroImports.State fb pal rom 1 1 0 0 16.
Proof.
  destruct (zi_init_fresh ZeroImports.uninitialized eq_refl zi_wf_uninitialized)
    as (fb & pal & rom & Heq & _).
  rewrite Heq. cbn [snd].
  rewrite zi_loadRom_accept;
    [ | cbn [ZeroImports.initialized]; lia | exact size_ok_16
      | exact magic_nrom_header ].
  cbn [snd ZeroImports.frame_buffer ZeroImports.nes_palette
       ZeroImports.rom_buffer ZeroImports.initialized ZeroImports.controls
       ZeroImports.frame_count].
  now exists fb, pal, (copy rom Roms.nrom_header 16).
Qed.

(** Scenario S2's header, loaded after [init] by [zero-imports.c]; the
    other files in their Uninitialized state. *)
Lemma X3_loaded_rom_witness :
  load (ZeroImports.rom_buffer
          (snd (ZeroImports.loadRom Roms.nrom_header 16
                  (snd (ZeroImports.init ZeroImports.uninitialized))))) 0 = 0x4E.
Proof.
  destruct (X3_loaded_rom
              (snd (ZeroImports.loadRom Roms.nrom_header 16
                      (snd (ZeroImports.init ZeroImports.uninitialized))))
              NesStandalone.uninitialized FceuxZeroImports.uninitialized
              FceuxSimple.uninitialized zi_reachable_loaded_nrom
              (ex_intro _ [] eq_refl) (ex_intro _ [] eq_refl)
              (ex_intro _ [] eq_refl)) as (Hz & _).
  destruct Hz as ((H0 & _) & _); [|exact H0].
  destruct zi_loaded_nrom as (fb & pal & rom & ->).
  cbn [ZeroImports.rom_loaded]. lia.
Defined.

(** ** Registers *)

(** X4.  In every reachable state of each file [controls] is an 8-bit
    mask (also where it is declared as a 32-bit word) and [frame_count]
    lies in [0, 2^32). *)
Theorem X4_registers (z : ZeroImports.state) (n : NesStandalone.state)
    (f : FceuxZeroImports.state) (e : FceuxSimple.state) :
  ZeroImports.reachable z -> NesStandalone.reachable n ->
  FceuxZeroImports.reachable f -> FceuxSimple.reachable e ->
  (0 <= ZeroImports.controls z < 256 /\
   0 <= ZeroImports.frame_count z < 2 ^ 32) /\
  (0 <= NesStandalone.controls n < 256 /\
   0 <= NesStandalone.frame_count n < 2 ^ 32) /\
  (0 <= FceuxZeroImports.controls f < 256 /\
   0 <= FceuxZeroImports.frame_count f < 2 ^ 32) /\
  (0 <= FceuxSimple.controls e < 256 /\
   0 <= FceuxSimple.frame_count e < 2 ^ 32).
Proof.
  intros Hz Hn Hf He.
  destruct (zi_reachable_steady z Hz) as (_ & Rz & _).
  destruct (ns_reachable_steady n Hn) as (_ & Rn & _).
  destruct (fzi_reachable_steady f Hf) as (_ & Rf & _).
  destruct (fs_reachable_steady e He) as (_ & _ & Re & _).
  repeat match goal with |- _ /\ _ => split end; tauto.
Qed.

Lemma ns_reachable_pressed :
  NesStandalone.reachable
    (NesStandalone.run
       [NesStandalone.Init; NesStandalone.SetButton 7 1; NesStandalone.SetButton 0 1]
       NesStandalone.uninitialized).
Proof. eexists. reflexivity. Qed.

(** After [init], A and Right pressed. *)
Lemma X4_registers_witness :
  0 <= NesStandalone.controls
         (NesStandalone.run
            [NesStandalone.Init; NesStandalone.SetButton 7 1;
             NesStandalone.SetButton 0 1] NesStandalone.uninitialized) < 256.
Proof.
  destruct (X4_registers ZeroImports.uninitialized
              (NesStandalone.run
                 [NesStandalone.Init; NesStandalone.SetButton 7 1;
                  NesStandalone.SetButton 0 1] NesStandalone.uninitialized)
              FceuxZeroImports.uninitialized FceuxSimple.uninitialized
              (ex_intro _ [] eq_refl) ns_reachable_pressed
              (ex_intro _ [] eq_refl) (ex_intro _ [] eq_refl))
    as (_ & (Hn & _) & _).
  exact Hn.
Defined.

(** ** The palettes *)

Lemma quad j : 0 <= j < 256 -> 0 <= j / 4 < 64 /\ 0 <= j mod 4 < 4 /\ j = j / 4 * 4 + j mod 4.
Proof. intros Hj. Z.div_mod_to_equations. lia. Qed.

Lemma zi_palette_table s j :
  Steady.zero_imports s -> ZeroImports.initialized s <> 0 -> 0 <= j < 256 ->
  load (ZeroImports.nes_palette s) j =
    rgba ((j / 4 * 4) mod 256) ((j / 4 * 8) mod 256) ((j / 4 * 16) mod 256) 255
      (j mod 4).
Proof.
  intros (_ & _ & _ & Hpal) Hi Hj. destruct (quad j Hj) as (Hq & Hr & E).
  rewrite E at 1. apply (Hpal Hi); assumption.
Qed.

Lemma ns_palette_table s j :
  Steady.nes_standalone s -> NesStandalone.initialized s <> 0 -> 0 <= j < 256 ->
  load (NesStandalone.nes_palette s) j =
    (let '(r, g, b) := NesStandalone.colors_at (j / 4) in rgba r g b 255 (j mod 4)).
Proof.
  intros (_ & _ & _ & Hpal) Hi Hj. destruct (quad j Hj) as (Hq & Hr & E).
  rewrite E at 1. apply (Hpal Hi); assumption.
Qed.

Lemma fzi_palette_table s j :
  Steady.fceux_zero_imports s -> FceuxZeroImports.initialized s <> 0 ->
  0 <= j < 256 ->
  load (FceuxZeroImports.nes_palette s) j =
    (let '(r, g, b) := FceuxZeroImports.palette_data_at (j / 4) in
     rgba r g b 255 (j mod 4)).
Proof.
  intros (_ & _ & _ & Hpal & _) Hi Hj. destruct (quad j Hj) as (Hq & Hr & E).
  rewrite E at 1. apply (Hpal Hi); assumption.
Qed.

Lemma fs_palette_table s i :
  Steady.fceux_simple s -> FceuxSimple.initialized s <> 0 -> 0 <= i < 64 ->
  load (FceuxSimple.palette s) i = Steady.abgr i.
Proof. intros (_ & _ & _ & _ & Hpal & _) Hi Hj. apply (Hpal Hi), Hj. Qed.

(** X5.  The palette is written by [init] and by nothing else: in every
    reachable state with [initialized] set, each of its 256 bytes (64
    words in [fceux-simple.c]) is the one the first [init] left. *)
Theorem X5_palette_constant (j i : Z)
    (z : ZeroImports.state) (n : NesStandalone.state)
    (f : FceuxZeroImports.state) (e : FceuxSimple.state) :
  0 <= j < 256 -> 0 <= i < 64 ->
  ZeroImports.reachable z -> NesStandalone.reachable n ->
  FceuxZeroImports.reachable f -> FceuxSimple.reachable e ->
  (ZeroImports.initialized z <> 0 ->
   load (ZeroImports.nes_palette z) j =
     load (ZeroImports.nes_palette
             (snd (ZeroImports.init ZeroImports.uninitialized))) j) /\
  (NesStandalone.initialized n <> 0 ->
   load (NesStandalone.nes_palette n) j =
     load (NesStandalone.nes_palette
             (snd (NesStandalone.init NesStandalone.uninitialized))) j) /\
  (FceuxZeroImports.initialized f <> 0 ->
   load (FceuxZeroImports.nes_palette f) j =
     load (FceuxZeroImports.nes_palette
             (snd (FceuxZeroImports.init FceuxZeroImports.uninitialized))) j) /\
  (FceuxSimple.initialized e <> 0 ->
   load (FceuxSimple.palette e) i =
     load (FceuxSimple.palette
             (snd (FceuxSimple.init FceuxSimple.uninitialized))) i).
Proof.
  intros Hj Hi Hz Hn Hf He.
  split; [|split; [|split]]; intros Hinit.
  - rewrite (zi_palette_table z j (zi_reachable_steady z Hz) Hinit Hj).
    rewrite (zi_palette_table _ j (zi_reachable_steady _ zi_reachable_after_init)
               (zi_init_initialized _) Hj).
    reflexivity.
  - rewrite (ns_palette_table n j (ns_reachable_steady n Hn) Hinit Hj).
    rewrite (ns_palette_table _ j (ns_reachable_steady _ ns_reachable_after_init)
               (ns_init_initialized _) Hj).
    reflexivity.
  - rewrite (fzi_palette_table f j (fzi_reachable_steady f Hf) Hinit Hj).
    rewrite (fzi_palette_table _ j
               (fzi_reachable_steady _ fzi_reachable_after_init)
               (fzi_init_initialized _) Hj).
    reflexivity.
  - rewrite (fs_palette_table e i (fs_reachable_steady e He) Hinit Hi).
    rewrite (fs_palette_table _ i (fs_reachable_steady _ fs_reachable_after_init)
               (fs_init_initialized _) Hi).
    reflexivity.
Qed.

(** [zero-imports.c] after [init] and an accepted [loadRom]: byte 5 of
    the palette (green of entry 1) is still 8. *)
Lemma X5_palette_constant_witness :
  load (ZeroImports.nes_palette
          (snd (ZeroImports.loadRom Roms.nrom_header 16
                  (snd (ZeroImports.init ZeroImports.uninitialized))))) 5 = 8.
Proof.
  destruct (X5_palette_constant 5 1
              (snd (ZeroImports.loadRom Roms.nrom_header 16
                      (snd (ZeroImports.init ZeroImports.uninitialized))))
              NesStandalone.uninitialized FceuxZeroImports.uninitialized
              FceuxSimple.uninitialized ltac:(lia) ltac:(lia)
              zi_reachable_loaded_nrom
              (ex_intro _ [] eq_refl) (ex_intro _ [] eq_refl)
              (ex_intro _ [] eq_refl)) as (Hz & _).
  rewrite Hz.
  - rewrite (zi_palette_table _ 5 (zi_reachable_steady _ zi_reachable_after_init)
               (zi_init_initialized _)) by lia.
    reflexivity.
  - destruct zi_loaded_nrom as (fb & pal & rom & ->).
    cbn [ZeroImports.initialized]. lia.
Defined.

(** X6.  The two synthetic palettes hold the same colours:
    [fceux-simple.c] packs entry [i] into one 32-bit word whose bytes,
    read from the low end, are the four bytes [zero-imports.c] stores
    for entry [i]; their alpha byte is 255.  [nes-standalone.c] and
    [fceux-zero-imports.c] carry the same 64-entry table. *)
Theorem X6_palettes_agree (i k j : Z)
    (z : ZeroImports.state) (n : NesStandalone.state)
    (f : FceuxZeroImports.state) (e : FceuxSimple.state) :
  0 <= i < 64 -> 0 <= k < 4 -> 0 <= j < 256 ->
  ZeroImports.reachable z -> NesStandalone.reachable n ->
  FceuxZeroImports.reachable f -> FceuxSimple.reachable e ->
  ZeroImports.initialized z <> 0 -> NesStandalone.initialized n <> 0 ->
  FceuxZeroImports.initialized f <> 0 -> FceuxSimple.initialized e <> 0 ->
  Z.land (Z.shiftr (load (FceuxSimple.palette e) i) (8 * k)) 255 =
    load (ZeroImports.nes_palette z) (i * 4 + k) /\
  Z.shiftr (load (FceuxSimple.palette e) i) 24 = 255 /\
  load (NesStandalone.nes_palette n) j =
    load (FceuxZeroImports.nes_palette f) j.
Proof.
  intros Hi Hk Hj Hz Hn Hf He Jz Jn Jf Je.
  destruct (zi_reachable_steady z Hz) as (_ & _ & _ & Hpz).
  rewrite (Hpz Jz i k Hi Hk).
  rewrite (fs_palette_table e i (fs_reachable_steady e He) Je Hi).
  rewrite (ns_palette_table n j (ns_reachable_steady n Hn) Jn Hj).
  rewrite (fzi_palette_table f j (fzi_reachable_steady f Hf) Jf Hj).
  pose (chk := fun i =>
    forallb (fun k =>
      Z.land (Z.shiftr (Steady.abgr i) (8 * k)) 255 =?
        rgba ((i * 4) mod 256) ((i * 8) mod 256) ((i * 16) mod 256) 255 k)
      [0; 1; 2; 3] && (Z.shiftr (Steady.abgr i) 24 =? 255)).
  assert (Hc : chk i = true)
    by (apply (check_64 chk); [vm_compute; reflexivity | exact Hi]).
  unfold chk in Hc. apply andb_true_iff in Hc. destruct Hc as (Hc1 & Hc2).
  rewrite forallb_forall in Hc1.
  split; [|split].
  - apply Z.eqb_eq, Hc1.
    assert (Hk' : k = 0 \/ k = 1 \/ k = 2 \/ k = 3) by lia.
    destruct Hk' as [-> | [-> | [-> | ->]]]; cbn [In]; tauto.
  - apply Z.eqb_eq, Hc2.
  - reflexivity.
Qed.

(** Entry 1 after [init] in all four files: green is 8 in the synthetic
    palettes. *)
Lemma X6_palettes_agree_witness :
  Z.land (Z.shiftr (load (FceuxSimple.palette
                            (snd (FceuxSimple.init FceuxSimple.uninitialized))) 1)
            (8 * 1)) 255 =
    load (ZeroImports.nes_palette
            (snd (ZeroImports.init ZeroImports.uninitialized))) (1 * 4 + 1).
Proof.
  exact (proj1 (X6_palettes_agree 1 1 5
           (snd (ZeroImports.init ZeroImports.uninitialized))
           (snd (NesStandalone.init NesStandalone.uninitialized))
           (snd (FceuxZeroImports.init FceuxZeroImports.uninitialized))
           (snd (FceuxSimple.init FceuxSimple.uninitialized))
           ltac:(lia) ltac:(lia) ltac:(lia)
           zi_reachable_after_init ns_reachable_after_init
           fzi_reachable_after_init fs_reachable_after_init
           (zi_init_initialized _) (ns_init_initialized _)
           (fzi_init_initialized _) (fs_init_initialized _))).
Defined.

(** ** The parsed header *)

(** X7.  In the two FCEUX files, every reachable state with a ROM loaded
    has [has_chr_ram] equal to 1 when [chr_banks] is 0 and to 0
    otherwise: the flag and the count are only ever written together,
    also by a [loadRom] that then fails. *)
Theorem X7_chr_ram_flag (f : FceuxZeroImports.state) (e : FceuxSimple.state) :
  FceuxZeroImports.reachable f -> FceuxSimple.reachable e ->
  (FceuxZeroImports.rom_loaded f <> 0 ->
   (FceuxZeroImports.has_chr_ram f = 1 /\ FceuxZeroImports.chr_banks f = 0) \/
   (FceuxZeroImports.has_chr_ram f = 0 /\ FceuxZeroImports.chr_banks f <> 0)) /\
  (FceuxSimple.rom_loaded e <> 0 ->
   (FceuxSimple.has_chr_ram e = 1 /\ FceuxSimple.chr_banks e = 0) \/
   (FceuxSimple.has_chr_ram e = 0 /\ FceuxSimple.chr_banks e <> 0)).
Proof.
  intros Hf He.
  destruct (fzi_reachable_steady f Hf) as (_ & _ & _ & _ & Rf).
  destruct (fs_reachable_steady e He) as (_ & _ & _ & _ & _ & Re).
  split; intros Hl.
  - specialize (Rf Hl).
    destruct (Z.eqb_spec (FceuxZeroImports.chr_banks f) 0); [left | right];
      split; assumption.
  - specialize (Re Hl).
    destruct (Z.eqb_spec (FceuxSimple.chr_banks e) 0); [left | right];
      split; assumption.
Qed.

Lemma fzi_loaded_nrom_reachable_flag :
  FceuxZeroImports.rom_loaded
    (snd (FceuxZeroImports.loadRom Roms.nrom_header 16
            (snd (FceuxZeroImports.init FceuxZeroImports.uninitialized)))) <> 0.
Proof.
  destruct (fzi_init_fresh FceuxZeroImports.uninitialized eq_refl
              fzi_wf_uninitialized) as (fb & pal & rom & Heq & _).
  rewrite Heq. cbn [snd].
  rewrite fzi_loadRom_accept;
    [ | cbn [FceuxZeroImports.initialized]; lia | exact size_ok_16
      | exact magic_nrom_header | discriminate ].
  cbn [snd FceuxZeroImports.rom_loaded]. lia.
Qed.

(** Scenario S2's header (one CHR bank) loaded by
    [fceux-zero-imports.c]. *)
Lemma X7_chr_ram_flag_witness :
  let f := snd (FceuxZeroImports.loadRom Roms.nrom_header 16
                  (snd (FceuxZeroImports.init FceuxZeroImports.uninitialized))) in
  (FceuxZeroImports.has_chr_ram f = 1 /\ FceuxZeroImports.chr_banks f = 0) \/
  (FceuxZeroImports.has_chr_ram f = 0 /\ FceuxZeroImports.chr_banks f <> 0).
Proof.
  exact (proj1 (X7_chr_ram_flag _ FceuxSimple.uninitialized
                  fzi_reachable_loaded_nrom (ex_intro _ [] eq_refl))
           fzi_loaded_nrom_reachable_flag).
Defined.

(** A property of the 256 byte values, checked on each of them. *)
Lemma check_256 (f : Z -> bool) :
  forallb f (map Z.of_nat (seq 0 256)) = true ->
  forall i, 0 <= i < 256 -> f i = true.
Proof.
  intros H i Hi. rewrite forallb_forall in H. apply H.
  rewrite <- (Z2Nat.id i) by lia. apply in_map, in_seq. lia.
Qed.

(** [(flags6 >> 4) | (flags7 & 0xF0)]: the high nibble of [flags7] above
    the high nibble of [flags6]. *)
Lemma mapper_nibbles rom :
  bytes rom ->
  INes.mapper_of rom mod 256 = 16 * (load rom 7 / 16) + load rom 6 / 16.
Proof.
  intros Hb. unfold INes.mapper_of.
  pose proof (bytes_load rom 6 Hb) as H6. pose proof (bytes_load rom 7 Hb) as H7.
  generalize dependent (load rom 7). generalize dependent (load rom 6).
  intros a Ha b Hb'.
  pose (chk := fun a =>
    forallb (fun b =>
      Z.lor (Z.shiftr a 4) (Z.land b 240) mod 256 =? 16 * (b / 16) + a / 16)
      (map Z.of_nat (seq 0 256))).
  assert (Hc : chk a = true)
    by (apply (check_256 chk); [vm_compute; reflexivity | exact Ha]).
  unfold chk in Hc. apply Z.eqb_eq.
  exact (check_256 _ Hc b Hb').
Qed.

Lemma flag_bit v k :
  0 <= k ->
  (if Z.land v (2 ^ k) =? 0 then 0 else 1) = if Z.testbit v k then 1 else 0.
Proof.
  intros Hk. rewrite land_pow2_eqb by lia. now destruct (Z.testbit v k).
Qed.

(** X8.  A call of [loadRom] that gets past the size and magic checks
    decodes the header the same way in the three files that parse it,
    whether or not the call then succeeds: the mapper number is the high
    nibble of byte 7 above the high nibble of byte 6, a value below 256;
    the two FCEUX files take the PRG and CHR bank counts from bytes 4 and
    5 and set [has_chr_ram] exactly when byte 5 is 0; [fceux-simple.c]
    takes [has_trainer] from bit 2 and [has_battery] from bit 1 of
    byte 6. *)
Theorem X8_header_decoded (rom : list Z) (size : Z)
    (n : NesStandalone.state) (f : FceuxZeroImports.state)
    (e : FceuxSimple.state) :
  bytes rom -> INes.size_ok size -> INes.magic_ok rom ->
  NesStandalone.initialized n <> 0 -> FceuxZeroImports.initialized f <> 0 ->
  FceuxSimple.initialized e <> 0 ->
  let m := 16 * (load rom 7 / 16) + load rom 6 / 16 in
  let n' := snd (NesStandalone.loadRom rom size n) in
  let f' := snd (FceuxZeroImports.loadRom rom size f) in
  let e' := snd (FceuxSimple.loadRom rom size e) in
  0 <= m < 256 /\
  NesStandalone.mapper n' = m /\
  (FceuxZeroImports.mapper f' = m /\
   FceuxZeroImports.prg_banks f' = load rom 4 /\
   FceuxZeroImports.chr_banks f' = load rom 5 /\
   FceuxZeroImports.has_chr_ram f' = if load rom 5 =? 0 then 1 else 0) /\
  (FceuxSimple.mapper e' = m /\
   FceuxSimple.prg_banks e' = load rom 4 /\
   FceuxSimple.chr_banks e' = load rom 5 /\
   FceuxSimple.has_chr_ram e' = (if load rom 5 =? 0 then 1 else 0) /\
   FceuxSimple.has_trainer e' = (if Z.testbit (load rom 6) 2 then 1 else 0) /\
   FceuxSimple.has_battery e' = (if Z.testbit (load rom 6) 1 then 1 else 0)).
Proof.
  intros Hb Hsize Hmagic Hn Hf He. cbv zeta.
  pose proof (mapper_nibbles rom Hb) as Hm.
  pose proof (bytes_load rom 6 Hb) as H6. pose proof (bytes_load rom 7 Hb) as H7.
  split; [Z.div_mod_to_equations; lia|].
  split; [rewrite (ns_loadRom_accept rom size n Hn Hsize Hmagic);
          cbn [snd NesStandalone.mapper]; exact Hm|].
  split.
  - destruct (Z.eq_dec (load rom 4) 0) as [H4|H4].
    + rewrite (fzi_loadRom_reject_prg0 rom size f Hf Hsize Hmagic H4).
      cbn [snd FceuxZeroImports.mapper FceuxZeroImports.prg_banks
           FceuxZeroImports.chr_banks FceuxZeroImports.has_chr_ram].
      split; [exact Hm|]. split; [symmetry; exact H4|].
      split; reflexivity.
    + rewrite (fzi_loadRom_accept rom size f Hf Hsize Hmagic H4).
      cbn [snd FceuxZeroImports.mapper FceuxZeroImports.prg_banks
           FceuxZeroImports.chr_banks FceuxZeroImports.has_chr_ram].
      split; [exact Hm|]. split; [reflexivity|]. split; reflexivity.
  - assert (Hsize' : INes.size_ok (size mod 2 ^ 32))
      by (unfold INes.size_ok in *; rewrite Z.mod_small; lia).
    rewrite (fs_loadRom_parsed rom size e He Hsize' Hmagic).
    rewrite <- (flag_bit (load rom 6) 2), <- (flag_bit (load rom 6) 1) by lia.
    destruct (_ || _);
      cbn [snd FceuxSimple.mapper FceuxSimple.prg_banks FceuxSimple.chr_banks
           FceuxSimple.has_chr_ram FceuxSimple.has_trainer
           FceuxSimple.has_battery];
      (split; [exact Hm|]); repeat (split; [reflexivity|]); reflexivity.
Qed.

Lemma bytes_unrom_header : bytes Roms.unrom_header.
Proof.
  unfold bytes, Roms.unrom_header.
  repeat (apply Forall_cons_2; [lia|]). apply Forall_nil_2.
Qed.

(** The UNROM header of scenario S4 ([flags6 = 0x20]) after [init]:
    mapper 2. *)
Lemma X8_header_decoded_witness :
  NesStandalone.mapper
    (snd (NesStandalone.loadRom Roms.unrom_header 16
            (snd (NesStandalone.init NesStandalone.uninitialized)))) = 2.
Proof.
  destruct (X8_header_decoded Roms.unrom_header 16
              (snd (NesStandalone.init NesStandalone.uninitialized))
              (snd (FceuxZeroImports.init FceuxZeroImports.uninitialized))
              (snd (FceuxSimple.init FceuxSimple.uninitialized))
              bytes_unrom_header size_ok_16 magic_unrom_header
              (ns_init_initialized _) (fzi_init_initialized _)
              (fs_init_initialized _)) as (_ & Hn & _).
  rewrite Hn. reflexivity.
Defined.

(** ** The pictures *)

Lemma mod32_256 a : (a mod 2 ^ 32) mod 256 = a mod 256.
Proof. change (2 ^ 32) with 4294967296. Z.div_mod_to_equations. lia. Qed.

Lemma base_mod a d : (Z.land (a mod 2 ^ 32) 255 + d) mod 256 = (a + d) mod 256.
Proof.
  rewrite land_255, mod32_256, Z.add_mod_idemp_l by lia. reflexivity.
Qed.

(** The controller lines of the three generators that have them, channel
    by channel: each button held adds its constant modulo 256. *)
Lemma red_closed c r :
  (if Z.land c 2 =? 0
   then if Z.land c 1 =? 0 then r else Z.land (r + 64) 255
   else Z.land ((if Z.land c 1 =? 0 then r else Z.land (r + 64) 255) - 32) 255)
    mod 256 =
  (r + (if Z.testbit c 0 then 64 else 0) - (if Z.testbit c 1 then 32 else 0))
    mod 256.
Proof.
  rewrite (land_bit c 0 1), (land_bit c 1 2) by (try lia; reflexivity).
  destruct (Z.testbit c 0), (Z.testbit c 1); cbn [negb];
    rewrite ?land_255; Z.div_mod_to_equations; lia.
Qed.

Lemma green_closed c g :
  (if Z.land c 8 =? 0
   then if Z.land c 4 =? 0 then g else Z.land (g + 64) 255
   else Z.land ((if Z.land c 4 =? 0 then g else Z.land (g + 64) 255) - 32) 255)
    mod 256 =
  (g + (if Z.testbit c 2 then 64 else 0) - (if Z.testbit c 3 then 32 else 0))
    mod 256.
Proof.
  rewrite (land_bit c 2 4), (land_bit c 3 8) by (try lia; reflexivity).
  destruct (Z.testbit c 2), (Z.testbit c 3); cbn [negb];
    rewrite ?land_255; Z.div_mod_to_equations; lia.
Qed.

Lemma blue_closed c b :
  (if Z.land c 64 =? 0
   then if Z.land c 128 =? 0 then b else Z.land (b + 128) 255
   else Z.land ((if Z.land c 128 =? 0 then b else Z.land (b + 128) 255) + 96) 255)
    mod 256 =
  (b + (if Z.testbit c 7 then 128 else 0) + (if Z.testbit c 6 then 96 else 0))
    mod 256.
Proof.
  rewrite (land_bit c 7 128), (land_bit c 6 64) by (try lia; reflexivity).
  destruct (Z.testbit c 7), (Z.testbit c 6); cbn [negb];
    rewrite ?land_255; Z.div_mod_to_equations; lia.
Qed.

Lemma shift_mod a b d : a mod 256 = b mod 256 -> (a + d) mod 256 = (b + d) mod 256.
Proof.
  intros H. rewrite <- (Z.add_mod_idemp_l a), <- (Z.add_mod_idemp_l b) by lia.
  now rewrite H.
Qed.

(** [pixel_color] of [zero-imports.c] in closed form. *)
Lemma zi_pixel_closed s x y k :
  (let '(r, g, b) := ZeroImports.pixel_color s x y in rgba r g b 255 k) mod 256 =
    rgba
      ((x + ZeroImports.frame_count s
        + (if Z.testbit (ZeroImports.controls s) 0 then 64 else 0)
        - (if Z.testbit (ZeroImports.controls s) 1 then 32 else 0)) mod 256)
      ((y + ZeroImports.frame_count s
        + (if Z.testbit (ZeroImports.controls s) 2 then 64 else 0)
        - (if Z.testbit (ZeroImports.controls s) 3 then 32 else 0)) mod 256)
      ((x + y + ZeroImports.frame_count s
        + (if Z.testbit (ZeroImports.controls s) 7 then 128 else 0)
        + (if Z.testbit (ZeroImports.controls s) 6 then 96 else 0)) mod 256)
      255 k.
Proof.
  unfold ZeroImports.pixel_color. cbv zeta. cbv beta iota.
  rewrite rgba_mod, red_closed, green_closed, blue_closed.
  change (255 mod 256) with 255.
  rewrite <- !Z.add_sub_assoc, <- !Z.add_assoc, !base_mod.
  rewrite !Z.add_assoc. reflexivity.
Qed.

(** The state and the frame buffer a rendering [frame] of
    [zero-imports.c] leaves. *)
Lemma zi_frame_pixels s :
  ZeroImports.initialized s <> 0 -> len (ZeroImports.frame_buffer s) = 245760 ->
  exists fb,
    ZeroImports.frame s =
      ZeroImports.State fb (ZeroImports.nes_palette s) (ZeroImports.rom_buffer s)
        (ZeroImports.initialized s) (ZeroImports.rom_loaded s)
        (ZeroImports.controls s) ((ZeroImports.frame_count s + 1) mod 2 ^ 32)
        (ZeroImports.rom_size s) /\
    len fb = 245760 /\
    forall x y k, 0 <= x < 256 -> 0 <= y < 240 -> 0 <= k < 4 ->
      load fb ((y * 256 + x) * 4 + k) =
        rgba
          ((x + (ZeroImports.frame_count s + 1)
            + (if Z.testbit (ZeroImports.controls s) 0 then 64 else 0)
            - (if Z.testbit (ZeroImports.controls s) 1 then 32 else 0)) mod 256)
          ((y + (ZeroImports.frame_count s + 1)
            + (if Z.testbit (ZeroImports.controls s) 2 then 64 else 0)
            - (if Z.testbit (ZeroImports.controls s) 3 then 32 else 0)) mod 256)
          ((x + y + (ZeroImports.frame_count s + 1)
            + (if Z.testbit (ZeroImports.controls s) 7 then 128 else 0)
            + (if Z.testbit (ZeroImports.controls s) 6 then 96 else 0)) mod 256)
          255 k.
Proof.
  intros Hi Hlen. rewrite (zi_frame_render s Hi).
  destruct (zi_render_frame_eq s Hlen) as (fb & H). cbv zeta in H.
  destruct H as (E & L & P). exists fb.
  split; [exact E|]. split; [exact L|].
  intros x y k Hx Hy Hk. rewrite (P x y k Hx Hy Hk), zi_pixel_closed.
  cbn [ZeroImports.controls ZeroImports.frame_count].
  f_equal; change (2 ^ 32) with 4294967296; Z.div_mod_to_equations; lia.
Qed.

(** X9.  The picture of [zero-imports.c].  A [frame] call on an
    initialised module leaves in pixel [(x, y)], with [fc] the frame count
    it has just advanced: red [x + fc], green [y + fc], blue [x + y + fc],
    each modulo 256 and each moved by the buttons held (Right +64 and
    Left -32 on red, Down +64 and Up -32 on green, A +128 and B +96 on
    blue), and alpha 255. *)
Theorem X9_zero_imports_picture (z : ZeroImports.state) (x y k : Z) :
  ZeroImports.initialized z <> 0 -> len (ZeroImports.frame_buffer z) = 245760 ->
  0 <= x < 256 -> 0 <= y < 240 -> 0 <= k < 4 ->
  let c := ZeroImports.controls z in
  let fc := ZeroImports.frame_count z + 1 in
  load (ZeroImports.frame_buffer (ZeroImports.frame z)) ((y * 256 + x) * 4 + k) =
    rgba
      ((x + fc + (if Z.testbit c 0 then 64 else 0)
               - (if Z.testbit c 1 then 32 else 0)) mod 256)
      ((y + fc + (if Z.testbit c 2 then 64 else 0)
               - (if Z.testbit c 3 then 32 else 0)) mod 256)
      ((x + y + fc + (if Z.testbit c 7 then 128 else 0)
                   + (if Z.testbit c 6 then 96 else 0)) mod 256)
      255 k.
Proof.
  intros Hi Hlen Hx Hy Hk. cbv zeta.
  destruct (zi_frame_pixels z Hi Hlen) as (fb & E & _ & P).
  rewrite E. cbn [ZeroImports.frame_buffer]. exact (P x y k Hx Hy Hk).
Qed.

Lemma zi_reachable_len_fb s :
  ZeroImports.reachable s -> len (ZeroImports.frame_buffer s) = 245760.
Proof.
  intros H. destruct (zi_reachable_inv s H) as ((Hl & _) & _). exact Hl.
Qed.

(** The first frame after [init]: the blue byte of pixel (3, 2) is
    3 + 2 + 1. *)
Lemma X9_zero_imports_picture_witness :
  load (ZeroImports.frame_buffer
          (ZeroImports.frame (snd (ZeroImports.init ZeroImports.uninitialized))))
    ((2 * 256 + 3) * 4 + 2) = 6.
Proof.
  rewrite (X9_zero_imports_picture
             (snd (ZeroImports.init ZeroImports.uninitialized)) 3 2 2
             (zi_init_initialized _)
             (zi_reachable_len_fb _ zi_reachable_after_init)
             ltac:(lia) ltac:(lia) ltac:(lia)).
  destruct (zi_init_fresh ZeroImports.uninitialized eq_refl zi_wf_uninitialized)
    as (fb & pal & rom & Heq & _).
  rewrite Heq. cbn [snd ZeroImports.controls ZeroImports.frame_count].
  reflexivity.
Defined.

(** X10.  The animation of [zero-imports.c]: from one rendered frame to
    the next, with the same buttons held, every colour byte of the frame
    buffer goes up by one modulo 256, and every alpha byte stays 255. *)
Theorem X10_zero_imports_animation (z : ZeroImports.state) (x y k : Z) :
  ZeroImports.initialized z <> 0 -> len (ZeroImports.frame_buffer z) = 245760 ->
  0 <= x < 256 -> 0 <= y < 240 -> 0 <= k < 4 ->
  load (ZeroImports.frame_buffer (ZeroImports.frame (ZeroImports.frame z)))
    ((y * 256 + x) * 4 + k) =
    if k =? 3 then 255
    else (load (ZeroImports.frame_buffer (ZeroImports.frame z))
            ((y * 256 + x) * 4 + k) + 1) mod 256.
Proof.
  intros Hi Hlen Hx Hy Hk.
  destruct (zi_frame_pixels z Hi Hlen) as (fb1 & E1 & L1 & P1).
  rewrite E1.
  match goal with
  | |- context [ZeroImports.frame ?s] =>
      destruct (zi_frame_pixels s Hi L1) as (fb2 & E2 & _ & P2)
  end.
  rewrite E2. cbn [ZeroImports.frame_buffer].
  rewrite (P1 x y k Hx Hy Hk), (P2 x y k Hx Hy Hk).
  cbn [ZeroImports.controls ZeroImports.frame_count].
  unfold rgba.
  destruct (Z.eqb_spec k 0); [|destruct (Z.eqb_spec k 1);
                                [|destruct (Z.eqb_spec k 2)]];
    (destruct (Z.eqb_spec k 3); [lia|]);
    change (2 ^ 32) with 4294967296; Z.div_mod_to_equations; lia.
Qed.

(** The first two frames after [init], blue byte of pixel (3, 2): 6,
    then 7. *)
Lemma X10_zero_imports_animation_witness :
  load (ZeroImports.frame_buffer
          (ZeroImports.frame
             (ZeroImports.frame
                (snd (ZeroImports.init ZeroImports.uninitialized)))))
    ((2 * 256 + 3) * 4 + 2) =
  (load (ZeroImports.frame_buffer
           (ZeroImports.frame
              (snd (ZeroImports.init ZeroImports.uninitialized))))
     ((2 * 256 + 3) * 4 + 2) + 1) mod 256.
Proof.
  exact (X10_zero_imports_animation
           (snd (ZeroImports.init ZeroImports.uninitialized)) 3 2 2
           (zi_init_initialized _)
           (zi_reachable_len_fb _ zi_reachable_after_init)
           ltac:(lia) ltac:(lia) ltac:(lia)).
Defined.

(** The palette index of the two palette-driven generators, for the
    non-negative loop variables. *)
Lemma index_closed x y fc :
  0 <= x -> 0 <= y ->
  Z.land ((Z.quot x 8 + Z.quot y 8 + fc / 4) mod 2 ^ 32) 63 =
    (x / 8 + y / 8 + fc / 4) mod 64.
Proof.
  intros Hx Hy. rewrite !Z.quot_div_nonneg, land_63 by lia.
  change (2 ^ 32) with 4294967296.
  generalize (x / 8 + y / 8 + fc / 4). intros a.
  Z.div_mod_to_equations. lia.
Qed.

(** [pixel_color] of [nes-standalone.c] in closed form. *)
Lemma ns_pixel_closed s x y k :
  0 <= x -> 0 <= y ->
  (let '(r, g, b) := NesStandalone.pixel_color s x y in rgba r g b 255 k) mod 256 =
    let i := (x / 8 + y / 8 + NesStandalone.frame_count s / 4) mod 64 in
    rgba
      ((load (NesStandalone.nes_palette s) (i * 4 + 0)
        + (if Z.testbit (NesStandalone.controls s) 0 then 64 else 0)
        - (if Z.testbit (NesStandalone.controls s) 1 then 32 else 0)) mod 256)
      ((load (NesStandalone.nes_palette s) (i * 4 + 1)
        + (if Z.testbit (NesStandalone.controls s) 2 then 64 else 0)
        - (if Z.testbit (NesStandalone.controls s) 3 then 32 else 0)) mod 256)
      ((load (NesStandalone.nes_palette s) (i * 4 + 2)
        + (if Z.testbit (NesStandalone.controls s) 7 then 128 else 0)
        + (if Z.testbit (NesStandalone.controls s) 6 then 96 else 0)) mod 256)
      255 k.
Proof.
  intros Hx Hy. unfold NesStandalone.pixel_color. cbv zeta. cbv beta iota.
  rewrite rgba_mod, red_closed, green_closed, blue_closed.
  change (255 mod 256) with 255.
  rewrite index_closed by lia. reflexivity.
Qed.

Lemma over32 v : Z.land (v + 32) 255 mod 256 = (v mod 256 + 32) mod 256.
Proof. rewrite land_255. Z.div_mod_to_equations. lia. Qed.

(** [pixel_color] of [fceux-zero-imports.c] in closed form; the overlay
    adds 32 to red and blue where bit 3 of [x + y] is set, on a mapper-2
    cartridge with CHR RAM. *)
Lemma fzi_pixel_closed s x y k :
  0 <= x -> 0 <= y ->
  (let '(r, g, b) := FceuxZeroImports.pixel_color s x y in rgba r g b 255 k)
    mod 256 =
    let i := (x / 8 + y / 8 + FceuxZeroImports.frame_count s / 4) mod 64 in
    let o :=
      if (FceuxZeroImports.mapper s =? 2) &&
         negb (FceuxZeroImports.has_chr_ram s =? 0) && Z.testbit (x + y) 3
      then 32 else 0 in
    rgba
      ((load (FceuxZeroImports.nes_palette s) (i * 4 + 0)
        + (if Z.testbit (FceuxZeroImports.controls s) 0 then 64 else 0)
        - (if Z.testbit (FceuxZeroImports.controls s) 1 then 32 else 0) + o)
       mod 256)
      ((load (FceuxZeroImports.nes_palette s) (i * 4 + 1)
        + (if Z.testbit (FceuxZeroImports.controls s) 2 then 64 else 0)
        - (if Z.testbit (FceuxZeroImports.controls s) 3 then 32 else 0)) mod 256)
      ((load (FceuxZeroImports.nes_palette s) (i * 4 + 2)
        + (if Z.testbit (FceuxZeroImports.controls s) 7 then 128 else 0)
        + (if Z.testbit (FceuxZeroImports.controls s) 6 then 96 else 0) + o)
       mod 256)
      255 k.
Proof.
  intros Hx Hy. unfold FceuxZeroImports.pixel_color. cbv zeta.
  rewrite index_closed by lia.
  rewrite (Z.mod_small (_ mod 64) 256)
    by (pose proof (Z.mod_pos_bound
                      (x / 8 + y / 8 + FceuxZeroImports.frame_count s / 4) 64);
        lia).
  rewrite (land_bit (x + y) 3 8) by (try lia; reflexivity).
  destruct ((FceuxZeroImports.mapper s =? 2) &&
            negb (FceuxZeroImports.has_chr_ram s =? 0)); cbn [andb];
    [destruct (Z.testbit (x + y) 3); cbn [negb]|];
    cbv beta iota; rewrite rgba_mod; change (255 mod 256) with 255;
    rewrite ?over32, red_closed, green_closed, blue_closed;
    rewrite ?Z.add_mod_idemp_l by lia; rewrite ?Z.add_0_r; reflexivity.
Qed.

(** The state and the frame buffer a rendering [frame] leaves, in
    [nes-standalone.c] and in [fceux-zero-imports.c]. *)
Lemma ns_frame_pixels s :
  NesStandalone.initialized s <> 0 -> len (NesStandalone.frame_buffer s) = 245760 ->
  exists fb,
    NesStandalone.frame s =
      NesStandalone.State fb (NesStandalone.nes_palette s)
        (NesStandalone.rom_buffer s) (NesStandalone.initialized s)
        (NesStandalone.rom_loaded s) (NesStandalone.controls s)
        ((NesStandalone.frame_count s + 1) mod 2 ^ 32)
        (NesStandalone.rom_size s) (NesStandalone.mapper s) /\
    len fb = 245760 /\
    forall x y k, 0 <= x < 256 -> 0 <= y < 240 -> 0 <= k < 4 ->
      load fb ((y * 256 + x) * 4 + k) =
        let i :=
          (x / 8 + y / 8 + (NesStandalone.frame_count s + 1) mod 2 ^ 32 / 4)
            mod 64 in
        rgba
          ((load (NesStandalone.nes_palette s) (i * 4 + 0)
            + (if Z.testbit (NesStandalone.controls s) 0 then 64 else 0)
            - (if Z.testbit (NesStandalone.controls s) 1 then 32 else 0)) mod 256)
          ((load (NesStandalone.nes_palette s) (i * 4 + 1)
            + (if Z.testbit (NesStandalone.controls s) 2 then 64 else 0)
            - (if Z.testbit (NesStandalone.controls s) 3 then 32 else 0)) mod 256)
          ((load (NesStandalone.nes_palette s) (i * 4 + 2)
            + (if Z.testbit (NesStandalone.controls s) 7 then 128 else 0)
            + (if Z.testbit (NesStandalone.controls s) 6 then 96 else 0)) mod 256)
          255 k.
Proof.
  intros Hi Hlen. rewrite (ns_frame_render s Hi).
  destruct (ns_generate_frame_eq s Hlen) as (fb & H). cbv zeta in H.
  destruct H as (E & L & P). exists fb.
  split; [exact E|]. split; [exact L|].
  intros x y k Hx Hy Hk.
  rewrite (P x y k Hx Hy Hk), ns_pixel_closed by lia.
  cbn [NesStandalone.controls NesStandalone.frame_count
       NesStandalone.nes_palette].
  reflexivity.
Qed.

Lemma fzi_frame_pixels s :
  FceuxZeroImports.initialized s <> 0 -> FceuxZeroImports.rom_loaded s <> 0 ->
  len (FceuxZeroImports.frame_buffer s) = 245760 ->
  exists fb,
    FceuxZeroImports.frame s =
      FceuxZeroImports.State fb (FceuxZeroImports.nes_palette s)
        (FceuxZeroImports.rom_buffer s) (FceuxZeroImports.initialized s)
        (FceuxZeroImports.rom_loaded s) (FceuxZeroImports.running s)
        (FceuxZeroImports.controls s)
        ((FceuxZeroImports.frame_count s + 1) mod 2 ^ 32)
        (FceuxZeroImports.rom_size s) (FceuxZeroImports.prg_banks s)
        (FceuxZeroImports.chr_banks s) (FceuxZeroImports.mapper s)
        (FceuxZeroImports.has_chr_ram s) /\
    len fb = 245760 /\
    forall x y k, 0 <= x < 256 -> 0 <= y < 240 -> 0 <= k < 4 ->
      load fb ((y * 256 + x) * 4 + k) =
        let i :=
          (x / 8 + y / 8 + (FceuxZeroImports.frame_count s + 1) mod 2 ^ 32 / 4)
            mod 64 in
        let o :=
          if (FceuxZeroImports.mapper s =? 2) &&
             negb (FceuxZeroImports.has_chr_ram s =? 0) && Z.testbit (x + y) 3
          then 32 else 0 in
        rgba
          ((load (FceuxZeroImports.nes_palette s) (i * 4 + 0)
            + (if Z.testbit (FceuxZeroImports.controls s) 0 then 64 else 0)
            - (if Z.testbit (FceuxZeroImports.controls s) 1 then 32 else 0) + o)
           mod 256)
          ((load (FceuxZeroImports.nes_palette s) (i * 4 + 1)
            + (if Z.testbit (FceuxZeroImports.controls s) 2 then 64 else 0)
            - (if Z.testbit (FceuxZeroImports.controls s) 3 then 32 else 0))
           mod 256)
          ((load (FceuxZeroImports.nes_palette s) (i * 4 + 2)
            + (if Z.testbit (FceuxZeroImports.controls s) 7 then 128 else 0)
            + (if Z.testbit (FceuxZeroImports.controls s) 6 then 96 else 0) + o)
           mod 256)
          255 k.
Proof.
  intros Hi Hr Hlen. rewrite (fzi_frame_render s (conj Hi Hr)).
  destruct (fzi_generate_nes_frame_eq s Hlen) as (fb & H). cbv zeta in H.
  destruct H as (E & L & P). exists fb.
  split; [exact E|]. split; [exact L|].
  intros x y k Hx Hy Hk.
  rewrite (P x y k Hx Hy Hk), fzi_pixel_closed by lia.
  cbn [FceuxZeroImports.controls FceuxZeroImports.frame_count
       FceuxZeroImports.nes_palette FceuxZeroImports.mapper
       FceuxZeroImports.has_chr_ram].
  reflexivity.
Qed.

(** [setButton] with a button number in range. *)
Lemma zi_setButton_in b p s :
  0 <= b <= 7 ->
  ZeroImports.setButton b p s =
    ZeroImports.State (ZeroImports.frame_buffer s) (ZeroImports.nes_palette s)
      (ZeroImports.rom_buffer s) (ZeroImports.initialized s)
      (ZeroImports.rom_loaded s)
      (if p =? 0
       then Z.land (ZeroImports.controls s) (Z.lnot (Z.shiftl 1 b) mod 2 ^ 32)
       else Z.lor (ZeroImports.controls s) (Z.shiftl 1 b))
      (ZeroImports.frame_count s) (ZeroImports.rom_size s).
Proof.
  intros Hb. unfold ZeroImports.setButton. rewrite in_range by lia. reflexivity.
Qed.

Lemma ns_setButton_in b p s :
  0 <= b <= 7 ->
  NesStandalone.setButton b p s =
    NesStandalone.State (NesStandalone.frame_buffer s)
      (NesStandalone.nes_palette s) (NesStandalone.rom_buffer s)
      (NesStandalone.initialized s) (NesStandalone.rom_loaded s)
      (if p =? 0
       then Z.land (NesStandalone.controls s) (Z.lnot (Z.shiftl 1 b) mod 2 ^ 32)
       else Z.lor (NesStandalone.controls s) (Z.shiftl 1 b))
      (NesStandalone.frame_count s) (NesStandalone.rom_size s)
      (NesStandalone.mapper s).
Proof.
  intros Hb. unfold NesStandalone.setButton. rewrite in_range by lia. reflexivity.
Qed.

Lemma fzi_setButton_in b p s :
  0 <= b <= 7 ->
  FceuxZeroImports.setButton b p s =
    FceuxZeroImports.State (FceuxZeroImports.frame_buffer s)
      (FceuxZeroImports.nes_palette s) (FceuxZeroImports.rom_buffer s)
      (FceuxZeroImports.initialized s) (FceuxZeroImports.rom_loaded s)
      (FceuxZeroImports.running s)
      (if p =? 0
       then Z.land (FceuxZeroImports.controls s)
              (Z.lnot (Z.shiftl 1 b) mod 2 ^ 32)
       else Z.lor (FceuxZeroImports.controls s) (Z.shiftl 1 b))
      (FceuxZeroImports.frame_count s) (FceuxZeroImports.rom_size s)
      (FceuxZeroImports.prg_banks s) (FceuxZeroImports.chr_banks s)
      (FceuxZeroImports.mapper s) (FceuxZeroImports.has_chr_ram s).
Proof.
  intros Hb. unfold FceuxZeroImports.setButton. rewrite in_range by lia.
  reflexivity.
Qed.

(** What pressing button [b] does to a pixel, against the same pixel with
    [b] released: the constant of the button on its channel. *)
Lemma button_delta c b k r g bl o :
  0 <= b <= 7 -> 0 <= k < 4 ->
  let c1 := Z.lor c (Z.shiftl 1 b) in
  let c0 := Z.land c (Z.lnot (Z.shiftl 1 b) mod 2 ^ 32) in
  rgba
    ((r + (if Z.testbit c1 0 then 64 else 0)
        - (if Z.testbit c1 1 then 32 else 0) + o) mod 256)
    ((g + (if Z.testbit c1 2 then 64 else 0)
        - (if Z.testbit c1 3 then 32 else 0)) mod 256)
    ((bl + (if Z.testbit c1 7 then 128 else 0)
         + (if Z.testbit c1 6 then 96 else 0) + o) mod 256)
    255 k =
  (rgba
     ((r + (if Z.testbit c0 0 then 64 else 0)
         - (if Z.testbit c0 1 then 32 else 0) + o) mod 256)
     ((g + (if Z.testbit c0 2 then 64 else 0)
         - (if Z.testbit c0 3 then 32 else 0)) mod 256)
     ((bl + (if Z.testbit c0 7 then 128 else 0)
          + (if Z.testbit c0 6 then 96 else 0) + o) mod 256)
     255 k
   + (if k =? 0 then if b =? 0 then 64 else if b =? 1 then -32 else 0
      else if k =? 1 then if b =? 2 then 64 else if b =? 3 then -32 else 0
      else if k =? 2 then if b =? 7 then 128 else if b =? 6 then 96 else 0
      else 0)) mod 256.
Proof.
  intros Hb Hk. cbv zeta.
  rewrite !press_bits, !release_bits by lia.
  assert (Hb' : b = 0 \/ b = 1 \/ b = 2 \/ b = 3 \/ b = 4 \/ b = 5 \/ b = 6 \/ b = 7)
    by lia.
  assert (Hk' : k = 0 \/ k = 1 \/ k = 2 \/ k = 3) by lia.
  destruct Hk' as [-> | [-> | [-> | ->]]];
    destruct Hb' as [-> | [-> | [-> | [-> | [-> | [-> | [-> | ->]]]]]]];
    cbn [rgba Z.eqb Pos.eqb]; unfold rgba; cbn [Z.eqb Pos.eqb];
    try reflexivity;
    repeat match goal with
    | |- context [Z.testbit c ?i] => destruct (Z.testbit c i)
    end;
    Z.div_mod_to_equations; lia.
Qed.

Lemma button_delta0 c b k r g bl :
  0 <= b <= 7 -> 0 <= k < 4 ->
  let c1 := Z.lor c (Z.shiftl 1 b) in
  let c0 := Z.land c (Z.lnot (Z.shiftl 1 b) mod 2 ^ 32) in
  rgba
    ((r + (if Z.testbit c1 0 then 64 else 0)
        - (if Z.testbit c1 1 then 32 else 0)) mod 256)
    ((g + (if Z.testbit c1 2 then 64 else 0)
        - (if Z.testbit c1 3 then 32 else 0)) mod 256)
    ((bl + (if Z.testbit c1 7 then 128 else 0)
         + (if Z.testbit c1 6 then 96 else 0)) mod 256)
    255 k =
  (rgba
     ((r + (if Z.testbit c0 0 then 64 else 0)
         - (if Z.testbit c0 1 then 32 else 0)) mod 256)
     ((g + (if Z.testbit c0 2 then 64 else 0)
         - (if Z.testbit c0 3 then 32 else 0)) mod 256)
     ((bl + (if Z.testbit c0 7 then 128 else 0)
          + (if Z.testbit c0 6 then 96 else 0)) mod 256)
     255 k
   + (if k =? 0 then if b =? 0 then 64 else if b =? 1 then -32 else 0
      else if k =? 1 then if b =? 2 then 64 else if b =? 3 then -32 else 0
      else if k =? 2 then if b =? 7 then 128 else if b =? 6 then 96 else 0
      else 0)) mod 256.
Proof.
  intros Hb Hk. pose proof (button_delta c b k r g bl 0 Hb Hk) as H.
  cbv zeta in H. rewrite !Z.add_0_r in H. exact H.
Qed.

(** X11.  What each button does to the picture, in the three files whose
    generator reads [controls].  The frame rendered with button [b]
    pressed differs from the frame rendered with [b] released, every
    other input being equal, by one constant on one channel modulo 256:
    Right (0) +64 and Left (1) -32 on red, Down (2) +64 and Up (3) -32 on
    green, A (7) +128 and B (6) +96 on blue.  Select (4) and Start (5)
    change no byte. *)
Theorem X11_button_delta (b x y k : Z)
    (z : ZeroImports.state) (n : NesStandalone.state)
    (f : FceuxZeroImports.state) :
  0 <= b <= 7 -> 0 <= x < 256 -> 0 <= y < 240 -> 0 <= k < 4 ->
  ZeroImports.initialized z <> 0 -> len (ZeroImports.frame_buffer z) = 245760 ->
  NesStandalone.initialized n <> 0 -> len (NesStandalone.frame_buffer n) = 245760 ->
  FceuxZeroImports.initialized f <> 0 -> FceuxZeroImports.rom_loaded f <> 0 ->
  len (FceuxZeroImports.frame_buffer f) = 245760 ->
  let delta :=
    if k =? 0 then if b =? 0 then 64 else if b =? 1 then -32 else 0
    else if k =? 1 then if b =? 2 then 64 else if b =? 3 then -32 else 0
    else if k =? 2 then if b =? 7 then 128 else if b =? 6 then 96 else 0
    else 0 in
  load (ZeroImports.frame_buffer
          (ZeroImports.frame (ZeroImports.setButton b 1 z)))
    ((y * 256 + x) * 4 + k) =
    (load (ZeroImports.frame_buffer
             (ZeroImports.frame (ZeroImports.setButton b 0 z)))
       ((y * 256 + x) * 4 + k) + delta) mod 256 /\
  load (NesStandalone.frame_buffer
          (NesStandalone.frame (NesStandalone.setButton b 1 n)))
    ((y * 256 + x) * 4 + k) =
    (load (NesStandalone.frame_buffer
             (NesStandalone.frame (NesStandalone.setButton b 0 n)))
       ((y * 256 + x) * 4 + k) + delta) mod 256 /\
  load (FceuxZeroImports.frame_buffer
          (FceuxZeroImports.frame (FceuxZeroImports.setButton b 1 f)))
    ((y * 256 + x) * 4 + k) =
    (load (FceuxZeroImports.frame_buffer
             (FceuxZeroImports.frame (FceuxZeroImports.setButton b 0 f)))
       ((y * 256 + x) * 4 + k) + delta) mod 256.
Proof.
  intros Hb Hx Hy Hk Zi Zl Ni Nl Fi Fr Fl. cbv zeta.
  split; [|split].
  - rewrite (zi_setButton_in b 1 z Hb), (zi_setButton_in b 0 z Hb).
    cbn [Z.eqb].
    match goal with
    | |- load (ZeroImports.frame_buffer (ZeroImports.frame ?s1)) _ =
         (load (ZeroImports.frame_buffer (ZeroImports.frame ?s0)) _ + _) mod _ =>
        destruct (zi_frame_pixels s1 Zi Zl) as (fb1 & E1 & _ & P1);
        destruct (zi_frame_pixels s0 Zi Zl) as (fb0 & E0 & _ & P0)
    end.
    rewrite E1, E0. cbn [ZeroImports.frame_buffer].
    rewrite (P1 x y k Hx Hy Hk), (P0 x y k Hx Hy Hk).
    cbn [ZeroImports.controls ZeroImports.frame_count].
    exact (button_delta0 (ZeroImports.controls z) b k
             (x + (ZeroImports.frame_count z + 1))
             (y + (ZeroImports.frame_count z + 1))
             (x + y + (ZeroImports.frame_count z + 1)) Hb Hk).
  - rewrite (ns_setButton_in b 1 n Hb), (ns_setButton_in b 0 n Hb).
    cbn [Z.eqb].
    match goal with
    | |- load (NesStandalone.frame_buffer (NesStandalone.frame ?s1)) _ =
         (load (NesStandalone.frame_buffer (NesStandalone.frame ?s0)) _ + _)
           mod _ =>
        destruct (ns_frame_pixels s1 Ni Nl) as (fb1 & E1 & _ & P1);
        destruct (ns_frame_pixels s0 Ni Nl) as (fb0 & E0 & _ & P0)
    end.
    rewrite E1, E0. cbn [NesStandalone.frame_buffer].
    rewrite (P1 x y k Hx Hy Hk), (P0 x y k Hx Hy Hk). cbv zeta.
    cbn [NesStandalone.controls NesStandalone.frame_count
         NesStandalone.nes_palette].
    match goal with
    | |- rgba ((?r + _ - _) mod _) ((?g + _ - _) mod _) ((?bl + _ + _) mod _)
           _ _ = _ =>
        exact (button_delta0 (NesStandalone.controls n) b k r g bl Hb Hk)
    end.
  - rewrite (fzi_setButton_in b 1 f Hb), (fzi_setButton_in b 0 f Hb).
    cbn [Z.eqb].
    match goal with
    | |- load (FceuxZeroImports.frame_buffer (FceuxZeroImports.frame ?s1)) _ =
         (load (FceuxZeroImports.frame_buffer (FceuxZeroImports.frame ?s0)) _
          + _) mod _ =>
        destruct (fzi_frame_pixels s1 Fi Fr Fl) as (fb1 & E1 & _ & P1);
        destruct (fzi_frame_pixels s0 Fi Fr Fl) as (fb0 & E0 & _ & P0)
    end.
    rewrite E1, E0. cbn [FceuxZeroImports.frame_buffer].
    rewrite (P1 x y k Hx Hy Hk), (P0 x y k Hx Hy Hk). cbv zeta.
    cbn [FceuxZeroImports.controls FceuxZeroImports.frame_count
         FceuxZeroImports.nes_palette FceuxZeroImports.mapper
         FceuxZeroImports.has_chr_ram].
    match goal with
    | |- rgba ((?r + _ - _ + ?o) mod _) ((?g + _ - _) mod _)
           ((?bl + _ + _ + _) mod _) _ _ = _ =>
        exact (button_delta (FceuxZeroImports.controls f) b k r g bl o Hb Hk)
    end.
Qed.

Lemma ns_reachable_len_fb s :
  NesStandalone.reachable s -> len (NesStandalone.frame_buffer s) = 245760.
Proof.
  intros H. destruct (ns_reachable_inv s H) as ((Hl & _) & _). exact Hl.
Qed.

Lemma fzi_reachable_len_fb s :
  FceuxZeroImports.reachable s -> len (FceuxZeroImports.frame_buffer s) = 245760.
Proof.
  intros H. destruct (fzi_reachable_inv s H) as ((Hl & _) & _). exact Hl.
Qed.

Lemma fzi_loaded_nrom_initialized :
  FceuxZeroImports.initialized
    (snd (FceuxZeroImports.loadRom Roms.nrom_header 16
            (snd (FceuxZeroImports.init FceuxZeroImports.uninitialized)))) <> 0.
Proof.
  destruct fzi_loaded_nrom as (fb & pal & rom & -> & _).
  cbn [FceuxZeroImports.initialized]. lia.
Qed.

(** Right (button 0) after [init] (and, for [fceux-zero-imports.c], after
    loading scenario S2's header): the red byte of pixel (0, 0) is 64
    above the one rendered with Right released. *)
Lemma X11_button_delta_witness :
  let z := snd (ZeroImports.init ZeroImports.uninitialized) in
  let n := snd (NesStandalone.init NesStandalone.uninitialized) in
  let f := snd (FceuxZeroImports.loadRom Roms.nrom_header 16
                  (snd (FceuxZeroImports.init FceuxZeroImports.uninitialized))) in
  load (ZeroImports.frame_buffer
          (ZeroImports.frame (ZeroImports.setButton 0 1 z)))
    ((0 * 256 + 0) * 4 + 0) =
    (load (ZeroImports.frame_buffer
             (ZeroImports.frame (ZeroImports.setButton 0 0 z)))
       ((0 * 256 + 0) * 4 + 0) + 64) mod 256 /\
  load (NesStandalone.frame_buffer
          (NesStandalone.frame (NesStandalone.setButton 0 1 n)))
    ((0 * 256 + 0) * 4 + 0) =
    (load (NesStandalone.frame_buffer
             (NesStandalone.frame (NesStandalone.setButton 0 0 n)))
       ((0 * 256 + 0) * 4 + 0) + 64) mod 256 /\
  load (FceuxZeroImports.frame_buffer
          (FceuxZeroImports.frame (FceuxZeroImports.setButton 0 1 f)))
    ((0 * 256 + 0) * 4 + 0) =
    (load (FceuxZeroImports.frame_buffer
             (FceuxZeroImports.frame (FceuxZeroImports.setButton 0 0 f)))
       ((0 * 256 + 0) * 4 + 0) + 64) mod 256.
Proof.
  intros z n f.
  pose proof (X11_button_delta 0 0 0 0 z n f ltac:(lia) ltac:(lia) ltac:(lia)
                ltac:(lia) (zi_init_initialized _)
                (zi_reachable_len_fb _ zi_reachable_after_init)
                (ns_init_initialized _)
                (ns_reachable_len_fb _ ns_reachable_after_init)
                fzi_loaded_nrom_initialized fzi_loaded_nrom_reachable_flag
                (fzi_reachable_len_fb _ fzi_reachable_loaded_nrom)) as H.
  cbv zeta in H. cbn [Z.eqb] in H. exact H.
Defined.

(** ** The picture of [fceux-simple.c] *)

(** [frame_buffer[index + k] += d] on a pixel whose four bytes are
    known. *)
Lemma bump p q idx r g b k d :
  0 <= idx -> idx + 4 <= len p -> len q = len p -> 0 <= k < 3 ->
  (forall j, 0 <= j ->
     load q j =
       if (idx <=? j) && (j <? idx + 4) then rgba r g b 255 (j - idx) mod 256
       else load p j) ->
  let q' := store q (idx + k) (load q (idx + k) + d) in
  len q' = len p /\
  forall j, 0 <= j ->
    load q' j =
      if (idx <=? j) && (j <? idx + 4)
      then rgba (if k =? 0 then r mod 256 + d else r)
                (if k =? 1 then g mod 256 + d else g)
                (if k =? 2 then b mod 256 + d else b) 255 (j - idx) mod 256
      else load p j.
Proof.
  intros Hidx Hend Hlen Hk Hq q'. subst q'.
  split; [rewrite len_store; exact Hlen|].
  intros j Hj. rewrite load_store by lia.
  rewrite (Hq (idx + k)) by lia. rewrite (Hq j Hj).
  replace (idx + k - idx) with k by lia.
  destruct (Z.leb_spec idx (idx + k)); [|lia].
  destruct (Z.ltb_spec (idx + k) (idx + 4)); [|lia]. cbn [andb].
  destruct (Z.eqb_spec j (idx + k)) as [->|Hne].
  - destruct (Z.leb_spec idx (idx + k)); [|lia].
    destruct (Z.ltb_spec (idx + k) (idx + 4)); [|lia]. cbn [andb].
    replace (idx + k - idx) with k by lia.
    unfold rgba.
    destruct (Z.eqb_spec k 0); [reflexivity|].
    destruct (Z.eqb_spec k 1); [reflexivity|].
    destruct (Z.eqb_spec k 2); [reflexivity|lia].
  - destruct (Z.leb_spec idx j), (Z.ltb_spec j (idx + 4)); cbn [andb];
      try reflexivity.
    unfold rgba.
    destruct (Z.eqb_spec (j - idx) 0), (Z.eqb_spec (j - idx) 1),
      (Z.eqb_spec (j - idx) 2), (Z.eqb_spec k 0), (Z.eqb_spec k 1),
      (Z.eqb_spec k 2); try reflexivity; lia.
Qed.

(** The three patterns, pixel by pixel. *)
Lemma fs_nrom_pixel fc x y p :
  0 <= x < 256 -> 0 <= y < 240 -> len p = 245760 ->
  len (FceuxSimple.put_pixel_nrom fc x y p) = 245760 /\
  forall j, 0 <= j -> True ->
    load (FceuxSimple.put_pixel_nrom fc x y p) j =
      if ((y * 256 + x) * 4 <=? j) && (j <? (y * 256 + x) * 4 + 4)
      then rgba ((x + fc) mod 256) 32 ((y + fc) mod 256) 255
             (j - (y * 256 + x) * 4)
      else load p j.
Proof.
  intros Hx Hy Hp. unfold FceuxSimple.put_pixel_nrom. cbv zeta.
  match goal with
  | |- context [store (store (store (store p _ ?r) _ ?g) _ ?b) _ _] =>
      destruct (store_rgba p ((y * 256 + x) * 4) r g b 255) as (Hl & Hld);
        try lia
  end.
  split; [lia|]. intros j Hj _. rewrite (Hld j Hj).
  rewrite rgba_mod, !land_255, !mod32_256, !Z.mod_mod by lia. reflexivity.
Qed.

Lemma fs_other_pixel fc x y p :
  0 <= x < 256 -> 0 <= y < 240 -> len p = 245760 ->
  len (FceuxSimple.put_pixel_other fc x y p) = 245760 /\
  forall j, 0 <= j -> True ->
    load (FceuxSimple.put_pixel_other fc x y p) j =
      if ((y * 256 + x) * 4 <=? j) && (j <? (y * 256 + x) * 4 + 4)
      then rgba ((x * 2 + fc) mod 256) ((y * 2 + fc) mod 256) 96 255
             (j - (y * 256 + x) * 4)
      else load p j.
Proof.
  intros Hx Hy Hp. unfold FceuxSimple.put_pixel_other. cbv zeta.
  match goal with
  | |- context [store (store (store (store p _ ?r) _ ?g) _ ?b) _ _] =>
      destruct (store_rgba p ((y * 256 + x) * 4) r g b 255) as (Hl & Hld);
        try lia
  end.
  split; [lia|]. intros j Hj _. rewrite (Hld j Hj).
  rewrite rgba_mod, !land_255, !mod32_256, !Z.mod_mod by lia. reflexivity.
Qed.

Lemma fs_unrom_pixel s x y p :
  0 <= x < 256 -> 0 <= y < 240 -> len p = 245760 ->
  len (FceuxSimple.put_pixel_unrom s x y p) = 245760 /\
  forall j, 0 <= j -> True ->
    load (FceuxSimple.put_pixel_unrom s x y p) j =
      if ((y * 256 + x) * 4 <=? j) && (j <? (y * 256 + x) * 4 + 4)
      then
        rgba (if Z.testbit (FceuxSimple.controls s) 0 then 128 else 64)
          (((if FceuxSimple.has_chr_ram s =? 0 then 64
             else load (FceuxSimple.chr_ram s) ((x + y * 16) mod 8192))
            + FceuxSimple.frame_count s
            + (if Z.testbit (FceuxSimple.controls s) 1 then 64 else 0)) mod 256)
          ((x + y + FceuxSimple.frame_count s
            + (if Z.testbit (FceuxSimple.controls s) 7 then 64 else 0)) mod 256)
          255 (j - (y * 256 + x) * 4)
      else load p j.
Proof.
  intros Hx Hy Hp. unfold FceuxSimple.put_pixel_unrom. cbv zeta.
  set (idx := (y * 256 + x) * 4).
  set (base := if FceuxSimple.has_chr_ram s =? 0 then 64
               else load (FceuxSimple.chr_ram s) ((x + y * 16) mod 8192)).
  assert (Hidx : 0 <= idx /\ idx + 4 <= len p) by (subst idx; lia).
  match goal with
  | |- context [store (store (store (store p _ ?r) _ ?g) _ ?b) _ _] =>
      destruct (store_rgba p idx r g b 255) as (Hl & Hld); try lia;
      set (g0 := g) in *; set (b0 := b) in *
  end.
  cbv zeta in Hl, Hld.
  set (p4 := store (store (store (store p (idx + 0) 64) (idx + 1) g0)
                      (idx + 2) b0) (idx + 3) 255) in *.
  rewrite (land_bit (FceuxSimple.controls s) 0 1),
    (land_bit (FceuxSimple.controls s) 1 2),
    (land_bit (FceuxSimple.controls s) 7 128) by (try lia; reflexivity).
  assert (H0 : exists r1,
    let q := if negb (Z.testbit (FceuxSimple.controls s) 0) then p4
             else store p4 (idx + 0) (load p4 (idx + 0) + 64) in
    r1 mod 256 = (if Z.testbit (FceuxSimple.controls s) 0 then 128 else 64) /\
    len q = len p /\
    forall j, 0 <= j ->
      load q j = if (idx <=? j) && (j <? idx + 4)
                 then rgba r1 g0 b0 255 (j - idx) mod 256 else load p j).
  { destruct (Z.testbit (FceuxSimple.controls s) 0); cbn [negb].
    - exists (64 mod 256 + 64). split; [reflexivity|].
      exact (bump p p4 idx 64 g0 b0 0 64 ltac:(lia) ltac:(lia) Hl ltac:(lia) Hld).
    - exists 64. split; [reflexivity|]. split; [exact Hl | exact Hld]. }
  destruct H0 as (r1 & Hr1 & H0). cbv zeta in H0.
  set (q0 := if negb (Z.testbit (FceuxSimple.controls s) 0) then p4
             else store p4 (idx + 0) (load p4 (idx + 0) + 64)) in *.
  destruct H0 as (Hl0 & Hld0).
  assert (H1 : exists g1,
    let q := if negb (Z.testbit (FceuxSimple.controls s) 1) then q0
             else store q0 (idx + 1) (load q0 (idx + 1) + 64) in
    g1 mod 256 =
      (base + FceuxSimple.frame_count s
       + (if Z.testbit (FceuxSimple.controls s) 1 then 64 else 0)) mod 256 /\
    len q = len p /\
    forall j, 0 <= j ->
      load q j = if (idx <=? j) && (j <? idx + 4)
                 then rgba r1 g1 b0 255 (j - idx) mod 256 else load p j).
  { destruct (Z.testbit (FceuxSimple.controls s) 1); cbn [negb].
    - exists (g0 mod 256 + 64). split.
      + subst g0. rewrite land_255, mod32_256.
        rewrite Z.mod_mod, Z.add_mod_idemp_l by lia. reflexivity.
      + exact (bump p q0 idx r1 g0 b0 1 64 ltac:(lia) ltac:(lia) Hl0
                 ltac:(lia) Hld0).
    - exists g0. split.
      + subst g0. rewrite land_255, mod32_256, Z.mod_mod, Z.add_0_r by lia.
        reflexivity.
      + split; [exact Hl0 | exact Hld0]. }
  destruct H1 as (g1 & Hg1 & H1). cbv zeta in H1.
  set (q1 := if negb (Z.testbit (FceuxSimple.controls s) 1) then q0
             else store q0 (idx + 1) (load q0 (idx + 1) + 64)) in *.
  destruct H1 as (Hl1 & Hld1).
  assert (H2 : exists b1,
    let q := if negb (Z.testbit (FceuxSimple.controls s) 7) then q1
             else store q1 (idx + 2) (load q1 (idx + 2) + 64) in
    b1 mod 256 =
      (x + y + FceuxSimple.frame_count s
       + (if Z.testbit (FceuxSimple.controls s) 7 then 64 else 0)) mod 256 /\
    len q = len p /\
    forall j, 0 <= j ->
      load q j = if (idx <=? j) && (j <? idx + 4)
                 then rgba r1 g1 b1 255 (j - idx) mod 256 else load p j).
  { destruct (Z.testbit (FceuxSimple.controls s) 7); cbn [negb].
    - exists (b0 mod 256 + 64). split.
      + subst b0. rewrite land_255, mod32_256.
        rewrite Z.mod_mod, Z.add_mod_idemp_l by lia. reflexivity.
      + exact (bump p q1 idx r1 g1 b0 2 64 ltac:(lia) ltac:(lia) Hl1
                 ltac:(lia) Hld1).
    - exists b0. split.
      + subst b0. rewrite land_255, mod32_256, Z.mod_mod, Z.add_0_r by lia.
        reflexivity.
      + split; [exact Hl1 | exact Hld1]. }
  destruct H2 as (b1 & Hb1 & H2). cbv zeta in H2.
  destruct H2 as (Hl2 & Hld2).
  split; [rewrite Hl2; exact Hp|].
  intros j Hj _. rewrite (Hld2 j Hj).
  destruct ((idx <=? j) && (j <? idx + 4)); [|reflexivity].
  rewrite rgba_mod, Hr1, Hg1, Hb1. reflexivity.
Qed.

Lemma add_mod32 a b : (a + b mod 2 ^ 32) mod 256 = (a + b) mod 256.
Proof. change (2 ^ 32) with 4294967296. Z.div_mod_to_equations. lia. Qed.

Lemma add_mod32_d a b d : (a + b mod 2 ^ 32 + d) mod 256 = (a + b + d) mod 256.
Proof. change (2 ^ 32) with 4294967296. Z.div_mod_to_equations. lia. Qed.

(** The state and the frame buffer a rendering [frame] of
    [fceux-simple.c] leaves. *)
Lemma fs_frame_pixels s :
  FceuxSimple.initialized s <> 0 -> FceuxSimple.rom_loaded s <> 0 ->
  FceuxSimple.running s <> 0 ->
  len (FceuxSimple.frame_buffer s) = 245760 ->
  exists fb,
    FceuxSimple.frame s =
      FceuxSimple.State (FceuxSimple.rom_data s) (FceuxSimple.rom_size s) fb
        (FceuxSimple.chr_ram s) (FceuxSimple.prg_ram s) (FceuxSimple.palette s)
        (FceuxSimple.controls s) (FceuxSimple.initialized s)
        (FceuxSimple.rom_loaded s) (FceuxSimple.running s)
        ((FceuxSimple.frame_count s + 1) mod 2 ^ 32)
        (FceuxSimple.prg_banks s) (FceuxSimple.chr_banks s)
        (FceuxSimple.mapper s) (FceuxSimple.has_chr_ram s)
        (FceuxSimple.has_trainer s) (FceuxSimple.has_battery s) /\
    len fb = 245760 /\
    forall x y k, 0 <= x < 256 -> 0 <= y < 240 -> 0 <= k < 4 ->
      load fb ((y * 256 + x) * 4 + k) =
        if FceuxSimple.mapper s =? 0 then
          rgba ((x + (FceuxSimple.frame_count s + 1)) mod 256) 32
            ((y + (FceuxSimple.frame_count s + 1)) mod 256) 255 k
        else if FceuxSimple.mapper s =? 2 then
          rgba (if Z.testbit (FceuxSimple.controls s) 0 then 128 else 64)
            (((if FceuxSimple.has_chr_ram s =? 0 then 64
               else load (FceuxSimple.chr_ram s) ((x + y * 16) mod 8192))
              + (FceuxSimple.frame_count s + 1)
              + (if Z.testbit (FceuxSimple.controls s) 1 then 64 else 0))
             mod 256)
            ((x + y + (FceuxSimple.frame_count s + 1)
              + (if Z.testbit (FceuxSimple.controls s) 7 then 64 else 0))
             mod 256)
            255 k
        else
          rgba ((x * 2 + (FceuxSimple.frame_count s + 1)) mod 256)
            ((y * 2 + (FceuxSimple.frame_count s + 1)) mod 256) 96 255 k.
Proof.
  intros Hi Hr Hrun Hlen.
  rewrite (fs_frame_render s (conj Hi (conj Hr Hrun))).
  unfold FceuxSimple.render. cbv zeta.
  cbn [FceuxSimple.rom_data FceuxSimple.rom_size FceuxSimple.frame_buffer
       FceuxSimple.chr_ram FceuxSimple.prg_ram FceuxSimple.palette
       FceuxSimple.controls FceuxSimple.initialized FceuxSimple.rom_loaded
       FceuxSimple.running FceuxSimple.frame_count FceuxSimple.prg_banks
       FceuxSimple.chr_banks FceuxSimple.mapper FceuxSimple.has_chr_ram
       FceuxSimple.has_trainer FceuxSimple.has_battery].
  eexists. split; [reflexivity|].
  destruct (FceuxSimple.mapper s =? 0); [|destruct (FceuxSimple.mapper s =? 2)].
  - match goal with
    | |- context [FceuxSimple.put_pixel_nrom ?fc] =>
        destruct (raster_rule (fun _ => True) (FceuxSimple.put_pixel_nrom fc)
                    (fun x y k => rgba ((x + fc) mod 256) 32 ((y + fc) mod 256)
                                    255 k)
                    (FceuxSimple.frame_buffer s)
                    (fun x y p => fs_nrom_pixel fc x y p) Hlen) as (Hl & Hpix)
    end.
    split; [exact Hl|]. intros x y k Hx Hy Hk.
    rewrite (Hpix x y k Hx Hy Hk I).
    rewrite ?add_mod32_d, ?add_mod32. reflexivity.
  - match goal with
    | |- context [FceuxSimple.put_pixel_unrom ?s1] =>
        destruct (raster_rule (fun _ => True) (FceuxSimple.put_pixel_unrom s1)
                    (fun x y k =>
                       rgba
                         (if Z.testbit (FceuxSimple.controls s1) 0
                          then 128 else 64)
                         (((if FceuxSimple.has_chr_ram s1 =? 0 then 64
                            else load (FceuxSimple.chr_ram s1)
                                   ((x + y * 16) mod 8192))
                           + FceuxSimple.frame_count s1
                           + (if Z.testbit (FceuxSimple.controls s1) 1
                              then 64 else 0)) mod 256)
                         ((x + y + FceuxSimple.frame_count s1
                           + (if Z.testbit (FceuxSimple.controls s1) 7
                              then 64 else 0)) mod 256)
                         255 k)
                    (FceuxSimple.frame_buffer s)
                    (fun x y p => fs_unrom_pixel s1 x y p) Hlen) as (Hl & Hpix)
    end.
    split; [exact Hl|]. intros x y k Hx Hy Hk.
    rewrite (Hpix x y k Hx Hy Hk I).
    cbn [FceuxSimple.controls FceuxSimple.frame_count FceuxSimple.has_chr_ram
         FceuxSimple.chr_ram].
    rewrite ?add_mod32_d, ?add_mod32. reflexivity.
  - match goal with
    | |- context [FceuxSimple.put_pixel_other ?fc] =>
        destruct (raster_rule (fun _ => True) (FceuxSimple.put_pixel_other fc)
                    (fun x y k => rgba ((x * 2 + fc) mod 256)
                                    ((y * 2 + fc) mod 256) 96 255 k)
                    (FceuxSimple.frame_buffer s)
                    (fun x y p => fs_other_pixel fc x y p) Hlen) as (Hl & Hpix)
    end.
    split; [exact Hl|]. intros x y k Hx Hy Hk.
    rewrite (Hpix x y k Hx Hy Hk I).
    rewrite ?add_mod32_d, ?add_mod32. reflexivity.
Qed.

(** X12.  The picture of [fceux-simple.c].  A [frame] call that renders
    (module initialised, ROM loaded, running) leaves in pixel [(x, y)],
    with [fc] the frame count it has just advanced, one of three
    patterns chosen by the mapper number alone.  Mapper 0: red [x + fc],
    green 32, blue [y + fc].  Mapper 2: red 64, green [base + fc] where
    [base] is 64 without CHR RAM and [chr_ram[(x + 16 y) mod 8192]] with
    it, blue [x + y + fc]; the three [+= 64] read back the byte just
    stored, so Right adds 64 to red, Left 64 to green and A 64 to blue.
    Any other mapper: red [2 x + fc], green [2 y + fc], blue 96; the
    buttons are ignored, as they are for mapper 0.  All modulo 256, alpha
    255. *)
Theorem X12_fceux_simple_picture (e : FceuxSimple.state) (x y k : Z) :
  FceuxSimple.initialized e <> 0 -> FceuxSimple.rom_loaded e <> 0 ->
  FceuxSimple.running e <> 0 ->
  len (FceuxSimple.frame_buffer e) = 245760 ->
  0 <= x < 256 -> 0 <= y < 240 -> 0 <= k < 4 ->
  let c := FceuxSimple.controls e in
  let fc := FceuxSimple.frame_count e + 1 in
  let base :=
    if FceuxSimple.has_chr_ram e =? 0 then 64
    else load (FceuxSimple.chr_ram e) ((x + y * 16) mod 8192) in
  load (FceuxSimple.frame_buffer (FceuxSimple.frame e)) ((y * 256 + x) * 4 + k) =
    if FceuxSimple.mapper e =? 0 then
      rgba ((x + fc) mod 256) 32 ((y + fc) mod 256) 255 k
    else if FceuxSimple.mapper e =? 2 then
      rgba (if Z.testbit c 0 then 128 else 64)
        ((base + fc + (if Z.testbit c 1 then 64 else 0)) mod 256)
        ((x + y + fc + (if Z.testbit c 7 then 64 else 0)) mod 256) 255 k
    else
      rgba ((x * 2 + fc) mod 256) ((y * 2 + fc) mod 256) 96 255 k.
Proof.
  intros Hi Hr Hrun Hlen Hx Hy Hk. cbv zeta.
  destruct (fs_frame_pixels e Hi Hr Hrun Hlen) as (fb & E & _ & P).
  rewrite E. cbn [FceuxSimple.frame_buffer]. exact (P x y k Hx Hy Hk).
Qed.

Lemma bytes_unrom_image : bytes Roms.unrom_image.
Proof.
  unfold bytes, Roms.unrom_image. apply Forall_app. split.
  - apply bytes_unrom_header.
  - apply bytes_zeros.
Qed.

Lemma load_unrom_image i :
  0 <= i < 16 -> load Roms.unrom_image i = load Roms.unrom_header i.
Proof. intros Hi. unfold Roms.unrom_image. apply load_app_l. exact Hi. Qed.

Lemma magic_unrom_image : INes.magic_ok Roms.unrom_image.
Proof.
  unfold INes.magic_ok. rewrite !load_unrom_image by lia. repeat split.
Qed.

(** [init], an accepted [loadRom] of a 16400-byte image with one PRG bank
    and no CHR bank, [setRunning(1)]: the state [fceux-simple.c] is in. *)
Lemma fs_running_image rom :
  INes.magic_ok rom -> load rom 4 = 1 -> load rom 5 = 0 ->
  Z.land (load rom 6) 4 = 0 ->
  exists rom' fb chr prg pal,
    FceuxSimple.setRunning 1
      (snd (FceuxSimple.loadRom rom 16400
              (snd (FceuxSimple.init FceuxSimple.uninitialized)))) =
      FceuxSimple.State rom' 16400 fb chr prg pal 0 1 1 1 0 1 0
        (INes.mapper_of rom mod 256) 1 0
        (if Z.land (load rom 6) 2 =? 0 then 0 else 1) /\
    len fb = 245760 /\
    forall i, 0 <= i < 8192 -> load chr i = i mod 256.
Proof.
  intros Hmagic H4 H5 H6.
  destruct (fs_init_fresh_arrays FceuxSimple.uninitialized eq_refl)
    as (rom0 & fb & chr & prg & pal & Heq & Hfb & _ & _ & (Hchr & _) & _).
  - apply fs_wf_uninitialized.
  - apply (fs_reachable_len_rom _ (ex_intro _ [] eq_refl)).
  - apply (fs_reachable_steady _ (ex_intro _ [] eq_refl)).
  - apply (fs_reachable_steady _ (ex_intro _ [] eq_refl)).
  - rewrite Heq. cbn [snd].
    rewrite fs_loadRom_parsed;
      [ | cbn [FceuxSimple.initialized]; lia
        | change (16400 mod 2 ^ 32) with 16400; exact size_ok_16400
        | exact Hmagic ].
    unfold Steady.expected_size, INes.chr_ram_of. cbv zeta.
    rewrite H4, H5, H6. cbn [Z.eqb orb].
    change (16400 mod 2 ^ 32 <?
            ((16 + 1 * 16384) mod 2 ^ 32 + 0 * 8192) mod 2 ^ 32) with false.
    cbv iota. unfold FceuxSimple.setRunning.
    cbn [snd FceuxSimple.rom_data FceuxSimple.rom_size FceuxSimple.frame_buffer
         FceuxSimple.chr_ram FceuxSimple.prg_ram FceuxSimple.palette
         FceuxSimple.controls FceuxSimple.initialized FceuxSimple.rom_loaded
         FceuxSimple.running FceuxSimple.frame_count FceuxSimple.prg_banks
         FceuxSimple.chr_banks FceuxSimple.mapper FceuxSimple.has_chr_ram
         FceuxSimple.has_trainer FceuxSimple.has_battery].
    change (16400 mod 2 ^ 32) with 16400.
    do 5 eexists. split; [reflexivity|]. split; [exact Hfb|].
    exact (proj2 (fs_chr_seed chr Hchr)).
Qed.

Lemma fs_running_nrom :
  exists rom' fb chr prg pal,
    FceuxSimple.setRunning 1
      (snd (FceuxSimple.loadRom Roms.nrom_image 16400
              (snd (FceuxSimple.init FceuxSimple.uninitialized)))) =
      FceuxSimple.State rom' 16400 fb chr prg pal 0 1 1 1 0 1 0 0 1 0 0 /\
    len fb = 245760.
Proof.
  destruct (fs_running_image Roms.nrom_image magic_nrom_image)
    as (rom' & fb & chr & prg & pal & Heq & Hfb & _);
    try (rewrite load_nrom_image by lia; reflexivity).
  exists rom', fb, chr, prg, pal. split; [|exact Hfb].
  rewrite Heq. unfold INes.mapper_of. rewrite !load_nrom_image by lia.
  reflexivity.
Qed.

(** The first frame of the 16400-byte NROM image: the red byte of pixel
    (3, 2) is 3 + 1. *)
Lemma X12_fceux_simple_picture_witness :
  load (FceuxSimple.frame_buffer
          (FceuxSimple.frame
             (FceuxSimple.setRunning 1
                (snd (FceuxSimple.loadRom Roms.nrom_image 16400
                        (snd (FceuxSimple.init FceuxSimple.uninitialized)))))))
    ((2 * 256 + 3) * 4 + 0) = 4.
Proof.
  destruct fs_running_nrom as (rom' & fb & chr & prg & pal & Heq & Hfb).
  rewrite Heq.
  match goal with
  | |- context [FceuxSimple.frame ?s] =>
      rewrite (X12_fceux_simple_picture s 3 2 0
                 ltac:(cbn [FceuxSimple.initialized]; lia)
                 ltac:(cbn [FceuxSimple.rom_loaded]; lia)
                 ltac:(cbn [FceuxSimple.running]; lia)
                 Hfb ltac:(lia) ltac:(lia) ltac:(lia))
  end.
  cbn [FceuxSimple.mapper FceuxSimple.frame_count]. reflexivity.
Defined.

(** ** What a picture depends on *)

Lemma pixel_decomp j :
  0 <= j < 245760 ->
  exists x y k,
    0 <= x < 256 /\ 0 <= y < 240 /\ 0 <= k < 4 /\ j = (y * 256 + x) * 4 + k.
Proof.
  intros Hj. exists ((j / 4) mod 256), (j / 1024), (j mod 4).
  Z.div_mod_to_equations. lia.
Qed.

(** Two buffers of 245760 bytes with the same pixels are equal. *)
Lemma same_pixels (a b : list Z) :
  len a = 245760 -> len b = 245760 ->
  (forall x y k, 0 <= x < 256 -> 0 <= y < 240 -> 0 <= k < 4 ->
     load a ((y * 256 + x) * 4 + k) = load b ((y * 256 + x) * 4 + k)) ->
  a = b.
Proof.
  intros Ha Hb H. apply load_ext; [lia|]. intros j Hj.
  destruct (pixel_decomp j ltac:(lia)) as (x & y & k & Hx & Hy & Hk & ->).
  now apply H.
Qed.

(** X13.  What a rendered frame depends on.  The whole frame buffer that
    a rendering [frame] call leaves is a function of a few statics, and
    of neither the previous picture nor any byte of the ROM buffer:
    [controls] and [frame_count] in [zero-imports.c]; these and the
    palette in [nes-standalone.c]; these, the palette, [mapper] and
    [has_chr_ram] in [fceux-zero-imports.c]; [controls], [frame_count],
    [mapper], [has_chr_ram] and the CHR RAM in [fceux-simple.c]. *)
Theorem X13_picture_inputs (z z' : ZeroImports.state)
    (n n' : NesStandalone.state) (f f' : FceuxZeroImports.state)
    (e e' : FceuxSimple.state) :
  (ZeroImports.initialized z <> 0 -> ZeroImports.initialized z' <> 0 ->
   len (ZeroImports.frame_buffer z) = 245760 ->
   len (ZeroImports.frame_buffer z') = 245760 ->
   ZeroImports.controls z = ZeroImports.controls z' ->
   ZeroImports.frame_count z = ZeroImports.frame_count z' ->
   ZeroImports.frame_buffer (ZeroImports.frame z) =
     ZeroImports.frame_buffer (ZeroImports.frame z')) /\
  (NesStandalone.initialized n <> 0 -> NesStandalone.initialized n' <> 0 ->
   len (NesStandalone.frame_buffer n) = 245760 ->
   len (NesStandalone.frame_buffer n') = 245760 ->
   NesStandalone.controls n = NesStandalone.controls n' ->
   NesStandalone.frame_count n = NesStandalone.frame_count n' ->
   NesStandalone.nes_palette n = NesStandalone.nes_palette n' ->
   NesStandalone.frame_buffer (NesStandalone.frame n) =
     NesStandalone.frame_buffer (NesStandalone.frame n')) /\
  (FceuxZeroImports.initialized f <> 0 -> FceuxZeroImports.initialized f' <> 0 ->
   FceuxZeroImports.rom_loaded f <> 0 -> FceuxZeroImports.rom_loaded f' <> 0 ->
   len (FceuxZeroImports.frame_buffer f) = 245760 ->
   len (FceuxZeroImports.frame_buffer f') = 245760 ->
   FceuxZeroImports.controls f = FceuxZeroImports.controls f' ->
   FceuxZeroImports.frame_count f = FceuxZeroImports.frame_count f' ->
   FceuxZeroImports.nes_palette f = FceuxZeroImports.nes_palette f' ->
   FceuxZeroImports.mapper f = FceuxZeroImports.mapper f' ->
   FceuxZeroImports.has_chr_ram f = FceuxZeroImports.has_chr_ram f' ->
   FceuxZeroImports.frame_buffer (FceuxZeroImports.frame f) =
     FceuxZeroImports.frame_buffer (FceuxZeroImports.frame f')) /\
  (FceuxSimple.initialized e <> 0 -> FceuxSimple.initialized e' <> 0 ->
   FceuxSimple.rom_loaded e <> 0 -> FceuxSimple.rom_loaded e' <> 0 ->
   FceuxSimple.running e <> 0 -> FceuxSimple.running e' <> 0 ->
   len (FceuxSimple.frame_buffer e) = 245760 ->
   len (FceuxSimple.frame_buffer e') = 245760 ->
   FceuxSimple.controls e = FceuxSimple.controls e' ->
   FceuxSimple.frame_count e = FceuxSimple.frame_count e' ->
   FceuxSimple.mapper e = FceuxSimple.mapper e' ->
   FceuxSimple.has_chr_ram e = FceuxSimple.has_chr_ram e' ->
   FceuxSimple.chr_ram e = FceuxSimple.chr_ram e' ->
   FceuxSimple.frame_buffer (FceuxSimple.frame e) =
     FceuxSimple.frame_buffer (FceuxSimple.frame e')).
Proof.
  split; [|split; [|split]].
  - intros Hi Hi' Hl Hl' Hc Hfc.
    destruct (zi_frame_pixels z Hi Hl) as (fb & E & L & P).
    destruct (zi_frame_pixels z' Hi' Hl') as (fb' & E' & L' & P').
    rewrite E, E'. cbn [ZeroImports.frame_buffer].
    apply same_pixels; [exact L | exact L' |].
    intros x y k Hx Hy Hk.
    rewrite (P x y k Hx Hy Hk), (P' x y k Hx Hy Hk), Hc, Hfc. reflexivity.
  - intros Hi Hi' Hl Hl' Hc Hfc Hp.
    destruct (ns_frame_pixels n Hi Hl) as (fb & E & L & P).
    destruct (ns_frame_pixels n' Hi' Hl') as (fb' & E' & L' & P').
    rewrite E, E'. cbn [NesStandalone.frame_buffer].
    apply same_pixels; [exact L | exact L' |].
    intros x y k Hx Hy Hk.
    rewrite (P x y k Hx Hy Hk), (P' x y k Hx Hy Hk), Hc, Hfc, Hp. reflexivity.
  - intros Hi Hi' Hr Hr' Hl Hl' Hc Hfc Hp Hm Hh.
    destruct (fzi_frame_pixels f Hi Hr Hl) as (fb & E & L & P).
    destruct (fzi_frame_pixels f' Hi' Hr' Hl') as (fb' & E' & L' & P').
    rewrite E, E'. cbn [FceuxZeroImports.frame_buffer].
    apply same_pixels; [exact L | exact L' |].
    intros x y k Hx Hy Hk.
    rewrite (P x y k Hx Hy Hk), (P' x y k Hx Hy Hk), Hc, Hfc, Hp, Hm, Hh.
    reflexivity.
  - intros Hi Hi' Hr Hr' Hg Hg' Hl Hl' Hc Hfc Hm Hh Hchr.
    destruct (fs_frame_pixels e Hi Hr Hg Hl) as (fb & E & L & P).
    destruct (fs_frame_pixels e' Hi' Hr' Hg' Hl') as (fb' & E' & L' & P').
    rewrite E, E'. cbn [FceuxSimple.frame_buffer].
    apply same_pixels; [exact L | exact L' |].
    intros x y k Hx Hy Hk.
    rewrite (P x y k Hx Hy Hk), (P' x y k Hx Hy Hk), Hc, Hfc, Hm, Hh, Hchr.
    reflexivity.
Qed.

(** [zero-imports.c]: the first frame after [init], and the first frame
    after a [reset] that follows it, are the same picture. *)
Lemma X13_picture_inputs_witness :
  ZeroImports.frame_buffer
    (ZeroImports.frame (snd (ZeroImports.init ZeroImports.uninitialized))) =
  ZeroImports.frame_buffer
    (ZeroImports.frame
       (ZeroImports.reset
          (ZeroImports.frame
             (snd (ZeroImports.init ZeroImports.uninitialized))))).
Proof.
  destruct (zi_init_fresh ZeroImports.uninitialized eq_refl zi_wf_uninitialized)
    as (fb & pal & rom & Heq & Hfb & _).
  rewrite Heq. cbn [snd].
  set (z0 := ZeroImports.State fb pal rom 1 0 0 0 0).
  assert (Hi0 : ZeroImports.initialized z0 <> 0)
    by (cbn [z0 ZeroImports.initialized]; lia).
  destruct (zi_frame_pixels z0 Hi0 Hfb) as (fb1 & E1 & L1 & _).
  rewrite E1 at 2.
  match goal with
  | |- context [ZeroImports.reset ?s] =>
      destruct (zi_reset_eq s L1) as (fb2 & E2 & L2 & _); rewrite E2
  end.
  cbn [z0 ZeroImports.nes_palette ZeroImports.rom_buffer
       ZeroImports.initialized ZeroImports.rom_loaded ZeroImports.rom_size].
  refine (proj1 (X13_picture_inputs z0 (ZeroImports.State fb2 pal rom 1 0 0 0 0)
                   NesStandalone.uninitialized NesStandalone.uninitialized
                   FceuxZeroImports.uninitialized FceuxZeroImports.uninitialized
                   FceuxSimple.uninitialized FceuxSimple.uninitialized)
            Hi0 _ Hfb L2 eq_refl eq_refl).
  cbn [ZeroImports.initialized]. lia.
Defined.

(** ** The tiles of [nes-standalone.c] *)

(** X14.  The picture of [nes-standalone.c] is made of 8x8 tiles and
    scrolls.  In a rendered frame two pixels whose tile coordinates
    [x / 8] and [y / 8] have the same sum carry the same four bytes; and
    four frames later, with the same buttons held and no wrap of the
    frame counter, pixel [(x, y)] shows what pixel [(x + 8, y)] showed:
    the picture has moved left by one tile. *)
Theorem X14_nes_standalone_tiles (n : NesStandalone.state) (x y x' y' k : Z) :
  NesStandalone.initialized n <> 0 ->
  len (NesStandalone.frame_buffer n) = 245760 ->
  0 <= x < 256 -> 0 <= y < 240 -> 0 <= x' < 256 -> 0 <= y' < 240 ->
  0 <= k < 4 ->
  (x / 8 + y / 8 = x' / 8 + y' / 8 ->
   load (NesStandalone.frame_buffer (NesStandalone.frame n))
     ((y * 256 + x) * 4 + k) =
   load (NesStandalone.frame_buffer (NesStandalone.frame n))
     ((y' * 256 + x') * 4 + k)) /\
  (0 <= NesStandalone.frame_count n ->
   NesStandalone.frame_count n + 5 < 2 ^ 32 -> x + 8 < 256 ->
   load (NesStandalone.frame_buffer
           (NesStandalone.frame (NesStandalone.frame (NesStandalone.frame
              (NesStandalone.frame (NesStandalone.frame n))))))
     ((y * 256 + x) * 4 + k) =
   load (NesStandalone.frame_buffer (NesStandalone.frame n))
     ((y * 256 + (x + 8)) * 4 + k)).
Proof.
  intros Hi Hl Hx Hy Hx' Hy' Hk.
  destruct (ns_frame_pixels n Hi Hl) as (fb1 & E1 & L1 & P1).
  rewrite !E1. split.
  - intros Ht. cbn [NesStandalone.frame_buffer].
    rewrite (P1 x y k Hx Hy Hk), (P1 x' y' k Hx' Hy' Hk). cbv zeta.
    rewrite Ht. reflexivity.
  - intros Hfc0 Hfc Hx8.
    assert (M : forall a, 0 <= a < 2 ^ 32 - 1 -> (a + 1) mod 2 ^ 32 = a + 1)
      by (intros a Ha; apply Z.mod_small; lia).
    rewrite (M (NesStandalone.frame_count n)) in * by lia.
    match goal with
    | |- context [NesStandalone.frame ?s] =>
        lazymatch s with
        | context [NesStandalone.frame _] => fail
        | _ => destruct (ns_frame_pixels s Hi L1) as (fb2 & E2 & L2 & _)
        end
    end.
    rewrite E2.
    cbn [NesStandalone.nes_palette NesStandalone.rom_buffer
         NesStandalone.initialized NesStandalone.rom_loaded
         NesStandalone.controls NesStandalone.frame_count
         NesStandalone.rom_size NesStandalone.mapper].
    rewrite (M (NesStandalone.frame_count n + 1)) by lia.
    match goal with
    | |- context [NesStandalone.frame ?s] =>
        lazymatch s with
        | context [NesStandalone.frame _] => fail
        | _ => destruct (ns_frame_pixels s Hi L2) as (fb3 & E3 & L3 & _)
        end
    end.
    rewrite E3.
    cbn [NesStandalone.nes_palette NesStandalone.rom_buffer
         NesStandalone.initialized NesStandalone.rom_loaded
         NesStandalone.controls NesStandalone.frame_count
         NesStandalone.rom_size NesStandalone.mapper].
    rewrite (M (NesStandalone.frame_count n + 1 + 1)) by lia.
    match goal with
    | |- context [NesStandalone.frame ?s] =>
        lazymatch s with
        | context [NesStandalone.frame _] => fail
        | _ => destruct (ns_frame_pixels s Hi L3) as (fb4 & E4 & L4 & _)
        end
    end.
    rewrite E4.
    cbn [NesStandalone.nes_palette NesStandalone.rom_buffer
         NesStandalone.initialized NesStandalone.rom_loaded
         NesStandalone.controls NesStandalone.frame_count
         NesStandalone.rom_size NesStandalone.mapper].
    rewrite (M (NesStandalone.frame_count n + 1 + 1 + 1)) by lia.
    match goal with
    | |- context [NesStandalone.frame ?s] =>
        destruct (ns_frame_pixels s Hi L4) as (fb5 & E5 & _ & P5)
    end.
    rewrite E5. cbn [NesStandalone.frame_buffer].
    rewrite (P5 x y k Hx Hy Hk), (P1 (x + 8) y k ltac:(lia) Hy Hk). cbv zeta.
    cbn [NesStandalone.nes_palette NesStandalone.controls
         NesStandalone.frame_count].
    rewrite (M (NesStandalone.frame_count n + 1 + 1 + 1 + 1)) by lia.
    replace ((x + 8) / 8 + y / 8 + (NesStandalone.frame_count n + 1) / 4)
      with (x / 8 + y / 8 +
            (NesStandalone.frame_count n + 1 + 1 + 1 + 1 + 1) / 4)
      by (Z.div_mod_to_equations; lia).
    reflexivity.
Qed.

(** After [init]: pixels (8, 0) and (0, 8) of the first frame agree, and
    pixel (8, 0) of the fifth frame is pixel (16, 0) of the first. *)
Lemma X14_nes_standalone_tiles_witness :
  let n := snd (NesStandalone.init NesStandalone.uninitialized) in
  load (NesStandalone.frame_buffer (NesStandalone.frame n))
    ((0 * 256 + 8) * 4 + 0) =
  load (NesStandalone.frame_buffer (NesStandalone.frame n))
    ((8 * 256 + 0) * 4 + 0) /\
  load (NesStandalone.frame_buffer
          (NesStandalone.frame (NesStandalone.frame (NesStandalone.frame
             (NesStandalone.frame (NesStandalone.frame n))))))
    ((0 * 256 + 8) * 4 + 0) =
  load (NesStandalone.frame_buffer (NesStandalone.frame n))
    ((0 * 256 + (8 + 8)) * 4 + 0).
Proof.
  intros n.
  assert (Hfc : NesStandalone.frame_count n = 0).
  { subst n. destruct ns_after_init as (fb & pal & rom & -> & _). reflexivity. }
  destruct (X14_nes_standalone_tiles n 8 0 0 8 0 (ns_init_initialized _)
              (ns_reachable_len_fb _ ns_reachable_after_init)
              ltac:(lia) ltac:(lia) ltac:(lia) ltac:(lia) ltac:(lia))
    as (H1 & H2).
  split.
  - apply H1. reflexivity.
  - apply H2; rewrite ?Hfc; lia.
Defined.

(** ** The strict size check of [fceux-simple.c] *)

(** The footprint for a header of bytes: the sum does not wrap. *)
Lemma expected_size_closed rom :
  bytes rom ->
  Steady.expected_size rom =
    16 + (if Z.testbit (load rom 6) 2 then 512 else 0)
    + load rom 4 * 16384 + load rom 5 * 8192.
Proof.
  intros Hb. unfold Steady.expected_size. cbv zeta.
  pose proof (bytes_load rom 4 Hb). pose proof (bytes_load rom 5 Hb).
  rewrite (land_bit (load rom 6) 2 4) by (try lia; reflexivity).
  change (2 ^ 32) with 4294967296.
  destruct (Z.testbit (load rom 6) 2); cbn [negb];
    Z.div_mod_to_equations; lia.
Qed.

(** X15.  The size check of [fceux-simple.c].  For an initialised module
    and an image of bytes with valid magic and a size in [16, 2097152],
    [loadRom] returns 1 exactly when byte 4 is not 0 and
    [16 + (512 if bit 2 of byte 6) + 16384 * byte4 + 8192 * byte5 <= size],
    and 0 otherwise; when it returns 1 and byte 5 is 0 it leaves
    [chr_ram[i] = i mod 256] in all 8192 bytes of CHR RAM, and when
    byte 5 is not 0, or the call fails, CHR RAM keeps its contents. *)
Theorem X15_strict_size_check (rom : list Z) (size : Z) (e : FceuxSimple.state) :
  bytes rom -> INes.size_ok size -> INes.magic_ok rom ->
  FceuxSimple.initialized e <> 0 -> len (FceuxSimple.chr_ram e) = 8192 ->
  let footprint :=
    16 + (if Z.testbit (load rom 6) 2 then 512 else 0)
    + load rom 4 * 16384 + load rom 5 * 8192 in
  let r := FceuxSimple.loadRom rom size e in
  (fst r = 1 <-> load rom 4 <> 0 /\ footprint <= size) /\
  (fst r = 0 <-> load rom 4 = 0 \/ size < footprint) /\
  (fst r = 1 -> load rom 5 = 0 ->
   forall i, 0 <= i < 8192 -> load (FceuxSimple.chr_ram (snd r)) i = i mod 256) /\
  (fst r = 0 \/ load rom 5 <> 0 ->
   FceuxSimple.chr_ram (snd r) = FceuxSimple.chr_ram e).
Proof.
  intros Hb Hsize Hmagic Hi Hchr. cbv zeta.
  assert (Hs : size mod 2 ^ 32 = size)
    by (unfold INes.size_ok in Hsize; apply Z.mod_small; lia).
  assert (Hsize' : INes.size_ok (size mod 2 ^ 32)) by (rewrite Hs; exact Hsize).
  rewrite (fs_loadRom_parsed rom size e Hi Hsize' Hmagic).
  rewrite Hs, (expected_size_closed rom Hb).
  destruct (Z.eqb_spec (load rom 4) 0) as [H4|H4]; cbn [orb];
    [|destruct (Z.ltb_spec size
                  (16 + (if Z.testbit (load rom 6) 2 then 512 else 0)
                   + load rom 4 * 16384 + load rom 5 * 8192)) as [Hlt|Hge]];
    cbn [fst snd FceuxSimple.chr_ram].
  - split; [split; [discriminate | intros (H & _); contradiction]|].
    split; [split; [intros _; left; exact H4 | reflexivity]|].
    split; [discriminate | reflexivity].
  - split; [split; [discriminate | intros (_ & H); lia]|].
    split; [split; [intros _; right; exact Hlt | reflexivity]|].
    split; [discriminate | reflexivity].
  - split; [split; [intros _; split; [exact H4 | exact Hge] | reflexivity]|].
    split; [split; [discriminate | intros [H | H]; [contradiction | lia]]|].
    split.
    + intros _ H5. rewrite H5. cbn [Z.eqb].
      exact (proj2 (fs_chr_seed _ Hchr)).
    + intros [H | H5]; [discriminate H|].
      destruct (Z.eqb_spec (load rom 5) 0); [contradiction | reflexivity].
Qed.

Lemma fs_reachable_len_chr s :
  FceuxSimple.reachable s -> len (FceuxSimple.chr_ram s) = 8192.
Proof.
  intros H. destruct (fs_reachable_steady s H) as (_ & (_ & Hl & _) & _).
  exact Hl.
Qed.

(** Scenario S2's 16-byte header asks for 24592 bytes and is turned
    down. *)
Lemma X15_strict_size_check_witness :
  fst (FceuxSimple.loadRom Roms.nrom_header 16
         (snd (FceuxSimple.init FceuxSimple.uninitialized))) = 0.
Proof.
  destruct (X15_strict_size_check Roms.nrom_header 16
              (snd (FceuxSimple.init FceuxSimple.uninitialized)))
    as (_ & H0 & _).
  - unfold bytes, Roms.nrom_header.
    repeat (apply Forall_cons_2; [lia|]). apply Forall_nil_2.
  - exact size_ok_16.
  - exact magic_nrom_header.
  - apply fs_init_initialized.
  - apply fs_reachable_len_chr, fs_reachable_after_init.
  - apply H0. right. vm_compute. reflexivity.
Defined.

(** ** [reset] *)

Lemma cleared_eq (a b : list Z) :
  len a = 245760 -> len b = 245760 -> cleared a -> cleared b -> a = b.
Proof.
  intros Ha Hb Ca Cb. apply load_ext; [lia|]. intros j Hj.
  rewrite (Ca j), (Cb j) by lia. reflexivity.
Qed.

Lemma zeros_eq (a b : list Z) n :
  len a = n -> len b = n ->
  (forall j, 0 <= j < n -> load a j = 0) ->
  (forall j, 0 <= j < n -> load b j = 0) -> a = b.
Proof.
  intros Ha Hb Za Zb. apply load_ext; [lia|]. intros j Hj.
  rewrite (Za j), (Zb j) by lia. reflexivity.
Qed.

(** X16.  [reset] has no guard and is idempotent.  In each file, from any
    state whose buffers have their declared sizes, initialised or not,
    [reset] leaves every pixel (0, 0, 0, 255), and a second [reset]
    changes nothing.  It keeps [initialized], [rom_loaded], [rom_size]
    and the ROM buffer.  [fceux-zero-imports.c] also clears [running];
    [fceux-simple.c] keeps [running], and zeroes the 8192 bytes of CHR
    RAM exactly when [has_chr_ram] is set. *)
Theorem X16_reset (z : ZeroImports.state) (n : NesStandalone.state)
    (f : FceuxZeroImports.state) (e : FceuxSimple.state) :
  len (ZeroImports.frame_buffer z) = 245760 ->
  len (NesStandalone.frame_buffer n) = 245760 ->
  len (FceuxZeroImports.frame_buffer f) = 245760 ->
  len (FceuxSimple.frame_buffer e) = 245760 ->
  len (FceuxSimple.chr_ram e) = 8192 ->
  (ZeroImports.reset (ZeroImports.reset z) = ZeroImports.reset z /\
   cleared (ZeroImports.frame_buffer (ZeroImports.reset z)) /\
   ZeroImports.initialized (ZeroImports.reset z) = ZeroImports.initialized z /\
   ZeroImports.rom_loaded (ZeroImports.reset z) = ZeroImports.rom_loaded z /\
   ZeroImports.rom_size (ZeroImports.reset z) = ZeroImports.rom_size z /\
   ZeroImports.rom_buffer (ZeroImports.reset z) = ZeroImports.rom_buffer z) /\
  (NesStandalone.reset (NesStandalone.reset n) = NesStandalone.reset n /\
   cleared (NesStandalone.frame_buffer (NesStandalone.reset n)) /\
   NesStandalone.initialized (NesStandalone.reset n) =
     NesStandalone.initialized n /\
   NesStandalone.rom_loaded (NesStandalone.reset n) =
     NesStandalone.rom_loaded n /\
   NesStandalone.rom_size (NesStandalone.reset n) = NesStandalone.rom_size n /\
   NesStandalone.rom_buffer (NesStandalone.reset n) =
     NesStandalone.rom_buffer n) /\
  (FceuxZeroImports.reset (FceuxZeroImports.reset f) =
     FceuxZeroImports.reset f /\
   cleared (FceuxZeroImports.frame_buffer (FceuxZeroImports.reset f)) /\
   FceuxZeroImports.initialized (FceuxZeroImports.reset f) =
     FceuxZeroImports.initialized f /\
   FceuxZeroImports.rom_loaded (FceuxZeroImports.reset f) =
     FceuxZeroImports.rom_loaded f /\
   FceuxZeroImports.rom_size (FceuxZeroImports.reset f) =
     FceuxZeroImports.rom_size f /\
   FceuxZeroImports.rom_buffer (FceuxZeroImports.reset f) =
     FceuxZeroImports.rom_buffer f /\
   FceuxZeroImports.running (FceuxZeroImports.reset f) = 0) /\
  (FceuxSimple.reset (FceuxSimple.reset e) = FceuxSimple.reset e /\
   cleared (FceuxSimple.frame_buffer (FceuxSimple.reset e)) /\
   FceuxSimple.initialized (FceuxSimple.reset e) = FceuxSimple.initialized e /\
   FceuxSimple.rom_loaded (FceuxSimple.reset e) = FceuxSimple.rom_loaded e /\
   FceuxSimple.rom_size (FceuxSimple.reset e) = FceuxSimple.rom_size e /\
   FceuxSimple.rom_data (FceuxSimple.reset e) = FceuxSimple.rom_data e /\
   FceuxSimple.running (FceuxSimple.reset e) = FceuxSimple.running e /\
   (FceuxSimple.has_chr_ram e <> 0 ->
    forall j, 0 <= j < 8192 ->
      load (FceuxSimple.chr_ram (FceuxSimple.reset e)) j = 0) /\
   (FceuxSimple.has_chr_ram e = 0 ->
    FceuxSimple.chr_ram (FceuxSimple.reset e) = FceuxSimple.chr_ram e)).
Proof.
  intros Hz Hn Hf He Hchr.
  split; [|split; [|split]].
  - destruct (zi_reset_eq z Hz) as (fb & E & L & C). rewrite E.
    match goal with
    | |- ZeroImports.reset ?s = _ /\ _ =>
        destruct (zi_reset_eq s L) as (fb' & E' & L' & C')
    end.
    rewrite E'.
    cbn [ZeroImports.frame_buffer ZeroImports.nes_palette
         ZeroImports.rom_buffer ZeroImports.initialized ZeroImports.rom_loaded
         ZeroImports.rom_size].
    rewrite (cleared_eq fb' fb L' L C' C).
    split; [reflexivity|]. split; [exact C|]. repeat (split; [reflexivity|]).
    reflexivity.
  - destruct (ns_reset_eq n Hn) as (fb & E & L & C). rewrite E.
    match goal with
    | |- NesStandalone.reset ?s = _ /\ _ =>
        destruct (ns_reset_eq s L) as (fb' & E' & L' & C')
    end.
    rewrite E'.
    cbn [NesStandalone.frame_buffer NesStandalone.nes_palette
         NesStandalone.rom_buffer NesStandalone.initialized
         NesStandalone.rom_loaded NesStandalone.rom_size NesStandalone.mapper].
    rewrite (cleared_eq fb' fb L' L C' C).
    split; [reflexivity|]. split; [exact C|]. repeat (split; [reflexivity|]).
    reflexivity.
  - destruct (fzi_reset_eq f Hf) as (fb & E & L & C). rewrite E.
    match goal with
    | |- FceuxZeroImports.reset ?s = _ /\ _ =>
        destruct (fzi_reset_eq s L) as (fb' & E' & L' & C')
    end.
    rewrite E'.
    cbn [FceuxZeroImports.frame_buffer FceuxZeroImports.nes_palette
         FceuxZeroImports.rom_buffer FceuxZeroImports.initialized
         FceuxZeroImports.rom_loaded FceuxZeroImports.rom_size
         FceuxZeroImports.prg_banks FceuxZeroImports.chr_banks
         FceuxZeroImports.mapper FceuxZeroImports.has_chr_ram
         FceuxZeroImports.running].
    rewrite (cleared_eq fb' fb L' L C' C).
    split; [reflexivity|]. split; [exact C|]. repeat (split; [reflexivity|]).
    reflexivity.
  - destruct (fs_reset_arrays e He Hchr)
      as (fb & chr & E & L & C & Lc & Zc & Kc).
    rewrite E.
    match goal with
    | |- FceuxSimple.reset ?s = _ /\ _ =>
        destruct (fs_reset_arrays s L Lc)
          as (fb' & chr' & E' & L' & C' & Lc' & Zc' & Kc')
    end.
    rewrite E'.
    cbn [FceuxSimple.rom_data FceuxSimple.rom_size FceuxSimple.frame_buffer
         FceuxSimple.chr_ram FceuxSimple.prg_ram FceuxSimple.palette
         FceuxSimple.controls FceuxSimple.initialized FceuxSimple.rom_loaded
         FceuxSimple.running FceuxSimple.frame_count FceuxSimple.prg_banks
         FceuxSimple.chr_banks FceuxSimple.mapper FceuxSimple.has_chr_ram
         FceuxSimple.has_trainer FceuxSimple.has_battery] in *.
    rewrite (cleared_eq fb' fb L' L C' C).
    assert (Hc : chr' = chr).
    { destruct (Z.eq_dec (FceuxSimple.has_chr_ram e) 0) as [H0|H0].
      - exact (Kc' H0).
      - exact (zeros_eq chr' chr 8192 Lc' Lc (Zc' H0) (Zc H0)). }
    rewrite Hc.
    split; [reflexivity|]. split; [exact C|].
    do 5 (split; [reflexivity|]). split; [exact Zc | exact Kc].
Qed.

Lemma fs_reachable_len_fb s :
  FceuxSimple.reachable s -> len (FceuxSimple.frame_buffer s) = 245760.
Proof. intros H. exact (proj1 (fs_reachable_inv s H)). Qed.

(** [reset] before any [init], and in [fceux-zero-imports.c] after
    [setRunning(1)]. *)
Lemma X16_reset_witness :
  ZeroImports.reset (ZeroImports.reset ZeroImports.uninitialized) =
    ZeroImports.reset ZeroImports.uninitialized /\
  FceuxZeroImports.running
    (FceuxZeroImports.reset
       (FceuxZeroImports.setRunning 1 FceuxZeroImports.uninitialized)) = 0.
Proof.
  destruct (X16_reset ZeroImports.uninitialized NesStandalone.uninitialized
              (FceuxZeroImports.setRunning 1 FceuxZeroImports.uninitialized)
              FceuxSimple.uninitialized
              (zi_reachable_len_fb _ (ex_intro _ [] eq_refl))
              (ns_reachable_len_fb _ (ex_intro _ [] eq_refl))
              (fzi_reachable_len_fb _
                 (ex_intro _ [FceuxZeroImports.SetRunning 1] eq_refl))
              (fs_reachable_len_fb _ (ex_intro _ [] eq_refl))
              (fs_reachable_len_chr _ (ex_intro _ [] eq_refl)))
    as ((Hz & _) & _ & (_ & _ & _ & _ & _ & _ & Hf) & _).
  exact (conj Hz Hf).
Defined.

(** ** [setButton] as an algebra of updates *)

(** Bit [k] of [controls] after [controls |= mask] and after
    [controls &= ~mask], in [unsigned int] and in [uint8_t], for every
    [k]. *)
Lemma tb_press c b k :
  0 <= b <= 7 -> 0 <= k ->
  Z.testbit (Z.lor c (Z.shiftl 1 b)) k = (k =? b) || Z.testbit c k.
Proof.
  intros Hb Hk. rewrite Z.lor_spec, Z.shiftl_1_l, Z.pow2_bits_eqb by lia.
  rewrite (Z.eqb_sym b k). destruct (k =? b), (Z.testbit c k); reflexivity.
Qed.

Lemma tb_release c b k :
  0 <= b <= 7 -> 0 <= k ->
  Z.testbit (Z.land c (Z.lnot (Z.shiftl 1 b) mod 2 ^ 32)) k =
    (k <? 32) && negb (k =? b) && Z.testbit c k.
Proof.
  intros Hb Hk.
  rewrite Z.land_spec, Z.testbit_mod_pow2, Z.lnot_spec by lia.
  rewrite Z.shiftl_1_l, Z.pow2_bits_eqb by lia. rewrite (Z.eqb_sym b k).
  destruct (k <? 32), (k =? b), (Z.testbit c k); reflexivity.
Qed.

Lemma tb_press8 c b k :
  0 <= b <= 7 -> 0 <= k ->
  Z.testbit (Z.lor c (Z.shiftl 1 b mod 256) mod 256) k =
    (k <? 8) && ((k =? b) || Z.testbit c k).
Proof.
  intros Hb Hk. rewrite mask8 by lia. change 256 with (2 ^ 8).
  rewrite Z.testbit_mod_pow2, tb_press by lia. reflexivity.
Qed.

Lemma tb_release8 c b k :
  0 <= b <= 7 -> 0 <= k ->
  Z.testbit (Z.land c (Z.lnot (Z.shiftl 1 b mod 256)) mod 256) k =
    (k <? 8) && negb (k =? b) && Z.testbit c k.
Proof.
  intros Hb Hk. rewrite mask8 by lia. change 256 with (2 ^ 8).
  rewrite Z.testbit_mod_pow2, Z.land_spec, Z.lnot_spec by lia.
  rewrite Z.shiftl_1_l, Z.pow2_bits_eqb by lia. rewrite (Z.eqb_sym b k).
  destruct (k <? 8), (k =? b), (Z.testbit c k); reflexivity.
Qed.

Ltac bits_by_cases :=
  repeat match goal with
  | |- context [?a <? ?b] => destruct (Z.ltb_spec a b)
  | |- context [?a =? ?b] => destruct (Z.eqb_spec a b)
  | |- context [Z.testbit ?c ?k] => destruct (Z.testbit c k)
  end; cbn [andb orb negb]; try reflexivity; try lia.

(** Equality of two registers bit by bit; [w] is the width of the
    register [c] they are computed from. *)
Ltac same_bits w c Hc Hb Hb' :=
  apply Z.bits_inj'; intros k Hk;
  repeat first
    [ rewrite (tb_press _ _ k Hb Hk) | rewrite (tb_press _ _ k Hb' Hk)
    | rewrite (tb_release _ _ k Hb Hk) | rewrite (tb_release _ _ k Hb' Hk)
    | rewrite (tb_press8 _ _ k Hb Hk) | rewrite (tb_press8 _ _ k Hb' Hk)
    | rewrite (tb_release8 _ _ k Hb Hk) | rewrite (tb_release8 _ _ k Hb' Hk) ];
  destruct (Z.ltb_spec k w);
    [|rewrite (proj1 (fits_bits w c ltac:(lia)) Hc k) by lia];
  bits_by_cases.

(** Two updates of [controls] in a row: on the same button the second
    wins, on two buttons they commute. *)
Lemma upd32_algebra c b b' p p' :
  0 <= c < 2 ^ 32 -> 0 <= b <= 7 -> 0 <= b' <= 7 ->
  let upd := fun c b (p : Z) =>
    if p =? 0 then Z.land c (Z.lnot (Z.shiftl 1 b) mod 2 ^ 32)
    else Z.lor c (Z.shiftl 1 b) in
  upd (upd c b p') b p = upd c b p /\
  (b <> b' -> upd (upd c b' p') b p = upd (upd c b p) b' p').
Proof.
  intros Hc Hb Hb'. cbv zeta beta.
  destruct (p =? 0), (p' =? 0);
    (split; [|intros Hne]; same_bits 32 c Hc Hb Hb').
Qed.

Lemma upd8_algebra c b b' p p' :
  0 <= c < 2 ^ 8 -> 0 <= b <= 7 -> 0 <= b' <= 7 ->
  let upd := fun c b (p : Z) =>
    if p =? 0 then Z.land c (Z.lnot (Z.shiftl 1 b mod 256)) mod 256
    else Z.lor c (Z.shiftl 1 b mod 256) mod 256 in
  upd (upd c b p') b p = upd c b p /\
  (b <> b' -> upd (upd c b' p') b p = upd (upd c b p) b' p').
Proof.
  intros Hc Hb Hb'. cbv zeta beta.
  destruct (p =? 0), (p' =? 0);
    (split; [|intros Hne]; same_bits 8 c Hc Hb Hb').
Qed.

Lemma in_or_out b : 0 <= b <= 7 \/ (b < 0 \/ 7 < b).
Proof. lia. Qed.

Lemma fs_setButton_in b p s :
  0 <= b <= 7 ->
  FceuxSimple.setButton b p s =
    FceuxSimple.State (FceuxSimple.rom_data s) (FceuxSimple.rom_size s)
      (FceuxSimple.frame_buffer s) (FceuxSimple.chr_ram s)
      (FceuxSimple.prg_ram s) (FceuxSimple.palette s)
      (if p =? 0
       then Z.land (FceuxSimple.controls s) (Z.lnot (Z.shiftl 1 b mod 256))
              mod 256
       else Z.lor (FceuxSimple.controls s) (Z.shiftl 1 b mod 256) mod 256)
      (FceuxSimple.initialized s) (FceuxSimple.rom_loaded s)
      (FceuxSimple.running s) (FceuxSimple.frame_count s)
      (FceuxSimple.prg_banks s) (FceuxSimple.chr_banks s)
      (FceuxSimple.mapper s) (FceuxSimple.has_chr_ram s)
      (FceuxSimple.has_trainer s) (FceuxSimple.has_battery s).
Proof.
  intros Hb. unfold FceuxSimple.setButton. rewrite in_range by lia. reflexivity.
Qed.

Lemma zi_setButton_out b p s :
  b < 0 \/ 7 < b -> ZeroImports.setButton b p s = s.
Proof.
  intros Hb. unfold ZeroImports.setButton. rewrite out_of_range by lia. reflexivity.
Qed.

Lemma zi_setButton_algebra s b b' p p' :
  0 <= ZeroImports.controls s < 256 ->
  ZeroImports.setButton b p (ZeroImports.setButton b p' s) = ZeroImports.setButton b p s /\
  (b <> b' ->
   ZeroImports.setButton b p (ZeroImports.setButton b' p' s) =
     ZeroImports.setButton b' p' (ZeroImports.setButton b p s)).
Proof.
  intros Hc.
  assert (Hw : 0 <= ZeroImports.controls s < 2 ^ 32) by lia.
  destruct (in_or_out b) as [Hb|Hb].
  - destruct (in_or_out b') as [Hb'|Hb'].
    + pose proof (upd32_algebra (ZeroImports.controls s) b b' p p' Hw Hb Hb') as H.
      cbv zeta beta in H. destruct H as (A & B).
      rewrite !(zi_setButton_in b _ _ Hb), !(zi_setButton_in b' _ _ Hb').
      cbn [ZeroImports.frame_buffer ZeroImports.nes_palette
           ZeroImports.rom_buffer ZeroImports.initialized
           ZeroImports.rom_loaded ZeroImports.controls
           ZeroImports.frame_count ZeroImports.rom_size].
      split; [rewrite A | intros Hne; rewrite (B Hne)]; reflexivity.
    + pose proof (upd32_algebra (ZeroImports.controls s) b b p p' Hw Hb Hb) as H.
      cbv zeta beta in H. destruct H as (A & _).
      rewrite !(zi_setButton_out b' _ _ Hb').
      rewrite !(zi_setButton_in b _ _ Hb).
      cbn [ZeroImports.frame_buffer ZeroImports.nes_palette
           ZeroImports.rom_buffer ZeroImports.initialized
           ZeroImports.rom_loaded ZeroImports.controls
           ZeroImports.frame_count ZeroImports.rom_size].
      split; [rewrite A | intros Hne]; reflexivity.
  - rewrite !(zi_setButton_out b _ _ Hb). split; reflexivity.
Qed.

Lemma ns_setButton_out b p s :
  b < 0 \/ 7 < b -> NesStandalone.setButton b p s = s.
Proof.
  intros Hb. unfold NesStandalone.setButton. rewrite out_of_range by lia. reflexivity.
Qed.

Lemma ns_setButton_algebra s b b' p p' :
  0 <= NesStandalone.controls s < 256 ->
  NesStandalone.setButton b p (NesStandalone.setButton b p' s) = NesStandalone.setButton b p s /\
  (b <> b' ->
   NesStandalone.setButton b p (NesStandalone.setButton b' p' s) =
     NesStandalone.setButton b' p' (NesStandalone.setButton b p s)).
Proof.
  intros Hc.
  assert (Hw : 0 <= NesStandalone.controls s < 2 ^ 32) by lia.
  destruct (in_or_out b) as [Hb|Hb].
  - destruct (in_or_out b') as [Hb'|Hb'].
    + pose proof (upd32_algebra (NesStandalone.controls s) b b' p p' Hw Hb Hb') as H.
      cbv zeta beta in H. destruct H as (A & B).
      rewrite !(ns_setButton_in b _ _ Hb), !(ns_setButton_in b' _ _ Hb').
      cbn [NesStandalone.frame_buffer NesStandalone.nes_palette
           NesStandalone.rom_buffer NesStandalone.initialized
           NesStandalone.rom_loaded NesStandalone.controls
           NesStandalone.frame_count NesStandalone.rom_size
           NesStandalone.mapper].
      split; [rewrite A | intros Hne; rewrite (B Hne)]; reflexivity.
    + pose proof (upd32_algebra (NesStandalone.controls s) b b p p' Hw Hb Hb) as H.
      cbv zeta beta in H. destruct H as (A & _).
      rewrite !(ns_setButton_out b' _ _ Hb').
      rewrite !(ns_setButton_in b _ _ Hb).
      cbn [NesStandalone.frame_buffer NesStandalone.nes_palette
           NesStandalone.rom_buffer NesStandalone.initialized
           NesStandalone.rom_loaded NesStandalone.controls
           NesStandalone.frame_count NesStandalone.rom_size
           NesStandalone.mapper].
      split; [rewrite A | intros Hne]; reflexivity.
  - rewrite !(ns_setButton_out b _ _ Hb). split; reflexivity.
Qed.

Lemma fzi_setButton_out b p s :
  b < 0 \/ 7 < b -> FceuxZeroImports.setButton b p s = s.
Proof.
  intros Hb. unfold FceuxZeroImports.setButton. rewrite out_of_range by lia. reflexivity.
Qed.

Lemma fzi_setButton_algebra s b b' p p' :
  0 <= FceuxZeroImports.controls s < 256 ->
  FceuxZeroImports.setButton b p (FceuxZeroImports.setButton b p' s) = FceuxZeroImports.setButton b p s /\
  (b <> b' ->
   FceuxZeroImports.setButton b p (FceuxZeroImports.setButton b' p' s) =
     FceuxZeroImports.setButton b' p' (FceuxZeroImports.setButton b p s)).
Proof.
  intros Hc.
  assert (Hw : 0 <= FceuxZeroImports.controls s < 2 ^ 32) by lia.
  destruct (in_or_out b) as [Hb|Hb].
  - destruct (in_or_out b') as [Hb'|Hb'].
    + pose proof (upd32_algebra (FceuxZeroImports.controls s) b b' p p' Hw Hb Hb') as H.
      cbv zeta beta in H. destruct H as (A & B).
      rewrite !(fzi_setButton_in b _ _ Hb), !(fzi_setButton_in b' _ _ Hb').
      cbn [FceuxZeroImports.frame_buffer FceuxZeroImports.nes_palette
           FceuxZeroImports.rom_buffer FceuxZeroImports.initialized
           FceuxZeroImports.rom_loaded FceuxZeroImports.running
           FceuxZeroImports.controls FceuxZeroImports.frame_count
           FceuxZeroImports.rom_size FceuxZeroImports.prg_banks
           FceuxZeroImports.chr_banks FceuxZeroImports.mapper
           FceuxZeroImports.has_chr_ram].
      split; [rewrite A | intros Hne; rewrite (B Hne)]; reflexivity.
    + pose proof (upd32_algebra (FceuxZeroImports.controls s) b b p p' Hw Hb Hb) as H.
      cbv zeta beta in H. destruct H as (A & _).
      rewrite !(fzi_setButton_out b' _ _ Hb').
      rewrite !(fzi_setButton_in b _ _ Hb).
      cbn [FceuxZeroImports.frame_buffer FceuxZeroImports.nes_palette
           FceuxZeroImports.rom_buffer FceuxZeroImports.initialized
           FceuxZeroImports.rom_loaded FceuxZeroImports.running
           FceuxZeroImports.controls FceuxZeroImports.frame_count
           FceuxZeroImports.rom_size FceuxZeroImports.prg_banks
           FceuxZeroImports.chr_banks FceuxZeroImports.mapper
           FceuxZeroImports.has_chr_ram].
      split; [rewrite A | intros Hne]; reflexivity.
  - rewrite !(fzi_setButton_out b _ _ Hb). split; reflexivity.
Qed.

Lemma fs_setButton_out b p s :
  b < 0 \/ 7 < b -> FceuxSimple.setButton b p s = s.
Proof.
  intros Hb. unfold FceuxSimple.setButton. rewrite out_of_range by lia. reflexivity.
Qed.

Lemma fs_setButton_algebra s b b' p p' :
  0 <= FceuxSimple.controls s < 256 ->
  FceuxSimple.setButton b p (FceuxSimple.setButton b p' s) = FceuxSimple.setButton b p s /\
  (b <> b' ->
   FceuxSimple.setButton b p (FceuxSimple.setButton b' p' s) =
     FceuxSimple.setButton b' p' (FceuxSimple.setButton b p s)).
Proof.
  intros Hc.
  assert (Hw : 0 <= FceuxSimple.controls s < 2 ^ 8) by lia.
  destruct (in_or_out b) as [Hb|Hb].
  - destruct (in_or_out b') as [Hb'|Hb'].
    + pose proof (upd8_algebra (FceuxSimple.controls s) b b' p p' Hw Hb Hb') as H.
      cbv zeta beta in H. destruct H as (A & B).
      rewrite !(fs_setButton_in b _ _ Hb), !(fs_setButton_in b' _ _ Hb').
      cbn [FceuxSimple.rom_data FceuxSimple.rom_size
           FceuxSimple.frame_buffer FceuxSimple.chr_ram FceuxSimple.prg_ram
           FceuxSimple.palette FceuxSimple.controls FceuxSimple.initialized
           FceuxSimple.rom_loaded FceuxSimple.running
           FceuxSimple.frame_count FceuxSimple.prg_banks
           FceuxSimple.chr_banks FceuxSimple.mapper FceuxSimple.has_chr_ram
           FceuxSimple.has_trainer FceuxSimple.has_battery].
      split; [rewrite A | intros Hne; rewrite (B Hne)]; reflexivity.
    + pose proof (upd8_algebra (FceuxSimple.controls s) b b p p' Hw Hb Hb) as H.
      cbv zeta beta in H. destruct H as (A & _).
      rewrite !(fs_setButton_out b' _ _ Hb').
      rewrite !(fs_setButton_in b _ _ Hb).
      cbn [FceuxSimple.rom_data FceuxSimple.rom_size
           FceuxSimple.frame_buffer FceuxSimple.chr_ram FceuxSimple.prg_ram
           FceuxSimple.palette FceuxSimple.controls FceuxSimple.initialized
           FceuxSimple.rom_loaded FceuxSimple.running
           FceuxSimple.frame_count FceuxSimple.prg_banks
           FceuxSimple.chr_banks FceuxSimple.mapper FceuxSimple.has_chr_ram
           FceuxSimple.has_trainer FceuxSimple.has_battery].
      split; [rewrite A | intros Hne]; reflexivity.
  - rewrite !(fs_setButton_out b _ _ Hb). split; reflexivity.
Qed.

(** X17.  Button updates compose as one expects, in each file and from
    every reachable state: two [setButton] calls on the same button
    leave what the second alone would leave (in particular press then
    release is release), and calls on two different buttons commute.
    This holds for every pair of button numbers, those outside [0, 7]
    included, and for every pair of [pressed] values. *)
Theorem X17_setButton_algebra (b b' p p' : Z)
    (z : ZeroImports.state) (n : NesStandalone.state)
    (f : FceuxZeroImports.state) (e : FceuxSimple.state) :
  ZeroImports.reachable z -> NesStandalone.reachable n ->
  FceuxZeroImports.reachable f -> FceuxSimple.reachable e ->
  (ZeroImports.setButton b p (ZeroImports.setButton b p' z) =
     ZeroImports.setButton b p z /\
   (b <> b' ->
    ZeroImports.setButton b p (ZeroImports.setButton b' p' z) =
      ZeroImports.setButton b' p' (ZeroImports.setButton b p z))) /\
  (NesStandalone.setButton b p (NesStandalone.setButton b p' n) =
     NesStandalone.setButton b p n /\
   (b <> b' ->
    NesStandalone.setButton b p (NesStandalone.setButton b' p' n) =
      NesStandalone.setButton b' p' (NesStandalone.setButton b p n))) /\
  (FceuxZeroImports.setButton b p (FceuxZeroImports.setButton b p' f) =
     FceuxZeroImports.setButton b p f /\
   (b <> b' ->
    FceuxZeroImports.setButton b p (FceuxZeroImports.setButton b' p' f) =
      FceuxZeroImports.setButton b' p' (FceuxZeroImports.setButton b p f))) /\
  (FceuxSimple.setButton b p (FceuxSimple.setButton b p' e) =
     FceuxSimple.setButton b p e /\
   (b <> b' ->
    FceuxSimple.setButton b p (FceuxSimple.setButton b' p' e) =
      FceuxSimple.setButton b' p' (FceuxSimple.setButton b p e))).
Proof.
  intros Hz Hn Hf He.
  destruct (zi_reachable_steady z Hz) as (_ & (Cz & _) & _).
  destruct (ns_reachable_steady n Hn) as (_ & (Cn & _) & _).
  destruct (fzi_reachable_steady f Hf) as (_ & (Cf & _) & _).
  destruct (fs_reachable_steady e He) as (_ & _ & (Ce & _) & _).
  split; [exact (zi_setButton_algebra z b b' p p' Cz)|].
  split; [exact (ns_setButton_algebra n b b' p p' Cn)|].
  split; [exact (fzi_setButton_algebra f b b' p p' Cf)|].
  exact (fs_setButton_algebra e b b' p p' Ce).
Qed.

(** Before [init]: Right pressed then released is Right released, and
    pressing A and Right in either order gives the same state. *)
Lemma X17_setButton_algebra_witness :
  ZeroImports.setButton 0 0
    (ZeroImports.setButton 0 1 ZeroImports.uninitialized) =
    ZeroImports.setButton 0 0 ZeroImports.uninitialized /\
  FceuxSimple.setButton 0 1
    (FceuxSimple.setButton 7 1 FceuxSimple.uninitialized) =
    FceuxSimple.setButton 7 1
      (FceuxSimple.setButton 0 1 FceuxSimple.uninitialized).
Proof.
  destruct (X17_setButton_algebra 0 7 0 1 ZeroImports.uninitialized
              NesStandalone.uninitialized FceuxZeroImports.uninitialized
              FceuxSimple.uninitialized
              (ex_intro _ [] eq_refl) (ex_intro _ [] eq_refl)
              (ex_intro _ [] eq_refl) (ex_intro _ [] eq_refl))
    as ((Hz & _) & _).
  destruct (X17_setButton_algebra 0 7 1 1 ZeroImports.uninitialized
              NesStandalone.uninitialized FceuxZeroImports.uninitialized
              FceuxSimple.uninitialized
              (ex_intro _ [] eq_refl) (ex_intro _ [] eq_refl)
              (ex_intro _ [] eq_refl) (ex_intro _ [] eq_refl))
    as (_ & _ & _ & (_ & He)).
  split; [exact Hz | apply He; lia].
Defined.

(** ** [init] on a module that is not initialised *)

Lemma fill_eq (a b : list Z) v n :
  len a = n -> len b = n -> fill a v n = fill b v n.
Proof.
  intros Ha Hb. apply load_ext; [now rewrite !len_fill, Ha, Hb|].
  rewrite len_fill. intros j Hj.
  rewrite !load_fill by lia.
  destruct (Z.ltb_spec j n); [reflexivity | lia].
Qed.

Lemma zi_init_congr s s' :
  ZeroImports.initialized s = 0 -> ZeroImports.initialized s' = 0 ->
  ZeroImports.wf s -> ZeroImports.wf s' ->
  ZeroImports.init s = ZeroImports.init s'.
Proof.
  intros H H' (Lf & Lp & Lr & _) (Lf' & Lp' & Lr' & _).
  unfold ZeroImports.init. rewrite H, H'. cbn [Z.eqb negb].
  unfold ZeroImports.zero_mem.
  rewrite (fill_eq _ _ 0 245760 Lf Lf'), (fill_eq _ _ 0 256 Lp Lp'),
    (fill_eq _ _ 0 2097152 Lr Lr').
  reflexivity.
Qed.

Lemma ns_init_congr s s' :
  NesStandalone.initialized s = 0 -> NesStandalone.initialized s' = 0 ->
  NesStandalone.wf s -> NesStandalone.wf s' ->
  NesStandalone.init s = NesStandalone.init s'.
Proof.
  intros H H' (Lf & Lp & Lr & _) (Lf' & Lp' & Lr' & _).
  unfold NesStandalone.init. rewrite H, H'. cbn [Z.eqb negb].
  unfold NesStandalone.zero_memory.
  rewrite (fill_eq _ _ 0 245760 Lf Lf'), (fill_eq _ _ 0 256 Lp Lp'),
    (fill_eq _ _ 0 2097152 Lr Lr').
  reflexivity.
Qed.

Lemma fzi_init_congr s s' :
  FceuxZeroImports.initialized s = 0 -> FceuxZeroImports.initialized s' = 0 ->
  FceuxZeroImports.wf s -> FceuxZeroImports.wf s' ->
  FceuxZeroImports.prg_banks s = FceuxZeroImports.prg_banks s' ->
  FceuxZeroImports.chr_banks s = FceuxZeroImports.chr_banks s' ->
  FceuxZeroImports.mapper s = FceuxZeroImports.mapper s' ->
  FceuxZeroImports.has_chr_ram s = FceuxZeroImports.has_chr_ram s' ->
  FceuxZeroImports.init s = FceuxZeroImports.init s'.
Proof.
  intros H H' (Lf & Lp & Lr & _) (Lf' & Lp' & Lr' & _) E1 E2 E3 E4.
  unfold FceuxZeroImports.init. rewrite H, H'. cbn [Z.eqb negb].
  unfold FceuxZeroImports.my_memset, FceuxZeroImports.MAX_ROM_SIZE in *.
  rewrite (fill_eq _ _ 0 245760 Lf Lf'), (fill_eq _ _ 0 256 Lp Lp'),
    (fill_eq _ _ 0 2097152 Lr Lr'), E1, E2, E3, E4.
  reflexivity.
Qed.

Lemma fs_palette_eq pal pal' :
  len pal = 64 -> len pal' = 64 ->
  for_ 0 64 1 (fun i pal =>
    let r := Z.land (i * 4) 0xFF in
    let g := Z.land (i * 8) 0xFF in
    let b := Z.land (i * 16) 0xFF in
    FceuxSimple.store32 pal i
      (Z.lor (Z.lor (Z.lor (Z.shiftl 0xFF 24) (Z.shiftl b 16)) (Z.shiftl g 8)) r))
    pal =
  for_ 0 64 1 (fun i pal =>
    let r := Z.land (i * 4) 0xFF in
    let g := Z.land (i * 8) 0xFF in
    let b := Z.land (i * 16) 0xFF in
    FceuxSimple.store32 pal i
      (Z.lor (Z.lor (Z.lor (Z.shiftl 0xFF 24) (Z.shiftl b 16)) (Z.shiftl g 8)) r))
    pal'.
Proof.
  intros L L'.
  destruct (fs_palette_loop pal L) as (L1 & P1).
  destruct (fs_palette_loop pal' L') as (L1' & P1').
  apply load_ext; [lia|]. intros j Hj.
  rewrite P1, P1' by lia. reflexivity.
Qed.

Lemma fs_init_congr s s' :
  FceuxSimple.initialized s = 0 -> FceuxSimple.initialized s' = 0 ->
  len (FceuxSimple.rom_data s) = 2097152 ->
  len (FceuxSimple.rom_data s') = 2097152 ->
  len (FceuxSimple.frame_buffer s) = 245760 ->
  len (FceuxSimple.frame_buffer s') = 245760 ->
  len (FceuxSimple.chr_ram s) = 8192 -> len (FceuxSimple.chr_ram s') = 8192 ->
  len (FceuxSimple.prg_ram s) = 8192 -> len (FceuxSimple.prg_ram s') = 8192 ->
  len (FceuxSimple.palette s) = 64 -> len (FceuxSimple.palette s') = 64 ->
  FceuxSimple.rom_size s = FceuxSimple.rom_size s' ->
  FceuxSimple.prg_banks s = FceuxSimple.prg_banks s' ->
  FceuxSimple.chr_banks s = FceuxSimple.chr_banks s' ->
  FceuxSimple.mapper s = FceuxSimple.mapper s' ->
  FceuxSimple.has_chr_ram s = FceuxSimple.has_chr_ram s' ->
  FceuxSimple.has_trainer s = FceuxSimple.has_trainer s' ->
  FceuxSimple.has_battery s = FceuxSimple.has_battery s' ->
  FceuxSimple.init s = FceuxSimple.init s'.
Proof.
  intros H H' Lr Lr' Lf Lf' Lc Lc' Lp Lp' La La' E0 E1 E2 E3 E4 E5 E6.
  unfold FceuxSimple.init. rewrite H, H'. cbn [Z.eqb negb].
  unfold FceuxSimple.memset. cbv zeta.
  rewrite (fill_eq _ _ 0 2097152 Lr Lr'), (fill_eq _ _ 0 245760 Lf Lf'),
    (fill_eq (FceuxSimple.chr_ram s) _ 0 8192 Lc Lc'),
    (fill_eq (FceuxSimple.prg_ram s) _ 0 8192 Lp Lp').
  pose proof (fs_palette_eq _ _ La La') as Hpal. cbv zeta in Hpal.
  rewrite Hpal, E0, E1, E2, E3, E4, E5, E6.
  reflexivity.
Qed.

(** Until the first [init] the metadata statics keep their zeros. *)
Lemma fzi_before_init_step s c :
  Steady.fzi_before_init s ->
  Steady.fzi_before_init (FceuxZeroImports.step s c).
Proof.
  unfold Steady.fzi_before_init. intros P.
  destruct c; cbn [FceuxZeroImports.step];
    [ | | | | | | exact P | exact P | exact P ].
  - intros H. contradiction (fzi_init_initialized s H).
  - destruct (Z.eq_dec (FceuxZeroImports.initialized s) 0) as [Hi|Hi].
    + rewrite (fzi_loadRom_uninit rom_data size s Hi). cbn [snd]. exact P.
    + intros H.
      destruct (fzi_loadRom_frame rom_data size s) as (_ & _ & _ & _ & E & _).
      rewrite E in H. contradiction.
  - destruct (Z.eq_dec (FceuxZeroImports.initialized s) 0) as [Hi|Hi].
    + rewrite (fzi_frame_skip s (or_introl Hi)). exact P.
    + intros H. contradiction Hi. revert H.
      unfold FceuxZeroImports.frame, FceuxZeroImports.generate_nes_frame.
      destruct (_ || _); cbn [FceuxZeroImports.initialized]; auto.
  - unfold FceuxZeroImports.reset.
    cbn [FceuxZeroImports.initialized FceuxZeroImports.prg_banks
         FceuxZeroImports.chr_banks FceuxZeroImports.mapper
         FceuxZeroImports.has_chr_ram]. exact P.
  - unfold FceuxZeroImports.setButton. destruct (_ || _); [exact P|].
    cbn [FceuxZeroImports.initialized FceuxZeroImports.prg_banks
         FceuxZeroImports.chr_banks FceuxZeroImports.mapper
         FceuxZeroImports.has_chr_ram]. exact P.
  - unfold FceuxZeroImports.setRunning.
    cbn [FceuxZeroImports.initialized FceuxZeroImports.prg_banks
         FceuxZeroImports.chr_banks FceuxZeroImports.mapper
         FceuxZeroImports.has_chr_ram]. exact P.
Qed.

Lemma fzi_before_init_run calls : forall s,
  Steady.fzi_before_init s ->
  Steady.fzi_before_init (FceuxZeroImports.run calls s).
Proof.
  induction calls as [|c calls IH]; intros s H; [exact H|].
  apply IH, fzi_before_init_step, H.
Qed.

Lemma fzi_reachable_before_init s :
  FceuxZeroImports.reachable s -> Steady.fzi_before_init s.
Proof.
  intros (calls & ->). apply fzi_before_init_run.
  intros _. repeat split.
Qed.

Lemma fs_before_init_step s c :
  Steady.fs_before_init s -> Steady.fs_before_init (FceuxSimple.step s c).
Proof.
  unfold Steady.fs_before_init. intros (L & P).
  destruct c; cbn [FceuxSimple.step];
    [ | | | | | | split; [exact L | exact P] | split; [exact L | exact P]
      | split; [exact L | exact P] ].
  - split.
    + unfold FceuxSimple.init.
      destruct (negb _); cbn [snd FceuxSimple.prg_ram]; [exact L|].
      unfold FceuxSimple.memset. rewrite len_fill. exact L.
    + intros H. contradiction (fs_init_initialized s H).
  - destruct (Z.eq_dec (FceuxSimple.initialized s) 0) as [Hi|Hi].
    + rewrite (fs_loadRom_uninit rom size s Hi). cbn [snd].
      split; [exact L | exact P].
    + split.
      * unfold FceuxSimple.loadRom. cbv zeta.
        repeat match goal with
        | |- context [snd (if ?c then _ else _)] => destruct c
        end; cbn [snd FceuxSimple.prg_ram]; exact L.
      * intros H.
        destruct (fs_loadRom_frame rom size s) as (_ & _ & _ & _ & E).
        rewrite E in H. contradiction.
  - destruct (Z.eq_dec (FceuxSimple.initialized s) 0) as [Hi|Hi].
    + rewrite (fs_frame_skip s (or_introl Hi)). split; [exact L | exact P].
    + unfold FceuxSimple.frame, FceuxSimple.render.
      destruct (_ || _); [split; [exact L | exact P]|].
      cbv zeta. cbn [FceuxSimple.prg_ram FceuxSimple.initialized].
      split; [exact L | intros H; contradiction].
  - unfold FceuxSimple.reset. cbv zeta.
    cbn [FceuxSimple.prg_ram FceuxSimple.initialized FceuxSimple.rom_size
         FceuxSimple.prg_banks FceuxSimple.chr_banks FceuxSimple.mapper
         FceuxSimple.has_chr_ram FceuxSimple.has_trainer
         FceuxSimple.has_battery].
    split; [exact L | exact P].
  - unfold FceuxSimple.setButton.
    destruct (_ || _); [split; [exact L | exact P]|]. cbv zeta.
    cbn [FceuxSimple.prg_ram FceuxSimple.initialized FceuxSimple.rom_size
         FceuxSimple.prg_banks FceuxSimple.chr_banks FceuxSimple.mapper
         FceuxSimple.has_chr_ram FceuxSimple.has_trainer
         FceuxSimple.has_battery].
    split; [exact L | exact P].
  - unfold FceuxSimple.setRunning.
    cbn [FceuxSimple.prg_ram FceuxSimple.initialized FceuxSimple.rom_size
         FceuxSimple.prg_banks FceuxSimple.chr_banks FceuxSimple.mapper
         FceuxSimple.has_chr_ram FceuxSimple.has_trainer
         FceuxSimple.has_battery].
    split; [exact L | exact P].
Qed.

Lemma fs_before_init_run calls : forall s,
  Steady.fs_before_init s -> Steady.fs_before_init (FceuxSimple.run calls s).
Proof.
  induction calls as [|c calls IH]; intros s H; [exact H|].
  apply IH, fs_before_init_step, H.
Qed.

Lemma fs_reachable_before_init s :
  FceuxSimple.reachable s -> Steady.fs_before_init s.
Proof.
  intros (calls & ->). apply fs_before_init_run. split.
  - unfold FceuxSimple.uninitialized. cbn [FceuxSimple.prg_ram].
    apply len_zeros. lia.
  - intros _. repeat split.
Qed.

(** X18.  Nothing done before [init] survives it.  From every reachable
    state in which the module is not yet initialised (whatever [reset],
    [setButton], [setRunning], [frame] and rejected [loadRom] calls came
    first), [init] returns 1 and leaves exactly the state it leaves when
    it is the first call after loading: cleared frame buffer, palette
    table, zeroed ROM buffer (and CHR and PRG RAM in [fceux-simple.c]),
    registers and flags reset, metadata still zero. *)
Theorem X18_init_wipes (z : ZeroImports.state) (n : NesStandalone.state)
    (f : FceuxZeroImports.state) (e : FceuxSimple.state) :
  ZeroImports.reachable z -> NesStandalone.reachable n ->
  FceuxZeroImports.reachable f -> FceuxSimple.reachable e ->
  (ZeroImports.initialized z = 0 ->
   ZeroImports.init z = ZeroImports.init ZeroImports.uninitialized) /\
  (NesStandalone.initialized n = 0 ->
   NesStandalone.init n = NesStandalone.init NesStandalone.uninitialized) /\
  (FceuxZeroImports.initialized f = 0 ->
   FceuxZeroImports.init f =
     FceuxZeroImports.init FceuxZeroImports.uninitialized) /\
  (FceuxSimple.initialized e = 0 ->
   FceuxSimple.init e = FceuxSimple.init FceuxSimple.uninitialized).
Proof.
  intros Hz Hn Hf He. split; [|split; [|split]]; intros Hi.
  - apply (zi_init_congr z ZeroImports.uninitialized Hi eq_refl).
    + exact (proj1 (zi_reachable_inv z Hz)).
    + exact zi_wf_uninitialized.
  - apply (ns_init_congr n NesStandalone.uninitialized Hi eq_refl).
    + exact (proj1 (ns_reachable_inv n Hn)).
    + exact ns_wf_uninitialized.
  - destruct (fzi_reachable_before_init f Hf Hi) as (E1 & E2 & E3 & E4).
    apply (fzi_init_congr f FceuxZeroImports.uninitialized Hi eq_refl).
    + exact (proj1 (fzi_reachable_inv f Hf)).
    + exact fzi_wf_uninitialized.
    + exact E1.
    + exact E2.
    + exact E3.
    + exact E4.
  - destruct (fs_reachable_before_init e He) as (Lp & P).
    destruct (P Hi) as (E0 & E1 & E2 & E3 & E4 & E5 & E6).
    destruct (fs_reachable_steady e He) as (_ & (Lr & Lc & La) & _).
    assert (R0 : FceuxSimple.reachable FceuxSimple.uninitialized)
      by (exists []; reflexivity).
    destruct (fs_reachable_steady _ R0) as (_ & (Lr' & Lc' & La') & _).
    apply (fs_init_congr e FceuxSimple.uninitialized Hi eq_refl Lr Lr'
             (fs_reachable_len_fb e He) (fs_reachable_len_fb _ R0)
             Lc Lc' Lp (proj1 (fs_reachable_before_init _ R0)) La La');
      assumption.
Qed.

Lemma zi_reachable_dirty :
  ZeroImports.reachable
    (ZeroImports.reset (ZeroImports.setButton 0 1 ZeroImports.uninitialized)).
Proof.
  exists [ZeroImports.SetButton 0 1; ZeroImports.Reset]. reflexivity.
Qed.

Lemma zi_dirty_uninitialized :
  ZeroImports.initialized
    (ZeroImports.reset (ZeroImports.setButton 0 1 ZeroImports.uninitialized)) = 0.
Proof.
  unfold ZeroImports.reset. cbn [ZeroImports.initialized].
  rewrite (zi_setButton_in 0 1 _ ltac:(lia)). reflexivity.
Qed.

(** [zero-imports.c]: [setButton(0, 1)] and [reset] before [init] leave
    no trace. *)
Lemma X18_init_wipes_witness :
  ZeroImports.init
    (ZeroImports.reset (ZeroImports.setButton 0 1 ZeroImports.uninitialized)) =
  ZeroImports.init ZeroImports.uninitialized.
Proof.
  exact (proj1 (X18_init_wipes _ NesStandalone.uninitialized
                  FceuxZeroImports.uninitialized FceuxSimple.uninitialized
                  zi_reachable_dirty (ex_intro _ [] eq_refl)
                  (ex_intro _ [] eq_refl) (ex_intro _ [] eq_refl))
           zi_dirty_uninitialized).
Defined.

(** ** CHR RAM in [fceux-simple.c], from [loadRom] to the picture *)

(** The state an accepted [loadRom] leaves. *)
Lemma fs_loaded_state rom size s :
  bytes rom -> INes.size_ok size -> INes.magic_ok rom ->
  FceuxSimple.initialized s <> 0 -> len (FceuxSimple.chr_ram s) = 8192 ->
  load rom 4 <> 0 ->
  16 + (if Z.testbit (load rom 6) 2 then 512 else 0)
  + load rom 4 * 16384 + load rom 5 * 8192 <= size ->
  exists rom' chr,
    FceuxSimple.loadRom rom size s =
      (1, FceuxSimple.State rom' size (FceuxSimple.frame_buffer s) chr
            (FceuxSimple.prg_ram s) (FceuxSimple.palette s)
            (FceuxSimple.controls s) (FceuxSimple.initialized s) 1
            (FceuxSimple.running s) (FceuxSimple.frame_count s)
            (load rom 4) (load rom 5) (INes.mapper_of rom mod 256)
            (INes.chr_ram_of rom)
            (if Z.land (load rom 6) 4 =? 0 then 0 else 1)
            (if Z.land (load rom 6) 2 =? 0 then 0 else 1)) /\
    len chr = 8192 /\
    (load rom 5 = 0 -> forall i, 0 <= i < 8192 -> load chr i = i mod 256) /\
    (load rom 5 <> 0 -> chr = FceuxSimple.chr_ram s).
Proof.
  intros Hb Hsize Hmagic Hi Hchr H4 Hfit.
  assert (Hs : size mod 2 ^ 32 = size)
    by (unfold INes.size_ok in Hsize; apply Z.mod_small; lia).
  assert (Hsize' : INes.size_ok (size mod 2 ^ 32)) by (rewrite Hs; exact Hsize).
  rewrite (fs_loadRom_parsed rom size s Hi Hsize' Hmagic).
  rewrite Hs, (expected_size_closed rom Hb).
  destruct (Z.eqb_spec (load rom 4) 0) as [E|_]; [contradiction|].
  destruct (Z.ltb_spec size
              (16 + (if Z.testbit (load rom 6) 2 then 512 else 0)
               + load rom 4 * 16384 + load rom 5 * 8192)) as [Hlt|_]; [lia|].
  cbn [orb]. do 2 eexists. split; [reflexivity|].
  destruct (Z.eqb_spec (load rom 5) 0) as [E5|E5].
  - destruct (fs_chr_seed _ Hchr) as (L & P).
    split; [exact L|]. split; [intros _; exact P | intros H; contradiction].
  - split; [exact Hchr|]. split; [intros H; contradiction | reflexivity].
Qed.

(** X19.  CHR RAM from [loadRom] to the picture, in [fceux-simple.c].
    After an accepted [loadRom] of a mapper-2 image without CHR banks
    and [setRunning] with a nonzero argument, the green byte of pixel
    [(x, y)] of the next frame is [x + 16 y + fc] modulo 256 (plus 64
    with Left held), [fc] being the advanced frame count: the seed
    [chr_ram[i] = i mod 256] shows through.  After a [reset] the next
    frame has green 1 in every pixel: [reset] has zeroed CHR RAM, the
    buttons and the counter, and nothing seeds CHR RAM again. *)
Theorem X19_unrom_chr_ram (rom : list Z) (size r x y : Z)
    (e : FceuxSimple.state) :
  bytes rom -> INes.size_ok size -> INes.magic_ok rom ->
  FceuxSimple.initialized e <> 0 ->
  len (FceuxSimple.frame_buffer e) = 245760 ->
  len (FceuxSimple.chr_ram e) = 8192 ->
  load rom 4 <> 0 -> load rom 5 = 0 ->
  16 * (load rom 7 / 16) + load rom 6 / 16 = 2 ->
  16 + (if Z.testbit (load rom 6) 2 then 512 else 0)
  + load rom 4 * 16384 <= size ->
  r <> 0 -> 0 <= x < 256 -> 0 <= y < 240 ->
  let e1 := FceuxSimple.setRunning r (snd (FceuxSimple.loadRom rom size e)) in
  load (FceuxSimple.frame_buffer (FceuxSimple.frame e1))
    ((y * 256 + x) * 4 + 1) =
    (x + 16 * y + (FceuxSimple.frame_count e + 1)
     + (if Z.testbit (FceuxSimple.controls e) 1 then 64 else 0)) mod 256 /\
  load (FceuxSimple.frame_buffer (FceuxSimple.frame (FceuxSimple.reset e1)))
    ((y * 256 + x) * 4 + 1) = 1.
Proof.
  intros Hb Hsize Hmagic Hi Hfb Hchr H4 H5 Hm Hfit Hr Hx Hy. cbv zeta.
  destruct (fs_loaded_state rom size e Hb Hsize Hmagic Hi Hchr H4)
    as (rom' & chr & E & Lc & Seed & _); [rewrite H5; lia|].
  rewrite E. cbn [snd]. unfold FceuxSimple.setRunning.
  cbn [FceuxSimple.rom_data FceuxSimple.rom_size FceuxSimple.frame_buffer
       FceuxSimple.chr_ram FceuxSimple.prg_ram FceuxSimple.palette
       FceuxSimple.controls FceuxSimple.initialized FceuxSimple.rom_loaded
       FceuxSimple.running FceuxSimple.frame_count FceuxSimple.prg_banks
       FceuxSimple.chr_banks FceuxSimple.mapper FceuxSimple.has_chr_ram
       FceuxSimple.has_trainer FceuxSimple.has_battery].
  rewrite (mapper_nibbles rom Hb), Hm. unfold INes.chr_ram_of.
  rewrite H5. cbn [Z.eqb].
  match goal with
  | |- context [FceuxSimple.frame ?s] => set (e1 := s)
  end.
  assert (I1 : FceuxSimple.initialized e1 <> 0) by exact Hi.
  assert (R1 : FceuxSimple.rom_loaded e1 <> 0)
    by (cbn [e1 FceuxSimple.rom_loaded]; lia).
  assert (G1 : FceuxSimple.running e1 <> 0) by exact Hr.
  assert (F1 : len (FceuxSimple.frame_buffer e1) = 245760) by exact Hfb.
  assert (C1 : len (FceuxSimple.chr_ram e1) = 8192) by exact Lc.
  split.
  - destruct (fs_frame_pixels e1 I1 R1 G1 F1) as (fb1 & Q1 & _ & P1).
    rewrite Q1. cbn [FceuxSimple.frame_buffer].
    rewrite (P1 x y 1 Hx Hy ltac:(lia)).
    cbn [e1 FceuxSimple.mapper FceuxSimple.has_chr_ram FceuxSimple.chr_ram
         FceuxSimple.controls FceuxSimple.frame_count Z.eqb Pos.eqb rgba].
    rewrite (Seed H5 _ (Z.mod_pos_bound (x + y * 16) 8192 ltac:(lia))).
    Z.div_mod_to_equations. lia.
  - destruct (fs_reset_arrays e1 F1 C1) as (fb' & chr' & E' & L' & _ & _ & Zc & _).
    rewrite E'.
    match goal with
    | |- context [FceuxSimple.frame ?s] => set (e2 := s)
    end.
    assert (I2 : FceuxSimple.initialized e2 <> 0) by exact Hi.
    assert (G2 : FceuxSimple.running e2 <> 0) by exact Hr.
    destruct (fs_frame_pixels e2 I2 R1 G2 L') as (fb2 & Q2 & _ & P2).
    rewrite Q2. cbn [FceuxSimple.frame_buffer].
    rewrite (P2 x y 1 Hx Hy ltac:(lia)).
    cbn [e2 e1 FceuxSimple.mapper FceuxSimple.has_chr_ram FceuxSimple.chr_ram
         FceuxSimple.controls FceuxSimple.frame_count Z.eqb Pos.eqb rgba].
    rewrite (Zc ltac:(cbn [e1 FceuxSimple.has_chr_ram]; lia) _
               (Z.mod_pos_bound (x + y * 16) 8192 ltac:(lia))).
    reflexivity.
Qed.

Lemma unrom_image_header i :
  0 <= i < 16 -> load Roms.unrom_image i = nth (Z.to_nat i) Roms.unrom_header 0.
Proof.
  intros Hi. rewrite load_unrom_image by lia.
  unfold load, Roms.unrom_header.
  assert (H : i = 0 \/ i = 1 \/ i = 2 \/ i = 3 \/ i = 4 \/ i = 5 \/ i = 6 \/
              i = 7 \/ i = 8 \/ i = 9 \/ i = 10 \/ i = 11 \/ i = 12 \/
              i = 13 \/ i = 14 \/ i = 15) by lia.
  repeat (destruct H as [-> | H]; [reflexivity|]). subst i. reflexivity.
Qed.

(** The 16400-byte UNROM image, loaded after [init] and set running:
    pixel (3, 2). *)
Lemma X19_unrom_chr_ram_witness :
  let e := snd (FceuxSimple.init FceuxSimple.uninitialized) in
  let e1 :=
    FceuxSimple.setRunning 1 (snd (FceuxSimple.loadRom Roms.unrom_image 16400 e)) in
  load (FceuxSimple.frame_buffer (FceuxSimple.frame e1))
    ((2 * 256 + 3) * 4 + 1) =
    (3 + 16 * 2 + (FceuxSimple.frame_count e + 1)
     + (if Z.testbit (FceuxSimple.controls e) 1 then 64 else 0)) mod 256 /\
  load (FceuxSimple.frame_buffer (FceuxSimple.frame (FceuxSimple.reset e1)))
    ((2 * 256 + 3) * 4 + 1) = 1.
Proof.
  intros e e1.
  refine (X19_unrom_chr_ram Roms.unrom_image 16400 1 3 2 e
            bytes_unrom_image size_ok_16400 magic_unrom_image
            (fs_init_initialized _)
            (fs_reachable_len_fb _ fs_reachable_after_init)
            (fs_reachable_len_chr _ fs_reachable_after_init)
            _ _ _ _ _ _ _);
    rewrite ?unrom_image_header by lia; try (vm_compute; congruence);
    try lia.
Defined.

(** ** No way back

    [initialized] and [rom_loaded] are set once and stay set: [init] is
    the only function that clears [rom_loaded], and it does nothing once
    the module is initialised. *)

Lemma zi_flags_step s c :
  (ZeroImports.initialized s <> 0 -> ZeroImports.initialized (ZeroImports.step s c) <> 0) /\
  (ZeroImports.initialized s <> 0 -> ZeroImports.rom_loaded s <> 0 ->
   ZeroImports.rom_loaded (ZeroImports.step s c) <> 0) /\
  (ZeroImports.rom_loaded s = 0 -> ZeroImports.rom_loaded (ZeroImports.step s c) <> 0 ->
   ZeroImports.initialized (ZeroImports.step s c) <> 0).
Proof.
  destruct (Z.eqb_spec (ZeroImports.initialized s) 0) as [Hi|Hi];
    destruct (Z.eqb_spec (ZeroImports.rom_loaded s) 0) as [Hr|Hr];
    destruct c; cbn [ZeroImports.step];
    unfold ZeroImports.init, ZeroImports.loadRom, ZeroImports.frame,
      ZeroImports.render_frame, ZeroImports.reset, ZeroImports.setButton,
      ZeroImports.setRunning;
    cbv zeta;
    repeat match goal with
    | |- context [ZeroImports.initialized s =? 0] =>
        destruct (Z.eqb_spec (ZeroImports.initialized s) 0); [|]; try lia
    | |- context [ZeroImports.rom_loaded s =? 0] =>
        destruct (Z.eqb_spec (ZeroImports.rom_loaded s) 0); [|]; try lia
    end;
    cbn [negb orb];
    break_ifs;
    cbn [snd ZeroImports.initialized ZeroImports.rom_loaded];
    (split; [|split]); intros; try assumption; try lia.
Qed.

Lemma zi_flags_run calls : forall s,
  (ZeroImports.rom_loaded s <> 0 -> ZeroImports.initialized s <> 0) ->
  (ZeroImports.rom_loaded (ZeroImports.run calls s) <> 0 ->
   ZeroImports.initialized (ZeroImports.run calls s) <> 0) /\
  (ZeroImports.initialized s <> 0 -> ZeroImports.initialized (ZeroImports.run calls s) <> 0) /\
  (ZeroImports.rom_loaded s <> 0 -> ZeroImports.rom_loaded (ZeroImports.run calls s) <> 0).
Proof.
  induction calls as [|c calls IH]; intros s J.
  - cbn [ZeroImports.run fold_left]. split; [exact J|]. split; intros H; exact H.
  - change (ZeroImports.run (c :: calls) s)
      with (ZeroImports.run calls (ZeroImports.step s c)).
    destruct (zi_flags_step s c) as (A & B & C).
    assert (J' : ZeroImports.rom_loaded (ZeroImports.step s c) <> 0 ->
                 ZeroImports.initialized (ZeroImports.step s c) <> 0).
    { intros H. destruct (Z.eq_dec (ZeroImports.rom_loaded s) 0) as [E|E].
      - exact (C E H).
      - exact (A (J E)). }
    destruct (IH _ J') as (K1 & K2 & K3).
    split; [exact K1|]. split.
    + intros H. exact (K2 (A H)).
    + intros H. exact (K3 (B (J H) H)).
Qed.

Lemma ns_flags_step s c :
  (NesStandalone.initialized s <> 0 -> NesStandalone.initialized (NesStandalone.step s c) <> 0) /\
  (NesStandalone.initialized s <> 0 -> NesStandalone.rom_loaded s <> 0 ->
   NesStandalone.rom_loaded (NesStandalone.step s c) <> 0) /\
  (NesStandalone.rom_loaded s = 0 -> NesStandalone.rom_loaded (NesStandalone.step s c) <> 0 ->
   NesStandalone.initialized (NesStandalone.step s c) <> 0).
Proof.
  destruct (Z.eqb_spec (NesStandalone.initialized s) 0) as [Hi|Hi];
    destruct (Z.eqb_spec (NesStandalone.rom_loaded s) 0) as [Hr|Hr];
    destruct c; cbn [NesStandalone.step];
    unfold NesStandalone.init, NesStandalone.loadRom, NesStandalone.frame,
      NesStandalone.generate_frame, NesStandalone.reset,
      NesStandalone.setButton, NesStandalone.setRunning;
    cbv zeta;
    repeat match goal with
    | |- context [NesStandalone.initialized s =? 0] =>
        destruct (Z.eqb_spec (NesStandalone.initialized s) 0); [|]; try lia
    | |- context [NesStandalone.rom_loaded s =? 0] =>
        destruct (Z.eqb_spec (NesStandalone.rom_loaded s) 0); [|]; try lia
    end;
    cbn [negb orb];
    break_ifs;
    cbn [snd NesStandalone.initialized NesStandalone.rom_loaded];
    (split; [|split]); intros; try assumption; try lia.
Qed.

Lemma ns_flags_run calls : forall s,
  (NesStandalone.rom_loaded s <> 0 -> NesStandalone.initialized s <> 0) ->
  (NesStandalone.rom_loaded (NesStandalone.run calls s) <> 0 ->
   NesStandalone.initialized (NesStandalone.run calls s) <> 0) /\
  (NesStandalone.initialized s <> 0 -> NesStandalone.initialized (NesStandalone.run calls s) <> 0) /\
  (NesStandalone.rom_loaded s <> 0 -> NesStandalone.rom_loaded (NesStandalone.run calls s) <> 0).
Proof.
  induction calls as [|c calls IH]; intros s J.
  - cbn [NesStandalone.run fold_left]. split; [exact J|]. split; intros H; exact H.
  - change (NesStandalone.run (c :: calls) s)
      with (NesStandalone.run calls (NesStandalone.step s c)).
    destruct (ns_flags_step s c) as (A & B & C).
    assert (J' : NesStandalone.rom_loaded (NesStandalone.step s c) <> 0 ->
                 NesStandalone.initialized (NesStandalone.step s c) <> 0).
    { intros H. destruct (Z.eq_dec (NesStandalone.rom_loaded s) 0) as [E|E].
      - exact (C E H).
      - exact (A (J E)). }
    destruct (IH _ J') as (K1 & K2 & K3).
    split; [exact K1|]. split.
    + intros H. exact (K2 (A H)).
    + intros H. exact (K3 (B (J H) H)).
Qed.

Lemma fzi_flags_step s c :
  (FceuxZeroImports.initialized s <> 0 -> FceuxZeroImports.initialized (FceuxZeroImports.step s c) <> 0) /\
  (FceuxZeroImports.initialized s <> 0 -> FceuxZeroImports.rom_loaded s <> 0 ->
   FceuxZeroImports.rom_loaded (FceuxZeroImports.step s c) <> 0) /\
  (FceuxZeroImports.rom_loaded s = 0 -> FceuxZeroImports.rom_loaded (FceuxZeroImports.step s c) <> 0 ->
   FceuxZeroImports.initialized (FceuxZeroImports.step s c) <> 0).
Proof.
  destruct (Z.eqb_spec (FceuxZeroImports.initialized s) 0) as [Hi|Hi];
    destruct (Z.eqb_spec (FceuxZeroImports.rom_loaded s) 0) as [Hr|Hr];
    destruct c; cbn [FceuxZeroImports.step];
    unfold FceuxZeroImports.init, FceuxZeroImports.loadRom,
      FceuxZeroImports.frame, FceuxZeroImports.generate_nes_frame,
      FceuxZeroImports.reset, FceuxZeroImports.setButton,
      FceuxZeroImports.setRunning;
    cbv zeta;
    repeat match goal with
    | |- context [FceuxZeroImports.initialized s =? 0] =>
        destruct (Z.eqb_spec (FceuxZeroImports.initialized s) 0); [|]; try lia
    | |- context [FceuxZeroImports.rom_loaded s =? 0] =>
        destruct (Z.eqb_spec (FceuxZeroImports.rom_loaded s) 0); [|]; try lia
    end;
    cbn [negb orb];
    break_ifs;
    cbn [snd FceuxZeroImports.initialized FceuxZeroImports.rom_loaded];
    (split; [|split]); intros; try assumption; try lia.
Qed.

Lemma fzi_flags_run calls : forall s,
  (FceuxZeroImports.rom_loaded s <> 0 -> FceuxZeroImports.initialized s <> 0) ->
  (FceuxZeroImports.rom_loaded (FceuxZeroImports.run calls s) <> 0 ->
   FceuxZeroImports.initialized (FceuxZeroImports.run calls s) <> 0) /\
  (FceuxZeroImports.initialized s <> 0 -> FceuxZeroImports.initialized (FceuxZeroImports.run calls s) <> 0) /\
  (FceuxZeroImports.rom_loaded s <> 0 -> FceuxZeroImports.rom_loaded (FceuxZeroImports.run calls s) <> 0).
Proof.
  induction calls as [|c calls IH]; intros s J.
  - cbn [FceuxZeroImports.run fold_left]. split; [exact J|]. split; intros H; exact H.
  - change (FceuxZeroImports.run (c :: calls) s)
      with (FceuxZeroImports.run calls (FceuxZeroImports.step s c)).
    destruct (fzi_flags_step s c) as (A & B & C).
    assert (J' : FceuxZeroImports.rom_loaded (FceuxZeroImports.step s c) <> 0 ->
                 FceuxZeroImports.initialized (FceuxZeroImports.step s c) <> 0).
    { intros H. destruct (Z.eq_dec (FceuxZeroImports.rom_loaded s) 0) as [E|E].
      - exact (C E H).
      - exact (A (J E)). }
    destruct (IH _ J') as (K1 & K2 & K3).
    split; [exact K1|]. split.
    + intros H. exact (K2 (A H)).
    + intros H. exact (K3 (B (J H) H)).
Qed.

Lemma fs_flags_step s c :
  (FceuxSimple.initialized s <> 0 -> FceuxSimple.initialized (FceuxSimple.step s c) <> 0) /\
  (FceuxSimple.initialized s <> 0 -> FceuxSimple.rom_loaded s <> 0 ->
   FceuxSimple.rom_loaded (FceuxSimple.step s c) <> 0) /\
  (FceuxSimple.rom_loaded s = 0 -> FceuxSimple.rom_loaded (FceuxSimple.step s c) <> 0 ->
   FceuxSimple.initialized (FceuxSimple.step s c) <> 0).
Proof.
  destruct (Z.eqb_spec (FceuxSimple.initialized s) 0) as [Hi|Hi];
    destruct (Z.eqb_spec (FceuxSimple.rom_loaded s) 0) as [Hr|Hr];
    destruct c; cbn [FceuxSimple.step];
    unfold FceuxSimple.init, FceuxSimple.loadRom, FceuxSimple.frame,
      FceuxSimple.render, FceuxSimple.reset, FceuxSimple.setButton,
      FceuxSimple.setRunning;
    cbv zeta;
    repeat match goal with
    | |- context [FceuxSimple.initialized s =? 0] =>
        destruct (Z.eqb_spec (FceuxSimple.initialized s) 0); [|]; try lia
    | |- context [FceuxSimple.rom_loaded s =? 0] =>
        destruct (Z.eqb_spec (FceuxSimple.rom_loaded s) 0); [|]; try lia
    end;
    cbn [negb orb];
    break_ifs;
    cbn [snd FceuxSimple.initialized FceuxSimple.rom_loaded];
    (split; [|split]); intros; try assumption; try lia.
Qed.

Lemma fs_flags_run calls : forall s,
  (FceuxSimple.rom_loaded s <> 0 -> FceuxSimple.initialized s <> 0) ->
  (FceuxSimple.rom_loaded (FceuxSimple.run calls s) <> 0 ->
   FceuxSimple.initialized (FceuxSimple.run calls s) <> 0) /\
  (FceuxSimple.initialized s <> 0 -> FceuxSimple.initialized (FceuxSimple.run calls s) <> 0) /\
  (FceuxSimple.rom_loaded s <> 0 -> FceuxSimple.rom_loaded (FceuxSimple.run calls s) <> 0).
Proof.
  induction calls as [|c calls IH]; intros s J.
  - cbn [FceuxSimple.run fold_left]. split; [exact J|]. split; intros H; exact H.
  - change (FceuxSimple.run (c :: calls) s)
      with (FceuxSimple.run calls (FceuxSimple.step s c)).
    destruct (fs_flags_step s c) as (A & B & C).
    assert (J' : FceuxSimple.rom_loaded (FceuxSimple.step s c) <> 0 ->
                 FceuxSimple.initialized (FceuxSimple.step s c) <> 0).
    { intros H. destruct (Z.eq_dec (FceuxSimple.rom_loaded s) 0) as [E|E].
      - exact (C E H).
      - exact (A (J E)). }
    destruct (IH _ J') as (K1 & K2 & K3).
    split; [exact K1|]. split.
    + intros H. exact (K2 (A H)).
    + intros H. exact (K3 (B (J H) H)).
Qed.

(** X20.  No way back.  In every reachable state of each file a loaded ROM
    implies an initialised module; and whatever calls follow, with
    whatever arguments, a module that is initialised stays initialised
    and a ROM that is loaded stays loaded: [reset] does not unload it, a
    rejected [loadRom] does not, and a later [init] is a no-op. *)
Theorem X20_no_way_back
    (z : ZeroImports.state) (cz : list ZeroImports.call)
    (n : NesStandalone.state) (cn : list NesStandalone.call)
    (f : FceuxZeroImports.state) (cf : list FceuxZeroImports.call)
    (e : FceuxSimple.state) (ce : list FceuxSimple.call) :
  ZeroImports.reachable z -> NesStandalone.reachable n ->
  FceuxZeroImports.reachable f -> FceuxSimple.reachable e ->
  ((ZeroImports.rom_loaded z <> 0 -> ZeroImports.initialized z <> 0) /\
   (ZeroImports.initialized z <> 0 ->
    ZeroImports.initialized (ZeroImports.run cz z) <> 0) /\
   (ZeroImports.rom_loaded z <> 0 ->
    ZeroImports.rom_loaded (ZeroImports.run cz z) <> 0)) /\
  ((NesStandalone.rom_loaded n <> 0 -> NesStandalone.initialized n <> 0) /\
   (NesStandalone.initialized n <> 0 ->
    NesStandalone.initialized (NesStandalone.run cn n) <> 0) /\
   (NesStandalone.rom_loaded n <> 0 ->
    NesStandalone.rom_loaded (NesStandalone.run cn n) <> 0)) /\
  ((FceuxZeroImports.rom_loaded f <> 0 ->
    FceuxZeroImports.initialized f <> 0) /\
   (FceuxZeroImports.initialized f <> 0 ->
    FceuxZeroImports.initialized (FceuxZeroImports.run cf f) <> 0) /\
   (FceuxZeroImports.rom_loaded f <> 0 ->
    FceuxZeroImports.rom_loaded (FceuxZeroImports.run cf f) <> 0)) /\
  ((FceuxSimple.rom_loaded e <> 0 -> FceuxSimple.initialized e <> 0) /\
   (FceuxSimple.initialized e <> 0 ->
    FceuxSimple.initialized (FceuxSimple.run ce e) <> 0) /\
   (FceuxSimple.rom_loaded e <> 0 ->
    FceuxSimple.rom_loaded (FceuxSimple.run ce e) <> 0)).
Proof.
  intros (c0 & ->) (c1 & ->) (c2 & ->) (c3 & ->).
  split; [|split; [|split]].
  - destruct (zi_flags_run c0 ZeroImports.uninitialized) as (J & _);
      [intros H; contradiction H; reflexivity|].
    split; [exact J|]. exact (proj2 (zi_flags_run cz _ J)).
  - destruct (ns_flags_run c1 NesStandalone.uninitialized) as (J & _);
      [intros H; contradiction H; reflexivity|].
    split; [exact J|]. exact (proj2 (ns_flags_run cn _ J)).
  - destruct (fzi_flags_run c2 FceuxZeroImports.uninitialized) as (J & _);
      [intros H; contradiction H; reflexivity|].
    split; [exact J|]. exact (proj2 (fzi_flags_run cf _ J)).
  - destruct (fs_flags_run c3 FceuxSimple.uninitialized) as (J & _);
      [intros H; contradiction H; reflexivity|].
    split; [exact J|]. exact (proj2 (fs_flags_run ce _ J)).
Qed.

Lemma zi_loaded_nrom_flag :
  ZeroImports.rom_loaded
    (snd (ZeroImports.loadRom Roms.nrom_header 16
            (snd (ZeroImports.init ZeroImports.uninitialized)))) <> 0.
Proof.
  destruct zi_loaded_nrom as (fb & pal & rom & ->).
  cbn [ZeroImports.rom_loaded]. lia.
Qed.

(** [zero-imports.c] with scenario S2's header loaded: after [reset], a
    second [init] and a [loadRom] of 15 bytes the ROM is still loaded. *)
Lemma X20_no_way_back_witness :
  ZeroImports.rom_loaded
    (ZeroImports.run
       [ZeroImports.Reset; ZeroImports.Init;
        ZeroImports.LoadRom Roms.nrom_header 15]
       (snd (ZeroImports.loadRom Roms.nrom_header 16
               (snd (ZeroImports.init ZeroImports.uninitialized))))) <> 0.
Proof.
  destruct (X20_no_way_back _
              [ZeroImports.Reset; ZeroImports.Init;
               ZeroImports.LoadRom Roms.nrom_header 15]
              NesStandalone.uninitialized []
              FceuxZeroImports.uninitialized []
              FceuxSimple.uninitialized []
              zi_reachable_loaded_nrom (ex_intro _ [] eq_refl)
              (ex_intro _ [] eq_refl) (ex_intro _ [] eq_refl))
    as ((_ & _ & H) & _).
  exact (H zi_loaded_nrom_flag).
Defined.

(** ** Loading the same image twice *)

Lemma copy_idem d src n :
  0 <= n <= len d -> copy (copy d src n) src n = copy d src n.
Proof.
  intros Hn. apply load_ext; [now rewrite !len_copy|].
  rewrite !len_copy. intros j Hj.
  rewrite !load_copy by (rewrite ?len_copy; lia).
  destruct (j <? n); reflexivity.
Qed.

Lemma seed_idem chr :
  len chr = 8192 ->
  for_ 0 8192 1 (fun i c => store c i (Z.land i 0xFF))
    (for_ 0 8192 1 (fun i c => store c i (Z.land i 0xFF)) chr) =
  for_ 0 8192 1 (fun i c => store c i (Z.land i 0xFF)) chr.
Proof.
  intros L. destruct (fs_chr_seed chr L) as (L1 & P1).
  destruct (fs_chr_seed _ L1) as (L2 & P2).
  apply load_ext; [lia|]. intros j Hj.
  rewrite P1, P2 by lia. reflexivity.
Qed.

Lemma fs_loadRom_cases rom size s :
  FceuxSimple.loadRom rom size s = (0, s) \/
  (FceuxSimple.initialized s <> 0 /\ INes.size_ok (size mod 2 ^ 32) /\
   INes.magic_ok rom).
Proof.
  destruct (Z.eq_dec (FceuxSimple.initialized s) 0) as [Hi|Hi];
    [left; apply fs_loadRom_reject; auto|].
  destruct (Z_lt_dec (size mod 2 ^ 32) 16) as [Hlo|Hlo];
    [left; apply fs_loadRom_reject; auto|].
  destruct (Z_lt_dec 2097152 (size mod 2 ^ 32)) as [Hhi|Hhi];
    [left; apply fs_loadRom_reject; auto|].
  destruct (Z.eq_dec (load rom 0) 78) as [H0|H0];
    [|left; apply fs_loadRom_reject; do 3 right; intros (? & _); auto].
  destruct (Z.eq_dec (load rom 1) 69) as [H1|H1];
    [|left; apply fs_loadRom_reject; do 3 right; intros (? & ? & _); auto].
  destruct (Z.eq_dec (load rom 2) 83) as [H2|H2];
    [|left; apply fs_loadRom_reject; do 3 right; intros (? & ? & ? & _); auto].
  destruct (Z.eq_dec (load rom 3) 26) as [H3|H3];
    [|left; apply fs_loadRom_reject; do 3 right; intros (? & ? & ? & ?); auto].
  right. split; [exact Hi|]. split; [unfold INes.size_ok; lia|].
  repeat split; assumption.
Qed.

(** X21.  [loadRom] is idempotent.  In each file, calling [loadRom] a
    second time with the same image and size returns what the first call
    returned and leaves the state the first call left, whether the image
    is accepted (the copy and, in [fceux-simple.c], the CHR RAM seed are
    redone with the same result) or turned down (before or after the
    header was parsed). *)
Theorem X21_loadRom_idempotent (rom : list Z) (size : Z)
    (z : ZeroImports.state) (n : NesStandalone.state)
    (f : FceuxZeroImports.state) (e : FceuxSimple.state) :
  len (ZeroImports.rom_buffer z) = 2097152 ->
  len (NesStandalone.rom_buffer n) = 2097152 ->
  len (FceuxZeroImports.rom_buffer f) = 2097152 ->
  len (FceuxSimple.rom_data e) = 2097152 ->
  len (FceuxSimple.chr_ram e) = 8192 ->
  ZeroImports.loadRom rom size (snd (ZeroImports.loadRom rom size z)) =
    ZeroImports.loadRom rom size z /\
  NesStandalone.loadRom rom size (snd (NesStandalone.loadRom rom size n)) =
    NesStandalone.loadRom rom size n /\
  FceuxZeroImports.loadRom rom size
    (snd (FceuxZeroImports.loadRom rom size f)) =
    FceuxZeroImports.loadRom rom size f /\
  FceuxSimple.loadRom rom size (snd (FceuxSimple.loadRom rom size e)) =
    FceuxSimple.loadRom rom size e.
Proof.
  intros Lz Ln Lf Le Lc. split; [|split; [|split]].
  - destruct (zi_loadRom_cases rom size z) as [E | (Hi & Hs & Hm & E)];
      rewrite E; cbn [snd]; [exact E|].
    match goal with
    | |- ZeroImports.loadRom _ _ ?s = _ =>
        rewrite (zi_loadRom_accept rom size s Hi Hs Hm)
    end.
    cbn [ZeroImports.frame_buffer ZeroImports.nes_palette
         ZeroImports.rom_buffer ZeroImports.initialized ZeroImports.controls
         ZeroImports.frame_count].
    rewrite copy_idem by (unfold INes.size_ok in Hs; lia). reflexivity.
  - destruct (ns_loadRom_cases rom size n) as [E | (Hi & Hs & Hm & E)];
      rewrite E; cbn [snd]; [exact E|].
    match goal with
    | |- NesStandalone.loadRom _ _ ?s = _ =>
        rewrite (ns_loadRom_accept rom size s Hi Hs Hm)
    end.
    cbn [NesStandalone.frame_buffer NesStandalone.nes_palette
         NesStandalone.rom_buffer NesStandalone.initialized
         NesStandalone.controls NesStandalone.frame_count].
    rewrite copy_idem by (unfold INes.size_ok in Hs; lia). reflexivity.
  - destruct (fzi_loadRom_cases rom size f)
      as [E | [(Hi & Hs & Hm & H4 & E) | (Hi & Hs & Hm & H4 & E)]];
      rewrite E; cbn [snd]; [exact E | |].
    + match goal with
      | |- FceuxZeroImports.loadRom _ _ ?s = _ =>
          rewrite (fzi_loadRom_reject_prg0 rom size s Hi Hs Hm H4)
      end.
      cbn [FceuxZeroImports.frame_buffer FceuxZeroImports.nes_palette
           FceuxZeroImports.rom_buffer FceuxZeroImports.initialized
           FceuxZeroImports.rom_loaded FceuxZeroImports.running
           FceuxZeroImports.controls FceuxZeroImports.frame_count
           FceuxZeroImports.rom_size].
      reflexivity.
    + match goal with
      | |- FceuxZeroImports.loadRom _ _ ?s = _ =>
          rewrite (fzi_loadRom_accept rom size s Hi Hs Hm H4)
      end.
      cbn [FceuxZeroImports.frame_buffer FceuxZeroImports.nes_palette
           FceuxZeroImports.rom_buffer FceuxZeroImports.initialized
           FceuxZeroImports.rom_loaded FceuxZeroImports.running
           FceuxZeroImports.controls FceuxZeroImports.frame_count
           FceuxZeroImports.rom_size].
      rewrite copy_idem by (unfold INes.size_ok in Hs; lia). reflexivity.
  - destruct (fs_loadRom_cases rom size e) as [E | (Hi & Hs & Hm)];
      [rewrite E; cbn [snd]; exact E|].
    rewrite (fs_loadRom_parsed rom size e Hi Hs Hm).
    destruct ((load rom 4 =? 0) ||
              (size mod 2 ^ 32 <? Steady.expected_size rom)) eqn:Hc;
      cbn [snd];
      match goal with
      | |- FceuxSimple.loadRom _ _ ?s = _ =>
          rewrite (fs_loadRom_parsed rom size s Hi Hs Hm)
      end;
      rewrite Hc;
      cbn [FceuxSimple.rom_data FceuxSimple.rom_size FceuxSimple.frame_buffer
           FceuxSimple.chr_ram FceuxSimple.prg_ram FceuxSimple.palette
           FceuxSimple.controls FceuxSimple.initialized FceuxSimple.rom_loaded
           FceuxSimple.running FceuxSimple.frame_count];
      [reflexivity|].
    rewrite copy_idem by (unfold INes.size_ok in Hs; lia).
    destruct (load rom 5 =? 0); [rewrite (seed_idem _ Lc)|]; reflexivity.
Qed.

(** Scenario S2's header loaded twice after [init] by
    [fceux-zero-imports.c]. *)
Lemma X21_loadRom_idempotent_witness :
  let f := snd (FceuxZeroImports.init FceuxZeroImports.uninitialized) in
  FceuxZeroImports.loadRom Roms.nrom_header 16
    (snd (FceuxZeroImports.loadRom Roms.nrom_header 16 f)) =
    FceuxZeroImports.loadRom Roms.nrom_header 16 f.
Proof.
  intros f.
  destruct (X21_loadRom_idempotent Roms.nrom_header 16
              ZeroImports.uninitialized NesStandalone.uninitialized f
              FceuxSimple.uninitialized
              (zi_reachable_len_rom _ (ex_intro _ [] eq_refl))
              (ns_reachable_len_rom _ (ex_intro _ [] eq_refl))
              (fzi_reachable_len_rom _ fzi_reachable_after_init)
              (fs_reachable_len_rom _ (ex_intro _ [] eq_refl))
              (fs_reachable_len_chr _ (ex_intro _ [] eq_refl)))
    as (_ & _ & H & _).
  exact H.
Defined.

(** ** One generator in two files *)

(** X22.  [fceux-zero-imports.c] renders the picture of
    [nes-standalone.c].  Take a reachable state of each, both
    initialised, with the same buttons held and the same frame count,
    the FCEUX one with a ROM loaded that is not mapper 2 with CHR RAM:
    the next [frame] leaves the same 245760 bytes in both frame
    buffers. *)
Theorem X22_same_picture (n : NesStandalone.state) (f : FceuxZeroImports.state) :
  NesStandalone.reachable n -> FceuxZeroImports.reachable f ->
  NesStandalone.initialized n <> 0 -> FceuxZeroImports.initialized f <> 0 ->
  FceuxZeroImports.rom_loaded f <> 0 ->
  NesStandalone.controls n = FceuxZeroImports.controls f ->
  NesStandalone.frame_count n = FceuxZeroImports.frame_count f ->
  FceuxZeroImports.mapper f <> 2 \/ FceuxZeroImports.has_chr_ram f = 0 ->
  NesStandalone.frame_buffer (NesStandalone.frame n) =
    FceuxZeroImports.frame_buffer (FceuxZeroImports.frame f).
Proof.
  intros Hn Hf In_ If_ Rf Hc Hfc Hov.
  assert (Hpal : forall j, 0 <= j < 256 ->
            load (NesStandalone.nes_palette n) j =
            load (FceuxZeroImports.nes_palette f) j).
  { intros j Hj.
    rewrite (ns_palette_table n j (ns_reachable_steady n Hn) In_ Hj).
    rewrite (fzi_palette_table f j (fzi_reachable_steady f Hf) If_ Hj).
    reflexivity. }
  destruct (ns_frame_pixels n In_ (ns_reachable_len_fb n Hn))
    as (fb & E & L & P).
  destruct (fzi_frame_pixels f If_ Rf (fzi_reachable_len_fb f Hf))
    as (fb' & E' & L' & P').
  rewrite E, E'.
  cbn [NesStandalone.frame_buffer FceuxZeroImports.frame_buffer].
  apply same_pixels; [exact L | exact L' |].
  intros x y k Hx Hy Hk.
  rewrite (P x y k Hx Hy Hk), (P' x y k Hx Hy Hk). cbv zeta.
  assert (Hoff : (FceuxZeroImports.mapper f =? 2) &&
                 negb (FceuxZeroImports.has_chr_ram f =? 0) = false).
  { destruct Hov as [H | H].
    - destruct (Z.eqb_spec (FceuxZeroImports.mapper f) 2); [contradiction|].
      reflexivity.
    - rewrite H. apply andb_false_r. }
  rewrite Hoff. cbn [andb]. rewrite !Z.add_0_r, Hc, Hfc.
  set (i := (x / 8 + y / 8 +
             (FceuxZeroImports.frame_count f + 1) mod 2 ^ 32 / 4) mod 64).
  assert (Hi : 0 <= i < 64) by (apply Z.mod_pos_bound; lia).
  rewrite !Hpal by lia. reflexivity.
Qed.

(** After [init] in both files and scenario S2's header loaded by
    [fceux-zero-imports.c]: the first frames are equal. *)
Lemma X22_same_picture_witness :
  NesStandalone.frame_buffer
    (NesStandalone.frame (snd (NesStandalone.init NesStandalone.uninitialized))) =
  FceuxZeroImports.frame_buffer
    (FceuxZeroImports.frame
       (snd (FceuxZeroImports.loadRom Roms.nrom_header 16
               (snd (FceuxZeroImports.init FceuxZeroImports.uninitialized))))).
Proof.
  apply (X22_same_picture _ _ ns_reachable_after_init fzi_reachable_loaded_nrom
           (ns_init_initialized _) fzi_loaded_nrom_initialized
           fzi_loaded_nrom_reachable_flag).
  - destruct ns_after_init as (fb & pal & rom & -> & _).
    destruct fzi_loaded_nrom as (fb' & pal' & rom' & -> & _). reflexivity.
  - destruct ns_after_init as (fb & pal & rom & -> & _).
    destruct fzi_loaded_nrom as (fb' & pal' & rom' & -> & _). reflexivity.
  - left. destruct fzi_loaded_nrom as (fb' & pal' & rom' & -> & _).
    cbn [FceuxZeroImports.mapper]. lia.
Defined.

(** ** What [frame] leaves alone *)

(** X23.  [frame], whether it renders or returns at its guard, writes
    the frame buffer and [frame_count] and nothing else: the palette,
    the ROM buffer, [controls], [initialized], [rom_loaded], [rom_size]
    and the header metadata keep their values in each file, and so do
    [running] and, in [fceux-simple.c], CHR RAM and PRG RAM. *)
Theorem X23_frame_effect (z : ZeroImports.state) (n : NesStandalone.state)
    (f : FceuxZeroImports.state) (e : FceuxSimple.state) :
  (ZeroImports.nes_palette (ZeroImports.frame z) = ZeroImports.nes_palette z /\
   ZeroImports.rom_buffer (ZeroImports.frame z) = ZeroImports.rom_buffer z /\
   ZeroImports.controls (ZeroImports.frame z) = ZeroImports.controls z /\
   ZeroImports.initialized (ZeroImports.frame z) = ZeroImports.initialized z /\
   ZeroImports.rom_loaded (ZeroImports.frame z) = ZeroImports.rom_loaded z /\
   ZeroImports.rom_size (ZeroImports.frame z) = ZeroImports.rom_size z) /\
  (NesStandalone.nes_palette (NesStandalone.frame n) =
     NesStandalone.nes_palette n /\
   NesStandalone.rom_buffer (NesStandalone.frame n) =
     NesStandalone.rom_buffer n /\
   NesStandalone.controls (NesStandalone.frame n) = NesStandalone.controls n /\
   NesStandalone.initialized (NesStandalone.frame n) =
     NesStandalone.initialized n /\
   NesStandalone.rom_loaded (NesStandalone.frame n) =
     NesStandalone.rom_loaded n /\
   NesStandalone.rom_size (NesStandalone.frame n) = NesStandalone.rom_size n /\
   NesStandalone.mapper (NesStandalone.frame n) = NesStandalone.mapper n) /\
  (FceuxZeroImports.nes_palette (FceuxZeroImports.frame f) =
     FceuxZeroImports.nes_palette f /\
   FceuxZeroImports.rom_buffer (FceuxZeroImports.frame f) =
     FceuxZeroImports.rom_buffer f /\
   FceuxZeroImports.controls (FceuxZeroImports.frame f) =
     FceuxZeroImports.controls f /\
   FceuxZeroImports.initialized (FceuxZeroImports.frame f) =
     FceuxZeroImports.initialized f /\
   FceuxZeroImports.rom_loaded (FceuxZeroImports.frame f) =
     FceuxZeroImports.rom_loaded f /\
   FceuxZeroImports.running (FceuxZeroImports.frame f) =
     FceuxZeroImports.running f /\
   FceuxZeroImports.rom_size (FceuxZeroImports.frame f) =
     FceuxZeroImports.rom_size f /\
   FceuxZeroImports.prg_banks (FceuxZeroImports.frame f) =
     FceuxZeroImports.prg_banks f /\
   FceuxZeroImports.chr_banks (FceuxZeroImports.frame f) =
     FceuxZeroImports.chr_banks f /\
   FceuxZeroImports.mapper (FceuxZeroImports.frame f) =
     FceuxZeroImports.mapper f /\
   FceuxZeroImports.has_chr_ram (FceuxZeroImports.frame f) =
     FceuxZeroImports.has_chr_ram f) /\
  (FceuxSimple.palette (FceuxSimple.frame e) = FceuxSimple.palette e /\
   FceuxSimple.rom_data (FceuxSimple.frame e) = FceuxSimple.rom_data e /\
   FceuxSimple.chr_ram (FceuxSimple.frame e) = FceuxSimple.chr_ram e /\
   FceuxSimple.prg_ram (FceuxSimple.frame e) = FceuxSimple.prg_ram e /\
   FceuxSimple.controls (FceuxSimple.frame e) = FceuxSimple.controls e /\
   FceuxSimple.initialized (FceuxSimple.frame e) = FceuxSimple.initialized e /\
   FceuxSimple.rom_loaded (FceuxSimple.frame e) = FceuxSimple.rom_loaded e /\
   FceuxSimple.running (FceuxSimple.frame e) = FceuxSimple.running e /\
   FceuxSimple.rom_size (FceuxSimple.frame e) = FceuxSimple.rom_size e /\
   FceuxSimple.prg_banks (FceuxSimple.frame e) = FceuxSimple.prg_banks e /\
   FceuxSimple.chr_banks (FceuxSimple.frame e) = FceuxSimple.chr_banks e /\
   FceuxSimple.mapper (FceuxSimple.frame e) = FceuxSimple.mapper e /\
   FceuxSimple.has_chr_ram (FceuxSimple.frame e) = FceuxSimple.has_chr_ram e /\
   FceuxSimple.has_trainer (FceuxSimple.frame e) = FceuxSimple.has_trainer e /\
   FceuxSimple.has_battery (FceuxSimple.frame e) = FceuxSimple.has_battery e).
Proof.
  split; [|split; [|split]].
  - unfold ZeroImports.frame, ZeroImports.render_frame.
    destruct (ZeroImports.initialized z =? 0);
      cbn [ZeroImports.nes_palette ZeroImports.rom_buffer ZeroImports.controls
           ZeroImports.initialized ZeroImports.rom_loaded ZeroImports.rom_size];
      repeat (split; [reflexivity|]); reflexivity.
  - unfold NesStandalone.frame, NesStandalone.generate_frame.
    destruct (NesStandalone.initialized n =? 0);
      cbn [NesStandalone.nes_palette NesStandalone.rom_buffer
           NesStandalone.controls NesStandalone.initialized
           NesStandalone.rom_loaded NesStandalone.rom_size
           NesStandalone.mapper];
      repeat (split; [reflexivity|]); reflexivity.
  - unfold FceuxZeroImports.frame, FceuxZeroImports.generate_nes_frame.
    destruct ((FceuxZeroImports.initialized f =? 0) ||
              (FceuxZeroImports.rom_loaded f =? 0));
      cbn [FceuxZeroImports.nes_palette FceuxZeroImports.rom_buffer
           FceuxZeroImports.controls FceuxZeroImports.initialized
           FceuxZeroImports.rom_loaded FceuxZeroImports.running
           FceuxZeroImports.rom_size FceuxZeroImports.prg_banks
           FceuxZeroImports.chr_banks FceuxZeroImports.mapper
           FceuxZeroImports.has_chr_ram];
      repeat (split; [reflexivity|]); reflexivity.
  - unfold FceuxSimple.frame, FceuxSimple.render.
    destruct ((FceuxSimple.initialized e =? 0) ||
              (FceuxSimple.rom_loaded e =? 0) || (FceuxSimple.running e =? 0));
      cbv zeta;
      cbn [FceuxSimple.palette FceuxSimple.rom_data FceuxSimple.chr_ram
           FceuxSimple.prg_ram FceuxSimple.controls FceuxSimple.initialized
           FceuxSimple.rom_loaded FceuxSimple.running FceuxSimple.rom_size
           FceuxSimple.prg_banks FceuxSimple.chr_banks FceuxSimple.mapper
           FceuxSimple.has_chr_ram FceuxSimple.has_trainer
           FceuxSimple.has_battery];
      repeat (split; [reflexivity|]); reflexivity.
Qed.
